(** * Leave scheduling for a salon: availability engine and leave-request store

    A shallow embedding of [src/lib/quota.ts], [src/lib/date.ts],
    [src/lib/config.ts], the self-service leave route (POST and DELETE), the
    manager approval route and the manager server actions [setLeaveStatus],
    [createManagerLeave] and [clearAllLeaves].

    - JavaScript numbers are IEEE-754 binary64 values: [PrimFloat.float].
    - The relational store is a record of tables, each a list of rows in
      insertion order; Prisma queries are list filters, writes are explicit
      state passing, and a thrown error is [None].
    - [Date], [Intl] and the id generator are the platform, passed in as a
      record of functions. *)

From Stdlib Require Import Floats.PrimFloat ZArith Ascii String.
From Stdlib Require Floats.FloatOps Numbers.Cyclic.Int63.Uint63Axioms.
From stdpp Require Import gmap strings list.

Set Warnings "-inexact-float,-register-all,-clear-no-such-hyp".
Local Open Scope string_scope.

(** ** JavaScript string helpers

    A string holds the UTF-8 bytes of the JavaScript string. *)

Module Js.

Definition isDigit (c : ascii) : bool :=
  (48 <=? nat_of_ascii c)%nat && (nat_of_ascii c <=? 57)%nat.

(** [/^\d{4}-\d{2}$/] and friends: a shape is a list of positions, [true]
    for a digit and [false] for a dash. *)
Fixpoint matchShape (shape : list bool) (s : string) : bool :=
  match shape, s with
  | [], EmptyString => true
  | isD :: shape', String c s' =>
      (if isD then isDigit c else Ascii.eqb c "-") && matchShape shape' s'
  | _, _ => false
  end.

(** [s.split(sep)] for a one-character separator. *)
Fixpoint split (sep : ascii) (s : string) : list string :=
  match s with
  | EmptyString => [EmptyString]
  | String c s' =>
      if Ascii.eqb c sep then EmptyString :: split sep s'
      else match split sep s' with
           | [] => [String c EmptyString]
           | p :: ps => String c p :: ps
           end
  end.

(** The white space characters and line terminators that [trim] and
    [Number] strip: U+0009 to U+000D and U+0020 are one byte, U+00A0 is two
    bytes, and U+1680, U+2000 to U+200A, U+2028, U+2029, U+202F, U+205F,
    U+3000 and U+FEFF are three bytes each. *)
Definition isWhite (c : ascii) : bool :=
  let n := nat_of_ascii c in
  ((9 <=? n)%nat && (n <=? 13)%nat) || (n =? 32)%nat.

Definition isWhite2 (c1 c2 : ascii) : bool :=
  (nat_of_ascii c1 =? 194)%nat && (nat_of_ascii c2 =? 160)%nat.

Definition isWhite3 (c1 c2 c3 : ascii) : bool :=
  let a := nat_of_ascii c1 in
  let b := nat_of_ascii c2 in
  let c := nat_of_ascii c3 in
  ((a =? 225) && (b =? 154) && (c =? 128))%nat
  || ((a =? 226) && (b =? 128)
      && (((128 <=? c) && (c <=? 138)) || (c =? 168) || (c =? 169) || (c =? 175)))%nat
  || ((a =? 226) && (b =? 129) && (c =? 159))%nat
  || ((a =? 227) && (b =? 128) && (c =? 128))%nat
  || ((a =? 239) && (b =? 187) && (c =? 191))%nat.

Fixpoint trimStart (s : string) : string :=
  match s with
  | EmptyString => EmptyString
  | String c1 s1 =>
      if isWhite c1 then trimStart s1 else
      match s1 with
      | String c2 s2 =>
          if isWhite2 c1 c2 then trimStart s2 else
          match s2 with
          | String c3 s3 => if isWhite3 c1 c2 c3 then trimStart s3 else s
          | EmptyString => s
          end
      | EmptyString => s
      end
  end.

(** Nothing but white space from here to the end. *)
Definition allWhite (s : string) : bool := String.eqb (trimStart s) EmptyString.

Fixpoint trimEnd (s : string) : string :=
  match s with
  | EmptyString => EmptyString
  | String c s' => if allWhite s then EmptyString else String c (trimEnd s')
  end.

Definition trim (s : string) : string := trimEnd (trimStart s).

Definition upperChar (c : ascii) : ascii :=
  let n := nat_of_ascii c in
  if (97 <=? n)%nat && (n <=? 122)%nat then ascii_of_nat (n - 32) else c.

Definition lowerChar (c : ascii) : ascii :=
  let n := nat_of_ascii c in
  if (65 <=? n)%nat && (n <=? 90)%nat then ascii_of_nat (n + 32) else c.

Fixpoint mapChars (f : ascii -> ascii) (s : string) : string :=
  match s with
  | EmptyString => EmptyString
  | String c s' => String (f c) (mapChars f s')
  end.

(** The upper case of the ligatures U+FB00 to U+FB06, by their third
    byte. *)
Definition upperLigature (n : nat) : string :=
  match (n - 128)%nat with
  | 0 => "FF"
  | 1 => "FI"
  | 2 => "FL"
  | 3 => "FFI"
  | 4 => "FFL"
  | _ => "ST"
  end%nat.

(** [s.toUpperCase()], exact whenever the result is an ASCII string: the
    letters a to z, and the characters outside ASCII whose upper case is
    ASCII, which are U+00DF (SS), U+0131 (I), U+017F (S) and the ligatures
    U+FB00 to U+FB06. Every other character outside ASCII is kept as it
    is; its upper case is not ASCII either, and the code compares the
    result with ASCII strings only. *)
Fixpoint toUpperCase (s : string) : string :=
  match s with
  | EmptyString => EmptyString
  | String c1 s1 =>
      let plain := String (upperChar c1) (toUpperCase s1) in
      match s1 with
      | String c2 s2 =>
          let a := nat_of_ascii c1 in
          let b := nat_of_ascii c2 in
          if ((a =? 195) && (b =? 159))%nat then String "S" (String "S" (toUpperCase s2))
          else if ((a =? 196) && (b =? 177))%nat then String "I" (toUpperCase s2)
          else if ((a =? 197) && (b =? 191))%nat then String "S" (toUpperCase s2)
          else
            match s2 with
            | String c3 s3 =>
                let c := nat_of_ascii c3 in
                if ((a =? 239) && (b =? 172) && (128 <=? c) && (c <=? 134))%nat
                then upperLigature c +:+ toUpperCase s3
                else plain
            | EmptyString => plain
            end
      | EmptyString => plain
      end
  end.

(** [s.toLowerCase()] for the letters A to Z; the code applies it to the
    weekday name of the platform only. *)
Definition toLowerCase : string -> string := mapChars lowerChar.

Definition startsWith (s pre : string) : bool := String.prefix pre s.

(** [s.slice(0, n)] *)
Definition slice0 (n : nat) (s : string) : string := String.substring 0 n s.

Definition includes (l : list string) (s : string) : bool :=
  existsb (String.eqb s) l.

Fixpoint digitsValue (acc : Z) (s : string) : option Z :=
  match s with
  | EmptyString => Some acc
  | String c s' =>
      if isDigit c
      then digitsValue (10 * acc + Z.of_nat (nat_of_ascii c - 48)) s'
      else None
  end.

(** [Number(s)] on the strings the date helpers see: a run of decimal
    digits (the empty string is 0); anything else is [None], read as NaN. *)
Definition Number (s : string) : option Z := digitsValue 0 s.

Fixpoint natDigits (fuel n : nat) (acc : string) : string :=
  match fuel with
  | O => acc
  | S fuel' =>
      let acc' := String (ascii_of_nat (48 + n mod 10)) acc in
      if (n / 10 =? 0)%nat then acc' else natDigits fuel' (n / 10) acc'
  end.

(** [String(n)] for a non-negative integer. *)
Definition StringOfNat (n : nat) : string := natDigits (S n) n EmptyString.

Fixpoint replicate0 (k : nat) (s : string) : string :=
  match k with O => s | S k' => String "0" (replicate0 k' s) end.

(** [s.padStart(len, "0")] *)
Definition padStart0 (len : nat) (s : string) : string :=
  replicate0 (len - String.length s) s.

(** [typeof x === "number" ? x : fallback] on a nullable column. *)
Definition numberOr (x : option float) (fallback : float) : float :=
  match x with Some v => v | None => fallback end.

Definition optEqb (a : option string) (b : string) : bool :=
  match a with Some x => String.eqb x b | None => false end.

End Js.

(** ** Parsed JSON values *)

Inductive json : Type :=
| JNull
| JBool (b : bool)
| JNum (x : float)
| JStr (s : string)
| JArr (items : list json)
| JObj (fields : list (string * json)).

(** [obj[name]] on a parsed object, the last binding when a key repeats;
    [None] when the object has no such property. *)
Fixpoint jsonField (name : string) (fields : list (string * json)) : option json :=
  match fields with
  | [] => None
  | (k, v) :: rest =>
      match jsonField name rest with
      | Some v' => Some v'
      | None => if String.eqb k name then Some v else None
      end
  end.

(** ** Enumerations of the schema *)

Inductive Role := DESIGNER | ASSISTANT | ROOKIE | MANAGER.

Inductive LeaveRequestStatus := PENDING | APPROVED | REJECTED | CANCELED.

Module LeaveRequestSource.
Inductive t := SELF | BINDING_MIRROR | MANAGER | SYSTEM.
End LeaveRequestSource.

Inductive ApprovalAction := APPROVE | REJECT | FORCE_APPROVE.

#[global] Instance Role_eq_dec : EqDecision Role.
Proof. solve_decision. Defined.
#[global] Instance LeaveRequestStatus_eq_dec : EqDecision LeaveRequestStatus.
Proof. solve_decision. Defined.
#[global] Instance ApprovalAction_eq_dec : EqDecision ApprovalAction.
Proof. solve_decision. Defined.
#[global] Instance LeaveRequestSource_eq_dec : EqDecision LeaveRequestSource.t.
Proof. solve_decision. Defined.

(** ** Tables *)

Module Store.
Record t := { id : string; timezone : string }.
End Store.

Module User.
Record t := {
  id : string;
  storeId : string;
  displayName : string;
  role : Role;
  active : bool;
  baseDemand : option float;
  baseSupply : option float
}.
End User.

Module Binding.
Record t := {
  id : string;
  storeId : string;
  assistantId : string;
  designerId : string;
  active : bool
}.
End Binding.

Module Config.
(** [valueJson] holds what [JSON.parse] makes of the stored text; [None]
    when the text is not JSON and [JSON.parse] throws. *)
Record t := {
  storeId : string;
  key : string;
  valueJson : option json;
  effectiveFrom : option string
}.
End Config.

Module LeaveRequest.
Record t := {
  id : string;
  storeId : string;
  userId : string;
  date : string;
  status : LeaveRequestStatus;
  source : LeaveRequestSource.t;
  createdByUserId : option string;
  linkedToId : option string
}.
End LeaveRequest.

#[global] Instance LeaveRequest_eq_dec : EqDecision LeaveRequest.t.
Proof. solve_decision. Defined.

Module Approval.
Record t := {
  id : string;
  storeId : string;
  leaveRequestId : string;
  managerId : string;
  action : ApprovalAction;
  reason : option string
}.
End Approval.

Module RookieBooking.
Record t := {
  id : string;
  storeId : string;
  rookieId : string;
  date : string;
  startMin : Z;
  endMin : Z
}.
End RookieBooking.

Module DesignerDemandOverride.
Record t := {
  id : string;
  storeId : string;
  designerId : string;
  date : string;
  demand : float
}.
End DesignerDemandOverride.

(** The Prisma client: one table per model delegate. *)
Module Db.
Record t := {
  store : list Store.t;
  user : list User.t;
  binding : list Binding.t;
  config : list Config.t;
  leaveRequest : list LeaveRequest.t;
  approval : list Approval.t;
  rookieBooking : list RookieBooking.t;
  designerDemandOverride : list DesignerDemandOverride.t
}.
End Db.

(** ** The platform: [Date], [Intl] and id generation

    A [None] from an [Intl] function is a thrown [RangeError] (unknown time
    zone, invalid date); a [None] from [Date_UTC_lastDay] is NaN. *)

Record Platform := {
  (** [new Date(Date.UTC(y, m, 0)).getUTCDate()] *)
  Date_UTC_lastDay : Z -> Z -> option nat;
  (** [Intl.DateTimeFormat("en-US", {timeZone, weekday: "short"})
        .format(new Date(Date.UTC(y, m - 1, d, 12, 0, 0)))] *)
  Intl_weekdayShort : string -> Z -> Z -> Z -> option string;
  (** [Number(Intl.DateTimeFormat("en-US", {timeZone, day: "2-digit"})
        .format(new Date()))] *)
  Intl_dayNow : string -> option float;
  (** a new row id, given the ids already in the table *)
  cuid : list string -> string
}.

(** ** Prisma reads *)

Definition findMany {A} (where_ : A -> bool) (table : list A) : list A :=
  List.filter where_ table.

Definition findFirst {A} (where_ : A -> bool) (table : list A) : option A :=
  List.find where_ table.

(** ** src/lib/config.ts *)

Module ConfigLib.

(** [typeof obj === "object" && obj !== null && "value" in obj]; an array
    is an object without a "value" property. *)
Definition hasValue (obj : json) : bool :=
  match obj with
  | JObj fields => bool_decide (is_Some (jsonField "value" fields))
  | _ => false
  end.

Definition getConfigValue (db : Db.t) (storeId key : string) : option json :=
  match findFirst (fun c : Config.t =>
           String.eqb (Config.storeId c) storeId
           && String.eqb (Config.key c) key
           && bool_decide (Config.effectiveFrom c = None)) (Db.config db) with
  | None => None
  | Some row =>
      match Config.valueJson row with
      | None => None
      | Some parsed => if hasValue parsed then Some parsed else None
      end
  end.

(** [v.value] of an object that passed [hasValue]. *)
Definition value (v : json) : option json :=
  match v with JObj fields => jsonField "value" fields | _ => None end.

Definition getNumberConfig (db : Db.t) (storeId key : string) (fallback : float) : float :=
  match getConfigValue db storeId key with
  | Some v => match value v with Some (JNum x) => x | _ => fallback end
  | None => fallback
  end.

Definition getBooleanConfig (db : Db.t) (storeId key : string) (fallback : bool) : bool :=
  match getConfigValue db storeId key with
  | Some v => match value v with Some (JBool b) => b | _ => fallback end
  | None => fallback
  end.

Definition getStringConfig (db : Db.t) (storeId key : string) (fallback : string) : string :=
  match getConfigValue db storeId key with
  | Some v => match value v with Some (JStr s) => s | _ => fallback end
  | None => fallback
  end.

End ConfigLib.

(** ** src/lib/date.ts *)

Module DateLib.

Definition isoDateShape : list bool :=
  [true; true; true; true; false; true; true; false; true; true].

Definition isoMonthShape : list bool :=
  [true; true; true; true; false; true; true].

Definition isIsoDate (value : string) : bool := Js.matchShape isoDateShape value.

(** The routes' own [isIsoMonth], [/^\d{4}-\d{2}$/]. *)
Definition isIsoMonth (value : string) : bool := Js.matchShape isoMonthShape value.

(** [None] is NaN: a missing component is [undefined], a non-numeric one
    is NaN, and both make [Date.UTC] NaN. *)
Definition daysInMonth (pf : Platform) (yyyyMm : string) : option nat :=
  match map Js.Number (Js.split "-" yyyyMm) with
  | Some y :: Some m :: _ => Date_UTC_lastDay pf y m
  | _ => None
  end.

Definition pad2 (n : nat) : string := Js.padStart0 2 (Js.StringOfNat n).

Definition dateFromMonthDay (yyyyMm : string) (day : nat) : string :=
  yyyyMm +:+ "-" +:+ pad2 day.

Definition dayOfMonthInTimeZone (pf : Platform) (timeZone : string) : option float :=
  Intl_dayNow pf timeZone.

(** [None] is the [RangeError] that formatting an invalid date throws. *)
Definition weekdayInTimeZone (pf : Platform) (timeZone isoDate : string) : option string :=
  match map Js.Number (Js.split "-" isoDate) with
  | Some y :: Some m :: Some d :: _ => Intl_weekdayShort pf timeZone y m d
  | _ => None
  end.

End DateLib.

(** ** src/lib/quota.ts *)

Module Requester.
Record t := { userId : string; role : Role }.
End Requester.

Module OffUser.
Record t := {
  userId : string;
  displayName : string;
  role : Role;
  status : LeaveRequestStatus
}.
End OffUser.

Module AvailabilityDay.
Record t := {
  date : string;
  remainingQuota : float;
  assistantSupply : float;
  rookieSupply : float;
  designerDemand : float;
  safetyFactor : float;
  selectable : bool;
  reasons : list string;
  myLeaveStatus : option LeaveRequestStatus;
  myLeaveCancelable : bool;
  offUsers : list OffUser.t
}.
End AvailabilityDay.

Module MonthAvailability.
Record t := { month : string; days : list AvailabilityDay.t }.
End MonthAvailability.

Module Params.
Record t := {
  storeId : string;
  storeTimeZone : string;
  month : string;
  requester : Requester.t
}.
End Params.

Module Quota.

Import ConfigLib DateLib.

Definition isOffStatus (status : LeaveRequestStatus) : bool :=
  match status with
  | PENDING | APPROVED => true
  | _ => false
  end.

(** The template [`${a}:${b}`] used as a set and map key. *)
Definition key (a b : string) : string := a +:+ ":" +:+ b.

(** [a >= b] and [a <= b] on numbers. *)
Definition geb (a b : float) : bool := PrimFloat.leb b a.
Definition leb (a b : float) : bool := PrimFloat.leb a b.

(** One [if (cond) { selectable = false; reasons.push(reason) }] block,
    acting on the pair of mutable locals. *)
Definition block (cond : bool) (reason : string) (v : bool * list string) :
    bool * list string :=
  if cond then (false, (v.2 ++ [reason])%list) else v.

(** [if (cond) reasons.push(reason)], leaving [selectable] alone. *)
Definition advise (cond : bool) (reason : string) (v : bool * list string) :
    bool * list string :=
  if cond then (v.1, (v.2 ++ [reason])%list) else v.

Definition weekdayCodes : list string :=
  ["SUN"; "MON"; "TUE"; "WED"; "THU"; "FRI"; "SAT"].

Section Month.

Context (pf : Platform) (db : Db.t).
Context (storeId storeTimeZone month : string) (requester : Requester.t).

Definition safetyFactor : float := getNumberConfig db storeId "safety_factor" 1.1.
Definition assistantSupply : float := getNumberConfig db storeId "assistant_supply" 1.0.
Definition rookieSupportSupply : float := getNumberConfig db storeId "rookie_support_supply" 0.7.
Definition rookieGuestSupply : float := getNumberConfig db storeId "rookie_guest_supply" 0.
Definition designerDefaultDemand : float := getNumberConfig db storeId "designer_default_demand" 1.0.

Definition closedDatesRaw : string := getStringConfig db storeId "closed_dates" "".
Definition closedDates : gset string :=
  list_to_set (List.filter isIsoDate (map Js.trim (Js.split "," closedDatesRaw))).

Definition closedWeekdaysRaw : string := getStringConfig db storeId "closed_weekdays" "".
Definition closedWeekdays : gset string :=
  list_to_set
    (List.filter (Js.includes weekdayCodes)
       (map (fun s => Js.toUpperCase (Js.trim s)) (Js.split "," closedWeekdaysRaw))).

Definition phase1Start : float := getNumberConfig db storeId "phase1_start_day" 1.
Definition phase1End : float := getNumberConfig db storeId "phase1_end_day" 5.
Definition phase2Start : float := getNumberConfig db storeId "phase2_start_day" 6.
Definition phase2End : float := getNumberConfig db storeId "phase2_end_day" 31.

Definition assistantBlockSaturday : bool :=
  getBooleanConfig db storeId "assistant_block_saturday" true.
Definition assistantBlockIfMasterWorking : bool :=
  getBooleanConfig db storeId "assistant_block_if_master_working" true.
Definition rookieAnyBookingSupplyZero : bool :=
  getBooleanConfig db storeId "rookie_any_booking_supply_zero" true.

Definition users : list User.t :=
  findMany (fun u => String.eqb (User.storeId u) storeId && User.active u) (Db.user db).

Definition assistants : list User.t :=
  List.filter (fun u => bool_decide (User.role u = ASSISTANT)) users.
Definition rookies : list User.t :=
  List.filter (fun u => bool_decide (User.role u = ROOKIE)) users.
Definition designers : list User.t :=
  List.filter (fun u => bool_decide (User.role u = DESIGNER)) users.

Definition leaveRequests : list LeaveRequest.t :=
  findMany
    (fun lr =>
       String.eqb (LeaveRequest.storeId lr) storeId
       && Js.startsWith (LeaveRequest.date lr) (month +:+ "-")
       && bool_decide (LeaveRequest.status lr ∈ [PENDING; APPROVED]))
    (Db.leaveRequest db).

Definition offByUserDate : gset string :=
  foldl
    (fun acc lr =>
       if isOffStatus (LeaveRequest.status lr)
       then acc ∪ {[ key (LeaveRequest.userId lr) (LeaveRequest.date lr) ]}
       else acc)
    ∅ leaveRequests.

Definition offStatus (lr : LeaveRequest.t) : LeaveRequestStatus :=
  if bool_decide (LeaveRequest.status lr = APPROVED) then APPROVED else PENDING.

Definition myLeaveByDate : gmap string (LeaveRequestStatus * bool) :=
  foldl
    (fun acc lr =>
       if negb (String.eqb (LeaveRequest.userId lr) (Requester.userId requester)) then acc
       else if negb (isOffStatus (LeaveRequest.status lr)) then acc
       else
         let status := offStatus lr in
         <[ LeaveRequest.date lr :=
              (status,
               bool_decide (status = PENDING)
               && Js.optEqb (LeaveRequest.createdByUserId lr) (Requester.userId requester)) ]> acc)
    ∅ leaveRequests.

(** The [user] relation selected with each leave request; the foreign key
    makes it present. *)
Definition userOf (lr : LeaveRequest.t) : option User.t :=
  findFirst (fun u => String.eqb (User.id u) (LeaveRequest.userId lr)) (Db.user db).

Definition offUsersByDate : gmap string (list OffUser.t) :=
  foldl
    (fun acc lr =>
       if negb (isOffStatus (LeaveRequest.status lr)) then acc
       else
         let list := default [] (acc !! LeaveRequest.date lr) in
         if existsb (fun x => String.eqb (OffUser.userId x) (LeaveRequest.userId lr)) list
         then acc
         else
           match userOf lr with
           | Some u =>
               <[ LeaveRequest.date lr :=
                    (list ++ [ {| OffUser.userId := LeaveRequest.userId lr;
                                  OffUser.displayName := User.displayName u;
                                  OffUser.role := User.role u;
                                  OffUser.status := offStatus lr |} ])%list ]> acc
           | None => acc
           end)
    ∅ leaveRequests.

Definition demandOverrides : list DesignerDemandOverride.t :=
  findMany
    (fun o =>
       String.eqb (DesignerDemandOverride.storeId o) storeId
       && Js.startsWith (DesignerDemandOverride.date o) (month +:+ "-"))
    (Db.designerDemandOverride db).

Definition demandOverrideByDesignerDate : gmap string float :=
  foldl
    (fun acc o =>
       <[ key (DesignerDemandOverride.designerId o) (DesignerDemandOverride.date o) :=
            DesignerDemandOverride.demand o ]> acc)
    ∅ demandOverrides.

Definition rookieBookings : list RookieBooking.t :=
  findMany
    (fun b =>
       String.eqb (RookieBooking.storeId b) storeId
       && Js.startsWith (RookieBooking.date b) (month +:+ "-"))
    (Db.rookieBooking db).

Definition bookingByRookieDate : gset string :=
  foldl (fun acc b => acc ∪ {[ key (RookieBooking.rookieId b) (RookieBooking.date b) ]})
    ∅ rookieBookings.

Definition bindingsForAssistant : list Binding.t :=
  if bool_decide (Requester.role requester = ASSISTANT) && assistantBlockIfMasterWorking
  then findMany
         (fun b =>
            String.eqb (Binding.storeId b) storeId
            && String.eqb (Binding.assistantId b) (Requester.userId requester)
            && Binding.active b)
         (Db.binding db)
  else [].

Definition inDesignerWindow (todayDay : float) : bool :=
  geb todayDay phase1Start && leb todayDay phase1End.
Definition inAssistantWindow (todayDay : float) : bool :=
  geb todayDay phase2Start && leb todayDay phase2End.

Definition isOff (date userId : string) : bool :=
  bool_decide (key userId date ∈ offByUserDate).

(** The three reducers add a weight per user who is not off. *)
Definition assistantWeight (u : User.t) : float :=
  Js.numberOr (User.baseSupply u) assistantSupply.

Definition rookieWeight (date : string) (u : User.t) : float :=
  let hasBooking := bool_decide (key (User.id u) date ∈ bookingByRookieDate) in
  let supportWeight := Js.numberOr (User.baseSupply u) rookieSupportSupply in
  if hasBooking && rookieAnyBookingSupplyZero then rookieGuestSupply else supportWeight.

Definition designerWeight (date : string) (u : User.t) : float :=
  let override := demandOverrideByDesignerDate !! key (User.id u) date in
  let base := Js.numberOr (User.baseDemand u) designerDefaultDemand in
  default base override.

Definition assistantSupplySum (date : string) : float :=
  foldl
    (fun acc u => if isOff date (User.id u) then acc else PrimFloat.add acc (assistantWeight u))
    0%float assistants.

Definition rookieSupplySum (date : string) : float :=
  foldl
    (fun acc u => if isOff date (User.id u) then acc else PrimFloat.add acc (rookieWeight date u))
    0%float rookies.

Definition designerDemandSum (date : string) : float :=
  foldl
    (fun acc u => if isOff date (User.id u) then acc else PrimFloat.add acc (designerWeight date u))
    0%float designers.

(** The conditions of the [if] blocks that lock or block a day. *)
Definition designerLocked (todayDay : float) : bool :=
  bool_decide (Requester.role requester = DESIGNER)
  && (negb (inDesignerWindow todayDay) && negb (inAssistantWindow todayDay)).

Definition assistantLocked (todayDay : float) : bool :=
  (bool_decide (Requester.role requester = ASSISTANT)
   || bool_decide (Requester.role requester = ROOKIE))
  && negb (inAssistantWindow todayDay).

Definition saturdayBlocked (weekday : string) : bool :=
  bool_decide (Requester.role requester = ASSISTANT) && assistantBlockSaturday
  && Js.startsWith (Js.toLowerCase weekday) "sat".

Definition masterWorkingBlocked (date : string) : bool :=
  bool_decide (Requester.role requester = ASSISTANT) && assistantBlockIfMasterWorking
  && (0 <? length bindingsForAssistant)%nat
  && existsb
       (fun b => negb (bool_decide (key (Binding.designerId b) date ∈ offByUserDate)))
       bindingsForAssistant.

(** The reasons and the [selectable] flag of one day: the chain of [if]
    blocks on the two mutable locals. The second call of
    [weekdayInTimeZone], in the Saturday check, returns what the first did. *)
Definition verdict (todayDay : float) (date weekdayName : string) (isStoreClosed : bool)
    (remainingQuota : float) : bool * list string :=
  let v0 : bool * list string := (true, []) in
  let v1 := block (designerLocked todayDay) "PHASE_LOCK" v0 in
  let v2 := block (assistantLocked todayDay) "PHASE_LOCK" v1 in
  let v3 := block isStoreClosed "STORE_CLOSED" v2 in
  let v4 :=
    if PrimFloat.ltb remainingQuota 0
    then if bool_decide (Requester.role requester = DESIGNER)
         then advise true "QUOTA_FULL" v3
         else block true "QUOTA_FULL" v3
    else v3 in
  let v5 := block (saturdayBlocked weekdayName) "SATURDAY_BLOCK" v4 in
  block (masterWorkingBlocked date) "MASTER_WORKING_BLOCK" v5.

(** The body of the loop over the days of the month. *)
Definition day (todayDay : float) (d : nat) : option AvailabilityDay.t :=
  let date := dateFromMonthDay month d in
  weekdayName ← weekdayInTimeZone pf storeTimeZone date;
  let weekdayCode := Js.toUpperCase (Js.slice0 3 weekdayName) in
  let isStoreClosed :=
    bool_decide (date ∈ closedDates) || bool_decide (weekdayCode ∈ closedWeekdays) in
  let assistantSupplySum := assistantSupplySum date in
  let rookieSupplySum := rookieSupplySum date in
  let designerDemandSum := designerDemandSum date in
  let remainingQuota :=
    PrimFloat.sub (PrimFloat.add assistantSupplySum rookieSupplySum)
                  (PrimFloat.mul designerDemandSum safetyFactor) in
  let v := verdict todayDay date weekdayName isStoreClosed remainingQuota in
  let mine := myLeaveByDate !! date in
  Some {|
    AvailabilityDay.date := date;
    AvailabilityDay.remainingQuota := remainingQuota;
    AvailabilityDay.assistantSupply := assistantSupplySum;
    AvailabilityDay.rookieSupply := rookieSupplySum;
    AvailabilityDay.designerDemand := designerDemandSum;
    AvailabilityDay.safetyFactor := safetyFactor;
    AvailabilityDay.selectable := v.1;
    AvailabilityDay.reasons := v.2;
    AvailabilityDay.myLeaveStatus := fst <$> mine;
    AvailabilityDay.myLeaveCancelable := default false (snd <$> mine);
    AvailabilityDay.offUsers := default [] (offUsersByDate !! date)
  |}.

(** [for (let d = 1; d <= dim; d += 1)]; a NaN bound runs no iteration. *)
Definition loopDays (dim : option nat) : list nat :=
  match dim with
  | Some n => seq 1 n
  | None => []
  end.

Definition getMonthAvailability' : option MonthAvailability.t :=
  todayDay ← dayOfMonthInTimeZone pf storeTimeZone;
  days ← mapM (day todayDay) (loopDays (daysInMonth pf month));
  Some {| MonthAvailability.month := month; MonthAvailability.days := days |}.

End Month.

Definition getMonthAvailability (pf : Platform) (db : Db.t) (params : Params.t) :
    option MonthAvailability.t :=
  getMonthAvailability' pf db (Params.storeId params) (Params.storeTimeZone params)
    (Params.month params) (Params.requester params).

End Quota.

(** ** Prisma writes

    A write returns [None] when Prisma throws: a row to update that is not
    there, or a row to create that breaks the primary key or the unique
    index [LeaveRequest_userId_date_key]. *)

Module Prisma.

Definition withLeaveRequest (db : Db.t) (rows : list LeaveRequest.t) : Db.t :=
  {| Db.store := Db.store db; Db.user := Db.user db; Db.binding := Db.binding db;
     Db.config := Db.config db; Db.leaveRequest := rows; Db.approval := Db.approval db;
     Db.rookieBooking := Db.rookieBooking db;
     Db.designerDemandOverride := Db.designerDemandOverride db |}.

Definition withApproval (db : Db.t) (rows : list Approval.t) : Db.t :=
  {| Db.store := Db.store db; Db.user := Db.user db; Db.binding := Db.binding db;
     Db.config := Db.config db; Db.leaveRequest := Db.leaveRequest db; Db.approval := rows;
     Db.rookieBooking := Db.rookieBooking db;
     Db.designerDemandOverride := Db.designerDemandOverride db |}.

(** The [data] of an update: the columns it names. *)
Module Data.
Record t := {
  status : option LeaveRequestStatus;
  source : option LeaveRequestSource.t;
  createdByUserId : option (option string);
  linkedToId : option (option string)
}.
End Data.

Definition setStatus (st : LeaveRequestStatus) : Data.t :=
  {| Data.status := Some st; Data.source := None;
     Data.createdByUserId := None; Data.linkedToId := None |}.

Definition applyData (data : Data.t) (r : LeaveRequest.t) : LeaveRequest.t :=
  {| LeaveRequest.id := LeaveRequest.id r;
     LeaveRequest.storeId := LeaveRequest.storeId r;
     LeaveRequest.userId := LeaveRequest.userId r;
     LeaveRequest.date := LeaveRequest.date r;
     LeaveRequest.status := default (LeaveRequest.status r) (Data.status data);
     LeaveRequest.source := default (LeaveRequest.source r) (Data.source data);
     LeaveRequest.createdByUserId :=
       default (LeaveRequest.createdByUserId r) (Data.createdByUserId data);
     LeaveRequest.linkedToId := default (LeaveRequest.linkedToId r) (Data.linkedToId data) |}.

(** [leaveRequest.update({ where: { id }, data })] *)
Definition leaveRequest_update (id : string) (data : Data.t) (db : Db.t) :
    option (LeaveRequest.t * Db.t) :=
  match findFirst (fun r => String.eqb (LeaveRequest.id r) id) (Db.leaveRequest db) with
  | None => None
  | Some r =>
      Some (applyData data r,
            withLeaveRequest db
              (map (fun x => if String.eqb (LeaveRequest.id x) id then applyData data x else x)
                 (Db.leaveRequest db)))
  end.

(** [leaveRequest.updateMany({ where, data })] *)
Definition leaveRequest_updateMany (where_ : LeaveRequest.t -> bool) (data : Data.t)
    (db : Db.t) : Db.t :=
  withLeaveRequest db
    (map (fun x => if where_ x then applyData data x else x) (Db.leaveRequest db)).

(** [leaveRequest.create({ data })]; the row gets a generated id. *)
Definition leaveRequest_create (pf : Platform)
    (storeId userId date : string) (status : LeaveRequestStatus)
    (source : LeaveRequestSource.t) (createdByUserId linkedToId : option string)
    (db : Db.t) : option (LeaveRequest.t * Db.t) :=
  let id := cuid pf (map LeaveRequest.id (Db.leaveRequest db)) in
  let row :=
    {| LeaveRequest.id := id; LeaveRequest.storeId := storeId;
       LeaveRequest.userId := userId; LeaveRequest.date := date;
       LeaveRequest.status := status; LeaveRequest.source := source;
       LeaveRequest.createdByUserId := createdByUserId;
       LeaveRequest.linkedToId := linkedToId |} in
  if existsb (fun x => String.eqb (LeaveRequest.id x) id) (Db.leaveRequest db)
     || existsb (fun x => String.eqb (LeaveRequest.userId x) userId
                          && String.eqb (LeaveRequest.date x) date) (Db.leaveRequest db)
  then None
  else Some (row, withLeaveRequest db (Db.leaveRequest db ++ [row])%list).

(** [leaveRequest.deleteMany({ where })], with the schema's referential
    actions: [linkedToId] of a surviving row is set to null, approvals of a
    deleted row are deleted. *)
Definition leaveRequest_deleteMany (where_ : LeaveRequest.t -> bool) (db : Db.t) : Db.t :=
  let gone := map LeaveRequest.id (List.filter where_ (Db.leaveRequest db)) in
  let kept := List.filter (fun x => negb (where_ x)) (Db.leaveRequest db) in
  let unlink (x : LeaveRequest.t) :=
    match LeaveRequest.linkedToId x with
    | Some l =>
        if Js.includes gone l
        then applyData {| Data.status := None; Data.source := None;
                          Data.createdByUserId := None; Data.linkedToId := Some None |} x
        else x
    | None => x
    end in
  withApproval (withLeaveRequest db (map unlink kept))
    (List.filter (fun a => negb (Js.includes gone (Approval.leaveRequestId a)))
       (Db.approval db)).

(** [approval.create({ data })] *)
Definition approval_create (pf : Platform) (storeId leaveRequestId managerId : string)
    (action : ApprovalAction) (reason : option string) (db : Db.t) : option Db.t :=
  let id := cuid pf (map Approval.id (Db.approval db)) in
  if existsb (fun a => String.eqb (Approval.id a) id) (Db.approval db) then None
  else
    Some (withApproval db
            (Db.approval db ++
               [ {| Approval.id := id; Approval.storeId := storeId;
                    Approval.leaveRequestId := leaveRequestId;
                    Approval.managerId := managerId; Approval.action := action;
                    Approval.reason := reason |} ])%list).

(** [approval.deleteMany({ where })] *)
Definition approval_deleteMany (where_ : Approval.t -> bool) (db : Db.t) : Db.t :=
  withApproval db (List.filter (fun a => negb (where_ a)) (Db.approval db)).

(** [prisma.$transaction]: a throw inside rolls every write back. *)
Definition transaction {A} (body : Db.t -> option (A * Db.t)) (db : Db.t) :
    option A * Db.t :=
  match body db with
  | Some (a, db') => (Some a, db')
  | None => (None, db)
  end.

End Prisma.

(** ** src/lib/auth.ts *)

Module Auth.

(** What a request carries: the mock user id from the header or the
    cookie, and the JSON body ([None] when [req.json()] rejects). *)
Record Request := { mockUserId : option string; body : option json }.

Definition getCurrentUser (db : Db.t) (req : Request) : option User.t :=
  match mockUserId req with
  | None => None
  | Some userId =>
      if String.eqb userId "" then None
      else findFirst (fun u => String.eqb (User.id u) userId && User.active u) (Db.user db)
  end.

Definition requireRole (user : User.t) (allowed : list Role) : bool :=
  bool_decide (User.role user ∈ allowed).

End Auth.

(** ** HTTP responses of the routes *)

Inductive Response :=
| RespLeaveRequest (leaveRequest : LeaveRequest.t)
| RespOk
| RespError (error : string) (status : nat)
| RespAlreadyRequested (current : LeaveRequestStatus)
| RespNotAllowed (reasons : list string)
| Throws.

(** The HTTP status of a response; an uncaught error is a 500. *)
Definition httpStatus (r : Response) : nat :=
  match r with
  | RespLeaveRequest _ | RespOk => 200
  | RespError _ status => status
  | RespAlreadyRequested _ => 409
  | RespNotAllowed _ => 403
  | Throws => 500
  end.

(** The [error] field of the body, when there is one. *)
Definition errorCode (r : Response) : option string :=
  match r with
  | RespLeaveRequest _ | RespOk | Throws => None
  | RespError error _ => Some error
  | RespAlreadyRequested _ => Some "ALREADY_REQUESTED"
  | RespNotAllowed _ => Some "NOT_ALLOWED"
  end.

(** ** The self-service leave route: POST (request) and DELETE (cancel)

    The route handlers of [src/unnamed/part_004]. *)

Module LeaveRoute.

Import Prisma Auth.

(** [z.object({ date: z.string().min(1) }).safeParse(body)] *)
Definition BodySchema (body : option json) : option string :=
  match body with
  | Some (JObj fields) =>
      match jsonField "date" fields with
      | Some (JStr s) => if (1 <=? String.length s)%nat then Some s else None
      | _ => None
      end
  | _ => None
  end.

Definition isActiveStatus (st : LeaveRequestStatus) : bool :=
  bool_decide (st = PENDING) || bool_decide (st = APPROVED).

Definition isReusableStatus (st : LeaveRequestStatus) : bool :=
  bool_decide (st = CANCELED) || bool_decide (st = REJECTED).

Definition mirrorData (user : User.t) (leaveRequest : LeaveRequest.t) : Data.t :=
  {| Data.status := Some PENDING;
     Data.source := Some LeaveRequestSource.BINDING_MIRROR;
     Data.createdByUserId := Some (Some (User.id user));
     Data.linkedToId := Some (Some (LeaveRequest.id leaveRequest)) |}.

(** One turn of [for (const b of bindings) { ... }]: the assistant's row
    of the date is skipped when active, updated when CANCELED or REJECTED,
    and created otherwise. [None] when the write throws. *)
Definition mirrorOne (pf : Platform) (store : Store.t) (user : User.t) (date : string)
    (leaveRequest : LeaveRequest.t) (b : Binding.t) (db : Db.t) : option Db.t :=
  let assistantExisting :=
    findFirst (fun r => String.eqb (LeaveRequest.userId r) (Binding.assistantId b)
                        && String.eqb (LeaveRequest.date r) date) (Db.leaveRequest db) in
  match assistantExisting with
  | Some ex =>
      if isActiveStatus (LeaveRequest.status ex) then Some db
      else if isReusableStatus (LeaveRequest.status ex)
      then snd <$> leaveRequest_update (LeaveRequest.id ex) (mirrorData user leaveRequest) db
      else snd <$> leaveRequest_create pf (Store.id store) (Binding.assistantId b) date
                     PENDING LeaveRequestSource.BINDING_MIRROR (Some (User.id user))
                     (Some (LeaveRequest.id leaveRequest)) db
  | None =>
      snd <$> leaveRequest_create pf (Store.id store) (Binding.assistantId b) date
                PENDING LeaveRequestSource.BINDING_MIRROR (Some (User.id user))
                (Some (LeaveRequest.id leaveRequest)) db
  end.

(** The loop over the bindings; [false] when a write throws, with the
    writes made so far kept (the loop runs outside any transaction). *)
Fixpoint mirrorLoop (pf : Platform) (store : Store.t) (user : User.t) (date : string)
    (leaveRequest : LeaveRequest.t) (bindings : list Binding.t) (db : Db.t) : bool * Db.t :=
  match bindings with
  | [] => (true, db)
  | b :: rest =>
      match mirrorOne pf store user date leaveRequest b db with
      | Some db' => mirrorLoop pf store user date leaveRequest rest db'
      | None => (false, db)
      end
  end.

Definition selfData (user : User.t) : Data.t :=
  {| Data.status := Some PENDING;
     Data.source := Some LeaveRequestSource.SELF;
     Data.createdByUserId := Some (Some (User.id user));
     Data.linkedToId := None |}.

(** The row of the user for the date, of any status. *)
Definition existingAny (db : Db.t) (user : User.t) (date : string) : option LeaveRequest.t :=
  findFirst (fun r => String.eqb (LeaveRequest.userId r) (User.id user)
                      && String.eqb (LeaveRequest.date r) date) (Db.leaveRequest db).

(** POST up to the first write: every early return, or else the user, the
    date and the store the writes go on with. *)
Definition guards (pf : Platform) (db : Db.t) (req : Request) :
    Response + (User.t * string * Store.t) :=
  match getCurrentUser db req with
  | None => inl (RespError "UNAUTHORIZED" 401)
  | Some user =>
  match BodySchema (body req) with
  | None => inl (RespError "INVALID_DATE" 400)
  | Some date =>
  if negb (DateLib.isIsoDate date) then inl (RespError "INVALID_DATE" 400) else
  let month := Js.slice0 7 date in
  match (match existingAny db user date with
         | Some ex =>
             if isActiveStatus (LeaveRequest.status ex)
             then Some (LeaveRequest.status ex) else None
         | None => None
         end) with
  | Some current => inl (RespAlreadyRequested current)
  | None =>
  match findFirst (fun st => String.eqb (Store.id st) (User.storeId user)) (Db.store db) with
  | None => inl (RespError "STORE_NOT_FOUND" 404)
  | Some store =>
  match Quota.getMonthAvailability pf db
          {| Params.storeId := Store.id store;
             Params.storeTimeZone := Store.timezone store;
             Params.month := month;
             Params.requester := {| Requester.userId := User.id user;
                                    Requester.role := User.role user |} |} with
  | None => inl Throws
  | Some availability =>
  match List.find (fun d => String.eqb (AvailabilityDay.date d) date)
          (MonthAvailability.days availability) with
  | None => inl (RespError "DATE_OUT_OF_RANGE" 400)
  | Some day =>
  if negb (AvailabilityDay.selectable day)
  then inl (RespNotAllowed (AvailabilityDay.reasons day))
  else inr (user, date, store)
  end end end end end end.

(** The user's own request: the CANCELED or REJECTED row of the date is
    updated in place, otherwise a row is created. *)
Definition writeOwn (pf : Platform) (store : Store.t) (user : User.t) (date : string)
    (db : Db.t) : option (LeaveRequest.t * Db.t) :=
  match existingAny db user date with
  | Some ex =>
      if isReusableStatus (LeaveRequest.status ex)
      then leaveRequest_update (LeaveRequest.id ex) (selfData user) db
      else leaveRequest_create pf (Store.id store) (User.id user) date PENDING
             LeaveRequestSource.SELF (Some (User.id user)) None db
  | None =>
      leaveRequest_create pf (Store.id store) (User.id user) date PENDING
        LeaveRequestSource.SELF (Some (User.id user)) None db
  end.

(** The [if (user.role === "DESIGNER")] block. *)
Definition mirrorAll (pf : Platform) (store : Store.t) (user : User.t) (date : string)
    (leaveRequest : LeaveRequest.t) (db : Db.t) : bool * Db.t :=
  if bool_decide (User.role user = DESIGNER)
     && String.eqb
          (ConfigLib.getStringConfig db (Store.id store) "binding_mirror_leave" "auto_create")
          "auto_create"
  then
    let bindings :=
      findMany (fun b => String.eqb (Binding.storeId b) (Store.id store)
                         && String.eqb (Binding.designerId b) (User.id user)
                         && Binding.active b) (Db.binding db) in
    mirrorLoop pf store user date leaveRequest bindings db
  else (true, db).

Definition POST (pf : Platform) (db : Db.t) (req : Request) : Response * Db.t :=
  match guards pf db req with
  | inl response => (response, db)
  | inr (user, date, store) =>
      match writeOwn pf store user date db with
      | None => (Throws, db)
      | Some (leaveRequest, db1) =>
          match mirrorAll pf store user date leaveRequest db1 with
          | (true, db2) => (RespLeaveRequest leaveRequest, db2)
          | (false, db2) => (Throws, db2)
          end
      end
  end.

(** The body of the cancel transaction. *)
Definition cancelTx (user : User.t) (existing : LeaveRequest.t) (tx : Db.t) :
    option (unit * Db.t) :=
  '(_, tx1) ← leaveRequest_update (LeaveRequest.id existing) (setStatus CANCELED) tx;
  let tx2 :=
    leaveRequest_updateMany
      (fun r => String.eqb (LeaveRequest.storeId r) (User.storeId user)
                && Js.optEqb (LeaveRequest.linkedToId r) (LeaveRequest.id existing)
                && bool_decide (LeaveRequest.status r = PENDING)
                && Js.optEqb (LeaveRequest.createdByUserId r) (User.id user))
      (setStatus CANCELED) tx1 in
  Some (tt, tx2).

Definition DELETE (db : Db.t) (req : Request) : Response * Db.t :=
  match getCurrentUser db req with
  | None => (RespError "UNAUTHORIZED" 401, db)
  | Some user =>
  match BodySchema (body req) with
  | None => (RespError "INVALID_DATE" 400, db)
  | Some date =>
  if negb (DateLib.isIsoDate date) then (RespError "INVALID_DATE" 400, db) else
  match findFirst
          (fun r => String.eqb (LeaveRequest.storeId r) (User.storeId user)
                    && String.eqb (LeaveRequest.userId r) (User.id user)
                    && String.eqb (LeaveRequest.date r) date
                    && bool_decide (LeaveRequest.status r ∈ [PENDING; APPROVED]))
          (Db.leaveRequest db) with
  | None => (RespError "NOT_FOUND" 404, db)
  | Some existing =>
  if negb (Js.optEqb (LeaveRequest.createdByUserId existing) (User.id user))
  then (RespError "FORBIDDEN" 403, db) else
  if negb (bool_decide (LeaveRequest.status existing = PENDING))
  then (RespError "NOT_CANCELABLE" 409, db) else
  match transaction (cancelTx user existing) db with
  | (Some _, db') => (RespOk, db')
  | (None, db') => (Throws, db')
  end
  end end end.

End LeaveRoute.

(** ** The manager approval route

    The POST handler that takes the request id from [ctx.params]; its
    source is the second file held in
    [src/src/app/api/rookie/bookings/route.ts]. *)

Module ApproveRoute.

Import Prisma Auth.

Record Body := { action : ApprovalAction; reason : option string }.

Definition parseAction (s : string) : option ApprovalAction :=
  if String.eqb s "APPROVE" then Some APPROVE
  else if String.eqb s "REJECT" then Some REJECT
  else if String.eqb s "FORCE_APPROVE" then Some FORCE_APPROVE
  else None.

(** [z.object({ action: z.enum([...]), reason: z.string().optional() })] *)
Definition BodySchema (body : option json) : option Body :=
  match body with
  | Some (JObj fields) =>
      match jsonField "action" fields with
      | Some (JStr a) =>
          match parseAction a, jsonField "reason" fields with
          | Some act, None => Some {| action := act; reason := None |}
          | Some act, Some (JStr r) => Some {| action := act; reason := Some r |}
          | _, _ => None
          end
      | _ => None
      end
  | _ => None
  end.

Definition nextStatusOf (a : ApprovalAction) : LeaveRequestStatus :=
  if bool_decide (a = REJECT) then REJECTED else APPROVED.

(** The rows of [linkedFrom]: the requests whose [linkedToId] is [id]. *)
Definition linkedFrom (id : string) (db : Db.t) : list LeaveRequest.t :=
  findMany (fun r => Js.optEqb (LeaveRequest.linkedToId r) id) (Db.leaveRequest db).

(** The body of the decision transaction: the request, the approval
    record, then the PENDING rows of [linkedFrom]. *)
Definition decideTx (pf : Platform) (user : User.t) (id : string) (parsed : Body)
    (nextStatus : LeaveRequestStatus) (tx : Db.t) : option (LeaveRequest.t * Db.t) :=
  '(updatedRequest, tx1) ← leaveRequest_update id (setStatus nextStatus) tx;
  let mirrors := linkedFrom (LeaveRequest.id updatedRequest) tx1 in
  tx2 ← approval_create pf (User.storeId user) id (User.id user)
          (action parsed) (reason parsed) tx1;
  let tx3 :=
    if (0 <? length mirrors)%nat
    then
      let mirrorIds := map LeaveRequest.id mirrors in
      leaveRequest_updateMany
        (fun r => Js.includes mirrorIds (LeaveRequest.id r)
                  && bool_decide (LeaveRequest.status r = PENDING))
        (setStatus nextStatus) tx2
    else tx2 in
  Some (updatedRequest, tx3).

Definition POST (pf : Platform) (db : Db.t) (req : Request) (id : string) :
    Response * Db.t :=
  match getCurrentUser db req with
  | None => (RespError "UNAUTHORIZED" 401, db)
  | Some user =>
  if negb (requireRole user [MANAGER]) then (RespError "FORBIDDEN" 403, db) else
  match BodySchema (body req) with
  | None => (RespError "INVALID_BODY" 400, db)
  | Some parsed =>
  match findFirst (fun r => String.eqb (LeaveRequest.id r) id
                            && String.eqb (LeaveRequest.storeId r) (User.storeId user))
          (Db.leaveRequest db) with
  | None => (RespError "NOT_FOUND" 404, db)
  | Some lr =>
  if negb (bool_decide (LeaveRequest.status lr = PENDING))
  then (RespError "NOT_PENDING" 409, db) else
  let nextStatus := nextStatusOf (action parsed) in
  match transaction (decideTx pf user id parsed nextStatus) db with
  | (Some updated, db') => (RespLeaveRequest updated, db')
  | (None, db') => (Throws, db')
  end
  end end end.

End ApproveRoute.

(** ** The manager's server actions on the admin page

    The server actions of [src/unnamed/part_005]. *)

Module AdminPage.

Import Prisma Auth.

(** The body of the transaction of [setLeaveStatus]. *)
Definition setLeaveStatusTx (pf : Platform) (user : User.t) (id : string)
    (action : ApprovalAction) (nextStatus : LeaveRequestStatus) (tx : Db.t) :
    option (unit * Db.t) :=
  '(updated, tx1) ← leaveRequest_update id (setStatus nextStatus) tx;
  let mirrors := ApproveRoute.linkedFrom (LeaveRequest.id updated) tx1 in
  tx2 ← approval_create pf (User.storeId user) id (User.id user) action None tx1;
  let tx3 :=
    if (0 <? length mirrors)%nat
    then
      leaveRequest_updateMany
        (fun r => Js.includes (map LeaveRequest.id mirrors) (LeaveRequest.id r)
                  && bool_decide (LeaveRequest.status r = PENDING))
        (setStatus nextStatus) tx2
    else tx2 in
  Some (tt, tx3).

(** [setLeaveStatus(formData)] with [id] and [action] read from the form;
    a server action returns nothing, so the result is the store. *)
Definition setLeaveStatus (pf : Platform) (db : Db.t) (req : Request)
    (id action : string) : Db.t :=
  match getCurrentUser db req with
  | None => db
  | Some user =>
  if negb (bool_decide (User.role user = MANAGER)) then db else
  if String.eqb id "" then db else
  match findFirst (fun r => String.eqb (LeaveRequest.id r) id
                            && String.eqb (LeaveRequest.storeId r) (User.storeId user))
          (Db.leaveRequest db) with
  | None => db
  | Some lr =>
  if negb (bool_decide (LeaveRequest.status lr = PENDING)) then db else
  match ApproveRoute.parseAction action with
  | None => db
  | Some act =>
  let nextStatus := if String.eqb action "REJECT" then REJECTED else APPROVED in
  snd (transaction (setLeaveStatusTx pf user id act nextStatus) db)
  end end end.

Definition approveLeave (pf : Platform) (db : Db.t) (req : Request) (id : string) : Db.t :=
  setLeaveStatus pf db req id "APPROVE".

Definition rejectLeave (pf : Platform) (db : Db.t) (req : Request) (id : string) : Db.t :=
  setLeaveStatus pf db req id "REJECT".

Definition forceApproveLeave (pf : Platform) (db : Db.t) (req : Request) (id : string) : Db.t :=
  setLeaveStatus pf db req id "FORCE_APPROVE".

Definition managerData (me : User.t) : Data.t :=
  {| Data.status := Some APPROVED;
     Data.source := Some LeaveRequestSource.MANAGER;
     Data.createdByUserId := Some (Some (User.id me));
     Data.linkedToId := None |}.

(** The body of the transaction of [createManagerLeave]. *)
Definition createManagerLeaveTx (pf : Platform) (me target : User.t) (date : string)
    (tx : Db.t) : option (unit * Db.t) :=
  let existing :=
    findFirst (fun r => String.eqb (LeaveRequest.storeId r) (User.storeId me)
                        && String.eqb (LeaveRequest.userId r) (User.id target)
                        && String.eqb (LeaveRequest.date r) date)
      (Db.leaveRequest tx) in
  '(leaveId, tx1) ←
    match existing with
    | Some ex =>
        '(updated, tx1) ← leaveRequest_update (LeaveRequest.id ex) (managerData me) tx;
        Some (LeaveRequest.id updated, tx1)
    | None =>
        '(created, tx1) ←
          leaveRequest_create pf (User.storeId me) (User.id target) date APPROVED
            LeaveRequestSource.MANAGER (Some (User.id me)) None tx;
        Some (LeaveRequest.id created, tx1)
    end;
  tx2 ← approval_create pf (User.storeId me) leaveId (User.id me) FORCE_APPROVE None tx1;
  Some (tt, tx2).

(** [createManagerLeave(formData)] with [userId] and [date] read from the
    form. The LINE push that follows the transaction writes nothing. *)
Definition createManagerLeave (pf : Platform) (db : Db.t) (req : Request)
    (userId date : string) : Db.t :=
  match getCurrentUser db req with
  | None => db
  | Some me =>
  if negb (bool_decide (User.role me = MANAGER)) then db else
  if String.eqb userId "" || negb (DateLib.isIsoDate date) then db else
  match findFirst (fun u => String.eqb (User.id u) userId
                            && String.eqb (User.storeId u) (User.storeId me)
                            && User.active u) (Db.user db) with
  | None => db
  | Some target => snd (transaction (createManagerLeaveTx pf me target date) db)
  end end.

(** The body of the transaction of [clearAllLeaves]. *)
Definition clearAllLeavesTx (me : User.t) (tx : Db.t) : option (unit * Db.t) :=
  let tx1 :=
    approval_deleteMany (fun a => String.eqb (Approval.storeId a) (User.storeId me)) tx in
  let tx2 :=
    leaveRequest_updateMany
      (fun r => String.eqb (LeaveRequest.storeId r) (User.storeId me))
      {| Data.status := None; Data.source := None;
         Data.createdByUserId := None; Data.linkedToId := Some None |} tx1 in
  let tx3 :=
    leaveRequest_deleteMany
      (fun r => String.eqb (LeaveRequest.storeId r) (User.storeId me)) tx2 in
  Some (tt, tx3).

Definition clearAllLeaves (db : Db.t) (req : Request) : Db.t :=
  match getCurrentUser db req with
  | None => db
  | Some me =>
  if negb (bool_decide (User.role me = MANAGER)) then db else
  snd (transaction (clearAllLeavesTx me) db)
  end.

End AdminPage.

(** ** The calendar route

    The GET handler that answers a month of availability to the signed-in
    user; its source is the second file held in
    [src/src/app/api/leave/pending/route.ts]. [month] is the query
    parameter, [None] when the URL has none. *)

Module AvailabilityRoute.

Import Auth.

Inductive Response :=
| Ok (result : MonthAvailability.t)
| Error (error : string) (status : nat)
| Thrown.

Definition GET (pf : Platform) (db : Db.t) (req : Request) (month : option string) :
    Response :=
  match getCurrentUser db req with
  | None => Error "UNAUTHORIZED" 401
  | Some user =>
  match month with
  | None => Error "INVALID_MONTH" 400
  | Some month =>
  if String.eqb month "" || negb (DateLib.isIsoMonth month)
  then Error "INVALID_MONTH" 400 else
  match findFirst (fun st => String.eqb (Store.id st) (User.storeId user)) (Db.store db) with
  | None => Error "STORE_NOT_FOUND" 404
  | Some store =>
  match Quota.getMonthAvailability pf db
          {| Params.storeId := Store.id store;
             Params.storeTimeZone := Store.timezone store;
             Params.month := month;
             Params.requester := {| Requester.userId := User.id user;
                                    Requester.role := User.role user |} |} with
  | None => Thrown
  | Some result => Ok result
  end end end end.

End AvailabilityRoute.

(** ** JavaScript numbers as integers *)

Module JsNumber.

(** The integer a number is, when [Number.isInteger] holds of it: a finite
    value without a fractional part (so -0 is 0, and NaN and the infinities
    are no integers). *)
Definition toInteger (x : float) : option Z :=
  match FloatOps.Prim2SF x with
  | SpecFloat.S754_zero _ => Some 0%Z
  | SpecFloat.S754_finite s m e =>
      let mag :=
        if (0 <=? e)%Z then Some (Z.pos m * 2 ^ e)%Z
        else if (Z.pos m mod 2 ^ (- e) =? 0)%Z then Some (Z.pos m / 2 ^ (- e))%Z
        else None in
      (fun v => if s then (- v)%Z else v) <$> mag
  | _ => None
  end.

(** *** [Number(text)]

    [StringToNumber]: the text is trimmed; an empty text is 0; a decimal
    literal (with an optional sign, fraction and exponent), [Infinity], or
    an unsigned binary, octal or hexadecimal integer is its value, rounded
    to the nearest binary64 number; anything else is NaN. The white space
    is the one [Js.trim] strips. *)

(** The run of decimal digits a string starts with, and what follows. *)
Fixpoint takeDigits (s : string) : string * string :=
  match s with
  | String c s' =>
      if Js.isDigit c then let '(ds, rest) := takeDigits s' in (String c ds, rest)
      else (EmptyString, s)
  | EmptyString => (EmptyString, EmptyString)
  end.

Definition digitValue (c : ascii) : option Z :=
  let n := Z.of_nat (nat_of_ascii c) in
  if ((48 <=? n) && (n <=? 57))%Z then Some (n - 48)%Z
  else if ((97 <=? n) && (n <=? 102))%Z then Some (n - 87)%Z
  else if ((65 <=? n) && (n <=? 70))%Z then Some (n - 55)%Z
  else None.

(** The value of a run of digits in a base, after [acc]; [None] when a
    character is not a digit of the base. *)
Fixpoint digitsIn (base acc : Z) (s : string) : option Z :=
  match s with
  | EmptyString => Some acc
  | String c s' =>
      match digitValue c with
      | Some d => if (d <? base)%Z then digitsIn base (base * acc + d) s' else None
      | None => None
      end
  end.

(** A run of at least one digit. *)
Definition integerIn (base : Z) (s : string) : option Z :=
  match s with EmptyString => None | _ => digitsIn base 0 s end.

(** The binary64 number nearest to [num / den], ties to even, for
    [num >= 0] and [den > 0]. *)
Definition nearest (num den : Z) : float :=
  if (num =? 0)%Z then 0%float else
  let e1 := (Z.log2 num - Z.log2 den - 52)%Z in
  let scaled (e : Z) :=
    if (0 <=? e)%Z then (num, den * 2 ^ e)%Z else (num * 2 ^ (- e), den)%Z in
  let e2 := let '(n, d) := scaled e1 in if (2 ^ 52 <=? n / d)%Z then e1 else (e1 - 1)%Z in
  let e := Z.max e2 (-1074) in
  let '(n, d) := scaled e in
  let q := (n / d)%Z in
  let r := (n mod d)%Z in
  let q' := if (d <? 2 * r)%Z || ((d =? 2 * r)%Z && Z.odd q) then (q + 1)%Z else q in
  FloatOps.Z.ldexp (PrimFloat.of_uint63 (Uint63Axioms.of_Z q')) e.

(** [mantissa * 10 ^ exp10], the mantissa written with [digits] digits.
    The two shortcuts give what the rounding gives, without the powers. *)
Definition decimal (digits : nat) (mantissa exp10 : Z) : float :=
  if (mantissa =? 0)%Z then 0%float
  else if (310 <? exp10)%Z then infinity
  else if (Z.of_nat digits + exp10 <? -330)%Z then 0%float
  else if (0 <=? exp10)%Z then nearest (mantissa * 10 ^ exp10) 1
  else nearest mantissa (10 ^ (- exp10)).

(** [ExponentPart], or nothing, at the end of the literal. *)
Definition exponent (s : string) : option Z :=
  match s with
  | EmptyString => Some 0%Z
  | String c rest =>
      if Ascii.eqb c "e" || Ascii.eqb c "E" then
        match rest with
        | String "+" ds => integerIn 10 ds
        | String "-" ds => Z.opp <$> integerIn 10 ds
        | ds => integerIn 10 ds
        end
      else None
  end.

(** [StrUnsignedDecimalLiteral] *)
Definition unsignedDecimal (s : string) : option float :=
  if String.eqb s "Infinity" then Some infinity else
  let '(int, r1) := takeDigits s in
  let '(frac, r2) :=
    match r1 with
    | String "." r => takeDigits r
    | _ => (EmptyString, r1)
    end in
  if (String.length int + String.length frac =? 0)%nat then None else
  match exponent r2, digitsIn 10 0 (int +:+ frac) with
  | Some e, Some m =>
      Some (decimal (String.length int + String.length frac) m
              (e - Z.of_nat (String.length frac)))
  | _, _ => None
  end.

Definition NaN : float := PrimFloat.div 0 0.

Definition ofString (s : string) : float :=
  match Js.trim s with
  | EmptyString => 0%float
  | String "0" (String c rest) as t =>
      let based (base : Z) :=
        match integerIn base rest with Some n => nearest n 1 | None => NaN end in
      if Ascii.eqb c "x" || Ascii.eqb c "X" then based 16%Z
      else if Ascii.eqb c "o" || Ascii.eqb c "O" then based 8%Z
      else if Ascii.eqb c "b" || Ascii.eqb c "B" then based 2%Z
      else default NaN (unsignedDecimal t)
  | String "+" rest => default NaN (unsignedDecimal rest)
  | String "-" rest => default NaN (PrimFloat.opp <$> unsignedDecimal rest)
  | t => default NaN (unsignedDecimal t)
  end.

End JsNumber.

(** ** JSON text

    A configuration value is stored as the text [JSON.stringify({ value })]
    and read with [JSON.parse]. *)

Module Json.

(** A number written and read again: NaN and the infinities are written
    as [null], and -0 as [0]. *)
Definition number (x : float) : json :=
  if PrimFloat.is_finite x then JNum (if PrimFloat.is_zero x then 0%float else x) else JNull.

(** [JSON.parse(JSON.stringify(v))] for a value [v] that came from
    [JSON.parse] or is a boolean, a number or a string. *)
Fixpoint reparsed (v : json) : json :=
  match v with
  | JNum x => number x
  | JArr items => JArr (map reparsed items)
  | JObj fields => JObj (map (fun kv => (kv.1, reparsed kv.2)) fields)
  | _ => v
  end.

(** [JSON.parse(JSON.stringify({ value }))]; an undefined [value] is left
    out of the text. *)
Definition wrapped (value : option json) : json :=
  match value with
  | Some v => JObj [("value", reparsed v)]
  | None => JObj []
  end.

End Json.

(** ** Prisma writes on the booking, binding and config tables *)

Module PrismaTables.

Definition withRookieBooking (db : Db.t) (rows : list RookieBooking.t) : Db.t :=
  {| Db.store := Db.store db; Db.user := Db.user db; Db.binding := Db.binding db;
     Db.config := Db.config db; Db.leaveRequest := Db.leaveRequest db;
     Db.approval := Db.approval db; Db.rookieBooking := rows;
     Db.designerDemandOverride := Db.designerDemandOverride db |}.

Definition withBinding (db : Db.t) (rows : list Binding.t) : Db.t :=
  {| Db.store := Db.store db; Db.user := Db.user db; Db.binding := rows;
     Db.config := Db.config db; Db.leaveRequest := Db.leaveRequest db;
     Db.approval := Db.approval db; Db.rookieBooking := Db.rookieBooking db;
     Db.designerDemandOverride := Db.designerDemandOverride db |}.

(** [rookieBooking.create({ data })]; [None] when the generated id breaks
    the primary key. *)
Definition rookieBooking_create (pf : Platform) (storeId rookieId date : string)
    (startMin endMin : Z) (db : Db.t) : option (RookieBooking.t * Db.t) :=
  let id := cuid pf (map RookieBooking.id (Db.rookieBooking db)) in
  let row :=
    {| RookieBooking.id := id; RookieBooking.storeId := storeId;
       RookieBooking.rookieId := rookieId; RookieBooking.date := date;
       RookieBooking.startMin := startMin; RookieBooking.endMin := endMin |} in
  if existsb (fun b => String.eqb (RookieBooking.id b) id) (Db.rookieBooking db) then None
  else Some (row, withRookieBooking db (Db.rookieBooking db ++ [row])%list).

(** [rookieBooking.deleteMany({ where })]; no other table refers to a
    booking. *)
Definition rookieBooking_deleteMany (where_ : RookieBooking.t -> bool) (db : Db.t) : Db.t :=
  withRookieBooking db (List.filter (fun b => negb (where_ b)) (Db.rookieBooking db)).

(** [binding.create({ data })] *)
Definition binding_create (pf : Platform) (storeId assistantId designerId : string)
    (active : bool) (db : Db.t) : option (Binding.t * Db.t) :=
  let id := cuid pf (map Binding.id (Db.binding db)) in
  let row :=
    {| Binding.id := id; Binding.storeId := storeId; Binding.assistantId := assistantId;
       Binding.designerId := designerId; Binding.active := active |} in
  if existsb (fun b => String.eqb (Binding.id b) id) (Db.binding db) then None
  else Some (row, withBinding db (Db.binding db ++ [row])%list).

(** [binding.updateMany({ where, data: { active } })] *)
Definition binding_updateMany (where_ : Binding.t -> bool) (active : bool) (db : Db.t) : Db.t :=
  withBinding db
    (map (fun b =>
            if where_ b
            then {| Binding.id := Binding.id b; Binding.storeId := Binding.storeId b;
                    Binding.assistantId := Binding.assistantId b;
                    Binding.designerId := Binding.designerId b; Binding.active := active |}
            else b)
       (Db.binding db)).

Definition withConfig (db : Db.t) (rows : list Config.t) : Db.t :=
  {| Db.store := Db.store db; Db.user := Db.user db; Db.binding := Db.binding db;
     Db.config := rows; Db.leaveRequest := Db.leaveRequest db;
     Db.approval := Db.approval db; Db.rookieBooking := Db.rookieBooking db;
     Db.designerDemandOverride := Db.designerDemandOverride db |}.

(** [findFirst({ where, select: { id: true } })] on the config table. The
    rows of the model carry no id; no write removes or moves a config row,
    so the position of a row stands for its id. *)
Fixpoint findFirstId (where_ : Config.t -> bool) (table : list Config.t) : option nat :=
  match table with
  | [] => None
  | row :: rest => if where_ row then Some 0%nat else S <$> findFirstId where_ rest
  end.

(** [config.update({ where: { id }, data: { valueJson } })], [valueJson]
    being what [JSON.parse] makes of the new text; [None] when no row has
    the id. *)
Definition config_update (id : nat) (valueJson : json) (db : Db.t) :
    option (Config.t * Db.t) :=
  match Db.config db !! id with
  | Some row =>
      let row' :=
        {| Config.storeId := Config.storeId row; Config.key := Config.key row;
           Config.valueJson := Some valueJson;
           Config.effectiveFrom := Config.effectiveFrom row |} in
      Some (row', withConfig db (<[ id := row' ]> (Db.config db)))
  | None => None
  end.

(** [config.create({ data })] with [effectiveFrom: null]: the unique index
    on (storeId, key, effectiveFrom) holds null values apart, so it never
    rejects the row. The id of the new row is its position. *)
Definition config_create (storeId key : string) (valueJson : json) (db : Db.t) :
    nat * Config.t * Db.t :=
  let row :=
    {| Config.storeId := storeId; Config.key := key; Config.valueJson := Some valueJson;
       Config.effectiveFrom := None |} in
  (length (Db.config db), row, withConfig db (Db.config db ++ [row])%list).

End PrismaTables.

(** ** The rookie bookings route: POST (add) and DELETE (remove)

    The first file held in [src/src/app/api/rookie/bookings/route.ts]. The
    GET handler sorts by date in the database and is not modelled. *)

Module BookingsRoute.

Import Auth PrismaTables.

Record Body := { date : string; startMin : Z; endMin : Z }.

(** [z.number().int().min(0).max(24 * 60)] on a property of the body. *)
Definition minutes (v : option json) : option Z :=
  match v with
  | Some (JNum x) =>
      match JsNumber.toInteger x with
      | Some n => if ((0 <=? n) && (n <=? 24 * 60))%Z then Some n else None
      | None => None
      end
  | _ => None
  end.

Definition PostSchema (body : option json) : option Body :=
  match body with
  | Some (JObj fields) =>
      match jsonField "date" fields,
            minutes (jsonField "startMin" fields),
            minutes (jsonField "endMin" fields) with
      | Some (JStr d), Some s, Some e =>
          if (1 <=? String.length d)%nat
          then Some {| date := d; startMin := s; endMin := e |}
          else None
      | _, _, _ => None
      end
  | _ => None
  end.

Inductive Response :=
| Booking (booking : RookieBooking.t)
| Done
| Error (error : string) (status : nat)
| Thrown.

Definition POST (pf : Platform) (db : Db.t) (req : Request) : Response * Db.t :=
  match getCurrentUser db req with
  | None => (Error "UNAUTHORIZED" 401, db)
  | Some user =>
  if negb (bool_decide (User.role user = ROOKIE)) then (Error "FORBIDDEN" 403, db) else
  match PostSchema (body req) with
  | None => (Error "INVALID_BODY" 400, db)
  | Some parsed =>
  if negb (DateLib.isIsoDate (date parsed)) then (Error "INVALID_BODY" 400, db) else
  if (endMin parsed <=? startMin parsed)%Z then (Error "INVALID_RANGE" 400, db) else
  match rookieBooking_create pf (User.storeId user) (User.id user) (date parsed)
          (startMin parsed) (endMin parsed) db with
  | None => (Thrown, db)
  | Some (booking, db') => (Booking booking, db')
  end end end.

(** [id] is the query parameter, [None] when the URL has none. *)
Definition DELETE (db : Db.t) (req : Request) (id : option string) : Response * Db.t :=
  match getCurrentUser db req with
  | None => (Error "UNAUTHORIZED" 401, db)
  | Some user =>
  if negb (bool_decide (User.role user = ROOKIE)) then (Error "FORBIDDEN" 403, db) else
  match id with
  | None => (Error "MISSING_ID" 400, db)
  | Some id =>
  if String.eqb id "" then (Error "MISSING_ID" 400, db) else
  (Done,
   rookieBooking_deleteMany
     (fun b => String.eqb (RookieBooking.id b) id
               && String.eqb (RookieBooking.storeId b) (User.storeId user)
               && String.eqb (RookieBooking.rookieId b) (User.id user)) db)
  end end.

End BookingsRoute.

(** ** The bindings route: POST

    The route handler of [src/unnamed/part_003]. The GET handler sorts by
    creation time, a column the model does not carry. *)

Module BindingsRoute.

Import Auth PrismaTables.

Record Body := { assistantId : string; designerId : string }.

(** [z.object({ assistantId: z.string().min(1), designerId: z.string().min(1) })] *)
Definition PostSchema (body : option json) : option Body :=
  match body with
  | Some (JObj fields) =>
      match jsonField "assistantId" fields, jsonField "designerId" fields with
      | Some (JStr a), Some (JStr d) =>
          if ((1 <=? String.length a) && (1 <=? String.length d))%nat
          then Some {| assistantId := a; designerId := d |}
          else None
      | _, _ => None
      end
  | _ => None
  end.

Inductive Response :=
| Created (binding : Binding.t)
| Error (error : string) (status : nat)
| Thrown.

(** The active user of the store with the id. *)
Definition staff (db : Db.t) (storeId id : string) : option User.t :=
  findFirst (fun u => String.eqb (User.id u) id
                      && String.eqb (User.storeId u) storeId
                      && User.active u) (Db.user db).

Definition POST (pf : Platform) (db : Db.t) (req : Request) : Response * Db.t :=
  match getCurrentUser db req with
  | None => (Error "UNAUTHORIZED" 401, db)
  | Some user =>
  if negb (requireRole user [MANAGER]) then (Error "FORBIDDEN" 403, db) else
  match PostSchema (body req) with
  | None => (Error "INVALID_BODY" 400, db)
  | Some parsed =>
  let assistant := staff db (User.storeId user) (assistantId parsed) in
  let designer := staff db (User.storeId user) (designerId parsed) in
  match assistant with
  | None => (Error "INVALID_ASSISTANT" 400, db)
  | Some assistant =>
  if negb (bool_decide (User.role assistant = ASSISTANT))
  then (Error "INVALID_ASSISTANT" 400, db) else
  match designer with
  | None => (Error "INVALID_DESIGNER" 400, db)
  | Some designer =>
  if negb (bool_decide (User.role designer = DESIGNER))
  then (Error "INVALID_DESIGNER" 400, db) else
  match binding_create pf (User.storeId user) (User.id assistant) (User.id designer) true db with
  | None => (Thrown, db)
  | Some (binding, db') => (Created binding, db')
  end end end end end.

End BindingsRoute.

(** ** The manager's server actions on bindings

    [createBinding] and [deleteBinding] of [src/unnamed/part_005], with
    the ids read from the form. A server action returns nothing, so the
    result is the store; a throw leaves the store as it was. *)

Module AdminBindings.

Import Auth PrismaTables.

Definition deleteBinding (db : Db.t) (req : Request) (bindingId : string) : Db.t :=
  match getCurrentUser db req with
  | None => db
  | Some user =>
  if negb (bool_decide (User.role user = MANAGER)) then db else
  if String.eqb bindingId "" then db else
  binding_updateMany
    (fun b => String.eqb (Binding.id b) bindingId
              && String.eqb (Binding.storeId b) (User.storeId user)
              && Binding.active b)
    false db
  end.

Definition createBinding (pf : Platform) (db : Db.t) (req : Request)
    (assistantId designerId : string) : Db.t :=
  match getCurrentUser db req with
  | None => db
  | Some user =>
  if negb (bool_decide (User.role user = MANAGER)) then db else
  if String.eqb assistantId "" || String.eqb designerId "" then db else
  match BindingsRoute.staff db (User.storeId user) assistantId,
        BindingsRoute.staff db (User.storeId user) designerId with
  | Some assistant, Some designer =>
      if negb (bool_decide (User.role assistant = ASSISTANT))
         && negb (bool_decide (User.role assistant = ROOKIE))
      then db
      else if negb (bool_decide (User.role designer = DESIGNER)) then db
      else match binding_create pf (User.storeId user) (User.id assistant)
                   (User.id designer) true db with
           | Some (_, db') => db'
           | None => db
           end
  | _, _ => db
  end end.

End AdminBindings.


(** ** The config route: PUT

    The PUT handler of [src/src/app/api/admin/config/route.ts]. The GET
    handler sorts by key in the database and is not modelled. *)

Module ConfigRoute.

Import Auth PrismaTables.

(** [value] is [None] when the body has no such property. *)
Record Body := { key : string; value : option json }.

(** [z.object({ key: z.string().min(1), value: z.any() })] *)
Definition PutSchema (body : option json) : option Body :=
  match body with
  | Some (JObj fields) =>
      match jsonField "key" fields with
      | Some (JStr k) =>
          if (1 <=? String.length k)%nat
          then Some {| key := k; value := jsonField "value" fields |}
          else None
      | _ => None
      end
  | _ => None
  end.

(** The row of the store for the key that is in force without a start
    date. *)
Definition current (storeId key : string) (c : Config.t) : bool :=
  String.eqb (Config.storeId c) storeId
  && String.eqb (Config.key c) key
  && bool_decide (Config.effectiveFrom c = None).

Inductive Response :=
| Saved (id : nat) (config : Config.t)
| Error (error : string) (status : nat)
| Thrown.

Definition PUT (db : Db.t) (req : Request) : Response * Db.t :=
  match getCurrentUser db req with
  | None => (Error "UNAUTHORIZED" 401, db)
  | Some user =>
  if negb (requireRole user [MANAGER]) then (Error "FORBIDDEN" 403, db) else
  match PutSchema (body req) with
  | None => (Error "INVALID_BODY" 400, db)
  | Some parsed =>
  let existing := findFirstId (current (User.storeId user) (key parsed)) (Db.config db) in
  let valueJson := Json.wrapped (value parsed) in
  match existing with
  | Some id =>
      match config_update id valueJson db with
      | Some (config, db') => (Saved id config, db')
      | None => (Thrown, db)
      end
  | None =>
      let '(id, config, db') := config_create (User.storeId user) (key parsed) valueJson db in
      (Saved id config, db')
  end end end.

End ConfigRoute.

(** ** The manager's server action on the configuration

    [parseInputValue] and [updateConfig] of [src/unnamed/part_005], with
    the key and the value read from the form. *)

Module AdminConfig.

Import Auth PrismaTables.

Definition parseInputValue (raw : string) : json :=
  if String.eqb raw "true" then JBool true
  else if String.eqb raw "false" then JBool false
  else
    let asNum := JsNumber.ofString raw in
    if negb (PrimFloat.is_nan asNum) && negb (String.eqb (Js.trim raw) "")
    then JNum asNum
    else JStr raw.

Definition updateConfig (db : Db.t) (req : Request) (key raw : string) : Db.t :=
  match getCurrentUser db req with
  | None => db
  | Some user =>
  if negb (bool_decide (User.role user = MANAGER)) then db else
  if String.eqb key "" then db else
  let valueJson := Json.wrapped (Some (parseInputValue raw)) in
  let existing := findFirstId (ConfigRoute.current (User.storeId user) key) (Db.config db) in
  match existing with
  | Some id =>
      match config_update id valueJson db with
      | Some (_, db') => db'
      | None => db
      end
  | None => (config_create (User.storeId user) key valueJson db).2
  end end.

End AdminConfig.

(** ** The calendar page: the grid of weeks

    [monthDaysGrid] of the leave page, the client component held in
    [src/src/app/api/auth/line/login/route.ts]. *)

Module LeavePage.

(** [new Map(days.map((d) => [d.date, d]))]: a later day replaces an
    earlier one of the same date. *)
Definition byDate (days : list AvailabilityDay.t) : gmap string AvailabilityDay.t :=
  foldl (fun acc d => <[ AvailabilityDay.date d := d ]> acc) ∅ days.

(** [list.slice(i, i + 7)] *)
Definition slice7 {A} (i : nat) (items : list A) : list A := take 7 (drop i items).

(** [for (; i < list.length; i += 7) weeks.push(list.slice(i, i + 7))];
    [fuel] bounds the number of iterations. *)
Fixpoint weeksFrom {A} (fuel i : nat) (items : list A) : list (list A) :=
  match fuel with
  | O => []
  | S fuel' =>
      if (i <? length items)%nat
      then slice7 i items :: weeksFrom fuel' (i + 7) items
      else []
  end.

Section Grid.

(** [new Date(Date.UTC(y, m - 1, 1, 12, 0, 0)).getUTCDay()]; [None] when
    the date is invalid and the result NaN. *)
Context (getUTCDay : float -> float -> option nat).

(** The weekday of the first of the month of the date [first]; without a
    "-" in the text [m] is undefined and the date invalid. *)
Definition startDow (first : string) : option nat :=
  match map JsNumber.ofString (Js.split "-" first) with
  | y :: m :: _ => getUTCDay y m
  | _ => None
  end.

(** The cells before the weeks are cut: no cell is pushed when
    [startDow] is NaN. *)
Definition cells (days : list AvailabilityDay.t) (first : string) :
    list (option AvailabilityDay.t) :=
  (replicate (default 0%nat (startDow first)) None
   ++ map (fun d => byDate days !! AvailabilityDay.date d) days)%list.

Definition monthDaysGrid (days : list AvailabilityDay.t) :
    list (list (option AvailabilityDay.t)) :=
  match days with
  | [] => []
  | d0 :: _ =>
      let first := AvailabilityDay.date d0 in
      if String.eqb first "" then []
      else let list := cells days first in weeksFrom (length list) 0 list
  end.

End Grid.

End LeavePage.


(** ** A reference platform

    The proleptic Gregorian calendar of [Date.UTC], the two time zones the
    deployment names (both within twelve hours of UTC, so that noon UTC
    falls on the same calendar day there), a clock that reads a given
    day of the month, and an id generator that outgrows every id in use. *)

Module Reference.

Definition isLeap (y : Z) : bool :=
  ((y mod 4 =? 0) && negb (y mod 100 =? 0) || (y mod 400 =? 0))%Z.

(** Days of month [m] (1 to 12) of year [y]. *)
Definition monthLength (y m : Z) : nat :=
  if (m =? 2)%Z then (if isLeap y then 29 else 28)
  else if ((m =? 4) || (m =? 6) || (m =? 9) || (m =? 11))%Z then 30
  else 31.

(** [Date.UTC] reads a year from 0 to 99 as 1900 + year. *)
Definition fullYear (y : Z) : Z :=
  if ((0 <=? y) && (y <=? 99))%Z then (1900 + y)%Z else y.

(** Day 0 of month index [m] is the last day of month index [m - 1]. *)
Definition lastDay (y m : Z) : option nat :=
  let mi := (m - 1)%Z in
  let Y := (fullYear y + mi / 12)%Z in
  if (Y <=? 275759)%Z then Some (monthLength Y (mi mod 12 + 1)) else None.

(** Days from 1970-01-01 to the civil date [y]-[m]-[d], [m] from 1 to 12. *)
Definition daysFromCivil (y m d : Z) : Z :=
  let y1 := (if m <=? 2 then y - 1 else y)%Z in
  let era := (y1 / 400)%Z in
  let yoe := (y1 - era * 400)%Z in
  let mp := (if m <=? 2 then m + 9 else m - 3)%Z in
  let doy := ((153 * mp + 2) / 5 + d - 1)%Z in
  let doe := (yoe * 365 + yoe / 4 - yoe / 100 + doy)%Z in
  (era * 146097 + doe - 719468)%Z.

Definition weekdayNames : list string :=
  ["Sun"; "Mon"; "Tue"; "Wed"; "Thu"; "Fri"; "Sat"].

Definition knownZones : list string := ["Asia/Taipei"; "UTC"].

Definition weekdayShort (timeZone : string) (y m d : Z) : option string :=
  if negb (Js.includes knownZones timeZone) then None else
  let mi := (m - 1)%Z in
  let Y := (fullYear y + mi / 12)%Z in
  if negb (Y <=? 275759)%Z then None else
  let days := (daysFromCivil Y (mi mod 12 + 1) 1 + (d - 1))%Z in
  weekdayNames !! Z.to_nat ((days + 4) mod 7).

Definition longestId (ids : list string) : nat :=
  foldr (fun s acc => Nat.max (String.length s) acc) 0%nat ids.

Fixpoint repeatChar (c : ascii) (n : nat) : string :=
  match n with O => EmptyString | S n' => String c (repeatChar c n') end.

Definition freshId (ids : list string) : string := repeatChar "c" (S (longestId ids)).

(** The platform on a day whose day of the month is [today]. *)
Definition platform (today : float) : Platform :=
  {| Date_UTC_lastDay := lastDay;
     Intl_weekdayShort := weekdayShort;
     Intl_dayNow := fun timeZone =>
       if Js.includes knownZones timeZone then Some today else None;
     cuid := freshId |}.

End Reference.

(** ** The vocabulary of the specification *)

Module Spec.

Import ConfigLib DateLib.

(** The user has a PENDING or APPROVED leave request of the store on the
    date. *)
Definition hasActiveLeave (db : Db.t) (storeId userId date : string) : bool :=
  existsb
    (fun lr =>
       String.eqb (LeaveRequest.storeId lr) storeId
       && String.eqb (LeaveRequest.userId lr) userId
       && String.eqb (LeaveRequest.date lr) date
       && Quota.isOffStatus (LeaveRequest.status lr))
    (Db.leaveRequest db).

(** The rookie has a booking of the store on the date. *)
Definition hasBooking (db : Db.t) (storeId rookieId date : string) : bool :=
  existsb
    (fun b =>
       String.eqb (RookieBooking.storeId b) storeId
       && String.eqb (RookieBooking.rookieId b) rookieId
       && String.eqb (RookieBooking.date b) date)
    (Db.rookieBooking db).

(** The active users of the store in a role. *)
Definition roster (db : Db.t) (storeId : string) (role : Role) : list User.t :=
  List.filter
    (fun u => String.eqb (User.storeId u) storeId && User.active u
              && bool_decide (User.role u = role))
    (Db.user db).

(** The users of a roster who are not off on the date. *)
Definition working (db : Db.t) (storeId date : string) (roster : list User.t) : list User.t :=
  List.filter (fun u => negb (hasActiveLeave db storeId (User.id u) date)) roster.

(** The sum of a weight over a roster, added in roster order from 0. *)
Definition total (w : User.t -> float) (roster : list User.t) : float :=
  foldl (fun acc u => PrimFloat.add acc (w u)) 0%float roster.

(** What a working rookie adds to the day's rookie supply. *)
Definition rookieContribution (db : Db.t) (storeId date : string) (u : User.t) : float :=
  if hasBooking db storeId (User.id u) date
     && getBooleanConfig db storeId "rookie_any_booking_supply_zero" true
  then getNumberConfig db storeId "rookie_guest_supply" 0
  else match User.baseSupply u with
       | Some own => own
       | None => getNumberConfig db storeId "rookie_support_supply" 0.7
       end.

(** The key of the unique index [LeaveRequest_userId_date_key]. *)
Definition userDate (r : LeaveRequest.t) : string * string :=
  (LeaveRequest.userId r, LeaveRequest.date r).

(** The primary key of [LeaveRequest] holds. *)
Definition idsUnique (db : Db.t) : Prop :=
  NoDup (map LeaveRequest.id (Db.leaveRequest db)).

(** At most one leave request, of any status, per user and date. *)
Definition userDateUnique (db : Db.t) : Prop :=
  NoDup (map userDate (Db.leaveRequest db)).

(** A PENDING mirror of [existing] that [user] created: a row of the
    user's store, linked to [existing], still PENDING, created by [user]. *)
Definition ownPendingMirror (user : User.t) (existing x : LeaveRequest.t) : bool :=
  String.eqb (LeaveRequest.storeId x) (User.storeId user)
  && Js.optEqb (LeaveRequest.linkedToId x) (LeaveRequest.id existing)
  && bool_decide (LeaveRequest.status x = PENDING)
  && Js.optEqb (LeaveRequest.createdByUserId x) (User.id user).

(** What cancelling [existing] does to a row: the request itself and the
    user's own PENDING mirrors of it become CANCELED. *)
Definition cancelRow (user : User.t) (existing x : LeaveRequest.t) : LeaveRequest.t :=
  if String.eqb (LeaveRequest.id x) (LeaveRequest.id existing)
  then Prisma.applyData (Prisma.setStatus CANCELED) x
  else if ownPendingMirror user existing x
  then Prisma.applyData (Prisma.setStatus CANCELED) x
  else x.

(** What deciding the request [id] does to a row: the request itself and
    the PENDING rows linked to it take the resulting status. *)
Definition decideRow (id : string) (result : LeaveRequestStatus) (x : LeaveRequest.t) :
    LeaveRequest.t :=
  if String.eqb (LeaveRequest.id x) id
  then Prisma.applyData (Prisma.setStatus result) x
  else if Js.optEqb (LeaveRequest.linkedToId x) id
          && bool_decide (LeaveRequest.status x = PENDING)
  then Prisma.applyData (Prisma.setStatus result) x
  else x.

(** The store after the manager [manager] decided the request [id]: every
    row passed through [decideRow], and one approval record more. *)
Definition decided (pf : Platform) (db : Db.t) (manager : User.t) (id : string)
    (action : ApprovalAction) (reason : option string) (result : LeaveRequestStatus) : Db.t :=
  Prisma.withApproval
    (Prisma.withLeaveRequest db (map (decideRow id result) (Db.leaveRequest db)))
    (Db.approval db ++
       [ {| Approval.id := cuid pf (map Approval.id (Db.approval db));
            Approval.storeId := User.storeId manager;
            Approval.leaveRequestId := id;
            Approval.managerId := User.id manager;
            Approval.action := action;
            Approval.reason := reason |} ])%list.

(** The id generator gives the approval table a new id. *)
Definition approvalIdFresh (pf : Platform) (db : Db.t) : Prop :=
  ~ In (cuid pf (map Approval.id (Db.approval db))) (map Approval.id (Db.approval db)).

(** An update in place: the row [ex] takes [data], every other row stays. *)
Definition inPlace (ex : LeaveRequest.t) (data : Prisma.Data.t) (rows : list LeaveRequest.t) :
    list LeaveRequest.t :=
  map (fun x => if bool_decide (x = ex) then Prisma.applyData data x else x) rows.

(** The row is a PENDING mirror of the request [parentId], for the
    assistant and the date. *)
Definition isMirrorOf (assistantId date parentId : string) (m : LeaveRequest.t) : bool :=
  String.eqb (LeaveRequest.userId m) assistantId
  && String.eqb (LeaveRequest.date m) date
  && bool_decide (LeaveRequest.status m = PENDING)
  && bool_decide (LeaveRequest.source m = LeaveRequestSource.BINDING_MIRROR)
  && Js.optEqb (LeaveRequest.linkedToId m) parentId.

Definition hasMirror (db : Db.t) (assistantId date parentId : string) : bool :=
  existsb (isMirrorOf assistantId date parentId) (Db.leaveRequest db).

(** The user has a PENDING or APPROVED request on the date, in any store
    (the lookups of the request route have no store filter). *)
Definition hasActiveRequest (db : Db.t) (userId date : string) : bool :=
  existsb
    (fun r => String.eqb (LeaveRequest.userId r) userId
              && String.eqb (LeaveRequest.date r) date
              && LeaveRoute.isActiveStatus (LeaveRequest.status r))
    (Db.leaveRequest db).

(** C4 as the specification words it, for one request: when the
    designer's request is accepted under [auto_create], the assistant of
    every active binding of the designer has a PENDING mirror linked to it. *)
Definition mirrorsEveryBinding (pf : Platform) (db : Db.t) (req : Auth.Request) : Prop :=
  forall user lr db',
    Auth.getCurrentUser db req = Some user ->
    User.role user = DESIGNER ->
    ConfigLib.getStringConfig db (User.storeId user) "binding_mirror_leave" "auto_create"
    = "auto_create" ->
    LeaveRoute.POST pf db req = (RespLeaveRequest lr, db') ->
    forall b,
      In b (Db.binding db) ->
      Binding.active b = true ->
      Binding.storeId b = User.storeId user ->
      Binding.designerId b = User.id user ->
      hasMirror db' (Binding.assistantId b) (LeaveRequest.date lr) (LeaveRequest.id lr) = true.

(** APPROVED, REJECTED and CANCELED: the statuses the specification calls
    terminal. *)
Definition isTerminal (st : LeaveRequestStatus) : bool :=
  bool_decide (st ∈ [APPROVED; REJECTED; CANCELED]).

(** [y] is the record [x], possibly with other contents: same id, user
    and date. *)
Definition sameRecord (x y : LeaveRequest.t) : Prop :=
  LeaveRequest.id y = LeaveRequest.id x
  /\ LeaveRequest.userId y = LeaveRequest.userId x
  /\ LeaveRequest.date y = LeaveRequest.date x.

(** C5 as the specification words it, for one row: a terminal status is
    never changed again. *)
Definition keepsTerminal (x y : LeaveRequest.t) : Prop :=
  isTerminal (LeaveRequest.status x) = true ->
  sameRecord x y /\ LeaveRequest.status y = LeaveRequest.status x.

(** What a request may do to a row: nothing, or bring a CANCELED or
    REJECTED row back to PENDING. *)
Definition revived (x y : LeaveRequest.t) : Prop :=
  y = x
  \/ (sameRecord x y
      /\ LeaveRoute.isReusableStatus (LeaveRequest.status x) = true
      /\ LeaveRequest.status y = PENDING).

(** What a decision or a cancellation may do to a row: change it only if
    it is PENDING. *)
Definition frozen (x y : LeaveRequest.t) : Prop :=
  sameRecord x y /\ (LeaveRequest.status x <> PENDING -> y = x).

(** What a manager-created leave may do to a row: nothing, or make it
    APPROVED. *)
Definition approvedOver (x y : LeaveRequest.t) : Prop :=
  y = x \/ (sameRecord x y /\ LeaveRequest.status y = APPROVED).

(** Both keys of the leave-request table. *)
Definition keysUnique (db : Db.t) : Prop := idsUnique db /\ userDateUnique db.

(** Row by row: the row at each position of the old table is still at that
    position, changed as [P] allows. *)
Definition stepwise (P : LeaveRequest.t -> LeaveRequest.t -> Prop) (db db' : Db.t) : Prop :=
  forall (i : nat) (x : LeaveRequest.t),
    Db.leaveRequest db !! i = Some x ->
    exists y, Db.leaveRequest db' !! i = Some y /\ P x y.

(** One step of the system: a request served by a route or a server
    action, rows deleted (by the seed script, or by a cascade from a deleted
    user), or any change to the other tables. *)
Inductive step : Db.t -> Db.t -> Prop :=
| step_request pf db req :
    step db (LeaveRoute.POST pf db req).2
| step_cancel db req :
    step db (LeaveRoute.DELETE db req).2
| step_decide pf db req id :
    step db (ApproveRoute.POST pf db req id).2
| step_setLeaveStatus pf db req id action :
    step db (AdminPage.setLeaveStatus pf db req id action)
| step_createManagerLeave pf db req userId date :
    step db (AdminPage.createManagerLeave pf db req userId date)
| step_clearAllLeaves db req :
    step db (AdminPage.clearAllLeaves db req)
| step_delete db where_ :
    step db (Prisma.leaveRequest_deleteMany where_ db)
| step_elsewhere db db' :
    Db.leaveRequest db' = Db.leaveRequest db ->
    step db db'.

(** The states the system can be in: from a store without leave requests,
    any number of steps. *)
Inductive reachable : Db.t -> Prop :=
| reachable_start db : Db.leaveRequest db = [] -> reachable db
| reachable_step db db' : reachable db -> step db db' -> reachable db'.

(** An active binding of the assistant, in the store, whose designer is
    not off on the date. *)
Definition masterWorks (db : Db.t) (storeId assistantId date : string) : Prop :=
  exists b,
    In b (Db.binding db)
    /\ Binding.storeId b = storeId
    /\ Binding.assistantId b = assistantId
    /\ Binding.active b = true
    /\ hasActiveLeave db storeId (Binding.designerId b) date = false.

(** Every stored leave date and booking date is an ISO day, as the routes
    that write them check. *)
Definition datesWellFormed (db : Db.t) : Prop :=
  Forall (fun lr => isIsoDate (LeaveRequest.date lr) = true) (Db.leaveRequest db)
  /\ Forall (fun b => isIsoDate (RookieBooking.date b) = true) (Db.rookieBooking db).

(** No month of the platform's calendar has more than 31 days. *)
Definition calendarBounded (pf : Platform) : Prop :=
  forall y m n, Date_UTC_lastDay pf y m = Some n -> (n <= 31)%nat.

End Spec.

(** ** What the routes see of the store *)

Module View.

(** The PENDING and APPROVED rows of a leave table, in table order. *)
Definition activeRows (rows : list LeaveRequest.t) : list LeaveRequest.t :=
  List.filter (fun lr => Quota.isOffStatus (LeaveRequest.status lr)) rows.

(** The user's PENDING or APPROVED request of the store for the date: the
    row the cancel handler looks up. *)
Definition ownActive (db : Db.t) (storeId userId date : string) : option LeaveRequest.t :=
  findFirst
    (fun r => String.eqb (LeaveRequest.storeId r) storeId
              && String.eqb (LeaveRequest.userId r) userId
              && String.eqb (LeaveRequest.date r) date
              && bool_decide (LeaveRequest.status r ∈ [PENDING; APPROVED]))
    (Db.leaveRequest db).

(** The id generator never returns an id that is in use. *)
Definition cuidFresh (pf : Platform) : Prop :=
  forall ids, ~ In (cuid pf ids) ids.

(** Two stores differ in their leave requests only. *)
Definition sameButLeaves (db db' : Db.t) : Prop :=
  Db.store db' = Db.store db /\ Db.user db' = Db.user db /\ Db.binding db' = Db.binding db
  /\ Db.config db' = Db.config db /\ Db.approval db' = Db.approval db
  /\ Db.rookieBooking db' = Db.rookieBooking db
  /\ Db.designerDemandOverride db' = Db.designerDemandOverride db.

(** A write that keeps the bookings and gives every leave request the
    date of an earlier one, or an ISO shaped date. *)
Definition keepsDates (db db' : Db.t) : Prop :=
  Db.rookieBooking db' = Db.rookieBooking db
  /\ forall lr', In lr' (Db.leaveRequest db') ->
       (exists lr, In lr (Db.leaveRequest db) /\ LeaveRequest.date lr' = LeaveRequest.date lr)
       \/ DateLib.isIsoDate (LeaveRequest.date lr') = true.

(** The binding joins two active users of its store, the first in one of
    the roles [roles], the second a DESIGNER. *)
Definition joins (db : Db.t) (roles : list Role) (b : Binding.t) : Prop :=
  exists assistant designer,
    In assistant (Db.user db) /\ In designer (Db.user db)
    /\ User.id assistant = Binding.assistantId b
    /\ User.id designer = Binding.designerId b
    /\ User.storeId assistant = Binding.storeId b
    /\ User.storeId designer = Binding.storeId b
    /\ User.active assistant = true /\ User.active designer = true
    /\ In (User.role assistant) roles
    /\ User.role designer = DESIGNER.

(** At most one config row in force without a start date per store and
    key. *)
Definition configKeysUnique (db : Db.t) : Prop :=
  forall storeId key,
    (length (List.filter (ConfigRoute.current storeId key) (Db.config db)) <= 1)%nat.

(** Two stores differ in their config rows only. *)
Definition sameButConfig (db db' : Db.t) : Prop :=
  Db.store db' = Db.store db /\ Db.user db' = Db.user db /\ Db.binding db' = Db.binding db
  /\ Db.leaveRequest db' = Db.leaveRequest db /\ Db.approval db' = Db.approval db
  /\ Db.rookieBooking db' = Db.rookieBooking db
  /\ Db.designerDemandOverride db' = Db.designerDemandOverride db.

End View.


(** ** A sample store, after the seed script *)

Module Scenario.

Definition storeId : string := "store_default".

Definition cfg (key : string) (value : json) : Config.t :=
  {| Config.storeId := storeId; Config.key := key;
     Config.valueJson := Some (JObj [("value", value)]);
     Config.effectiveFrom := None |}.

Definition seedConfigs : list Config.t :=
  [ cfg "safety_factor" (JNum 1.1);
    cfg "assistant_supply" (JNum 1.0);
    cfg "rookie_support_supply" (JNum 0.7);
    cfg "rookie_guest_supply" (JNum 0);
    cfg "designer_default_demand" (JNum 0.3);
    cfg "phase1_start_day" (JNum 1);
    cfg "phase1_end_day" (JNum 5);
    cfg "phase2_start_day" (JNum 6);
    cfg "assistant_block_saturday" (JBool true);
    cfg "assistant_block_if_master_working" (JBool true);
    cfg "binding_mirror_leave" (JStr "auto_create");
    cfg "rookie_any_booking_supply_zero" (JBool true) ].

Definition mkUser (id : string) (role : Role) (baseSupply : option float) : User.t :=
  {| User.id := id; User.storeId := storeId; User.displayName := id; User.role := role;
     User.active := true; User.baseDemand := None; User.baseSupply := baseSupply |}.

Definition manager : User.t := mkUser "u_manager" MANAGER None.
Definition ray : User.t := mkUser "u_ray" DESIGNER None.
Definition joel : User.t := mkUser "u_joel" DESIGNER None.
Definition song : User.t := mkUser "u_song" ASSISTANT (Some 1%float).
Definition rj : User.t := mkUser "u_rj" ROOKIE (Some 0.7%float).

Definition seedBinding : Binding.t :=
  {| Binding.id := "b_song_ray"; Binding.storeId := storeId;
     Binding.assistantId := "u_song"; Binding.designerId := "u_ray";
     Binding.active := true |}.

(** The store right after seeding: no leave request yet. *)
Definition seed : Db.t :=
  {| Db.store := [ {| Store.id := storeId; Store.timezone := "Asia/Taipei" |} ];
     Db.user := [manager; ray; joel; song; rj];
     Db.binding := [seedBinding];
     Db.config := seedConfigs;
     Db.leaveRequest := [];
     Db.approval := [];
     Db.rookieBooking := [];
     Db.designerDemandOverride := [] |}.

Definition leave (id userId date : string) (status : LeaveRequestStatus)
    (source : LeaveRequestSource.t) (createdBy : string) (linkedToId : option string) :
    LeaveRequest.t :=
  {| LeaveRequest.id := id; LeaveRequest.storeId := storeId;
     LeaveRequest.userId := userId; LeaveRequest.date := date;
     LeaveRequest.status := status; LeaveRequest.source := source;
     LeaveRequest.createdByUserId := Some createdBy;
     LeaveRequest.linkedToId := linkedToId |}.

Definition withLeaves (rows : list LeaveRequest.t) : Db.t :=
  Prisma.withLeaveRequest seed rows.

Definition booking (id rookieId date : string) : RookieBooking.t :=
  {| RookieBooking.id := id; RookieBooking.storeId := storeId;
     RookieBooking.rookieId := rookieId; RookieBooking.date := date;
     RookieBooking.startMin := 600; RookieBooking.endMin := 660 |}.

(** Song is off on 2024-06-04; rj has a client on 2024-06-05. *)
Definition june : Db.t :=
  {| Db.store := Db.store seed; Db.user := Db.user seed; Db.binding := Db.binding seed;
     Db.config := Db.config seed;
     Db.leaveRequest :=
       [leave "lr1" "u_song" "2024-06-04" APPROVED LeaveRequestSource.SELF "u_song" None];
     Db.approval := [];
     Db.rookieBooking := [booking "bk1" "u_rj" "2024-06-05"];
     Db.designerDemandOverride := [] |}.

(** Ray asked for 2024-06-10 and song got the mirror; rj asked for the
    same day on their own. *)
Definition mirrored : Db.t :=
  withLeaves
    [ leave "lr1" "u_ray" "2024-06-10" PENDING LeaveRequestSource.SELF "u_ray" None;
      leave "lr2" "u_song" "2024-06-10" PENDING LeaveRequestSource.BINDING_MIRROR "u_ray"
        (Some "lr1");
      leave "lr3" "u_rj" "2024-06-10" PENDING LeaveRequestSource.SELF "u_rj" None ].

(** The manager's request carrying [{ "action": action }]. *)
Definition decisionOf (action : string) : Auth.Request :=
  {| Auth.mockUserId := Some "u_manager";
     Auth.body := Some (JObj [("action", JStr action)]) |}.

(** A second designer, joel, with a PENDING request of his own for the
    day, next to ray's request and the mirror ray's request gave song. *)
Definition busyDay : Db.t :=
  withLeaves
    [ leave "lr1" "u_ray" "2024-06-10" PENDING LeaveRequestSource.SELF "u_ray" None;
      leave "lr2" "u_song" "2024-06-10" PENDING LeaveRequestSource.BINDING_MIRROR "u_ray"
        (Some "lr1");
      leave "lr3" "u_rj" "2024-06-10" PENDING LeaveRequestSource.SELF "u_rj" None;
      leave "lr4" "u_joel" "2024-06-10" PENDING LeaveRequestSource.SELF "u_joel" None ].

Definition paramsFor (u : User.t) (month : string) : Params.t :=
  {| Params.storeId := storeId; Params.storeTimeZone := "Asia/Taipei";
     Params.month := month;
     Params.requester := {| Requester.userId := User.id u; Requester.role := User.role u |} |}.

(** A request of [u] carrying [{ "date": date }]. *)
Definition requestOf (u : User.t) (date : string) : Auth.Request :=
  {| Auth.mockUserId := Some (User.id u);
     Auth.body := Some (JObj [("date", JStr date)]) |}.

(** Song already has an approved day off on 2024-06-04 (the store
    [june]) and asks for it again. *)
Definition songAgain : Auth.Request := requestOf song "2024-06-04".

(** rj cancelled a request for 2024-06-10 earlier. *)
Definition rjCanceled : Db.t :=
  withLeaves
    [ leave "lr1" "u_rj" "2024-06-10" CANCELED LeaveRequestSource.SELF "u_rj" None ].

(** The store [june] with two closed dates configured. *)
Definition closedJune : Db.t :=
  {| Db.store := Db.store june; Db.user := Db.user june; Db.binding := Db.binding june;
     Db.config := (Db.config june ++ [cfg "closed_dates" (JStr "2024-06-18, 2024-06-19")])%list;
     Db.leaveRequest := Db.leaveRequest june; Db.approval := Db.approval june;
     Db.rookieBooking := Db.rookieBooking june;
     Db.designerDemandOverride := Db.designerDemandOverride june |}.

(** The scenario of the specification: one designer of demand 1.0, one
    assistant of supply 1.0, no rookie, and no configuration row, so that
    every default applies (safety factor 1.1). *)
Definition tight : Db.t :=
  {| Db.store := Db.store seed; Db.user := [ray; song]; Db.binding := [];
     Db.config := []; Db.leaveRequest := []; Db.approval := [];
     Db.rookieBooking := []; Db.designerDemandOverride := [] |}.

(** The store [tight] with the safety factor set to 1: supply 1.0 against
    demand 1.0, a remaining quota of exactly 0. *)
Definition balanced : Db.t :=
  {| Db.store := Db.store tight; Db.user := Db.user tight; Db.binding := [];
     Db.config := [cfg "safety_factor" (JNum 1)]; Db.leaveRequest := [];
     Db.approval := []; Db.rookieBooking := []; Db.designerDemandOverride := [] |}.

End Scenario.

(** ** More sample requests *)

Module Cases.

Import Scenario.

(** The leave table of [june] with a request rj cancelled earlier. *)
Definition juneHistory : list LeaveRequest.t :=
  (Db.leaveRequest june
   ++ [leave "lr2" "u_rj" "2024-06-07" CANCELED LeaveRequestSource.SELF "u_rj" None])%list.

(** A form the manager submits on the admin page. *)
Definition managerForm : Auth.Request :=
  {| Auth.mockUserId := Some "u_manager"; Auth.body := None |}.

(** rj books a client on 2024-06-12 from 10:00 to 11:00. *)
Definition rjBooks : Auth.Request :=
  {| Auth.mockUserId := Some "u_rj";
     Auth.body := Some (JObj [("date", JStr "2024-06-12");
                              ("startMin", JNum 600); ("endMin", JNum 660)]) |}.

(** A request of rj without a body. *)
Definition rjAsks : Auth.Request :=
  {| Auth.mockUserId := Some "u_rj"; Auth.body := None |}.

(** The manager ties song to joel. *)
Definition managerBinds : Auth.Request :=
  {| Auth.mockUserId := Some "u_manager";
     Auth.body := Some (JObj [("assistantId", JStr "u_song"); ("designerId", JStr "u_joel")]) |}.

(** The store [june] where ray's demand on 2024-06-05 is set to 2.5. *)
Definition juneOverride : Db.t :=
  {| Db.store := Db.store june; Db.user := Db.user june; Db.binding := Db.binding june;
     Db.config := Db.config june; Db.leaveRequest := Db.leaveRequest june;
     Db.approval := Db.approval june; Db.rookieBooking := Db.rookieBooking june;
     Db.designerDemandOverride :=
       [ {| DesignerDemandOverride.id := "o1"; DesignerDemandOverride.storeId := storeId;
            DesignerDemandOverride.designerId := "u_ray";
            DesignerDemandOverride.date := "2024-06-05";
            DesignerDemandOverride.demand := 2.5 |} ] |}.

(** The manager sets the safety factor to 1.25. *)
Definition managerPuts : Auth.Request :=
  {| Auth.mockUserId := Some "u_manager";
     Auth.body := Some (JObj [("key", JStr "safety_factor"); ("value", JNum 1.25)]) |}.

(** The weekday (0 is Sunday) of the first of month [m] of year [y], for
    whole numbers of a year and a month. *)
Definition firstWeekday (y m : float) : option nat :=
  match JsNumber.toInteger y, JsNumber.toInteger m with
  | Some y, Some m =>
      let mi := (m - 1)%Z in
      let Y := (Reference.fullYear y + mi / 12)%Z in
      if (Y <=? 275759)%Z
      then Some (Z.to_nat ((Reference.daysFromCivil Y (mi mod 12 + 1) 1 + 4) mod 7))
      else None
  | _, _ => None
  end.

(** The store [june] with closed dates typed with an ideographic space
    (U+3000) after the comma, and Sunday typed with a long s (U+017F). *)
Definition wideJune : Db.t :=
  {| Db.store := Db.store june; Db.user := Db.user june; Db.binding := Db.binding june;
     Db.config :=
       (Db.config june
        ++ [cfg "closed_dates" (JStr "2024-06-18,　2024-06-19");
            cfg "closed_weekdays" (JStr "ſun")])%list;
     Db.leaveRequest := Db.leaveRequest june; Db.approval := Db.approval june;
     Db.rookieBooking := Db.rookieBooking june;
     Db.designerDemandOverride := Db.designerDemandOverride june |}.

End Cases.


(** * Properties *)

Example split_commas : Js.split "," "a,b,,c" = ["a"; "b"; ""; "c"].
Proof. reflexivity. Qed.

Example trim_both : Js.trim "  SUN " = "SUN".
Proof. reflexivity. Qed.

(** An ideographic space (U+3000) and a no-break space (U+00A0) are white
    space; a zero width space (U+200B) is not. *)
Example trim_wide_space : Js.trim "　2024-06-19 " = "2024-06-19".
Proof. reflexivity. Qed.

Example trim_keeps_zero_width_space : Js.trim "​SUN" = "​SUN".
Proof. reflexivity. Qed.

(** A long s (U+017F) and a dotless i (U+0131) have ASCII upper cases. *)
Example upper_long_s : Js.toUpperCase "ſun" = "SUN".
Proof. reflexivity. Qed.

Example upper_dotless_i : Js.toUpperCase "frı" = "FRI".
Proof. reflexivity. Qed.

Example pad2_7 : DateLib.pad2 7 = "07".
Proof. reflexivity. Qed.

Example pad2_31 : DateLib.pad2 31 = "31".
Proof. reflexivity. Qed.

Example days_feb_2024 : DateLib.daysInMonth (Reference.platform 3) "2024-02" = Some 29%nat.
Proof. reflexivity. Qed.

Example days_feb_1900 : DateLib.daysInMonth (Reference.platform 3) "1900-02" = Some 28%nat.
Proof. reflexivity. Qed.

Example days_month_13 : DateLib.daysInMonth (Reference.platform 3) "2024-13" = Some 31%nat.
Proof. reflexivity. Qed.

Example days_nan : DateLib.daysInMonth (Reference.platform 3) "2024-1x" = None.
Proof. reflexivity. Qed.

Example weekday_epoch :
  DateLib.weekdayInTimeZone (Reference.platform 3) "UTC" "1970-01-01" = Some "Thu".
Proof. reflexivity. Qed.

Example weekday_2024_06_01 :
  DateLib.weekdayInTimeZone (Reference.platform 3) "Asia/Taipei" "2024-06-01" = Some "Sat".
Proof. reflexivity. Qed.

Example weekday_leap_day :
  DateLib.weekdayInTimeZone (Reference.platform 3) "UTC" "2000-02-29" = Some "Tue".
Proof. reflexivity. Qed.

(** ** Strings and keys *)

Lemma matchShape_length shape s :
  Js.matchShape shape s = true -> String.length s = length shape.
Proof.
  revert s. induction shape as [|isD shape IH]; intros [|c s]; simpl; try done.
  intros [_ H]%andb_prop. by rewrite (IH _ H).
Qed.

Lemma isIsoDate_length s : DateLib.isIsoDate s = true -> String.length s = 10%nat.
Proof. apply matchShape_length. Qed.

Lemma isIsoMonth_length s : DateLib.isIsoMonth s = true -> String.length s = 7%nat.
Proof. apply matchShape_length. Qed.

Lemma append_nil_l (s : string) : "" +:+ s = s.
Proof. reflexivity. Qed.

Lemma append_cons (c : ascii) (a b : string) : String c a +:+ b = String c (a +:+ b).
Proof. reflexivity. Qed.

Lemma string_length_app (a b : string) :
  String.length (a +:+ b) = (String.length a + String.length b)%nat.
Proof. induction a as [|c a IH]; simpl; [done | by rewrite IH]. Qed.

Lemma pad2_length d : (d < 100)%nat -> String.length (DateLib.pad2 d) = 2%nat.
Proof.
  intros H. do 100 (destruct d as [|d]; [reflexivity|]). lia.
Qed.

Lemma dateFromMonthDay_length month d :
  DateLib.isIsoMonth month = true -> (d < 100)%nat ->
  String.length (DateLib.dateFromMonthDay month d) = 10%nat.
Proof.
  intros Hm Hd. unfold DateLib.dateFromMonthDay.
  rewrite !string_length_app, (isIsoMonth_length _ Hm), (pad2_length _ Hd). done.
Qed.

Lemma prefix_app (a b : string) : String.prefix a (a +:+ b) = true.
Proof.
  induction a as [|c a IH]; simpl; [by destruct b |].
  destruct (ascii_dec c c); [done | congruence].
Qed.

Lemma string_app_assoc (a b c : string) : (a +:+ b) +:+ c = a +:+ (b +:+ c).
Proof.
  induction a as [|x a IH]; [done |].
  change (String x ((a +:+ b) +:+ c) = String x (a +:+ (b +:+ c))). by rewrite IH.
Qed.

Lemma dateFromMonthDay_startsWith month d :
  Js.startsWith (DateLib.dateFromMonthDay month d) (month +:+ "-") = true.
Proof.
  unfold Js.startsWith, DateLib.dateFromMonthDay.
  rewrite <- string_app_assoc. apply prefix_app.
Qed.

(** Two keys over dates of one length name the same user and date. *)
Lemma key_inj u1 d1 u2 d2 :
  String.length d1 = String.length d2 ->
  Quota.key u1 d1 = Quota.key u2 d2 -> u1 = u2 /\ d1 = d2.
Proof.
  unfold Quota.key. intros Hlen. revert u2.
  induction u1 as [|c u1 IH]; intros [|c2 u2] H;
    repeat (rewrite append_nil_l in H || rewrite append_cons in H).
  - by injection H as ->.
  - injection H as <- H. apply (f_equal String.length) in H.
    rewrite string_length_app in H. simpl in H. lia.
  - injection H as -> H. apply (f_equal String.length) in H.
    rewrite string_length_app in H. simpl in H. lia.
  - injection H as -> H. destruct (IH u2 H) as [-> ->]; done.
Qed.

(** ** The indexes built by the month query *)

Lemma foldl_union_elem {A} (p : A -> bool) (f : A -> string) (l : list A)
    (S : gset string) (k : string) :
  k ∈ foldl (fun acc x => if p x then acc ∪ {[ f x ]} else acc) S l
  <-> k ∈ S \/ exists x, In x l /\ p x = true /\ f x = k.
Proof.
  revert S. induction l as [|a l IH]; intros S; simpl.
  - split; [auto | intros [H | (x & [] & _)]; done].
  - rewrite IH. destruct (p a) eqn:Hp.
    + rewrite elem_of_union, elem_of_singleton. split.
      * intros [[H | ->] | (x & Hx & Hpx & Hfx)]; eauto 8.
      * intros [H | (x & [-> | Hx] & Hpx & Hfx)]; eauto 8.
    + split.
      * intros [H | (x & Hx & Hpx & Hfx)]; eauto 8.
      * intros [H | (x & [-> | Hx] & Hpx & Hfx)]; [auto | congruence | eauto 8].
Qed.

Lemma isOffStatus_elem st :
  bool_decide (st ∈ [PENDING; APPROVED]) = Quota.isOffStatus st.
Proof. destruct st; vm_compute; reflexivity. Qed.

(** On a day of the month, the set lookup [isOff] says exactly that the
    user has an active leave request of the store on that date. *)
Lemma isOff_spec db storeId month d userId :
  Spec.datesWellFormed db -> DateLib.isIsoMonth month = true -> (d < 100)%nat ->
  Quota.isOff db storeId month (DateLib.dateFromMonthDay month d) userId
  = Spec.hasActiveLeave db storeId userId (DateLib.dateFromMonthDay month d).
Proof.
  intros [Hwf _] Hm Hd.
  apply Bool.eq_iff_eq_true. unfold Quota.isOff, Spec.hasActiveLeave.
  rewrite bool_decide_eq_true, existsb_exists.
  unfold Quota.offByUserDate. rewrite foldl_union_elem.
  unfold Quota.leaveRequests, findMany. split.
  - intros [H | (lr & Hin & Hst & Hk)]; [set_solver |].
    apply filter_In in Hin as [Hin Hq].
    apply andb_prop in Hq as [[Hs _]%andb_prop _].
    rewrite Forall_forall in Hwf. specialize (Hwf lr).
    rewrite list_elem_of_In in Hwf. specialize (Hwf Hin).
    apply key_inj in Hk as [Hu Hdt].
    + exists lr. split; [done |].
      rewrite Hs, Hst, Hu, Hdt, !String.eqb_refl. done.
    + rewrite (isIsoDate_length _ Hwf). symmetry.
      by apply dateFromMonthDay_length.
  - intros (lr & Hin & Hq). right. exists lr.
    apply andb_prop in Hq as [[[Hs Hu]%andb_prop Hdt]%andb_prop Hst].
    apply String.eqb_eq in Hu, Hdt. split_and!.
    + apply filter_In. split; [done |].
      rewrite Hs, isOffStatus_elem, Hst, Hdt. simpl.
      by rewrite dateFromMonthDay_startsWith.
    + done.
    + by rewrite Hu, Hdt.
Qed.

(** The same for the booking set. *)
Lemma hasBooking_spec db storeId month d rookieId :
  Spec.datesWellFormed db -> DateLib.isIsoMonth month = true -> (d < 100)%nat ->
  bool_decide (Quota.key rookieId (DateLib.dateFromMonthDay month d)
               ∈ Quota.bookingByRookieDate db storeId month)
  = Spec.hasBooking db storeId rookieId (DateLib.dateFromMonthDay month d).
Proof.
  intros [_ Hwf] Hm Hd.
  apply Bool.eq_iff_eq_true. unfold Spec.hasBooking.
  rewrite bool_decide_eq_true, existsb_exists.
  unfold Quota.bookingByRookieDate.
  rewrite (foldl_union_elem (fun _ => true)
             (fun b => Quota.key (RookieBooking.rookieId b) (RookieBooking.date b))).
  unfold Quota.rookieBookings, findMany. split.
  - intros [H | (b & Hin & _ & Hk)]; [set_solver |].
    apply filter_In in Hin as [Hin Hq].
    apply andb_prop in Hq as [Hs _].
    rewrite Forall_forall in Hwf. specialize (Hwf b).
    rewrite list_elem_of_In in Hwf. specialize (Hwf Hin).
    apply key_inj in Hk as [Hu Hdt].
    + exists b. split; [done |]. rewrite Hs, Hu, Hdt, !String.eqb_refl. done.
    + rewrite (isIsoDate_length _ Hwf). symmetry.
      by apply dateFromMonthDay_length.
  - intros (b & Hin & Hq). right. exists b.
    apply andb_prop in Hq as [[Hs Hu]%andb_prop Hdt].
    apply String.eqb_eq in Hu, Hdt. split_and!.
    + apply filter_In. split; [done |].
      rewrite Hs, Hdt. simpl. by rewrite dateFromMonthDay_startsWith.
    + done.
    + by rewrite Hu, Hdt.
Qed.

(** A reducer that skips some users sums over the users it keeps. *)
Lemma foldl_skip (skip : User.t -> bool) (w : User.t -> float) (l : list User.t) (acc : float) :
  foldl (fun acc u => if skip u then acc else PrimFloat.add acc (w u)) acc l
  = foldl (fun acc u => PrimFloat.add acc (w u)) acc (List.filter (fun u => negb (skip u)) l).
Proof.
  revert acc. induction l as [|u l IH]; intros acc; simpl; [done |].
  destruct (skip u); simpl; apply IH.
Qed.

Lemma filter_filter_and {A} (p q : A -> bool) (l : list A) :
  List.filter q (List.filter p l) = List.filter (fun x => p x && q x) l.
Proof.
  induction l as [|a l IH]; simpl; [done |].
  destruct (p a); simpl; [destruct (q a) |]; by rewrite IH.
Qed.


Lemma rookies_roster db storeId : Quota.rookies db storeId = Spec.roster db storeId ROOKIE.
Proof. apply filter_filter_and. Qed.


(** ** The days of the month *)

(** Every day of the answer is the loop body run on a day number. *)
Lemma month_days pf db params r day :
  Quota.getMonthAvailability pf db params = Some r ->
  day ∈ MonthAvailability.days r ->
  exists t d,
    Intl_dayNow pf (Params.storeTimeZone params) = Some t
    /\ d ∈ Quota.loopDays (DateLib.daysInMonth pf (Params.month params))
    /\ Quota.day pf db (Params.storeId params) (Params.storeTimeZone params)
         (Params.month params) (Params.requester params) t d = Some day.
Proof.
  unfold Quota.getMonthAvailability, Quota.getMonthAvailability', DateLib.dayOfMonthInTimeZone.
  destruct (Intl_dayNow pf _) as [t|]; simpl; [|done].
  destruct (mapM _ _) as [days|] eqn:Hm; simpl; [|done].
  intros [= <-] Hin. simpl in Hin. apply mapM_Some_1 in Hm.
  apply list_elem_of_lookup in Hin as [i Hi].
  destruct (Forall2_lookup_r _ _ _ _ _ Hm Hi) as (d & Hd & Hday).
  exists t, d. split_and!; [done | | done].
  apply list_elem_of_lookup. eauto.
Qed.

Lemma loopDays_bound pf month d :
  Spec.calendarBounded pf -> d ∈ Quota.loopDays (DateLib.daysInMonth pf month) ->
  (d < 100)%nat.
Proof.
  intros Hcal. unfold DateLib.daysInMonth.
  destruct (map Js.Number (Js.split "-" month)) as [|[y|] [|[m|] rest]]; simpl;
    try (intros H; by apply elem_of_nil in H).
  destruct (Date_UTC_lastDay pf y m) as [n|] eqn:Hn; simpl;
    [| intros H; by apply elem_of_nil in H].
  intros Hd%elem_of_seq. specialize (Hcal _ _ _ Hn). lia.
Qed.

(** The loop body, field by field. *)
Lemma day_fields pf db storeId tz month requester t d day :
  Quota.day pf db storeId tz month requester t d = Some day ->
  let date := DateLib.dateFromMonthDay month d in
  exists weekdayName closed,
    AvailabilityDay.date day = date
    /\ AvailabilityDay.assistantSupply day = Quota.assistantSupplySum db storeId month date
    /\ AvailabilityDay.rookieSupply day = Quota.rookieSupplySum db storeId month date
    /\ AvailabilityDay.designerDemand day = Quota.designerDemandSum db storeId month date
    /\ AvailabilityDay.safetyFactor day = Quota.safetyFactor db storeId
    /\ AvailabilityDay.remainingQuota day
       = PrimFloat.sub
           (PrimFloat.add (AvailabilityDay.assistantSupply day) (AvailabilityDay.rookieSupply day))
           (PrimFloat.mul (AvailabilityDay.designerDemand day) (AvailabilityDay.safetyFactor day))
    /\ (AvailabilityDay.selectable day, AvailabilityDay.reasons day)
       = Quota.verdict db storeId month requester t date weekdayName closed
           (AvailabilityDay.remainingQuota day).
Proof.
  unfold Quota.day. destruct (DateLib.weekdayInTimeZone pf tz _) as [w|]; simpl; [|done].
  intros [= Hday]. subst day. simpl. eexists w, _. split_and!; try reflexivity.
  symmetry. apply surjective_pairing.
Qed.

(** ** The month is always answered *)

Lemma split_nonempty sep s : Js.split sep s <> [].
Proof. destruct s as [|c s]; simpl; [done |]. destruct (Ascii.eqb c sep); [done |]. by destruct (Js.split sep s). Qed.

Lemma split_join sep (a b : string) :
  Js.split sep (a +:+ String sep b) = (Js.split sep a ++ Js.split sep b)%list.
Proof.
  induction a as [|c a IH].
  - rewrite append_nil_l. simpl. by rewrite Ascii.eqb_refl.
  - rewrite append_cons. simpl. rewrite IH.
    destruct (Ascii.eqb c sep); [done |].
    pose proof (split_nonempty sep a). by destruct (Js.split sep a).
Qed.

Lemma digit_not_dash c : Js.isDigit c = true -> Ascii.eqb c "-" = false.
Proof.
  intros H. apply Ascii.eqb_neq. intros ->. vm_compute in H. discriminate.
Qed.

Lemma pad2_parts d :
  (d < 100)%nat ->
  Js.split "-" (DateLib.pad2 d) = [DateLib.pad2 d] /\ is_Some (Js.Number (DateLib.pad2 d)).
Proof.
  intros H. do 100 (destruct d as [|d]; [split; [reflexivity | vm_compute; eauto] |]). lia.
Qed.

Lemma isoMonth_parts month :
  DateLib.isIsoMonth month = true ->
  exists y m, map Js.Number (Js.split "-" month) = [Some y; Some m].
Proof.
  unfold DateLib.isIsoMonth, DateLib.isoMonthShape.
  destruct month as [|c1 [|c2 [|c3 [|c4 [|c5 [|c6 [|c7 [|c8 s]]]]]]]]; simpl; try done;
    rewrite ?andb_false_r; try done.
  intros H.
  apply andb_prop in H as [H1 H]. apply andb_prop in H as [H2 H].
  apply andb_prop in H as [H3 H]. apply andb_prop in H as [H4 H].
  apply andb_prop in H as [H5 H]. apply andb_prop in H as [H6 H].
  apply andb_prop in H as [H7 _]. apply Ascii.eqb_eq in H5 as ->.
  rewrite (digit_not_dash _ H1), (digit_not_dash _ H2), (digit_not_dash _ H3),
    (digit_not_dash _ H4), (digit_not_dash _ H6), (digit_not_dash _ H7).
  unfold Js.Number. simpl. rewrite H1, H2, H3, H4, H6, H7. eauto.
Qed.

Lemma weekday_of_day pf timeZone month d :
  DateLib.isIsoMonth month = true -> (d < 100)%nat ->
  (forall y m, map Js.Number (Js.split "-" month) = [Some y; Some m] ->
               forall dd, is_Some (Intl_weekdayShort pf timeZone y m dd)) ->
  is_Some (DateLib.weekdayInTimeZone pf timeZone (DateLib.dateFromMonthDay month d)).
Proof.
  intros Hm Hd Hpf. unfold DateLib.weekdayInTimeZone, DateLib.dateFromMonthDay.
  change ("-" +:+ DateLib.pad2 d) with (String "-" (DateLib.pad2 d)).
  rewrite split_join, map_app.
  destruct (isoMonth_parts month Hm) as (y & m & Hym). rewrite Hym.
  destruct (pad2_parts d Hd) as [Hs [dd Hn]]. rewrite Hs.
  change (map Js.Number [DateLib.pad2 d]) with [Js.Number (DateLib.pad2 d)].
  rewrite Hn. simpl. by apply Hpf.
Qed.

(** X1. For a month of the form YYYY-MM, on a platform that knows the
    time zone and can format the days of that month, the engine throws
    nothing and answers with one record per day of the month, in order. *)
Theorem month_always_answered pf db params today :
  DateLib.isIsoMonth (Params.month params) = true ->
  Spec.calendarBounded pf ->
  Intl_dayNow pf (Params.storeTimeZone params) = Some today ->
  (forall y m,
     map Js.Number (Js.split "-" (Params.month params)) = [Some y; Some m] ->
     forall d, is_Some (Intl_weekdayShort pf (Params.storeTimeZone params) y m d)) ->
  exists r,
    Quota.getMonthAvailability pf db params = Some r
    /\ MonthAvailability.month r = Params.month params
    /\ map AvailabilityDay.date (MonthAvailability.days r)
       = map (DateLib.dateFromMonthDay (Params.month params))
           (Quota.loopDays (DateLib.daysInMonth pf (Params.month params))).
Proof.
  intros Hm Hcal Ht Hpf.
  unfold Quota.getMonthAvailability, Quota.getMonthAvailability', DateLib.dayOfMonthInTimeZone.
  rewrite Ht. simpl.
  destruct (mapM _ _) as [days|] eqn:Hdays; simpl.
  - eexists. split_and!; [done | done |]. simpl.
    apply mapM_Some_1 in Hdays. induction Hdays as [|d day ds days Hd _ IH]; simpl; [done |].
    destruct (day_fields _ _ _ _ _ _ _ _ _ Hd) as (_ & _ & -> & _). by rewrite IH.
  - exfalso. apply mapM_None_1, Exists_exists in Hdays as (d & Hin & Hnone).
    pose proof (loopDays_bound _ _ _ Hcal Hin) as Hlt.
    destruct (weekday_of_day pf (Params.storeTimeZone params) _ d Hm Hlt Hpf) as [w Hw].
    unfold Quota.day in Hnone. rewrite Hw in Hnone. done.
Qed.

(** ** The verdict of a day *)

Lemma block_selectable cond reason v : (Quota.block cond reason v).1 = v.1 && negb cond.
Proof. destruct cond, v as [[] ?]; reflexivity. Qed.

Lemma block_reasons cond reason v (x : string) :
  x ∈ (Quota.block cond reason v).2 <-> x ∈ v.2 \/ (cond = true /\ x = reason).
Proof.
  destruct cond; simpl.
  - rewrite elem_of_app, list_elem_of_singleton. naive_solver.
  - naive_solver.
Qed.

Lemma advise_selectable cond reason v : (Quota.advise cond reason v).1 = v.1.
Proof. by destruct cond. Qed.

Lemma advise_reasons cond reason v (x : string) :
  x ∈ (Quota.advise cond reason v).2 <-> x ∈ v.2 \/ (cond = true /\ x = reason).
Proof.
  destruct cond; simpl.
  - rewrite elem_of_app, list_elem_of_singleton. naive_solver.
  - naive_solver.
Qed.

(** The reasons of a day, one disjunct per [if] block. *)
Lemma verdict_reasons db storeId month requester t date weekdayName closed q (x : string) :
  x ∈ (Quota.verdict db storeId month requester t date weekdayName closed q).2
  <-> (Quota.designerLocked db storeId requester t = true /\ x = "PHASE_LOCK")
      \/ (Quota.assistantLocked db storeId requester t = true /\ x = "PHASE_LOCK")
      \/ (closed = true /\ x = "STORE_CLOSED")
      \/ (PrimFloat.ltb q 0 = true /\ x = "QUOTA_FULL")
      \/ (Quota.saturdayBlocked db storeId requester weekdayName = true /\ x = "SATURDAY_BLOCK")
      \/ (Quota.masterWorkingBlocked db storeId month requester date = true
          /\ x = "MASTER_WORKING_BLOCK").
Proof.
  unfold Quota.verdict. rewrite !block_reasons.
  destruct (PrimFloat.ltb q 0) eqn:Hq;
    [destruct (bool_decide (Requester.role requester = DESIGNER))|];
    rewrite ?advise_reasons, !block_reasons; simpl;
    rewrite elem_of_nil; naive_solver.
Qed.

(** The flag of a day: every block clears it, except the designer's
    advisory quota notice. *)
Lemma verdict_selectable db storeId month requester t date weekdayName closed q :
  (Quota.verdict db storeId month requester t date weekdayName closed q).1
  = negb (Quota.designerLocked db storeId requester t)
    && negb (Quota.assistantLocked db storeId requester t)
    && negb closed
    && negb (PrimFloat.ltb q 0 && negb (bool_decide (Requester.role requester = DESIGNER)))
    && negb (Quota.saturdayBlocked db storeId requester weekdayName)
    && negb (Quota.masterWorkingBlocked db storeId month requester date).
Proof.
  unfold Quota.verdict. rewrite !block_selectable.
  destruct (PrimFloat.ltb q 0) eqn:Hq;
    [destruct (bool_decide (Requester.role requester = DESIGNER))|];
    rewrite ?advise_selectable, ?block_selectable; simpl;
    repeat match goal with |- context [negb ?b] => destruct b; simpl end; reflexivity.
Qed.

Lemma day_of_month pf db params r i day :
  Quota.getMonthAvailability pf db params = Some r ->
  MonthAvailability.days r !! i = Some day ->
  exists t d,
    Intl_dayNow pf (Params.storeTimeZone params) = Some t
    /\ d ∈ Quota.loopDays (DateLib.daysInMonth pf (Params.month params))
    /\ Quota.day pf db (Params.storeId params) (Params.storeTimeZone params)
         (Params.month params) (Params.requester params) t d = Some day.
Proof.
  intros Hr Hi. eapply month_days; [done |]. apply list_elem_of_lookup. eauto.
Qed.

Lemma total_ext (w1 w2 : User.t -> float) (l : list User.t) :
  (forall u, w1 u = w2 u) -> Spec.total w1 l = Spec.total w2 l.
Proof.
  intros H. unfold Spec.total. generalize 0%float.
  induction l as [|u l IH]; intros acc; simpl; [done |]. by rewrite H, IH.
Qed.

(** A reducer of the loop body is the total over the working roster. *)
Lemma supply_sum_working db storeId month d (w : User.t -> float) (l : list User.t) :
  Spec.datesWellFormed db -> DateLib.isIsoMonth month = true -> (d < 100)%nat ->
  foldl
    (fun acc u =>
       if Quota.isOff db storeId month (DateLib.dateFromMonthDay month d) (User.id u)
       then acc else PrimFloat.add acc (w u))
    0%float l
  = Spec.total w (Spec.working db storeId (DateLib.dateFromMonthDay month d) l).
Proof.
  intros Hwf Hm Hd. rewrite foldl_skip. unfold Spec.total, Spec.working. f_equal.
  apply filter_ext. intros u. by rewrite isOff_spec.
Qed.

Lemma rookieWeight_spec db storeId month d u :
  Spec.datesWellFormed db -> DateLib.isIsoMonth month = true -> (d < 100)%nat ->
  Quota.rookieWeight db storeId month (DateLib.dateFromMonthDay month d) u
  = Spec.rookieContribution db storeId (DateLib.dateFromMonthDay month d) u.
Proof.
  intros Hwf Hm Hd. unfold Quota.rookieWeight, Spec.rookieContribution.
  rewrite hasBooking_spec by done. reflexivity.
Qed.

(** ** C1 *)


(** ** C8 *)

(** C8. For every day, the rookie supply is the total, over the rookies
    not off that day, of: [rookie_guest_supply] for a rookie with a booking
    on the date while [rookie_any_booking_supply_zero] is true, whatever the
    rookie's own [baseSupply]; otherwise the rookie's [baseSupply] when set,
    else [rookie_support_supply]. *)
Theorem rookie_supply_contributions pf db params r i day :
  Spec.datesWellFormed db ->
  Spec.calendarBounded pf ->
  DateLib.isIsoMonth (Params.month params) = true ->
  Quota.getMonthAvailability pf db params = Some r ->
  MonthAvailability.days r !! i = Some day ->
  let storeId := Params.storeId params in
  let date := AvailabilityDay.date day in
  AvailabilityDay.rookieSupply day
  = Spec.total (Spec.rookieContribution db storeId date)
      (Spec.working db storeId date (Spec.roster db storeId ROOKIE))
  /\ (forall u,
        Spec.hasBooking db storeId (User.id u) date = true ->
        ConfigLib.getBooleanConfig db storeId "rookie_any_booking_supply_zero" true = true ->
        Spec.rookieContribution db storeId date u
        = ConfigLib.getNumberConfig db storeId "rookie_guest_supply" 0).
Proof.
  intros Hwf Hcal Hm Hr Hi. simpl.
  destruct (day_of_month _ _ _ _ _ _ Hr Hi) as (t & d & _ & Hd & Hday).
  pose proof (loopDays_bound _ _ _ Hcal Hd) as Hlt.
  destruct (day_fields _ _ _ _ _ _ _ _ _ Hday) as (w & c & Hdate & _ & Hrk & _).
  rewrite Hdate. split.
  - rewrite Hrk, <- rookies_roster. unfold Quota.rookieSupplySum.
    rewrite supply_sum_working by done.
    apply total_ext. intros u. by apply rookieWeight_spec.
  - intros u Hb Hflag. unfold Spec.rookieContribution. by rewrite Hb, Hflag.
Qed.

Lemma phase_lock_listed db storeId month requester t date weekdayName closed q :
  "PHASE_LOCK" ∈ (Quota.verdict db storeId month requester t date weekdayName closed q).2
  <-> Quota.designerLocked db storeId requester t = true
      \/ Quota.assistantLocked db storeId requester t = true.
Proof.
  rewrite verdict_reasons. split.
  - intros [[H _] | [[H _] | [[_ H] | [[_ H] | [[_ H] | [_ H]]]]]]; auto; discriminate.
  - intros [H | H]; auto.
Qed.

Lemma store_closed_listed db storeId month requester t date weekdayName closed q :
  "STORE_CLOSED" ∈ (Quota.verdict db storeId month requester t date weekdayName closed q).2
  <-> closed = true.
Proof.
  rewrite verdict_reasons. split.
  - intros [[_ H] | [[_ H] | [[H _] | [[_ H] | [[_ H] | [_ H]]]]]]; auto; discriminate.
  - intros H; auto.
Qed.

Lemma quota_full_listed db storeId month requester t date weekdayName closed q :
  "QUOTA_FULL" ∈ (Quota.verdict db storeId month requester t date weekdayName closed q).2
  <-> PrimFloat.ltb q 0 = true.
Proof.
  rewrite verdict_reasons. split.
  - intros [[_ H] | [[_ H] | [[_ H] | [[H _] | [[_ H] | [_ H]]]]]]; auto; discriminate.
  - intros H; auto 6.
Qed.

(** ** C2 *)

(** C2. For every day, QUOTA_FULL is among the reasons exactly when
    [remainingQuota < 0]; a remaining quota of exactly 0 does not produce
    it. For a DESIGNER the day is selectable exactly when neither PHASE_LOCK
    nor STORE_CLOSED is listed, whether or not QUOTA_FULL is; for an
    ASSISTANT or a ROOKIE a listed QUOTA_FULL makes the day not selectable. *)
Theorem quota_full_sign_based pf db params r i day :
  Quota.getMonthAvailability pf db params = Some r ->
  MonthAvailability.days r !! i = Some day ->
  let role := Requester.role (Params.requester params) in
  let reasons := AvailabilityDay.reasons day in
  ("QUOTA_FULL" ∈ reasons <-> (PrimFloat.ltb (AvailabilityDay.remainingQuota day) 0 = true))
  /\ (AvailabilityDay.remainingQuota day = 0%float -> "QUOTA_FULL" ∉ reasons)
  /\ (role = DESIGNER ->
      (AvailabilityDay.selectable day = true
       <-> ("PHASE_LOCK" ∉ reasons) /\ ("STORE_CLOSED" ∉ reasons)))
  /\ (role = ASSISTANT \/ role = ROOKIE ->
      "QUOTA_FULL" ∈ reasons -> AvailabilityDay.selectable day = false).
Proof.
  intros Hr Hi. simpl.
  destruct (day_of_month _ _ _ _ _ _ Hr Hi) as (t & d & _ & _ & Hday).
  destruct (day_fields _ _ _ _ _ _ _ _ _ Hday) as (w & c & _ & _ & _ & _ & _ & _ & Hv).
  apply (f_equal fst) in Hv as Hsel. apply (f_equal snd) in Hv as Hrs. simpl in Hsel, Hrs.
  rewrite Hsel, Hrs. clear Hv Hsel Hrs.
  split_and!.
  - apply quota_full_listed.
  - intros H0. rewrite quota_full_listed, H0. intros H. vm_compute in H. discriminate.
  - intros Hrole. rewrite verdict_selectable, phase_lock_listed, store_closed_listed.
    unfold Quota.assistantLocked, Quota.saturdayBlocked, Quota.masterWorkingBlocked.
    rewrite Hrole. simpl. rewrite !andb_true_r.
    destruct (Quota.designerLocked _ _ _ _), c; rewrite ?andb_false_r; simpl;
      intuition congruence.
  - intros Hrole Hin. apply quota_full_listed in Hin. rewrite verdict_selectable, Hin.
    destruct Hrole as [-> | ->]; simpl; by rewrite !andb_false_r.
Qed.

(** ** C3 *)

(** C3. Phase gating reads today's day of the month in the store's time
    zone and nothing of the target date, so it is the same for every day of
    the month. A DESIGNER carries PHASE_LOCK exactly when today lies in
    neither [phase1_start_day, phase1_end_day] nor
    [phase2_start_day, phase2_end_day]; an ASSISTANT or a ROOKIE exactly
    when today lies outside [phase2_start_day, phase2_end_day]. A day that
    carries PHASE_LOCK is not selectable, so a selectable day means the
    requester is inside an applicable window. *)
Theorem phase_gating_by_today pf db params r i day today :
  Quota.getMonthAvailability pf db params = Some r ->
  MonthAvailability.days r !! i = Some day ->
  Intl_dayNow pf (Params.storeTimeZone params) = Some today ->
  let storeId := Params.storeId params in
  let role := Requester.role (Params.requester params) in
  let reasons := AvailabilityDay.reasons day in
  let within (lo hi : float) := PrimFloat.leb lo today = true /\ PrimFloat.leb today hi = true in
  let phase1 :=
    within (ConfigLib.getNumberConfig db storeId "phase1_start_day" 1)
           (ConfigLib.getNumberConfig db storeId "phase1_end_day" 5) in
  let phase2 :=
    within (ConfigLib.getNumberConfig db storeId "phase2_start_day" 6)
           (ConfigLib.getNumberConfig db storeId "phase2_end_day" 31) in
  (role = DESIGNER -> ("PHASE_LOCK" ∈ reasons <-> ~ (phase1 \/ phase2)))
  /\ (role = ASSISTANT \/ role = ROOKIE -> ("PHASE_LOCK" ∈ reasons <-> ~ phase2))
  /\ ("PHASE_LOCK" ∈ reasons -> AvailabilityDay.selectable day = false)
  /\ (AvailabilityDay.selectable day = true ->
      (role = DESIGNER -> phase1 \/ phase2)
      /\ (role = ASSISTANT \/ role = ROOKIE -> phase2)).
Proof.
  intros Hr Hi Ht. simpl.
  destruct (day_of_month _ _ _ _ _ _ Hr Hi) as (t & d & Ht' & _ & Hday).
  assert (t = today) as -> by congruence. clear Ht'.
  destruct (day_fields _ _ _ _ _ _ _ _ _ Hday) as (w & c & _ & _ & _ & _ & _ & _ & Hv).
  apply (f_equal fst) in Hv as Hsel. apply (f_equal snd) in Hv as Hrs. simpl in Hsel, Hrs.
  rewrite Hsel, Hrs, phase_lock_listed, verdict_selectable. clear Hv Hsel Hrs.
  set (storeId := Params.storeId params).
  set (p1 := PrimFloat.leb (ConfigLib.getNumberConfig db storeId "phase1_start_day" 1) today = true
             /\ PrimFloat.leb today (ConfigLib.getNumberConfig db storeId "phase1_end_day" 5) = true).
  set (p2 := PrimFloat.leb (ConfigLib.getNumberConfig db storeId "phase2_start_day" 6) today = true
             /\ PrimFloat.leb today (ConfigLib.getNumberConfig db storeId "phase2_end_day" 31) = true).
  assert (H1 : Quota.inDesignerWindow db storeId today = true <-> p1).
  { unfold Quota.inDesignerWindow, Quota.geb, Quota.leb. apply andb_true_iff. }
  assert (H2 : Quota.inAssistantWindow db storeId today = true <-> p2).
  { unfold Quota.inAssistantWindow, Quota.geb, Quota.leb. apply andb_true_iff. }
  unfold Quota.designerLocked, Quota.assistantLocked.
  destruct (Quota.inDesignerWindow db storeId today) eqn:E1,
           (Quota.inAssistantWindow db storeId today) eqn:E2;
    destruct (Requester.role (Params.requester params)); simpl;
    intuition (discriminate || congruence).
Qed.

(** ** The sample store meets the side conditions *)

Lemma reference_calendarBounded today : Spec.calendarBounded (Reference.platform today).
Proof.
  intros y m n. simpl. unfold Reference.lastDay, Reference.monthLength.
  repeat case_match; intros [= <-]; lia.
Qed.

Lemma june_datesWellFormed : Spec.datesWellFormed Scenario.june.
Proof. split; repeat constructor. Qed.

(** June 2024 seen from Taipei: thirty days, from the 1st to the 30th. *)
Lemma month_always_answered_witness :
  exists r,
    Quota.getMonthAvailability (Reference.platform 3) Scenario.june
      (Scenario.paramsFor Scenario.song "2024-06") = Some r
    /\ length (MonthAvailability.days r) = 30%nat.
Proof.
  destruct (month_always_answered (Reference.platform 3) Scenario.june
              (Scenario.paramsFor Scenario.song "2024-06") 3%float eq_refl
              (reference_calendarBounded 3) eq_refl) as (r & Hr & _ & Hdates).
  - intros y m [= <- <-] d. simpl. unfold Reference.weekdayShort. simpl.
    apply lookup_lt_is_Some. simpl.
    match goal with |- (Z.to_nat (?x `mod` 7) < 7)%nat =>
      pose proof (Z.mod_pos_bound x 7); lia
    end.
  - exists r. split; [done |]. apply (f_equal length) in Hdates.
    rewrite !length_map in Hdates. exact Hdates.
Defined.


(** rj has a client on 2024-06-05: the rookie supply of that day is the
    guest supply, 0, not rj's own 0.7. *)
Lemma rookie_supply_contributions_witness :
  exists r day,
    Quota.getMonthAvailability (Reference.platform 3) Scenario.june
      (Scenario.paramsFor Scenario.song "2024-06") = Some r
    /\ MonthAvailability.days r !! 4%nat = Some day
    /\ AvailabilityDay.date day = "2024-06-05"
    /\ AvailabilityDay.rookieSupply day
       = Spec.total (Spec.rookieContribution Scenario.june Scenario.storeId "2024-06-05")
           (Spec.working Scenario.june Scenario.storeId "2024-06-05"
              (Spec.roster Scenario.june Scenario.storeId ROOKIE))
    /\ AvailabilityDay.rookieSupply day = 0%float.
Proof.
  eexists _, _. split; [vm_compute; reflexivity |]. split; [vm_compute; reflexivity |].
  split; [reflexivity |]. split; [| reflexivity].
  refine (proj1
    (rookie_supply_contributions (Reference.platform 3) Scenario.june
       (Scenario.paramsFor Scenario.song "2024-06") _ 4%nat _
       june_datesWellFormed (reference_calendarBounded 3) eq_refl _ _));
    vm_compute; reflexivity.
Defined.

(** The three cases of the claim. In the store [tight] the quota of
    2024-06-03 is 1 - 1 * 1.1, below zero: the designer ray is told
    QUOTA_FULL and may still select the day, and the assistant song, inside
    the second phase, is blocked by it. In the store [balanced] the quota is
    exactly 0 and QUOTA_FULL is not listed. *)
Lemma quota_full_sign_based_witness :
  exists r1 forRay r2 forSong r3 atZero,
    (Quota.getMonthAvailability (Reference.platform 3) Scenario.tight
       (Scenario.paramsFor Scenario.ray "2024-06") = Some r1
     /\ MonthAvailability.days r1 !! 2%nat = Some forRay
     /\ PrimFloat.ltb (AvailabilityDay.remainingQuota forRay) 0 = true
     /\ "QUOTA_FULL" ∈ AvailabilityDay.reasons forRay
     /\ AvailabilityDay.selectable forRay = true)
    /\ (Quota.getMonthAvailability (Reference.platform 10) Scenario.tight
          (Scenario.paramsFor Scenario.song "2024-06") = Some r2
        /\ MonthAvailability.days r2 !! 2%nat = Some forSong
        /\ "QUOTA_FULL" ∈ AvailabilityDay.reasons forSong
        /\ AvailabilityDay.selectable forSong = false)
    /\ (Quota.getMonthAvailability (Reference.platform 10) Scenario.balanced
          (Scenario.paramsFor Scenario.song "2024-06") = Some r3
        /\ MonthAvailability.days r3 !! 2%nat = Some atZero
        /\ AvailabilityDay.remainingQuota atZero = 0%float
        /\ "QUOTA_FULL" ∉ AvailabilityDay.reasons atZero).
Proof.
  eexists _, _, _, _, _, _. split; [| split].
  - split; [vm_compute; reflexivity |]. split; [vm_compute; reflexivity |].
    split; [vm_compute; reflexivity |].
    destruct (quota_full_sign_based (Reference.platform 3) Scenario.tight
                (Scenario.paramsFor Scenario.ray "2024-06") _ 2%nat _ eq_refl eq_refl)
      as (Hfull & _ & Hdesigner & _).
    split.
    + apply Hfull. vm_compute; reflexivity.
    + apply (Hdesigner eq_refl).
      split; intros [H | H]%elem_of_cons; try discriminate H; by apply elem_of_nil in H.
  - split; [vm_compute; reflexivity |]. split; [vm_compute; reflexivity |].
    destruct (quota_full_sign_based (Reference.platform 10) Scenario.tight
                (Scenario.paramsFor Scenario.song "2024-06") _ 2%nat _ eq_refl eq_refl)
      as (Hfull & _ & _ & Hblocked).
    assert ("QUOTA_FULL" ∈ ["QUOTA_FULL"]) as Hin by (apply Hfull; vm_compute; reflexivity).
    split; [exact Hin |]. exact (Hblocked (or_introl eq_refl) Hin).
  - split; [vm_compute; reflexivity |]. split; [vm_compute; reflexivity |].
    split; [vm_compute; reflexivity |].
    destruct (quota_full_sign_based (Reference.platform 10) Scenario.balanced
                (Scenario.paramsFor Scenario.song "2024-06") _ 2%nat _ eq_refl eq_refl)
      as (_ & Hzero & _).
    apply Hzero. vm_compute; reflexivity.
Defined.

(** On the 3rd the assistant song is outside the second phase: the first
    day of June 2024 carries PHASE_LOCK and is not selectable. *)
Lemma phase_gating_by_today_witness :
  exists r day,
    Quota.getMonthAvailability (Reference.platform 3) Scenario.june
      (Scenario.paramsFor Scenario.song "2024-06") = Some r
    /\ MonthAvailability.days r !! 0%nat = Some day
    /\ ("PHASE_LOCK" ∈ AvailabilityDay.reasons day -> AvailabilityDay.selectable day = false)
    /\ "PHASE_LOCK" ∈ AvailabilityDay.reasons day.
Proof.
  eexists _, _. split; [vm_compute; reflexivity |]. split; [vm_compute; reflexivity |].
  split; [| apply list_elem_of_In; left; reflexivity].
  refine (proj1 (proj2 (proj2
    (phase_gating_by_today (Reference.platform 3) Scenario.june
       (Scenario.paramsFor Scenario.song "2024-06") _ 0%nat _ 3%float _ _ _))));
    vm_compute; reflexivity.
Defined.

(** ** The writes, table by table *)

Lemma update_spec id data db r' db1 :
  Prisma.leaveRequest_update id data db = Some (r', db1) ->
  exists r,
    In r (Db.leaveRequest db) /\ LeaveRequest.id r = id /\ r' = Prisma.applyData data r
    /\ db1 = Prisma.withLeaveRequest db
               (map (fun x => if String.eqb (LeaveRequest.id x) id
                              then Prisma.applyData data x else x) (Db.leaveRequest db)).
Proof.
  unfold Prisma.leaveRequest_update, findFirst.
  destruct (find _ _) as [r|] eqn:Hf; [|done]. intros [= <- <-].
  apply find_some in Hf as [Hin Hid%String.eqb_eq]. eauto.
Qed.

Lemma create_spec pf storeId userId date status source createdBy linkedTo db row db1 :
  Prisma.leaveRequest_create pf storeId userId date status source createdBy linkedTo db
  = Some (row, db1) ->
  row = {| LeaveRequest.id := cuid pf (map LeaveRequest.id (Db.leaveRequest db));
           LeaveRequest.storeId := storeId; LeaveRequest.userId := userId;
           LeaveRequest.date := date; LeaveRequest.status := status;
           LeaveRequest.source := source; LeaveRequest.createdByUserId := createdBy;
           LeaveRequest.linkedToId := linkedTo |}
  /\ db1 = Prisma.withLeaveRequest db (Db.leaveRequest db ++ [row])
  /\ ~ In (LeaveRequest.id row) (map LeaveRequest.id (Db.leaveRequest db))
  /\ ~ In (userId, date) (map Spec.userDate (Db.leaveRequest db)).
Proof.
  unfold Prisma.leaveRequest_create.
  destruct (existsb _ _ || existsb _ _) eqn:Hex; [done |].
  apply orb_false_elim in Hex as [Hid Hud]. intros [= <- <-]. split_and!; try done.
  - simpl. intros (x & Hx & Hin)%in_map_iff.
    apply not_true_iff_false in Hid. apply Hid, existsb_exists.
    exists x. split; [done |]. by apply String.eqb_eq.
  - intros (x & Hx & Hin)%in_map_iff. injection Hx as Hu Hd.
    apply not_true_iff_false in Hud. apply Hud, existsb_exists.
    exists x. split; [done |]. rewrite Hu, Hd, !String.eqb_refl. done.
Qed.

Lemma map_keeps {K} (key : LeaveRequest.t -> K) (f : LeaveRequest.t -> LeaveRequest.t)
    (l : list LeaveRequest.t) :
  (forall x, key (f x) = key x) -> map key (map f l) = map key l.
Proof. intros H. rewrite map_map. apply map_ext. exact H. Qed.

Lemma applyData_keeps data (where_ : LeaveRequest.t -> bool) x :
  LeaveRequest.id (if where_ x then Prisma.applyData data x else x) = LeaveRequest.id x
  /\ Spec.userDate (if where_ x then Prisma.applyData data x else x) = Spec.userDate x.
Proof. by destruct (where_ x). Qed.

Lemma updateMany_keys where_ data db :
  Spec.keysUnique db -> Spec.keysUnique (Prisma.leaveRequest_updateMany where_ data db).
Proof.
  intros [Hid Hud]. unfold Spec.keysUnique, Spec.idsUnique, Spec.userDateUnique. simpl.
  rewrite !map_keeps; [done | |]; intros x; apply applyData_keeps.
Qed.

Lemma update_keys id data db r db1 :
  Prisma.leaveRequest_update id data db = Some (r, db1) -> Spec.keysUnique db -> Spec.keysUnique db1.
Proof.
  intros (x & _ & _ & _ & ->)%update_spec.
  apply (updateMany_keys (fun x => String.eqb (LeaveRequest.id x) id)).
Qed.

Lemma NoDup_snoc {A} (l : list A) (x : A) : NoDup l -> ~ In x l -> NoDup (l ++ [x]).
Proof.
  intros Hl Hx. apply NoDup_app. split_and!; [done | | apply NoDup_singleton].
  intros y Hy ->%list_elem_of_singleton. by apply Hx, list_elem_of_In.
Qed.

Lemma create_keys pf storeId userId date status source createdBy linkedTo db row db1 :
  Prisma.leaveRequest_create pf storeId userId date status source createdBy linkedTo db
  = Some (row, db1) ->
  Spec.keysUnique db -> Spec.keysUnique db1.
Proof.
  intros (Hrow & -> & Hid & Hud)%create_spec [H1 H2].
  unfold Spec.keysUnique, Spec.idsUnique, Spec.userDateUnique. simpl. rewrite !map_app. simpl.
  split; apply NoDup_snoc; try done. by rewrite Hrow.
Qed.

Lemma NoDup_map_filter {A K} (key : A -> K) (p : A -> bool) (l : list A) :
  NoDup (map key l) -> NoDup (map key (List.filter p l)).
Proof.
  induction l as [|a l IH]; simpl; [done |].
  rewrite NoDup_cons. intros [Ha Hl]. destruct (p a); simpl; [|auto].
  apply NoDup_cons. split; [|auto].
  intros Hin. apply Ha. apply list_elem_of_In in Hin. apply list_elem_of_In.
  apply in_map_iff in Hin as (x & Hx & Hin). apply filter_In in Hin as [Hin _].
  apply in_map_iff. eauto.
Qed.

Lemma deleteMany_keys where_ db :
  Spec.keysUnique db -> Spec.keysUnique (Prisma.leaveRequest_deleteMany where_ db).
Proof.
  intros [Hid Hud]. unfold Spec.keysUnique, Spec.idsUnique, Spec.userDateUnique. simpl.
  rewrite !map_keeps.
  - split; by apply NoDup_map_filter.
  - intros x. destruct (LeaveRequest.linkedToId x); [case_match |]; done.
  - intros x. destruct (LeaveRequest.linkedToId x); [case_match |]; done.
Qed.

Lemma approval_create_leaveRequest pf storeId lrId managerId action reason db db1 :
  Prisma.approval_create pf storeId lrId managerId action reason db = Some db1 ->
  Db.leaveRequest db1 = Db.leaveRequest db.
Proof. unfold Prisma.approval_create. case_match; [done |]. by intros [= <-]. Qed.

(** ** Every operation keeps the keys of the leave-request table *)

Lemma mirrorOne_keys pf store user date lr b db db' :
  LeaveRoute.mirrorOne pf store user date lr b db = Some db' ->
  Spec.keysUnique db -> Spec.keysUnique db'.
Proof.
  unfold LeaveRoute.mirrorOne. intros H Hk.
  destruct (findFirst _ _) as [ex|].
  - destruct (LeaveRoute.isActiveStatus _); [by injection H as <- |].
    destruct (LeaveRoute.isReusableStatus _).
    + destruct (Prisma.leaveRequest_update _ _ _) as [[r db1]|] eqn:Hu; [|done].
      injection H as <-. by eapply update_keys.
    + destruct (Prisma.leaveRequest_create _ _ _ _ _ _ _ _ _) as [[r db1]|] eqn:Hc; [|done].
      injection H as <-. by eapply create_keys.
  - destruct (Prisma.leaveRequest_create _ _ _ _ _ _ _ _ _) as [[r db1]|] eqn:Hc; [|done].
    injection H as <-. by eapply create_keys.
Qed.

Lemma mirrorLoop_keys pf store user date lr bs db :
  Spec.keysUnique db -> Spec.keysUnique (LeaveRoute.mirrorLoop pf store user date lr bs db).2.
Proof.
  revert db. induction bs as [|b bs IH]; intros db Hk; simpl; [done |].
  destruct (LeaveRoute.mirrorOne _ _ _ _ _ _ _) as [db'|] eqn:Hone; [|done].
  apply IH. by eapply mirrorOne_keys.
Qed.

Lemma writeOwn_keys pf store user date db lr db1 :
  LeaveRoute.writeOwn pf store user date db = Some (lr, db1) ->
  Spec.keysUnique db -> Spec.keysUnique db1.
Proof.
  unfold LeaveRoute.writeOwn.
  destruct (LeaveRoute.existingAny db user date) as [ex|];
    [destruct (LeaveRoute.isReusableStatus _) |];
    eauto using update_keys, create_keys.
Qed.

Lemma mirrorAll_keys pf store user date lr db :
  Spec.keysUnique db -> Spec.keysUnique (LeaveRoute.mirrorAll pf store user date lr db).2.
Proof.
  unfold LeaveRoute.mirrorAll. case_match; [apply mirrorLoop_keys | done].
Qed.

Lemma POST_keys pf db req :
  Spec.keysUnique db -> Spec.keysUnique (LeaveRoute.POST pf db req).2.
Proof.
  intros Hk. unfold LeaveRoute.POST.
  destruct (LeaveRoute.guards pf db req) as [resp | [[user date] store]]; [done |].
  destruct (LeaveRoute.writeOwn _ _ _ _ _) as [[lr db1]|] eqn:Hw; [|done].
  pose proof (mirrorAll_keys pf store user date lr db1 (writeOwn_keys _ _ _ _ _ _ _ Hw Hk)) as H.
  by destruct (LeaveRoute.mirrorAll _ _ _ _ _ _) as [[] db2].
Qed.

(** ** The transactions, as one pass over the table *)

Lemma NoDup_map_inj {A K} (key : A -> K) (l : list A) (x y : A) :
  NoDup (map key l) -> In x l -> In y l -> key x = key y -> x = y.
Proof.
  induction l as [|a l IH]; simpl; [done |].
  rewrite NoDup_cons. intros [Ha Hl] [-> | Hx] [-> | Hy] Hk; auto.
  - exfalso. apply Ha. rewrite Hk. apply list_elem_of_In, in_map. done.
  - exfalso. apply Ha. rewrite <- Hk. apply list_elem_of_In, in_map. done.
Qed.

Lemma includes_filter_ids (p : LeaveRequest.t -> bool) (rows : list LeaveRequest.t) x :
  NoDup (map LeaveRequest.id rows) -> In x rows ->
  Js.includes (map LeaveRequest.id (List.filter p rows)) (LeaveRequest.id x) = p x.
Proof.
  intros Hnd Hx. apply Bool.eq_iff_eq_true. unfold Js.includes.
  rewrite existsb_exists. split.
  - intros (i & Hi & He%String.eqb_eq). apply in_map_iff in Hi as (y & <- & Hy).
    apply filter_In in Hy as [Hy Hp].
    by rewrite (NoDup_map_inj LeaveRequest.id rows x y Hnd Hx Hy He).
  - intros Hp. exists (LeaveRequest.id x). split; [|apply String.eqb_refl].
    apply in_map, filter_In. done.
Qed.

Lemma cancelTx_spec user existing db r db' :
  Prisma.leaveRequest_update (LeaveRequest.id existing) (Prisma.setStatus CANCELED) db
  = Some (r, db') ->
  LeaveRoute.cancelTx user existing db
  = Some (tt, Prisma.withLeaveRequest db
                (map (Spec.cancelRow user existing) (Db.leaveRequest db))).
Proof.
  intros Hu. unfold LeaveRoute.cancelTx. rewrite Hu. simpl.
  apply update_spec in Hu as (x & _ & _ & _ & ->).
  unfold Prisma.leaveRequest_updateMany. simpl. do 2 f_equal.
  unfold Prisma.withLeaveRequest. simpl. f_equal.
  rewrite map_map. apply map_ext. intros y. unfold Spec.cancelRow, Spec.ownPendingMirror.
  destruct (String.eqb (LeaveRequest.id y) (LeaveRequest.id existing)); simpl; [|done].
  by rewrite !andb_false_r.
Qed.

(** The cascade of a decision over the rows of [linkedFrom], row by row. *)
Lemma cascade_rows id result (rows : list LeaveRequest.t) :
  result <> PENDING ->
  NoDup (map LeaveRequest.id rows) ->
  let rows1 :=
    map (fun x => if String.eqb (LeaveRequest.id x) id
                  then Prisma.applyData (Prisma.setStatus result) x else x) rows in
  let mirrors := List.filter (fun r => Js.optEqb (LeaveRequest.linkedToId r) id) rows1 in
  (if (0 <? length mirrors)%nat
   then map (fun r => if Js.includes (map LeaveRequest.id mirrors) (LeaveRequest.id r)
                         && bool_decide (LeaveRequest.status r = PENDING)
                      then Prisma.applyData (Prisma.setStatus result) r else r) rows1
   else rows1)
  = map (Spec.decideRow id result) rows.
Proof.
  intros Hres Hnd rows1 mirrors.
  assert (Hnd1 : NoDup (map LeaveRequest.id rows1)).
  { unfold rows1. rewrite map_keeps; [done |]. intros x. by case_match. }
  assert (Hstep : forall y, In y rows1 ->
            (if Js.includes (map LeaveRequest.id mirrors) (LeaveRequest.id y)
                && bool_decide (LeaveRequest.status y = PENDING)
             then Prisma.applyData (Prisma.setStatus result) y else y)
            = (if Js.optEqb (LeaveRequest.linkedToId y) id
                  && bool_decide (LeaveRequest.status y = PENDING)
               then Prisma.applyData (Prisma.setStatus result) y else y)).
  { intros y Hy. unfold mirrors. by rewrite includes_filter_ids. }
  assert (Hall : map (fun r => if Js.includes (map LeaveRequest.id mirrors) (LeaveRequest.id r)
                                  && bool_decide (LeaveRequest.status r = PENDING)
                               then Prisma.applyData (Prisma.setStatus result) r else r) rows1
                 = map (Spec.decideRow id result) rows).
  { rewrite (map_ext_in _ _ _ Hstep). unfold rows1. rewrite map_map. apply map_ext.
    intros x. unfold Spec.decideRow.
    destruct (String.eqb (LeaveRequest.id x) id); [|done]. simpl.
    rewrite bool_decide_eq_false_2 by done. by rewrite andb_false_r. }
  destruct (0 <? length mirrors)%nat eqn:Hlen; [exact Hall |].
  rewrite <- Hall. symmetry. rewrite <- (map_id rows1) at 2. apply map_ext_in.
  intros y Hy. rewrite Hstep by done.
  destruct (Js.optEqb (LeaveRequest.linkedToId y) id) eqn:Hl; [|done].
  assert (In y mirrors) as Hm by (apply filter_In; done).
  apply Nat.ltb_ge in Hlen. destruct mirrors; [done | simpl in Hlen; lia].
Qed.

Lemma approval_create_fresh pf storeId lrId managerId action reason db :
  Spec.approvalIdFresh pf db ->
  Prisma.approval_create pf storeId lrId managerId action reason db
  = Some (Prisma.withApproval db
            (Db.approval db ++
               [ {| Approval.id := cuid pf (map Approval.id (Db.approval db));
                    Approval.storeId := storeId; Approval.leaveRequestId := lrId;
                    Approval.managerId := managerId; Approval.action := action;
                    Approval.reason := reason |} ])).
Proof.
  intros Hf. unfold Prisma.approval_create.
  destruct (existsb _ _) eqn:He; [|done]. exfalso. apply Hf.
  apply existsb_exists in He as (a & Ha & He%String.eqb_eq). rewrite <- He. by apply in_map.
Qed.

Lemma decide_rows pf storeId managerId action reason id result db upd tx1 tx2 :
  result <> PENDING -> Spec.idsUnique db ->
  Prisma.leaveRequest_update id (Prisma.setStatus result) db = Some (upd, tx1) ->
  Prisma.approval_create pf storeId id managerId action reason tx1 = Some tx2 ->
  (if (0 <? length (ApproveRoute.linkedFrom (LeaveRequest.id upd) tx1))%nat
   then Prisma.leaveRequest_updateMany
          (fun r => Js.includes
                      (map LeaveRequest.id (ApproveRoute.linkedFrom (LeaveRequest.id upd) tx1))
                      (LeaveRequest.id r)
                    && bool_decide (LeaveRequest.status r = PENDING))
          (Prisma.setStatus result) tx2
   else tx2)
  = Prisma.withApproval
      (Prisma.withLeaveRequest db (map (Spec.decideRow id result) (Db.leaveRequest db)))
      (Db.approval tx2).
Proof.
  intros Hres Hnd Hu Ha.
  apply update_spec in Hu as (r & Hr & Hid & -> & ->).
  pose proof (cascade_rows id result (Db.leaveRequest db) Hres Hnd) as Hc. simpl in Hc.
  pose proof (approval_create_leaveRequest _ _ _ _ _ _ _ _ Ha) as Hsame. simpl in Hsame.
  unfold Prisma.approval_create in Ha. destruct (existsb _ _); [done |].
  injection Ha as <-. simpl in *.
  unfold ApproveRoute.linkedFrom, findMany. simpl. rewrite Hid.
  destruct (0 <? _)%nat.
  - unfold Prisma.leaveRequest_updateMany, Prisma.withApproval, Prisma.withLeaveRequest. simpl.
    by rewrite Hc.
  - unfold Prisma.withApproval, Prisma.withLeaveRequest. simpl. by rewrite Hc.
Qed.

Lemma find_unique {A K} (key : A -> K) (p : A -> bool) (l : list A) (r : A) :
  NoDup (map key l) -> In r l -> p r = true ->
  (forall x, In x l -> p x = true -> key x = key r) ->
  find p l = Some r.
Proof.
  intros Hnd Hr Hp Hkey. destruct (find p l) as [x|] eqn:Hf.
  - apply find_some in Hf as [Hx Hpx]. f_equal.
    eapply NoDup_map_inj; eauto.
  - by rewrite (find_none _ _ Hf r Hr) in Hp.
Qed.

Lemma update_unique id data db r :
  Spec.idsUnique db -> In r (Db.leaveRequest db) -> LeaveRequest.id r = id ->
  Prisma.leaveRequest_update id data db
  = Some (Prisma.applyData data r,
          Prisma.withLeaveRequest db
            (map (fun x => if String.eqb (LeaveRequest.id x) id
                           then Prisma.applyData data x else x) (Db.leaveRequest db))).
Proof.
  intros Hnd Hr Hid. unfold Prisma.leaveRequest_update, findFirst.
  rewrite (find_unique LeaveRequest.id _ _ r Hnd Hr); [done | |].
  - rewrite Hid. apply String.eqb_refl.
  - intros x _ Hx%String.eqb_eq. congruence.
Qed.

Lemma decideTx_cases pf user id parsed result db r :
  result <> PENDING -> Spec.idsUnique db ->
  In r (Db.leaveRequest db) -> LeaveRequest.id r = id ->
  (ApproveRoute.decideTx pf user id parsed result db
   = Some (Prisma.applyData (Prisma.setStatus result) r,
           Spec.decided pf db user id (ApproveRoute.action parsed)
             (ApproveRoute.reason parsed) result)
   \/ ApproveRoute.decideTx pf user id parsed result db = None)
  /\ (Spec.approvalIdFresh pf db ->
      ApproveRoute.decideTx pf user id parsed result db
      = Some (Prisma.applyData (Prisma.setStatus result) r,
              Spec.decided pf db user id (ApproveRoute.action parsed)
                (ApproveRoute.reason parsed) result)).
Proof.
  intros Hres Hnd Hr Hid.
  pose proof (update_unique id (Prisma.setStatus result) db r Hnd Hr Hid) as Hu.
  assert (Hsome : forall tx2,
            Prisma.approval_create pf (User.storeId user) id (User.id user)
              (ApproveRoute.action parsed) (ApproveRoute.reason parsed)
              (Prisma.withLeaveRequest db
                 (map (fun x => if String.eqb (LeaveRequest.id x) id
                                then Prisma.applyData (Prisma.setStatus result) x else x)
                    (Db.leaveRequest db))) = Some tx2 ->
            ApproveRoute.decideTx pf user id parsed result db
            = Some (Prisma.applyData (Prisma.setStatus result) r,
                    Spec.decided pf db user id (ApproveRoute.action parsed)
                      (ApproveRoute.reason parsed) result)).
  { intros tx2 Ha. unfold ApproveRoute.decideTx. rewrite Hu. simpl. rewrite Ha. simpl.
    do 2 f_equal. etrans; [exact (decide_rows _ _ _ _ _ _ _ _ _ _ _ Hres Hnd Hu Ha) |].
    unfold Prisma.approval_create in Ha. destruct (existsb _ _); [done |].
    by injection Ha as <-. }
  split.
  - destruct (Prisma.approval_create pf (User.storeId user) id (User.id user)
                (ApproveRoute.action parsed) (ApproveRoute.reason parsed)
                (Prisma.withLeaveRequest db
                   (map (fun x => if String.eqb (LeaveRequest.id x) id
                                  then Prisma.applyData (Prisma.setStatus result) x else x)
                      (Db.leaveRequest db)))) as [tx2|] eqn:Ha.
    + left. by eapply Hsome.
    + right. unfold ApproveRoute.decideTx. rewrite Hu. simpl. by rewrite Ha.
  - intros Hf. eapply Hsome. by apply approval_create_fresh.
Qed.

Lemma setLeaveStatusTx_decideTx pf user id act result db :
  AdminPage.setLeaveStatusTx pf user id act result db
  = '(_, db') ← ApproveRoute.decideTx pf user id
                  {| ApproveRoute.action := act; ApproveRoute.reason := None |} result db;
    Some (tt, db').
Proof.
  unfold AdminPage.setLeaveStatusTx, ApproveRoute.decideTx.
  destruct (Prisma.leaveRequest_update _ _ _) as [[upd tx1]|]; simpl; [|done].
  destruct (Prisma.approval_create _ _ _ _ _ _ _) as [tx2|]; simpl; done.
Qed.

Lemma parseAction_reject s act :
  ApproveRoute.parseAction s = Some act ->
  (if String.eqb s "REJECT" then REJECTED else APPROVED) = ApproveRoute.nextStatusOf act.
Proof.
  unfold ApproveRoute.parseAction.
  destruct (String.eqb s "APPROVE") eqn:H1; [apply String.eqb_eq in H1 as ->; by intros [= <-] |].
  destruct (String.eqb s "REJECT") eqn:H2; [by intros [= <-] |].
  destruct (String.eqb s "FORCE_APPROVE"); [by intros [= <-] | done].
Qed.

Lemma nextStatusOf_not_pending act : ApproveRoute.nextStatusOf act <> PENDING.
Proof. by destruct act. Qed.

(** ** C6 *)

(** X30. When a manager decides a PENDING leave request through the
    approval route or through [setLeaveStatus], the request and every
    request linked to it that is still PENDING take the resulting status
    (REJECTED for REJECT, APPROVED for APPROVE and FORCE_APPROVE), linked
    requests that are no longer PENDING stay as they are, and one approval
    record is added; the three writes are one transaction, so the store
    ends with all of them or, when the transaction throws, unchanged. *)
Theorem decision_cascades_to_pending_mirrors pf db req id user parsed lr :
  Spec.idsUnique db ->
  Auth.getCurrentUser db req = Some user ->
  User.role user = MANAGER ->
  ApproveRoute.BodySchema (Auth.body req) = Some parsed ->
  In lr (Db.leaveRequest db) ->
  LeaveRequest.id lr = id ->
  LeaveRequest.storeId lr = User.storeId user ->
  LeaveRequest.status lr = PENDING ->
  let act := ApproveRoute.action parsed in
  let result :=
    match act with
    | REJECT => REJECTED
    | APPROVE | FORCE_APPROVE => APPROVED
    end in
  let after := Spec.decided pf db user id act (ApproveRoute.reason parsed) result in
  let after' := Spec.decided pf db user id act None result in
  let updated := Prisma.applyData (Prisma.setStatus result) lr in
  (ApproveRoute.POST pf db req id = (RespLeaveRequest updated, after)
   \/ ApproveRoute.POST pf db req id = (Throws, db))
  /\ (Spec.approvalIdFresh pf db ->
      ApproveRoute.POST pf db req id = (RespLeaveRequest updated, after))
  /\ (forall actionName,
        id <> "" ->
        ApproveRoute.parseAction actionName = Some act ->
        (AdminPage.setLeaveStatus pf db req id actionName = after'
         \/ AdminPage.setLeaveStatus pf db req id actionName = db)
        /\ (Spec.approvalIdFresh pf db ->
            AdminPage.setLeaveStatus pf db req id actionName = after'))
  /\ (forall x,
        LeaveRequest.id x <> id ->
        LeaveRequest.linkedToId x = Some id ->
        Spec.decideRow id result x
        = if bool_decide (LeaveRequest.status x = PENDING)
          then Prisma.applyData (Prisma.setStatus result) x else x)
  /\ (forall x,
        LeaveRequest.id x <> id ->
        LeaveRequest.linkedToId x <> Some id ->
        Spec.decideRow id result x = x).
Proof.
  intros Hnd Huser Hrole Hbody Hlr Hid Hstore Hst. simpl.
  assert (Hres : (match ApproveRoute.action parsed with
                  | REJECT => REJECTED
                  | _ => APPROVED
                  end) = ApproveRoute.nextStatusOf (ApproveRoute.action parsed))
    by (by destruct (ApproveRoute.action parsed)).
  rewrite Hres.
  pose proof (nextStatusOf_not_pending (ApproveRoute.action parsed)) as Hnp.
  assert (Hfind : findFirst
                    (fun r => String.eqb (LeaveRequest.id r) id
                              && String.eqb (LeaveRequest.storeId r) (User.storeId user))
                    (Db.leaveRequest db) = Some lr).
  { apply (find_unique LeaveRequest.id); [done | done | |].
    - by rewrite Hid, Hstore, !String.eqb_refl.
    - intros x _ [Hx%String.eqb_eq _]%andb_prop. congruence. }
  destruct (decideTx_cases pf user id parsed _ db lr Hnp Hnd Hlr Hid) as [Hcases Hfresh].
  destruct (decideTx_cases pf user id
              {| ApproveRoute.action := ApproveRoute.action parsed; ApproveRoute.reason := None |}
              _ db lr Hnp Hnd Hlr Hid) as [Hcases' Hfresh'].
  simpl in Hcases', Hfresh'.
  assert (Hpost : forall res,
            Prisma.transaction
              (ApproveRoute.decideTx pf user id parsed
                 (ApproveRoute.nextStatusOf (ApproveRoute.action parsed))) db = res ->
            ApproveRoute.POST pf db req id
            = match res with
              | (Some updated, db') => (RespLeaveRequest updated, db')
              | (None, db') => (Throws, db')
              end).
  { intros res <-. unfold ApproveRoute.POST, Auth.requireRole.
    rewrite Huser, Hrole, Hbody, Hfind, Hst. reflexivity. }
  assert (Hact : forall actionName,
            id <> "" ->
            ApproveRoute.parseAction actionName = Some (ApproveRoute.action parsed) ->
            AdminPage.setLeaveStatus pf db req id actionName
            = (Prisma.transaction
                 (AdminPage.setLeaveStatusTx pf user id (ApproveRoute.action parsed)
                    (ApproveRoute.nextStatusOf (ApproveRoute.action parsed))) db).2).
  { intros actionName Hne Hp. unfold AdminPage.setLeaveStatus.
    rewrite Huser, Hrole, Hfind, Hst, Hp, (parseAction_reject _ _ Hp).
    apply String.eqb_neq in Hne. rewrite Hne. reflexivity. }
  split_and!.
  - destruct Hcases as [H | H]; [left | right];
      erewrite Hpost by reflexivity; unfold Prisma.transaction; by rewrite H.
  - intros Hf. erewrite Hpost by reflexivity. unfold Prisma.transaction.
    by rewrite (Hfresh Hf).
  - intros actionName Hne Hp. rewrite (Hact _ Hne Hp). unfold Prisma.transaction.
    rewrite setLeaveStatusTx_decideTx. split.
    + destruct Hcases' as [H | H]; [left | right]; by rewrite H.
    + intros Hf. by rewrite (Hfresh' Hf).
  - intros x Hx Hl. unfold Spec.decideRow.
    apply String.eqb_neq in Hx. rewrite Hx, Hl. simpl. by rewrite String.eqb_refl.
  - intros x Hx Hl. unfold Spec.decideRow.
    apply String.eqb_neq in Hx. rewrite Hx.
    destruct (LeaveRequest.linkedToId x) as [l|]; simpl; [|done].
    destruct (String.eqb l id) eqn:He; [|done].
    apply String.eqb_eq in He. congruence.
Qed.

(** The manager approves ray's request of 2024-06-10: song's mirror is
    approved with it, rj's own request stays PENDING. *)
Lemma decision_cascades_to_pending_mirrors_witness :
  ApproveRoute.POST (Reference.platform 10) Scenario.mirrored
    (Scenario.decisionOf "APPROVE") "lr1"
  = (RespLeaveRequest
       (Scenario.leave "lr1" "u_ray" "2024-06-10" APPROVED LeaveRequestSource.SELF "u_ray" None),
     Spec.decided (Reference.platform 10) Scenario.mirrored Scenario.manager "lr1"
       APPROVE None APPROVED)
  /\ map LeaveRequest.status
       (Db.leaveRequest
          (Spec.decided (Reference.platform 10) Scenario.mirrored Scenario.manager "lr1"
             APPROVE None APPROVED))
     = [APPROVED; APPROVED; PENDING].
Proof.
  split; [| reflexivity].
  refine (proj1 (proj2
    (decision_cascades_to_pending_mirrors (Reference.platform 10) Scenario.mirrored
       (Scenario.decisionOf "APPROVE") "lr1" Scenario.manager
       {| ApproveRoute.action := APPROVE; ApproveRoute.reason := None |}
       (Scenario.leave "lr1" "u_ray" "2024-06-10" PENDING LeaveRequestSource.SELF "u_ray" None)
       _ eq_refl eq_refl eq_refl _ eq_refl eq_refl eq_refl)) _).
  - repeat constructor; set_solver.
  - left. reflexivity.
  - intros [].
Defined.

(** C6. The claim fails on the third path by which a manager approves a
    PENDING request: [createManagerLeave] for a user and a date that carry
    a PENDING request sets that request to APPROVED and records a
    FORCE_APPROVE approval, and leaves the requests linked to it alone.
    Ray asks for 2024-06-10 and song gets the PENDING mirror; when the
    manager then enters a leave for ray on that date, ray's request is
    APPROVED and song's mirror is still PENDING, where [setLeaveStatus]
    and the approval route, given FORCE_APPROVE for the same request,
    approve both. *)
Theorem manager_leave_skips_the_cascade :
  let pf := Reference.platform 3 in
  let form := {| Auth.mockUserId := Some "u_manager"; Auth.body := None |} in
  let requested :=
    (LeaveRoute.POST pf Scenario.seed (Scenario.requestOf Scenario.ray "2024-06-10")).2 in
  let rows (db : Db.t) :=
    map (fun r => (LeaveRequest.id r, LeaveRequest.userId r, LeaveRequest.status r,
                   LeaveRequest.linkedToId r)) (Db.leaveRequest db) in
  let approvals (db : Db.t) :=
    map (fun a => (Approval.leaveRequestId a, Approval.action a)) (Db.approval db) in
  let entered := AdminPage.createManagerLeave pf requested form "u_ray" "2024-06-10" in
  let decided := AdminPage.setLeaveStatus pf requested form "c" "FORCE_APPROVE" in
  let routed := (ApproveRoute.POST pf requested (Scenario.decisionOf "FORCE_APPROVE") "c").2 in
  rows requested = [("c", "u_ray", PENDING, None); ("cc", "u_song", PENDING, Some "c")]
  /\ rows entered = [("c", "u_ray", APPROVED, None); ("cc", "u_song", PENDING, Some "c")]
  /\ approvals entered = [("c", FORCE_APPROVE)]
  /\ rows decided = [("c", "u_ray", APPROVED, None); ("cc", "u_song", APPROVED, Some "c")]
  /\ rows routed = rows decided.
Proof. vm_compute. repeat split. Qed.

(** ** C7 *)

(** C7. When a user cancels their own self-created PENDING leave request,
    the request and exactly the PENDING requests linked to it that the same
    user created (rows of the user's store, as every query of the route is
    scoped) become CANCELED; every other leave request, an independently
    created request of an assistant for the same date among them, is left
    as it was. *)
Theorem cancel_cascades_to_own_mirrors_only db req user date existing :
  Spec.keysUnique db ->
  Auth.getCurrentUser db req = Some user ->
  LeaveRoute.BodySchema (Auth.body req) = Some date ->
  DateLib.isIsoDate date = true ->
  In existing (Db.leaveRequest db) ->
  LeaveRequest.userId existing = User.id user ->
  LeaveRequest.date existing = date ->
  LeaveRequest.storeId existing = User.storeId user ->
  LeaveRequest.status existing = PENDING ->
  LeaveRequest.createdByUserId existing = Some (User.id user) ->
  LeaveRoute.DELETE db req
  = (RespOk,
     Prisma.withLeaveRequest db (map (Spec.cancelRow user existing) (Db.leaveRequest db)))
  /\ Spec.cancelRow user existing existing
     = Prisma.applyData (Prisma.setStatus CANCELED) existing
  /\ (forall x,
        Spec.ownPendingMirror user existing x = true ->
        Spec.cancelRow user existing x = Prisma.applyData (Prisma.setStatus CANCELED) x)
  /\ (forall x,
        In x (Db.leaveRequest db) -> x <> existing ->
        Spec.ownPendingMirror user existing x = false ->
        Spec.cancelRow user existing x = x)
  /\ (forall x,
        In x (Db.leaveRequest db) -> x <> existing ->
        (LeaveRequest.linkedToId x <> Some (LeaveRequest.id existing)
         \/ LeaveRequest.createdByUserId x <> Some (User.id user)
         \/ LeaveRequest.status x <> PENDING) ->
        Spec.cancelRow user existing x = x).
Proof.
  intros [Hid Hud] Huser Hbody Hiso Hin Hu Hd Hs Hst Hc.
  assert (Hother : forall x, In x (Db.leaveRequest db) -> x <> existing ->
            String.eqb (LeaveRequest.id x) (LeaveRequest.id existing) = false).
  { intros x Hx Hne. apply String.eqb_neq. intros He. apply Hne.
    by eapply (NoDup_map_inj LeaveRequest.id). }
  split_and!.
  - unfold LeaveRoute.DELETE. rewrite Huser, Hbody, Hiso. simpl.
    unfold findFirst.
    rewrite (find_unique Spec.userDate _ _ existing Hud Hin).
    + rewrite Hc, Hst. simpl. rewrite String.eqb_refl. simpl.
      unfold Prisma.transaction.
      erewrite cancelTx_spec; [done |]. by apply update_unique.
    + rewrite Hs, Hu, Hd, Hst, !String.eqb_refl. done.
    + intros x _ [[[_ Hxu%String.eqb_eq]%andb_prop Hxd%String.eqb_eq]%andb_prop _]%andb_prop.
      unfold Spec.userDate. congruence.
  - unfold Spec.cancelRow. by rewrite String.eqb_refl.
  - intros x Hm. unfold Spec.cancelRow. rewrite Hm. by case_match.
  - intros x Hx Hne Hm. unfold Spec.cancelRow. by rewrite (Hother x Hx Hne), Hm.
  - intros x Hx Hne Hcase. unfold Spec.cancelRow. rewrite (Hother x Hx Hne).
    case_match eqn:Hm; [|done]. exfalso.
    unfold Spec.ownPendingMirror in Hm.
    apply andb_prop in Hm as [[[_ Hl]%andb_prop Hp]%andb_prop Hcr].
    apply bool_decide_eq_true in Hp. unfold Js.optEqb in Hl, Hcr.
    destruct (LeaveRequest.linkedToId x) as [l|]; [|done].
    destruct (LeaveRequest.createdByUserId x) as [c|]; [|done].
    apply String.eqb_eq in Hl, Hcr. subst. naive_solver.
Qed.

(** Ray cancels the request of 2024-06-10: song's mirror goes with it,
    the requests rj and joel made for the same day stay PENDING. *)
Lemma cancel_cascades_to_own_mirrors_only_witness :
  (LeaveRoute.DELETE Scenario.busyDay (Scenario.requestOf Scenario.ray "2024-06-10")).1 = RespOk
  /\ map LeaveRequest.status
       (Db.leaveRequest
          (LeaveRoute.DELETE Scenario.busyDay (Scenario.requestOf Scenario.ray "2024-06-10")).2)
     = [CANCELED; CANCELED; PENDING; PENDING].
Proof.
  rewrite (proj1
    (cancel_cascades_to_own_mirrors_only Scenario.busyDay
       (Scenario.requestOf Scenario.ray "2024-06-10") Scenario.ray "2024-06-10"
       (Scenario.leave "lr1" "u_ray" "2024-06-10" PENDING LeaveRequestSource.SELF "u_ray" None)
       ltac:(split; repeat constructor; set_solver)
       eq_refl eq_refl eq_refl ltac:(left; reflexivity)
       eq_refl eq_refl eq_refl eq_refl eq_refl)).
  split; reflexivity.
Defined.

(** ** C9 *)

(** C9. A leave request for a user and date that already has a PENDING or
    APPROVED record of that user is answered 409 ALREADY_REQUESTED, with the
    status of that record, and the store is left exactly as it was: no row
    is created and none is changed. *)
Theorem duplicate_request_is_conflict pf db req user date existing :
  Spec.userDateUnique db ->
  Auth.getCurrentUser db req = Some user ->
  LeaveRoute.BodySchema (Auth.body req) = Some date ->
  DateLib.isIsoDate date = true ->
  In existing (Db.leaveRequest db) ->
  LeaveRequest.userId existing = User.id user ->
  LeaveRequest.date existing = date ->
  LeaveRequest.status existing = PENDING \/ LeaveRequest.status existing = APPROVED ->
  LeaveRoute.POST pf db req = (RespAlreadyRequested (LeaveRequest.status existing), db)
  /\ httpStatus (LeaveRoute.POST pf db req).1 = 409%nat
  /\ errorCode (LeaveRoute.POST pf db req).1 = Some "ALREADY_REQUESTED"
  /\ (LeaveRoute.POST pf db req).2 = db.
Proof.
  intros Hud Huser Hbody Hiso Hin Hu Hd Hst.
  assert (Hpost : LeaveRoute.POST pf db req
                  = (RespAlreadyRequested (LeaveRequest.status existing), db)).
  { unfold LeaveRoute.POST, LeaveRoute.guards. rewrite Huser, Hbody, Hiso. simpl.
    unfold LeaveRoute.existingAny, findFirst.
    rewrite (find_unique Spec.userDate _ _ existing Hud Hin).
    - by destruct Hst as [-> | ->].
    - by rewrite Hu, Hd, !String.eqb_refl.
    - intros x _ [Hxu%String.eqb_eq Hxd%String.eqb_eq]%andb_prop.
      unfold Spec.userDate. congruence. }
  rewrite Hpost. done.
Qed.

(** Song asks again for 2024-06-04, already approved. *)
Lemma duplicate_request_is_conflict_witness :
  LeaveRoute.POST (Reference.platform 10) Scenario.june Scenario.songAgain
  = (RespAlreadyRequested APPROVED, Scenario.june).
Proof.
  refine (proj1
    (duplicate_request_is_conflict (Reference.platform 10) Scenario.june Scenario.songAgain
       Scenario.song "2024-06-04"
       (Scenario.leave "lr1" "u_song" "2024-06-04" APPROVED LeaveRequestSource.SELF "u_song" None)
       _ eq_refl eq_refl eq_refl _ eq_refl eq_refl _)).
  - repeat constructor; set_solver.
  - left. reflexivity.
  - right. reflexivity.
Defined.

(** ** Every operation keeps the keys: the remaining operations *)

Lemma keysUnique_same db db' :
  Db.leaveRequest db' = Db.leaveRequest db -> Spec.keysUnique db -> Spec.keysUnique db'.
Proof. unfold Spec.keysUnique, Spec.idsUnique, Spec.userDateUnique. by intros ->. Qed.

Lemma transaction_keys {A} (body : Db.t -> option (A * Db.t)) db :
  (forall a db', body db = Some (a, db') -> Spec.keysUnique db') ->
  Spec.keysUnique db -> Spec.keysUnique (Prisma.transaction body db).2.
Proof.
  intros Hbody Hk. unfold Prisma.transaction.
  destruct (body db) as [[a db']|] eqn:Hb; simpl; eauto.
Qed.

Lemma cancelTx_keys user existing db a db' :
  Spec.keysUnique db -> LeaveRoute.cancelTx user existing db = Some (a, db') ->
  Spec.keysUnique db'.
Proof.
  intros Hk. unfold LeaveRoute.cancelTx.
  destruct (Prisma.leaveRequest_update _ _ _) as [[r tx1]|] eqn:Hu; simpl; [|done].
  intros [= <- <-]. apply updateMany_keys. by eapply update_keys.
Qed.

Lemma decideTx_keys pf user id parsed result db a db' :
  Spec.keysUnique db -> ApproveRoute.decideTx pf user id parsed result db = Some (a, db') ->
  Spec.keysUnique db'.
Proof.
  intros Hk. unfold ApproveRoute.decideTx.
  destruct (Prisma.leaveRequest_update _ _ _) as [[r tx1]|] eqn:Hu; simpl; [|done].
  destruct (Prisma.approval_create _ _ _ _ _ _ _) as [tx2|] eqn:Ha; simpl; [|done].
  intros [= <- <-].
  assert (Spec.keysUnique tx2) as Hk2.
  { eapply keysUnique_same; [by eapply approval_create_leaveRequest |]. by eapply update_keys. }
  case_match; [by apply updateMany_keys | done].
Qed.

Lemma createManagerLeaveTx_keys pf me target date db a db' :
  Spec.keysUnique db -> AdminPage.createManagerLeaveTx pf me target date db = Some (a, db') ->
  Spec.keysUnique db'.
Proof.
  intros Hk. unfold AdminPage.createManagerLeaveTx.
  destruct (findFirst _ _) as [ex|].
  - destruct (Prisma.leaveRequest_update _ _ _) as [[r tx1]|] eqn:Hu; simpl; [|done].
    destruct (Prisma.approval_create _ _ _ _ _ _ _) as [tx2|] eqn:Ha; simpl; [|done].
    intros [= <- <-].
    eapply keysUnique_same; [by eapply approval_create_leaveRequest |]. by eapply update_keys.
  - destruct (Prisma.leaveRequest_create _ _ _ _ _ _ _ _ _) as [[r tx1]|] eqn:Hc; simpl; [|done].
    destruct (Prisma.approval_create _ _ _ _ _ _ _) as [tx2|] eqn:Ha; simpl; [|done].
    intros [= <- <-].
    eapply keysUnique_same; [by eapply approval_create_leaveRequest |]. by eapply create_keys.
Qed.

Lemma clearAllLeavesTx_keys me db a db' :
  Spec.keysUnique db -> AdminPage.clearAllLeavesTx me db = Some (a, db') ->
  Spec.keysUnique db'.
Proof.
  intros Hk [= <- <-]. apply deleteMany_keys, updateMany_keys.
  by eapply keysUnique_same.
Qed.

Lemma DELETE_keys db req :
  Spec.keysUnique db -> Spec.keysUnique (LeaveRoute.DELETE db req).2.
Proof.
  intros Hk. unfold LeaveRoute.DELETE.
  destruct (Auth.getCurrentUser db req) as [user|]; [|done].
  destruct (LeaveRoute.BodySchema _) as [date|]; [|done].
  destruct (negb (DateLib.isIsoDate date)); [done |].
  destruct (findFirst _ _) as [existing|]; [|done].
  destruct (negb (Js.optEqb _ _)); [done |].
  destruct (negb (bool_decide _)); [done |].
  pose proof (transaction_keys (LeaveRoute.cancelTx user existing) db
                (fun a db' => cancelTx_keys user existing db a db' Hk) Hk) as H.
  by destruct (Prisma.transaction _ _) as [[?|] ?].
Qed.

Lemma decide_keys pf db req id :
  Spec.keysUnique db -> Spec.keysUnique (ApproveRoute.POST pf db req id).2.
Proof.
  intros Hk. unfold ApproveRoute.POST.
  destruct (Auth.getCurrentUser db req) as [user|]; [|done].
  destruct (negb (Auth.requireRole user [MANAGER])); [done |].
  destruct (ApproveRoute.BodySchema _) as [parsed|]; [|done].
  destruct (findFirst _ _) as [lr|]; [|done].
  destruct (negb (bool_decide _)); [done |].
  pose proof (transaction_keys
                (ApproveRoute.decideTx pf user id parsed
                   (ApproveRoute.nextStatusOf (ApproveRoute.action parsed))) db
                (fun a db' => decideTx_keys pf user id parsed _ db a db' Hk) Hk) as H.
  by destruct (Prisma.transaction _ _) as [[?|] ?].
Qed.

Lemma setLeaveStatus_keys pf db req id action :
  Spec.keysUnique db -> Spec.keysUnique (AdminPage.setLeaveStatus pf db req id action).
Proof.
  intros Hk. unfold AdminPage.setLeaveStatus.
  destruct (Auth.getCurrentUser db req) as [user|]; [|done].
  destruct (negb (bool_decide _)); [done |].
  destruct (String.eqb id ""); [done |].
  destruct (findFirst _ _) as [lr|]; [|done].
  destruct (negb (bool_decide _)); [done |].
  destruct (ApproveRoute.parseAction action) as [act|]; [|done].
  apply transaction_keys; [|done]. intros [] db'.
  rewrite setLeaveStatusTx_decideTx.
  destruct (ApproveRoute.decideTx _ _ _ _ _ _) as [[upd tx]|] eqn:Hd; simpl; [|done].
  intros [= <-]. by eapply decideTx_keys.
Qed.

Lemma createManagerLeave_keys pf db req userId date :
  Spec.keysUnique db -> Spec.keysUnique (AdminPage.createManagerLeave pf db req userId date).
Proof.
  intros Hk. unfold AdminPage.createManagerLeave.
  destruct (Auth.getCurrentUser db req) as [me|]; [|done].
  destruct (negb (bool_decide _)); [done |].
  destruct (_ || _); [done |].
  destruct (findFirst _ _) as [target|]; [|done].
  apply transaction_keys; [|done]. intros a db'. by apply createManagerLeaveTx_keys.
Qed.

Lemma clearAllLeaves_keys db req :
  Spec.keysUnique db -> Spec.keysUnique (AdminPage.clearAllLeaves db req).
Proof.
  intros Hk. unfold AdminPage.clearAllLeaves.
  destruct (Auth.getCurrentUser db req) as [me|]; [|done].
  destruct (negb (bool_decide _)); [done |].
  apply transaction_keys; [|done]. intros a db'. by apply clearAllLeavesTx_keys.
Qed.

Lemma step_keys db db' : Spec.step db db' -> Spec.keysUnique db -> Spec.keysUnique db'.
Proof.
  intros Hstep Hk. destruct Hstep;
    eauto using POST_keys, DELETE_keys, decide_keys, setLeaveStatus_keys,
      createManagerLeave_keys, clearAllLeaves_keys, deleteMany_keys, keysUnique_same.
Qed.

Lemma reachable_keys db : Spec.reachable db -> Spec.keysUnique db.
Proof.
  induction 1 as [db Hempty | db db' _ IH Hstep].
  - unfold Spec.keysUnique, Spec.idsUnique, Spec.userDateUnique. rewrite Hempty.
    split; constructor.
  - by eapply step_keys.
Qed.

(** ** C10 *)

Lemma update_in_place ex data db :
  Spec.idsUnique db -> In ex (Db.leaveRequest db) ->
  Prisma.leaveRequest_update (LeaveRequest.id ex) data db
  = Some (Prisma.applyData data ex,
          Prisma.withLeaveRequest db (Spec.inPlace ex data (Db.leaveRequest db))).
Proof.
  intros Hnd Hin. rewrite (update_unique _ data db ex Hnd Hin eq_refl).
  do 3 f_equal. unfold Spec.inPlace. apply map_ext_in. intros x Hx.
  destruct (String.eqb (LeaveRequest.id x) (LeaveRequest.id ex)) eqn:He.
  - apply String.eqb_eq in He.
    rewrite (NoDup_map_inj LeaveRequest.id _ x ex Hnd Hx Hin He).
    by rewrite bool_decide_eq_true_2.
  - rewrite bool_decide_eq_false_2; [done |]. intros ->. by rewrite String.eqb_refl in He.
Qed.

Lemma create_conflict pf storeId userId date status source createdBy linkedTo db x :
  In x (Db.leaveRequest db) ->
  LeaveRequest.userId x = userId -> LeaveRequest.date x = date ->
  Prisma.leaveRequest_create pf storeId userId date status source createdBy linkedTo db = None.
Proof.
  intros Hx Hu Hd. unfold Prisma.leaveRequest_create.
  replace (existsb (fun x0 => String.eqb (LeaveRequest.userId x0) userId
                              && String.eqb (LeaveRequest.date x0) date) (Db.leaveRequest db))
    with true; [by rewrite orb_true_r |].
  symmetry. apply existsb_exists. exists x. by rewrite Hu, Hd, !String.eqb_refl.
Qed.

(** C10. In every reachable state each user and date has at most one leave
    request, whatever its status, and every step keeps it so. The unique
    index enforces it: creating a second row for a user and date throws. A
    self request over a CANCELED or REJECTED row, and a manager-created
    leave over any existing row, update that row in place (status, source
    and creator) and leave every other row and the number of rows alone. *)
Theorem one_record_per_user_and_date db :
  Spec.reachable db ->
  Spec.userDateUnique db
  /\ (forall db', Spec.step db db' -> Spec.userDateUnique db')
  /\ (forall pf storeId userId date status source createdBy linkedTo x,
        In x (Db.leaveRequest db) ->
        LeaveRequest.userId x = userId -> LeaveRequest.date x = date ->
        Prisma.leaveRequest_create pf storeId userId date status source createdBy linkedTo db
        = None)
  /\ (forall pf store user date ex,
        LeaveRoute.existingAny db user date = Some ex ->
        LeaveRequest.status ex = CANCELED \/ LeaveRequest.status ex = REJECTED ->
        LeaveRoute.writeOwn pf store user date db
        = Some (Prisma.applyData (LeaveRoute.selfData user) ex,
                Prisma.withLeaveRequest db
                  (Spec.inPlace ex (LeaveRoute.selfData user) (Db.leaveRequest db))))
  /\ (forall pf me target date ex,
        findFirst (fun r => String.eqb (LeaveRequest.storeId r) (User.storeId me)
                            && String.eqb (LeaveRequest.userId r) (User.id target)
                            && String.eqb (LeaveRequest.date r) date)
          (Db.leaveRequest db) = Some ex ->
        forall u db',
          AdminPage.createManagerLeaveTx pf me target date db = Some (u, db') ->
          Db.leaveRequest db'
          = Spec.inPlace ex (AdminPage.managerData me) (Db.leaveRequest db)).
Proof.
  intros Hreach. destruct (reachable_keys db Hreach) as [Hid Hud].
  split_and!.
  - exact Hud.
  - intros db' Hstep. by apply (step_keys db db' Hstep).
  - intros. by eapply create_conflict.
  - intros pf store user date ex Hex Hst. unfold LeaveRoute.writeOwn. rewrite Hex.
    replace (LeaveRoute.isReusableStatus (LeaveRequest.status ex)) with true
      by (by destruct Hst as [-> | ->]).
    apply update_in_place; [done |].
    unfold LeaveRoute.existingAny, findFirst in Hex. by apply find_some in Hex as [? _].
  - intros pf me target date ex Hex u db'. unfold AdminPage.createManagerLeaveTx.
    rewrite Hex. apply find_some in Hex as [Hin _].
    rewrite (update_in_place ex _ db Hid Hin). simpl.
    destruct (Prisma.approval_create _ _ _ _ _ _ _) as [tx2|] eqn:Ha; simpl; [|done].
    intros [= _ <-]. by rewrite (approval_create_leaveRequest _ _ _ _ _ _ _ _ Ha).
Qed.

(** After ray's request on the seeded store, with the mirror it gave song. *)
Lemma one_record_per_user_and_date_witness :
  Spec.userDateUnique
    (LeaveRoute.POST (Reference.platform 3) Scenario.seed
       (Scenario.requestOf Scenario.ray "2024-06-10")).2.
Proof.
  refine (proj1
    (one_record_per_user_and_date _
       (Spec.reachable_step Scenario.seed _ (Spec.reachable_start Scenario.seed eq_refl)
          (Spec.step_request (Reference.platform 3) Scenario.seed
             (Scenario.requestOf Scenario.ray "2024-06-10"))))).
Defined.

(** ** The request route, phase by phase *)

Lemma guards_inr pf db req user date store :
  LeaveRoute.guards pf db req = inr (user, date, store) ->
  Auth.getCurrentUser db req = Some user
  /\ LeaveRoute.BodySchema (Auth.body req) = Some date
  /\ DateLib.isIsoDate date = true
  /\ Store.id store = User.storeId user
  /\ (forall ex, LeaveRoute.existingAny db user date = Some ex ->
                 LeaveRoute.isActiveStatus (LeaveRequest.status ex) = false).
Proof.
  unfold LeaveRoute.guards.
  destruct (Auth.getCurrentUser db req) as [u|]; [|done].
  destruct (LeaveRoute.BodySchema _) as [d|]; [|done].
  destruct (DateLib.isIsoDate d) eqn:Hiso; simpl; [|done].
  destruct (LeaveRoute.existingAny db u d) as [ex|] eqn:Hex.
  - destruct (LeaveRoute.isActiveStatus (LeaveRequest.status ex)) eqn:Hact; [done |].
    destruct (findFirst _ (Db.store db)) as [st|] eqn:Hst; [|done].
    destruct (Quota.getMonthAvailability _ _ _) as [av|]; [|done].
    destruct (find _ _) as [dy|]; [|done].
    destruct (negb _); [done |]. intros [= <- <- <-].
    apply find_some in Hst as [_ Hst%String.eqb_eq]. split_and!; try done.
    intros ex' Hex'. by simplify_eq.
  - destruct (findFirst _ (Db.store db)) as [st|] eqn:Hst; [|done].
    destruct (Quota.getMonthAvailability _ _ _) as [av|]; [|done].
    destruct (find _ _) as [dy|]; [|done].
    destruct (negb _); [done |]. intros [= <- <- <-].
    apply find_some in Hst as [_ Hst%String.eqb_eq]. split_and!; try done.
    intros ex' Hex'. congruence.
Qed.

Lemma guards_inl pf db req resp lr :
  LeaveRoute.guards pf db req = inl resp -> resp <> RespLeaveRequest lr.
Proof.
  unfold LeaveRoute.guards. intros H ->.
  repeat (case_match; try done).
Qed.

Lemma POST_accepted pf db req lr db' :
  LeaveRoute.POST pf db req = (RespLeaveRequest lr, db') ->
  exists user date store db1,
    LeaveRoute.guards pf db req = inr (user, date, store)
    /\ LeaveRoute.writeOwn pf store user date db = Some (lr, db1)
    /\ LeaveRoute.mirrorAll pf store user date lr db1 = (true, db').
Proof.
  unfold LeaveRoute.POST.
  destruct (LeaveRoute.guards pf db req) as [resp | [[user date] store]] eqn:Hg.
  - intros [= -> _]. by eapply guards_inl in Hg.
  - destruct (LeaveRoute.writeOwn _ _ _ _ _) as [[lr1 db1]|] eqn:Hw; [|done].
    destruct (LeaveRoute.mirrorAll _ _ _ _ _ _) as [[] db2] eqn:Hm; [|done].
    intros [= -> ->]. eauto 10.
Qed.

Lemma in_inPlace ex data rows r :
  In r (Spec.inPlace ex data rows) ->
  (In r rows /\ r <> ex) \/ (In ex rows /\ r = Prisma.applyData data ex).
Proof.
  unfold Spec.inPlace. intros (x & Hx & Hin)%in_map_iff.
  case_bool_decide; subst; auto.
Qed.

Lemma inPlace_in ex data rows x :
  In x rows -> x <> ex -> In x (Spec.inPlace ex data rows).
Proof.
  intros Hx Hne. apply in_map_iff. exists x. split; [|done].
  by rewrite bool_decide_eq_false_2.
Qed.

Lemma inPlace_in_ex ex data rows :
  In ex rows -> In (Prisma.applyData data ex) (Spec.inPlace ex data rows).
Proof.
  intros Hx. apply in_map_iff. exists ex. split; [|done].
  by rewrite bool_decide_eq_true_2.
Qed.

(** The user's own write: an update of the user's row in place, or one
    row more. *)
Lemma writeOwn_spec pf store user date db lr db1 :
  Spec.idsUnique db ->
  LeaveRoute.writeOwn pf store user date db = Some (lr, db1) ->
  LeaveRequest.userId lr = User.id user
  /\ LeaveRequest.date lr = date
  /\ LeaveRequest.status lr = PENDING
  /\ Db.binding db1 = Db.binding db
  /\ Db.config db1 = Db.config db
  /\ ((exists ex,
         In ex (Db.leaveRequest db) /\ LeaveRequest.userId ex = User.id user
         /\ LeaveRequest.date ex = date
         /\ LeaveRoute.isReusableStatus (LeaveRequest.status ex) = true
         /\ lr = Prisma.applyData (LeaveRoute.selfData user) ex
         /\ Db.leaveRequest db1
            = Spec.inPlace ex (LeaveRoute.selfData user) (Db.leaveRequest db))
      \/ Db.leaveRequest db1 = (Db.leaveRequest db ++ [lr])%list).
Proof.
  intros Hnd. unfold LeaveRoute.writeOwn.
  assert (Hcreate :
            Prisma.leaveRequest_create pf (Store.id store) (User.id user) date PENDING
              LeaveRequestSource.SELF (Some (User.id user)) None db = Some (lr, db1) ->
            LeaveRequest.userId lr = User.id user
            /\ LeaveRequest.date lr = date
            /\ LeaveRequest.status lr = PENDING
            /\ Db.binding db1 = Db.binding db
            /\ Db.config db1 = Db.config db
            /\ ((exists ex,
                   In ex (Db.leaveRequest db) /\ LeaveRequest.userId ex = User.id user
                   /\ LeaveRequest.date ex = date
                   /\ LeaveRoute.isReusableStatus (LeaveRequest.status ex) = true
                   /\ lr = Prisma.applyData (LeaveRoute.selfData user) ex
                   /\ Db.leaveRequest db1
                      = Spec.inPlace ex (LeaveRoute.selfData user) (Db.leaveRequest db))
                \/ Db.leaveRequest db1 = (Db.leaveRequest db ++ [lr])%list)).
  { intros (-> & -> & _)%create_spec. split_and!; try done. by right. }
  destruct (LeaveRoute.existingAny db user date) as [ex|] eqn:Hex; [|done].
  destruct (LeaveRoute.isReusableStatus (LeaveRequest.status ex)) eqn:Hre; [|done].
  apply find_some in Hex as [Hin [Hu%String.eqb_eq Hd%String.eqb_eq]%andb_prop].
  rewrite (update_in_place ex _ db Hnd Hin). intros [= <- <-].
  split_and!; try done. left. exists ex. done.
Qed.

(** One turn of the mirror loop: a skip, an update in place of the
    assistant's CANCELED or REJECTED row, or one mirror row more. *)
Lemma mirrorOne_cases pf store user date lr b db db' :
  Spec.idsUnique db ->
  LeaveRoute.mirrorOne pf store user date lr b db = Some db' ->
  (db' = db
   /\ exists ex, In ex (Db.leaveRequest db)
                 /\ LeaveRequest.userId ex = Binding.assistantId b
                 /\ LeaveRequest.date ex = date
                 /\ LeaveRoute.isActiveStatus (LeaveRequest.status ex) = true)
  \/ (exists ex, In ex (Db.leaveRequest db)
                 /\ LeaveRequest.userId ex = Binding.assistantId b
                 /\ LeaveRequest.date ex = date
                 /\ LeaveRoute.isReusableStatus (LeaveRequest.status ex) = true
                 /\ Db.leaveRequest db'
                    = Spec.inPlace ex (LeaveRoute.mirrorData user lr) (Db.leaveRequest db))
  \/ (exists row, Db.leaveRequest db' = (Db.leaveRequest db ++ [row])%list
                  /\ Spec.isMirrorOf (Binding.assistantId b) date (LeaveRequest.id lr) row = true).
Proof.
  intros Hnd. unfold LeaveRoute.mirrorOne.
  assert (Hcreate : forall r,
            snd <$> Prisma.leaveRequest_create pf (Store.id store) (Binding.assistantId b) date
                      PENDING LeaveRequestSource.BINDING_MIRROR (Some (User.id user))
                      (Some (LeaveRequest.id lr)) db = r ->
            r = Some db' ->
            exists row, Db.leaveRequest db' = (Db.leaveRequest db ++ [row])%list
                        /\ Spec.isMirrorOf (Binding.assistantId b) date (LeaveRequest.id lr) row
                           = true).
  { intros r <-.
    destruct (Prisma.leaveRequest_create _ _ _ _ _ _ _ _ _) as [[row tx]|] eqn:Hc; [|done].
    intros [= <-]. apply create_spec in Hc as (-> & -> & _). eexists. split; [done |].
    unfold Spec.isMirrorOf. simpl. by rewrite !String.eqb_refl. }
  destruct (findFirst _ _) as [ex|] eqn:Hex; [|right; right; by eapply Hcreate].
  apply find_some in Hex as [Hin [Hu%String.eqb_eq Hd%String.eqb_eq]%andb_prop].
  destruct (LeaveRoute.isActiveStatus (LeaveRequest.status ex)) eqn:Hact.
  { intros [= <-]. left. split; [done |]. exists ex. done. }
  destruct (LeaveRoute.isReusableStatus (LeaveRequest.status ex)) eqn:Hre;
    [|right; right; by eapply Hcreate].
  rewrite (update_in_place ex _ db Hnd Hin). intros [= <-].
  right. left. exists ex. done.
Qed.

Lemma active_not_reusable st :
  LeaveRoute.isReusableStatus st = true -> LeaveRoute.isActiveStatus st = false.
Proof. by destruct st. Qed.

Lemma isMirrorOf_fields a date p m :
  Spec.isMirrorOf a date p m = true ->
  LeaveRequest.userId m = a /\ LeaveRequest.date m = date /\ LeaveRequest.status m = PENDING.
Proof.
  unfold Spec.isMirrorOf.
  intros [[[[Hu%String.eqb_eq Hd%String.eqb_eq]%andb_prop
              Hs%bool_decide_eq_true]%andb_prop _]%andb_prop _]%andb_prop.
  done.
Qed.

Lemma mirrorOne_keeps_mirror pf store user date lr b db db' a p :
  Spec.idsUnique db ->
  LeaveRoute.mirrorOne pf store user date lr b db = Some db' ->
  Spec.hasMirror db a date p = true -> Spec.hasMirror db' a date p = true.
Proof.
  intros Hnd Hone. unfold Spec.hasMirror. rewrite !existsb_exists.
  intros (m & Hm & Hmir).
  destruct (mirrorOne_cases _ _ _ _ _ _ _ _ Hnd Hone)
    as [[-> _] | [(ex & Hex & _ & _ & Hre & ->) | (row & -> & _)]].
  - eauto.
  - exists m. split; [|done]. apply inPlace_in; [done |]. intros ->.
    apply isMirrorOf_fields in Hmir as (_ & _ & Hst). by rewrite Hst in Hre.
  - exists m. split; [|done]. apply in_or_app. by left.
Qed.

Lemma mirrorOne_makes_mirror pf store user date lr b db db' :
  Spec.idsUnique db ->
  LeaveRoute.mirrorOne pf store user date lr b db = Some db' ->
  Spec.hasMirror db (Binding.assistantId b) date (LeaveRequest.id lr) = true
  \/ Spec.hasActiveRequest db (Binding.assistantId b) date = false ->
  Spec.hasMirror db' (Binding.assistantId b) date (LeaveRequest.id lr) = true.
Proof.
  intros Hnd Hone Hpre.
  destruct (mirrorOne_cases _ _ _ _ _ _ _ _ Hnd Hone)
    as [[-> (ex & Hex & Hu & Hd & Hact)] | [(ex & Hex & Hu & Hd & Hre & Hrows)
                                            | (row & Hrows & Hrow)]].
  - destruct Hpre as [H | H]; [done |]. exfalso.
    apply not_true_iff_false in H. apply H. unfold Spec.hasActiveRequest.
    apply existsb_exists. exists ex. by rewrite Hu, Hd, Hact, !String.eqb_refl.
  - unfold Spec.hasMirror. apply existsb_exists.
    exists (Prisma.applyData (LeaveRoute.mirrorData user lr) ex). split.
    + rewrite Hrows. by apply inPlace_in_ex.
    + unfold Spec.isMirrorOf. simpl. by rewrite Hu, Hd, !String.eqb_refl.
  - unfold Spec.hasMirror. apply existsb_exists. exists row. split; [|done].
    rewrite Hrows. apply in_or_app. right. by left.
Qed.

Lemma mirrorOne_keeps_free pf store user date lr b db db' a :
  Spec.idsUnique db ->
  LeaveRoute.mirrorOne pf store user date lr b db = Some db' ->
  Binding.assistantId b <> a ->
  Spec.hasActiveRequest db a date = false -> Spec.hasActiveRequest db' a date = false.
Proof.
  intros Hnd Hone Hne Hfree. apply not_true_iff_false. intros Hact.
  apply not_true_iff_false in Hfree. apply Hfree. clear Hfree.
  unfold Spec.hasActiveRequest in *. apply existsb_exists in Hact as (r & Hr & Hq).
  apply existsb_exists.
  destruct (mirrorOne_cases _ _ _ _ _ _ _ _ Hnd Hone)
    as [[-> _] | [(ex & Hex & Hu & Hd & Hre & Hrows) | (row & Hrows & Hrow)]].
  - eauto.
  - rewrite Hrows in Hr. apply in_inPlace in Hr as [[Hr _] | [_ ->]]; [eauto |].
    exfalso. simpl in Hq. rewrite Hu in Hq.
    apply andb_prop in Hq as [[Hq%String.eqb_eq _]%andb_prop _]. done.
  - rewrite Hrows in Hr. apply in_app_or in Hr as [Hr | [<- | []]]; [eauto |].
    exfalso. apply isMirrorOf_fields in Hrow as (Hu & _ & _). rewrite Hu in Hq.
    apply andb_prop in Hq as [[Hq%String.eqb_eq _]%andb_prop _]. done.
Qed.

Lemma mirrorLoop_keeps_mirror pf store user date lr bs db ok db' a p :
  Spec.keysUnique db ->
  LeaveRoute.mirrorLoop pf store user date lr bs db = (ok, db') ->
  Spec.hasMirror db a date p = true -> Spec.hasMirror db' a date p = true.
Proof.
  revert db. induction bs as [|b bs IH]; intros db Hk; simpl.
  - by intros [= _ <-].
  - destruct (LeaveRoute.mirrorOne _ _ _ _ _ _ _) as [db1|] eqn:Hone; [|by intros [= _ <-]].
    intros Hloop Hm. apply (IH db1); [by eapply mirrorOne_keys | done |].
    eapply mirrorOne_keeps_mirror; [apply Hk | done | done].
Qed.

Lemma mirrorLoop_makes_mirror pf store user date lr bs db db' b :
  Spec.keysUnique db ->
  LeaveRoute.mirrorLoop pf store user date lr bs db = (true, db') ->
  In b bs ->
  Spec.hasMirror db (Binding.assistantId b) date (LeaveRequest.id lr) = true
  \/ Spec.hasActiveRequest db (Binding.assistantId b) date = false ->
  Spec.hasMirror db' (Binding.assistantId b) date (LeaveRequest.id lr) = true.
Proof.
  revert db. induction bs as [|b0 bs IH]; intros db Hk; simpl; [done |].
  destruct (LeaveRoute.mirrorOne _ _ _ _ _ _ _) as [db1|] eqn:Hone; [|done].
  intros Hloop Hin Hpre.
  pose proof (mirrorOne_keys _ _ _ _ _ _ _ _ Hone Hk) as Hk1.
  destruct (decide (Binding.assistantId b0 = Binding.assistantId b)) as [Heq | Hne].
  - eapply mirrorLoop_keeps_mirror; [exact Hk1 | exact Hloop |].
    rewrite <- Heq. eapply mirrorOne_makes_mirror; [apply Hk | done |]. by rewrite Heq.
  - destruct Hin as [-> | Hin]; [done |].
    apply (IH db1); [done | done | done |].
    destruct Hpre as [Hm | Hfree].
    + left. eapply mirrorOne_keeps_mirror; [apply Hk | done | done].
    + right. eapply mirrorOne_keeps_free; [apply Hk | done | done | done].
Qed.

Lemma getStringConfig_config db db1 storeId key fallback :
  Db.config db1 = Db.config db ->
  ConfigLib.getStringConfig db1 storeId key fallback
  = ConfigLib.getStringConfig db storeId key fallback.
Proof. unfold ConfigLib.getStringConfig, ConfigLib.getConfigValue. by intros ->. Qed.

Lemma writeOwn_keeps_free pf store user date db lr db1 a :
  Spec.idsUnique db ->
  LeaveRoute.writeOwn pf store user date db = Some (lr, db1) ->
  a <> User.id user ->
  Spec.hasActiveRequest db a date = false -> Spec.hasActiveRequest db1 a date = false.
Proof.
  intros Hnd Hw Hne Hfree. apply not_true_iff_false. intros Hact.
  apply not_true_iff_false in Hfree. apply Hfree. clear Hfree.
  unfold Spec.hasActiveRequest in *. apply existsb_exists in Hact as (r & Hr & Hq).
  apply existsb_exists.
  destruct (writeOwn_spec _ _ _ _ _ _ _ Hnd Hw)
    as (Hu & _ & _ & _ & _ & [(ex & Hex & _ & _ & _ & -> & Hrows) | Hrows]).
  - rewrite Hrows in Hr. apply in_inPlace in Hr as [[Hr _] | [_ ->]]; [eauto |].
    exfalso. rewrite Hu in Hq.
    apply andb_prop in Hq as [[Hq%String.eqb_eq _]%andb_prop _]. done.
  - rewrite Hrows in Hr. apply in_app_or in Hr as [Hr | [<- | []]]; [eauto |].
    exfalso. rewrite Hu in Hq.
    apply andb_prop in Hq as [[Hq%String.eqb_eq _]%andb_prop _]. done.
Qed.

(** ** Row by row: what each operation may change *)

Lemma map_lookup {A B} (f : A -> B) (l : list A) (i : nat) :
  map f l !! i = f <$> l !! i.
Proof. revert i. induction l as [|a l IH]; intros [|i]; simpl; auto. Qed.

Lemma sameRecord_refl x : Spec.sameRecord x x.
Proof. by repeat split. Qed.

Lemma sameRecord_applyData data x : Spec.sameRecord x (Prisma.applyData data x).
Proof. by repeat split. Qed.

Lemma sameRecord_trans x y z :
  Spec.sameRecord x y -> Spec.sameRecord y z -> Spec.sameRecord x z.
Proof. intros (? & ? & ?) (? & ? & ?). repeat split; congruence. Qed.

Lemma stepwise_refl (P : LeaveRequest.t -> LeaveRequest.t -> Prop) db db' :
  (forall x, P x x) -> Db.leaveRequest db' = Db.leaveRequest db -> Spec.stepwise P db db'.
Proof. intros HP Hrows i x Hx. exists x. by rewrite Hrows. Qed.

Lemma stepwise_trans (P : LeaveRequest.t -> LeaveRequest.t -> Prop) db1 db2 db3 :
  (forall x y z, P x y -> P y z -> P x z) ->
  Spec.stepwise P db1 db2 -> Spec.stepwise P db2 db3 -> Spec.stepwise P db1 db3.
Proof.
  intros HP H12 H23 i x Hx. destruct (H12 i x Hx) as (y & Hy & Hxy).
  destruct (H23 i y Hy) as (z & Hz & Hyz). eauto.
Qed.

Lemma stepwise_map (P : LeaveRequest.t -> LeaveRequest.t -> Prop) f db db' :
  Db.leaveRequest db' = map f (Db.leaveRequest db) ->
  (forall x, In x (Db.leaveRequest db) -> P x (f x)) ->
  Spec.stepwise P db db'.
Proof.
  intros Hrows HP i x Hx. exists (f x). rewrite Hrows, map_lookup, Hx. split; [done |].
  apply HP. apply list_elem_of_In, list_elem_of_lookup. eauto.
Qed.

Lemma stepwise_inPlace (P : LeaveRequest.t -> LeaveRequest.t -> Prop) ex data db db' :
  Db.leaveRequest db' = Spec.inPlace ex data (Db.leaveRequest db) ->
  (forall x, P x x) -> P ex (Prisma.applyData data ex) ->
  Spec.stepwise P db db'.
Proof.
  intros Hrows Hrefl Hex. eapply stepwise_map; [exact Hrows |].
  intros x _. simpl. case_bool_decide; by subst.
Qed.

Lemma stepwise_app (P : LeaveRequest.t -> LeaveRequest.t -> Prop) new db db' :
  Db.leaveRequest db' = (Db.leaveRequest db ++ new)%list ->
  (forall x, P x x) -> Spec.stepwise P db db'.
Proof.
  intros Hrows Hrefl i x Hx. exists x. split; [|done].
  rewrite Hrows. by apply lookup_app_l_Some.
Qed.

Lemma revived_refl x : Spec.revived x x.
Proof. by left. Qed.

Lemma revived_trans x y z : Spec.revived x y -> Spec.revived y z -> Spec.revived x z.
Proof.
  intros [-> | (Hxy & Hre & Hst)] [-> | (Hyz & Hre' & Hst')].
  - by left.
  - right. done.
  - right. done.
  - rewrite Hst in Hre'. done.
Qed.

Lemma writeOwn_revives pf store user date db lr db1 :
  Spec.idsUnique db ->
  LeaveRoute.writeOwn pf store user date db = Some (lr, db1) ->
  Spec.stepwise Spec.revived db db1.
Proof.
  intros Hnd Hw.
  destruct (writeOwn_spec _ _ _ _ _ _ _ Hnd Hw)
    as (_ & _ & _ & _ & _ & [(ex & Hex & _ & _ & Hre & -> & Hrows) | Hrows]).
  - eapply stepwise_inPlace; [exact Hrows | apply revived_refl |].
    right. split_and!; [apply sameRecord_applyData | done | done].
  - eapply stepwise_app; [exact Hrows | apply revived_refl].
Qed.

Lemma mirrorOne_revives pf store user date lr b db db' :
  Spec.idsUnique db ->
  LeaveRoute.mirrorOne pf store user date lr b db = Some db' ->
  Spec.stepwise Spec.revived db db'.
Proof.
  intros Hnd Hone.
  destruct (mirrorOne_cases _ _ _ _ _ _ _ _ Hnd Hone)
    as [[-> _] | [(ex & Hex & _ & _ & Hre & Hrows) | (row & Hrows & _)]].
  - by apply stepwise_refl; [apply revived_refl |].
  - eapply stepwise_inPlace; [exact Hrows | apply revived_refl |].
    right. split_and!; [apply sameRecord_applyData | done | done].
  - eapply stepwise_app; [exact Hrows | apply revived_refl].
Qed.

Lemma mirrorLoop_revives pf store user date lr bs db :
  Spec.keysUnique db ->
  Spec.stepwise Spec.revived db (LeaveRoute.mirrorLoop pf store user date lr bs db).2.
Proof.
  revert db. induction bs as [|b bs IH]; intros db Hk; simpl.
  - by apply stepwise_refl; [apply revived_refl |].
  - destruct (LeaveRoute.mirrorOne _ _ _ _ _ _ _) as [db1|] eqn:Hone.
    + eapply stepwise_trans; [apply revived_trans | |].
      * eapply mirrorOne_revives; [apply Hk | done].
      * apply IH. by eapply mirrorOne_keys.
    + by apply stepwise_refl; [apply revived_refl |].
Qed.

Lemma POST_revives pf db req :
  Spec.keysUnique db -> Spec.stepwise Spec.revived db (LeaveRoute.POST pf db req).2.
Proof.
  intros Hk. unfold LeaveRoute.POST.
  destruct (LeaveRoute.guards pf db req) as [resp | [[user date] store]];
    [by apply stepwise_refl; [apply revived_refl |] |].
  destruct (LeaveRoute.writeOwn _ _ _ _ _) as [[lr db1]|] eqn:Hw;
    [| by apply stepwise_refl; [apply revived_refl |]].
  assert (Spec.stepwise Spec.revived db (LeaveRoute.mirrorAll pf store user date lr db1).2) as H.
  { eapply stepwise_trans; [apply revived_trans | |].
    - eapply writeOwn_revives; [apply Hk | done].
    - unfold LeaveRoute.mirrorAll. case_match.
      + apply mirrorLoop_revives. by eapply writeOwn_keys.
      + by apply stepwise_refl; [apply revived_refl |]. }
  by destruct (LeaveRoute.mirrorAll _ _ _ _ _ _) as [[] db2].
Qed.

Lemma frozen_refl x : Spec.frozen x x.
Proof. split; [apply sameRecord_refl | done]. Qed.

Lemma DELETE_frozen db req :
  Spec.idsUnique db -> Spec.stepwise Spec.frozen db (LeaveRoute.DELETE db req).2.
Proof.
  intros Hnd. unfold LeaveRoute.DELETE.
  destruct (Auth.getCurrentUser db req) as [user|];
    [| by apply stepwise_refl; [apply frozen_refl |]].
  destruct (LeaveRoute.BodySchema _) as [date|];
    [| by apply stepwise_refl; [apply frozen_refl |]].
  destruct (negb (DateLib.isIsoDate date));
    [by apply stepwise_refl; [apply frozen_refl |] |].
  destruct (findFirst _ _) as [existing|] eqn:Hex;
    [| by apply stepwise_refl; [apply frozen_refl |]].
  destruct (negb (Js.optEqb _ _));
    [by apply stepwise_refl; [apply frozen_refl |] |].
  destruct (bool_decide (LeaveRequest.status existing = PENDING)) eqn:Hst; simpl;
    [| by apply stepwise_refl; [apply frozen_refl |]].
  apply bool_decide_eq_true in Hst. apply find_some in Hex as [Hin _].
  unfold Prisma.transaction.
  erewrite cancelTx_spec by (by apply update_unique). simpl.
  eapply stepwise_map; [reflexivity |]. intros x Hx. split.
  - unfold Spec.cancelRow. repeat case_match; by repeat split.
  - intros Hnp. unfold Spec.cancelRow.
    destruct (String.eqb (LeaveRequest.id x) (LeaveRequest.id existing)) eqn:He.
    + apply String.eqb_eq in He.
      rewrite (NoDup_map_inj LeaveRequest.id _ x existing Hnd Hx Hin He) in Hnp. done.
    + unfold Spec.ownPendingMirror. rewrite (bool_decide_eq_false_2 _ Hnp).
      by rewrite andb_false_r.
Qed.

Lemma decideRow_frozen id result rows lr x :
  NoDup (map LeaveRequest.id rows) ->
  In lr rows -> LeaveRequest.id lr = id -> LeaveRequest.status lr = PENDING ->
  In x rows -> Spec.frozen x (Spec.decideRow id result x).
Proof.
  intros Hnd Hlr Hid Hst Hx. split.
  - unfold Spec.decideRow. repeat case_match; by repeat split.
  - intros Hnp. unfold Spec.decideRow.
    destruct (String.eqb (LeaveRequest.id x) id) eqn:He.
    + apply String.eqb_eq in He. rewrite <- Hid in He.
      rewrite (NoDup_map_inj LeaveRequest.id _ x lr Hnd Hx Hlr He) in Hnp. done.
    + rewrite (bool_decide_eq_false_2 _ Hnp). by rewrite andb_false_r.
Qed.

Lemma decideTx_frozen pf user id parsed db lr a db' :
  Spec.idsUnique db ->
  In lr (Db.leaveRequest db) -> LeaveRequest.id lr = id -> LeaveRequest.status lr = PENDING ->
  ApproveRoute.decideTx pf user id parsed (ApproveRoute.nextStatusOf (ApproveRoute.action parsed)) db
  = Some (a, db') ->
  Spec.stepwise Spec.frozen db db'.
Proof.
  intros Hnd Hlr Hid Hst Htx.
  destruct (decideTx_cases pf user id parsed _ db lr
              (nextStatusOf_not_pending (ApproveRoute.action parsed)) Hnd Hlr Hid)
    as [[H | H] _]; [|congruence].
  rewrite H in Htx. injection Htx as _ <-.
  eapply stepwise_map; [reflexivity |]. intros x Hx.
  exact (decideRow_frozen id _ _ lr x Hnd Hlr Hid Hst Hx).
Qed.

Lemma decide_frozen pf db req id :
  Spec.idsUnique db -> Spec.stepwise Spec.frozen db (ApproveRoute.POST pf db req id).2.
Proof.
  intros Hnd. unfold ApproveRoute.POST.
  destruct (Auth.getCurrentUser db req) as [user|];
    [| by apply stepwise_refl; [apply frozen_refl |]].
  destruct (negb (Auth.requireRole user [MANAGER]));
    [by apply stepwise_refl; [apply frozen_refl |] |].
  destruct (ApproveRoute.BodySchema _) as [parsed|];
    [| by apply stepwise_refl; [apply frozen_refl |]].
  destruct (findFirst _ _) as [lr|] eqn:Hlr;
    [| by apply stepwise_refl; [apply frozen_refl |]].
  destruct (bool_decide (LeaveRequest.status lr = PENDING)) eqn:Hst; simpl;
    [| by apply stepwise_refl; [apply frozen_refl |]].
  apply bool_decide_eq_true in Hst.
  apply find_some in Hlr as [Hin [Hid%String.eqb_eq _]%andb_prop].
  unfold Prisma.transaction.
  destruct (ApproveRoute.decideTx _ _ _ _ _ _) as [[a db']|] eqn:Htx; simpl.
  - by eapply decideTx_frozen.
  - by apply stepwise_refl; [apply frozen_refl |].
Qed.

Lemma setLeaveStatus_frozen pf db req id action :
  Spec.idsUnique db ->
  Spec.stepwise Spec.frozen db (AdminPage.setLeaveStatus pf db req id action).
Proof.
  intros Hnd. unfold AdminPage.setLeaveStatus.
  destruct (Auth.getCurrentUser db req) as [user|];
    [| by apply stepwise_refl; [apply frozen_refl |]].
  destruct (negb (bool_decide _));
    [by apply stepwise_refl; [apply frozen_refl |] |].
  destruct (String.eqb id "");
    [by apply stepwise_refl; [apply frozen_refl |] |].
  destruct (findFirst _ _) as [lr|] eqn:Hlr;
    [| by apply stepwise_refl; [apply frozen_refl |]].
  destruct (bool_decide (LeaveRequest.status lr = PENDING)) eqn:Hst; simpl;
    [| by apply stepwise_refl; [apply frozen_refl |]].
  destruct (ApproveRoute.parseAction action) as [act|] eqn:Hp;
    [| by apply stepwise_refl; [apply frozen_refl |]].
  apply bool_decide_eq_true in Hst.
  apply find_some in Hlr as [Hin [Hid%String.eqb_eq _]%andb_prop].
  unfold Prisma.transaction. rewrite setLeaveStatusTx_decideTx, (parseAction_reject _ _ Hp).
  destruct (ApproveRoute.decideTx _ _ _ _ _ _) as [[a db']|] eqn:Htx; simpl.
  - eapply (decideTx_frozen pf user id
              {| ApproveRoute.action := act; ApproveRoute.reason := None |}); eauto.
  - by apply stepwise_refl; [apply frozen_refl |].
Qed.

Lemma approvedOver_refl x : Spec.approvedOver x x.
Proof. by left. Qed.

Lemma createManagerLeave_approvedOver pf db req userId date :
  Spec.idsUnique db ->
  Spec.stepwise Spec.approvedOver db (AdminPage.createManagerLeave pf db req userId date).
Proof.
  intros Hnd. unfold AdminPage.createManagerLeave.
  destruct (Auth.getCurrentUser db req) as [me|];
    [| by apply stepwise_refl; [apply approvedOver_refl |]].
  destruct (negb (bool_decide _));
    [by apply stepwise_refl; [apply approvedOver_refl |] |].
  destruct (_ || _);
    [by apply stepwise_refl; [apply approvedOver_refl |] |].
  destruct (findFirst _ (Db.user db)) as [target|];
    [| by apply stepwise_refl; [apply approvedOver_refl |]].
  unfold Prisma.transaction, AdminPage.createManagerLeaveTx.
  destruct (findFirst _ (Db.leaveRequest db)) as [ex|] eqn:Hex.
  - apply find_some in Hex as [Hin _]. rewrite (update_in_place ex _ db Hnd Hin). simpl.
    destruct (Prisma.approval_create _ _ _ _ _ _ _) as [tx2|] eqn:Ha; simpl;
      [| by apply stepwise_refl; [apply approvedOver_refl |]].
    eapply stepwise_inPlace;
      [by rewrite (approval_create_leaveRequest _ _ _ _ _ _ _ _ Ha)
      | apply approvedOver_refl |].
    right. split; [apply sameRecord_applyData | done].
  - destruct (Prisma.leaveRequest_create _ _ _ _ _ _ _ _ _) as [[row tx1]|] eqn:Hc; simpl;
      [| by apply stepwise_refl; [apply approvedOver_refl |]].
    destruct (Prisma.approval_create _ _ _ _ _ _ _) as [tx2|] eqn:Ha; simpl;
      [| by apply stepwise_refl; [apply approvedOver_refl |]].
    apply create_spec in Hc as (_ & -> & _).
    eapply (stepwise_app _ [row]); [| apply approvedOver_refl].
    by rewrite (approval_create_leaveRequest _ _ _ _ _ _ _ _ Ha).
Qed.

(** ** C4 *)

(** C4 as worded fails: ray asks for 2024-06-04 while song, bound to ray,
    already has that day approved. The request is accepted, the loop skips
    song, and no mirror of ray's request exists afterwards. *)
Lemma mirror_skips_assistant_already_off :
  ~ Spec.mirrorsEveryBinding (Reference.platform 3) Scenario.june
      (Scenario.requestOf Scenario.ray "2024-06-04").
Proof.
  intros H.
  assert (Hpost : exists lr db',
            LeaveRoute.POST (Reference.platform 3) Scenario.june
              (Scenario.requestOf Scenario.ray "2024-06-04") = (RespLeaveRequest lr, db')
            /\ Spec.hasMirror db' "u_song" (LeaveRequest.date lr) (LeaveRequest.id lr) = false).
  { eexists _, _. split; vm_compute; reflexivity. }
  destruct Hpost as (lr & db' & Hpost & Hno).
  specialize (H Scenario.ray lr db' eq_refl eq_refl eq_refl Hpost Scenario.seedBinding
                (or_introl eq_refl) eq_refl eq_refl eq_refl).
  simpl in H. congruence.
Qed.

(** C4, amended. When a designer's own request is accepted and
    [binding_mirror_leave] is [auto_create], the assistant of every active
    binding of the designer who has no PENDING or APPROVED request on that
    date (and is not the designer) ends with a PENDING request for the date,
    of source BINDING_MIRROR, linked to the designer's request. An assistant
    who already has an active request on the date is skipped: every PENDING
    or APPROVED row stays exactly as it was. *)
Theorem designer_request_mirrors_free_assistants pf db req user lr db' b :
  Spec.keysUnique db ->
  Auth.getCurrentUser db req = Some user ->
  User.role user = DESIGNER ->
  ConfigLib.getStringConfig db (User.storeId user) "binding_mirror_leave" "auto_create"
  = "auto_create" ->
  LeaveRoute.POST pf db req = (RespLeaveRequest lr, db') ->
  In b (Db.binding db) ->
  Binding.active b = true ->
  Binding.storeId b = User.storeId user ->
  Binding.designerId b = User.id user ->
  Binding.assistantId b <> User.id user ->
  Spec.hasActiveRequest db (Binding.assistantId b) (LeaveRequest.date lr) = false ->
  Spec.hasMirror db' (Binding.assistantId b) (LeaveRequest.date lr) (LeaveRequest.id lr) = true
  /\ (forall (i : nat) x,
        Db.leaveRequest db !! i = Some x ->
        LeaveRoute.isActiveStatus (LeaveRequest.status x) = true ->
        Db.leaveRequest db' !! i = Some x).
Proof.
  intros Hk Huser Hrole Hpolicy Hpost Hb Hact Hbs Hbd Hne Hfree. split; cycle 1.
  { intros i x Hx Hactive. pose proof (POST_revives pf db req Hk i x Hx) as (y & Hy & Hrev).
    rewrite Hpost in Hy. simpl in Hy.
    destruct Hrev as [-> | (_ & Hre & _)]; [done |].
    by rewrite (active_not_reusable _ Hre) in Hactive. }
  apply POST_accepted in Hpost as (user' & date & store & db1 & Hg & Hw & Hm).
  apply guards_inr in Hg as (Huser' & _ & _ & Hstore & _).
  assert (user' = user) as -> by congruence.
  destruct (writeOwn_spec _ _ _ _ _ _ _ (proj1 Hk) Hw) as (_ & Hdate & _ & Hbind & Hconf & _).
  rewrite Hdate in *.
  unfold LeaveRoute.mirrorAll in Hm.
  rewrite Hrole, (getStringConfig_config _ _ _ _ _ Hconf), Hstore, Hpolicy, Hbind in Hm.
  simpl in Hm.
  eapply mirrorLoop_makes_mirror; [by eapply writeOwn_keys | exact Hm | |].
  - apply filter_In. split; [done |]. by rewrite Hbs, Hbd, Hact, !String.eqb_refl.
  - right. eapply writeOwn_keeps_free; [apply Hk | done | done | done].
Qed.

(** Ray asks for 2024-06-10 on the seeded store: song, free that day, gets
    the mirror. *)
Lemma designer_request_mirrors_free_assistants_witness :
  exists lr db',
    LeaveRoute.POST (Reference.platform 3) Scenario.seed
      (Scenario.requestOf Scenario.ray "2024-06-10") = (RespLeaveRequest lr, db')
    /\ Spec.hasMirror db' "u_song" (LeaveRequest.date lr) (LeaveRequest.id lr) = true.
Proof.
  eexists _, _. split; [vm_compute; reflexivity |].
  refine (proj1
    (designer_request_mirrors_free_assistants (Reference.platform 3) Scenario.seed
       (Scenario.requestOf Scenario.ray "2024-06-10") Scenario.ray _ _ Scenario.seedBinding
       _ eq_refl eq_refl eq_refl _ (or_introl eq_refl) eq_refl eq_refl eq_refl _ eq_refl)).
  - split; constructor.
  - vm_compute; reflexivity.
  - discriminate.
Defined.

(** ** C5 *)

(** C5 as worded fails: rj asks again for 2024-06-10 after cancelling. The
    request is served by the CANCELED row itself, which becomes PENDING; no
    second row is created. *)
Lemma canceled_row_is_revived_in_place :
  ~ Spec.stepwise Spec.keepsTerminal Scenario.rjCanceled
      (LeaveRoute.POST (Reference.platform 10) Scenario.rjCanceled
         (Scenario.requestOf Scenario.rj "2024-06-10")).2.
Proof.
  intros H. destruct (H 0%nat _ eq_refl) as (y & Hy & Hkeep).
  vm_compute in Hy. injection Hy as <-.
  destruct (Hkeep eq_refl) as [_ Hst]. discriminate.
Qed.

(** C5, amended. APPROVED is terminal: no self request, mirror creation,
    cancellation, manager decision or manager-created leave changes the
    status of an APPROVED row. REJECTED and CANCELED are terminal for
    cancellations and manager decisions, which change PENDING rows only. A
    later self request for the same user and date is served by the REJECTED
    or CANCELED row itself, set back to PENDING in place; that, and the
    same reuse by the mirror creation, is all a request changes in existing
    rows. A manager-created leave changes an existing row only by making it
    APPROVED. A reused row keeps its id, user and date. *)
Theorem terminal_statuses_by_operation db :
  Spec.keysUnique db ->
  (forall pf req, Spec.stepwise Spec.revived db (LeaveRoute.POST pf db req).2)
  /\ (forall req, Spec.stepwise Spec.frozen db (LeaveRoute.DELETE db req).2)
  /\ (forall pf req id, Spec.stepwise Spec.frozen db (ApproveRoute.POST pf db req id).2)
  /\ (forall pf req id action,
        Spec.stepwise Spec.frozen db (AdminPage.setLeaveStatus pf db req id action))
  /\ (forall pf req userId date,
        Spec.stepwise Spec.approvedOver db (AdminPage.createManagerLeave pf db req userId date))
  /\ (forall x y,
        LeaveRequest.status x = APPROVED ->
        Spec.revived x y \/ Spec.frozen x y \/ Spec.approvedOver x y ->
        Spec.sameRecord x y /\ LeaveRequest.status y = APPROVED)
  /\ (forall x y,
        Spec.isTerminal (LeaveRequest.status x) = true -> Spec.frozen x y -> y = x)
  /\ (forall pf store user date ex,
        LeaveRoute.existingAny db user date = Some ex ->
        LeaveRequest.status ex = CANCELED \/ LeaveRequest.status ex = REJECTED ->
        LeaveRoute.writeOwn pf store user date db
        = Some (Prisma.applyData (LeaveRoute.selfData user) ex,
                Prisma.withLeaveRequest db
                  (Spec.inPlace ex (LeaveRoute.selfData user) (Db.leaveRequest db)))).
Proof.
  intros [Hid Hud]. split_and!.
  - intros pf req. by apply POST_revives.
  - intros req. by apply DELETE_frozen.
  - intros pf req id. by apply decide_frozen.
  - intros pf req id action. by apply setLeaveStatus_frozen.
  - intros pf req userId date. by apply createManagerLeave_approvedOver.
  - intros x y Hst [[-> | (Hs & Hre & _)] | [[Hs Hfr] | [-> | [Hs Hap]]]].
    + split; [apply sameRecord_refl | done].
    + by rewrite Hst in Hre.
    + rewrite Hfr; [split; [apply sameRecord_refl | done] |]. by rewrite Hst.
    + split; [apply sameRecord_refl | done].
    + done.
  - intros x y Hterm [_ Hfr]. apply Hfr. intros Hp. by rewrite Hp in Hterm.
  - intros pf store user date ex Hex Hst. unfold LeaveRoute.writeOwn. rewrite Hex.
    replace (LeaveRoute.isReusableStatus (LeaveRequest.status ex)) with true
      by (by destruct Hst as [-> | ->]).
    apply update_in_place; [done |].
    unfold LeaveRoute.existingAny, findFirst in Hex. by apply find_some in Hex as [? _].
Qed.

(** Ray asks for 2024-06-04, which song already has approved: song's row
    is still the first row, still APPROVED. *)
Lemma terminal_statuses_by_operation_witness :
  exists y,
    Db.leaveRequest
      (LeaveRoute.POST (Reference.platform 3) Scenario.june
         (Scenario.requestOf Scenario.ray "2024-06-04")).2 !! 0%nat = Some y
    /\ Spec.revived
         (Scenario.leave "lr1" "u_song" "2024-06-04" APPROVED LeaveRequestSource.SELF "u_song" None)
         y.
Proof.
  refine (proj1
    (terminal_statuses_by_operation Scenario.june _) (Reference.platform 3)
    (Scenario.requestOf Scenario.ray "2024-06-04") 0%nat _ eq_refl).
  split; repeat constructor; set_solver.
Defined.

(** ** Closed days and working masters *)

Lemma day_verdict pf db storeId tz month requester t d day :
  Quota.day pf db storeId tz month requester t d = Some day ->
  let date := DateLib.dateFromMonthDay month d in
  exists weekdayName,
    AvailabilityDay.date day = date
    /\ (AvailabilityDay.selectable day, AvailabilityDay.reasons day)
       = Quota.verdict db storeId month requester t date weekdayName
           (bool_decide (date ∈ Quota.closedDates db storeId)
            || bool_decide (Js.toUpperCase (Js.slice0 3 weekdayName)
                            ∈ Quota.closedWeekdays db storeId))
           (AvailabilityDay.remainingQuota day).
Proof.
  unfold Quota.day. destruct (DateLib.weekdayInTimeZone pf tz _) as [w|]; simpl; [|done].
  intros [= Hday]. subst day. simpl. exists w. split; [done |].
  symmetry. apply surjective_pairing.
Qed.

(** X2. A date listed in [closed_dates] carries STORE_CLOSED and is not
    selectable, whatever the quota and the requester. *)
Theorem closed_date_is_blocked pf db params r i day :
  Quota.getMonthAvailability pf db params = Some r ->
  MonthAvailability.days r !! i = Some day ->
  AvailabilityDay.date day ∈ Quota.closedDates db (Params.storeId params) ->
  "STORE_CLOSED" ∈ AvailabilityDay.reasons day
  /\ AvailabilityDay.selectable day = false.
Proof.
  intros Hr Hi Hclosed.
  destruct (day_of_month _ _ _ _ _ _ Hr Hi) as (t & d & _ & _ & Hday).
  destruct (day_verdict _ _ _ _ _ _ _ _ _ Hday) as (w & Hdate & Hv).
  apply (f_equal fst) in Hv as Hsel. apply (f_equal snd) in Hv as Hrs. simpl in Hsel, Hrs.
  rewrite Hdate in Hclosed.
  rewrite Hsel, Hrs, store_closed_listed, verdict_selectable.
  rewrite (bool_decide_eq_true_2 _ Hclosed). simpl. split; [done |].
  by rewrite !andb_false_r.
Qed.

(** 2024-06-18 is configured closed: ray, inside the first phase, cannot
    select it. *)
Lemma closed_date_is_blocked_witness :
  exists r day,
    Quota.getMonthAvailability (Reference.platform 3) Scenario.closedJune
      (Scenario.paramsFor Scenario.ray "2024-06") = Some r
    /\ MonthAvailability.days r !! 17%nat = Some day
    /\ AvailabilityDay.reasons day = ["STORE_CLOSED"]
    /\ AvailabilityDay.selectable day = false.
Proof.
  eexists _, _. split; [vm_compute; reflexivity |]. split; [vm_compute; reflexivity |].
  split; [reflexivity |].
  refine (proj2
    (closed_date_is_blocked (Reference.platform 3) Scenario.closedJune
       (Scenario.paramsFor Scenario.ray "2024-06") _ 17%nat _ _ _ _)).
  - vm_compute; reflexivity.
  - vm_compute; reflexivity.
  - vm_compute. reflexivity.
Defined.

(** X3. For an ASSISTANT, with [assistant_block_if_master_working] on, a
    day carries MASTER_WORKING_BLOCK exactly when some active binding of the
    assistant has a designer who is not off that day: one working master is
    enough. *)
Theorem master_working_block_any pf db params r i day :
  Spec.datesWellFormed db ->
  Spec.calendarBounded pf ->
  DateLib.isIsoMonth (Params.month params) = true ->
  Quota.getMonthAvailability pf db params = Some r ->
  MonthAvailability.days r !! i = Some day ->
  Requester.role (Params.requester params) = ASSISTANT ->
  ConfigLib.getBooleanConfig db (Params.storeId params) "assistant_block_if_master_working" true
  = true ->
  ("MASTER_WORKING_BLOCK" ∈ AvailabilityDay.reasons day
   <-> Spec.masterWorks db (Params.storeId params)
         (Requester.userId (Params.requester params)) (AvailabilityDay.date day))
  /\ ("MASTER_WORKING_BLOCK" ∈ AvailabilityDay.reasons day ->
      AvailabilityDay.selectable day = false).
Proof.
  intros Hwf Hcal Hm Hr Hi Hrole Hflag.
  destruct (day_of_month _ _ _ _ _ _ Hr Hi) as (t & d & _ & Hd & Hday).
  pose proof (loopDays_bound _ _ _ Hcal Hd) as Hlt.
  destruct (day_verdict _ _ _ _ _ _ _ _ _ Hday) as (w & Hdate & Hv).
  apply (f_equal fst) in Hv as Hsel. apply (f_equal snd) in Hv as Hrs. simpl in Hsel, Hrs.
  rewrite Hsel, Hrs, Hdate. clear Hv Hsel Hrs.
  assert (Hlisted : "MASTER_WORKING_BLOCK" ∈
            (Quota.verdict db (Params.storeId params) (Params.month params)
               (Params.requester params) t
               (DateLib.dateFromMonthDay (Params.month params) d) w
               (bool_decide (DateLib.dateFromMonthDay (Params.month params) d
                             ∈ Quota.closedDates db (Params.storeId params))
                || bool_decide (Js.toUpperCase (Js.slice0 3 w)
                                ∈ Quota.closedWeekdays db (Params.storeId params)))
               (AvailabilityDay.remainingQuota day)).2
          <-> Quota.masterWorkingBlocked db (Params.storeId params) (Params.month params)
                (Params.requester params)
                (DateLib.dateFromMonthDay (Params.month params) d) = true).
  { rewrite verdict_reasons. split.
    - intros [[_ H] | [[_ H] | [[_ H] | [[_ H] | [[_ H] | [H _]]]]]]; auto; discriminate.
    - intros H; auto 10. }
  split.
  - rewrite Hlisted. unfold Quota.masterWorkingBlocked, Quota.assistantBlockIfMasterWorking,
      Quota.bindingsForAssistant, Quota.assistantBlockIfMasterWorking.
    rewrite Hrole, Hflag. simpl. rewrite andb_true_iff, existsb_exists. split.
    + intros [_ (b & Hb & Hoff)]. apply filter_In in Hb as [Hb Hq].
      apply andb_prop in Hq as [[Hs%String.eqb_eq Ha%String.eqb_eq]%andb_prop Hact].
      exists b. split_and!; try done.
      apply negb_true_iff in Hoff. rewrite <- (isOff_spec db _ _ d) by done. exact Hoff.
    + intros (b & Hb & Hs & Ha & Hact & Hoff).
      assert (In b (findMany (fun b0 => String.eqb (Binding.storeId b0) (Params.storeId params)
                                        && String.eqb (Binding.assistantId b0)
                                             (Requester.userId (Params.requester params))
                                        && Binding.active b0) (Db.binding db))) as Hin.
      { apply filter_In. split; [done |]. by rewrite Hs, Ha, Hact, !String.eqb_refl. }
      split.
      * apply Nat.ltb_lt. destruct (findMany _ _); [done | simpl; lia].
      * exists b. split; [done |]. apply negb_true_iff.
        rewrite <- (isOff_spec db _ _ d) in Hoff by done. exact Hoff.
  - intros Hin. apply Hlisted in Hin. rewrite verdict_selectable, Hin. simpl.
    by rewrite andb_false_r.
Qed.

(** Song, bound to ray, sees MASTER_WORKING_BLOCK on 2024-06-10: ray is
    not off that day. *)
Lemma master_working_block_any_witness :
  exists r day,
    Quota.getMonthAvailability (Reference.platform 10) Scenario.june
      (Scenario.paramsFor Scenario.song "2024-06") = Some r
    /\ MonthAvailability.days r !! 9%nat = Some day
    /\ ("MASTER_WORKING_BLOCK" ∈ AvailabilityDay.reasons day
        -> AvailabilityDay.selectable day = false)
    /\ AvailabilityDay.reasons day = ["MASTER_WORKING_BLOCK"].
Proof.
  eexists _, _. split; [vm_compute; reflexivity |]. split; [vm_compute; reflexivity |].
  split; [| reflexivity].
  refine (proj2
    (master_working_block_any (Reference.platform 10) Scenario.june
       (Scenario.paramsFor Scenario.song "2024-06") _ 9%nat _
       june_datesWellFormed (reference_calendarBounded 10) eq_refl _ _ eq_refl eq_refl));
    vm_compute; reflexivity.
Defined.

(** ** The scenarios of the specification *)

(** Supply 1.0 against demand 1.0 times 1.1: the quota is negative, the
    designer is told so and may still select the day. *)
Example tight_quota_for_designer :
  (fun day => (AvailabilityDay.remainingQuota day, AvailabilityDay.reasons day,
               AvailabilityDay.selectable day))
  <$> (Quota.getMonthAvailability (Reference.platform 3) Scenario.tight
         (Scenario.paramsFor Scenario.ray "2024-06")
       ≫= fun r => MonthAvailability.days r !! 2%nat)
  = Some (PrimFloat.sub 1 (PrimFloat.mul 1 1.1), ["QUOTA_FULL"], true).
Proof. vm_compute. reflexivity. Qed.

(** The same day for the assistant, inside the second phase: blocked by
    the quota alone. *)
Example tight_quota_for_assistant :
  (fun day => (AvailabilityDay.reasons day, AvailabilityDay.selectable day))
  <$> (Quota.getMonthAvailability (Reference.platform 10) Scenario.tight
         (Scenario.paramsFor Scenario.song "2024-06")
       ≫= fun r => MonthAvailability.days r !! 2%nat)
  = Some (["QUOTA_FULL"], false).
Proof. vm_compute. reflexivity. Qed.

(** On the 3rd, with phases 1 to 5 and 6 onwards, the designer sees no
    PHASE_LOCK on any day and the assistant sees it on every day. *)
Example phases_on_the_third :
  (forallb (fun day => negb (Js.includes (AvailabilityDay.reasons day) "PHASE_LOCK"))
   ∘ MonthAvailability.days)
  <$> Quota.getMonthAvailability (Reference.platform 3) Scenario.seed
        (Scenario.paramsFor Scenario.ray "2024-06") = Some true
  /\ (forallb (fun day => Js.includes (AvailabilityDay.reasons day) "PHASE_LOCK")
      ∘ MonthAvailability.days)
     <$> Quota.getMonthAvailability (Reference.platform 3) Scenario.seed
           (Scenario.paramsFor Scenario.song "2024-06") = Some true.
Proof. split; vm_compute; reflexivity. Qed.

(** * More properties of the calendar, the routes and the server actions *)

Lemma filter_and_comm {A} (p q : A -> bool) (l : list A) :
  List.filter (fun x => p x && q x) l = List.filter p (List.filter q l).
Proof.
  induction l as [|x l IH]; [done |]. simpl.
  destruct (q x) eqn:Hq; simpl; rewrite ?andb_true_r, ?andb_false_r.
  - destruct (p x); by rewrite IH.
  - done.
Qed.

Lemma leaveRequests_active db storeId month :
  Quota.leaveRequests db storeId month
  = List.filter
      (fun lr => String.eqb (LeaveRequest.storeId lr) storeId
                 && Js.startsWith (LeaveRequest.date lr) (month +:+ "-"))
      (View.activeRows (Db.leaveRequest db)).
Proof.
  unfold Quota.leaveRequests, findMany, View.activeRows.
  rewrite <- filter_and_comm. apply filter_ext. intros lr.
  by rewrite isOffStatus_elem.
Qed.

Lemma day_same_active pf db rows approvals storeId tz month requester t d :
  View.activeRows rows = View.activeRows (Db.leaveRequest db) ->
  Quota.day pf (Prisma.withApproval (Prisma.withLeaveRequest db rows) approvals)
    storeId tz month requester t d
  = Quota.day pf db storeId tz month requester t d.
Proof.
  intros Hsame.
  assert (Quota.leaveRequests
            (Prisma.withApproval (Prisma.withLeaveRequest db rows) approvals) storeId month
          = Quota.leaveRequests db storeId month) as Hlr.
  { rewrite !leaveRequests_active. simpl. by rewrite Hsame. }
  unfold Quota.day, Quota.verdict, Quota.masterWorkingBlocked, Quota.assistantSupplySum,
    Quota.rookieSupplySum, Quota.designerDemandSum, Quota.isOff, Quota.offByUserDate,
    Quota.myLeaveByDate, Quota.offUsersByDate.
  rewrite !Hlr. reflexivity.
Qed.

Lemma mapM_ext' {A B} (f g : A -> option B) (l : list A) :
  (forall x, f x = g x) -> mapM f l = mapM g l.
Proof. intros H. induction l as [|x l IH]; simpl; [done |]. by rewrite H, IH. Qed.

(** X4. REJECTED and CANCELED requests, and approval records, never
    influence the calendar: a leave table with the same PENDING and APPROVED
    rows in the same order, next to any approval table, gives the same month
    of availability. *)
Theorem inactive_rows_never_count pf db rows approvals params :
  View.activeRows rows = View.activeRows (Db.leaveRequest db) ->
  Quota.getMonthAvailability pf
    (Prisma.withApproval (Prisma.withLeaveRequest db rows) approvals) params
  = Quota.getMonthAvailability pf db params.
Proof.
  intros Hsame. unfold Quota.getMonthAvailability, Quota.getMonthAvailability'.
  destruct (DateLib.dayOfMonthInTimeZone pf _) as [t|]; simpl; [|done].
  erewrite mapM_ext'; [done |].
  intros d. by apply day_same_active.
Qed.

(** A cancelled request of rj in the history of [june] changes nothing. *)
Lemma inactive_rows_never_count_witness :
  Quota.getMonthAvailability (Reference.platform 3)
    (Prisma.withApproval (Prisma.withLeaveRequest Scenario.june Cases.juneHistory) [])
    (Scenario.paramsFor Scenario.ray "2024-06")
  = Quota.getMonthAvailability (Reference.platform 3) Scenario.june
      (Scenario.paramsFor Scenario.ray "2024-06").
Proof.
  apply (inactive_rows_never_count (Reference.platform 3) Scenario.june Cases.juneHistory []).
  reflexivity.
Defined.

Lemma foldl_ext' {A B} (f g : B -> A -> B) (l : list A) (b : B) :
  (forall acc x, f acc x = g acc x) -> foldl f b l = foldl g b l.
Proof. intros H. revert b. induction l as [|x l IH]; intros b; simpl; [done |]. by rewrite H, IH. Qed.

(** A map built by inserting in list order holds, at a key, the value of
    the last row written there. *)

Lemma foldl_insert_lookup {A V} (p : A -> bool) (k : A -> string) (v : A -> V)
    (l : list A) (m : gmap string V) (key : string) :
  foldl (fun acc x => if p x then <[ k x := v x ]> acc else acc) m l !! key
  = match last (List.filter (fun x => p x && String.eqb (k x) key) l) with
    | Some x => Some (v x)
    | None => m !! key
    end.
Proof.
  revert m. induction l as [|x l IH]; intros m; simpl; [done |].
  rewrite IH. destruct (p x) eqn:Hp; simpl.
  - destruct (String.eqb_spec (k x) key) as [Hk | Hk].
    + destruct (List.filter _ l) as [|y ys] eqn:Hf; simpl.
      * subst key. by rewrite lookup_insert_eq.
      * change (last (x :: y :: ys)) with (last (y :: ys)).
        destruct (last (y :: ys)) eqn:E; [done | by apply last_None in E].
    + destruct (last _); [done |]. by rewrite lookup_insert_ne.
  - done.
Qed.

Lemma filter_at_most_one {A K} (f : A -> K) (p : A -> bool) (l : list A) :
  NoDup (map f l) ->
  (forall x y, In x l -> In y l -> p x = true -> p y = true -> f x = f y) ->
  List.filter p l = match find p l with Some x => [x] | None => [] end.
Proof.
  induction l as [|x l IH]; intros Hnd Hsame; simpl; [done |].
  apply NoDup_cons in Hnd as [Hx Hnd].
  destruct (p x) eqn:Hp.
  - f_equal. 
    assert (List.filter p l = []) as ->; [|done].
    destruct (List.filter p l) as [|y ys] eqn:Hf; [done |]. exfalso.
    assert (In y (List.filter p l)) as Hy by (rewrite Hf; by left).
    apply filter_In in Hy as [Hy Hpy].
    apply Hx. apply list_elem_of_fmap. exists y. split; [|by apply list_elem_of_In].
    apply Hsame; simpl; auto.
  - apply IH; [done |]. intros a b Ha Hb. apply Hsame; simpl; auto.
Qed.

Lemma find_ext' {A} (p q : A -> bool) (l : list A) :
  (forall x, p x = q x) -> find p l = find q l.
Proof. intros H. induction l as [|x l IH]; simpl; [done |]. by rewrite H, IH. Qed.

Lemma last_of_find {A} (p : A -> bool) (l : list A) :
  last (match find p l with Some x => [x] | None => [] end) = find p l.
Proof. by destruct (find p l). Qed.

(** The entry of [myLeaveByDate] for a date of the month. *)

Lemma mine_lookup db storeId month requester date :
  Spec.userDateUnique db ->
  Js.startsWith date (month +:+ "-") = true ->
  Quota.myLeaveByDate db storeId month requester !! date
  = (fun lr => (LeaveRequest.status lr,
                bool_decide (LeaveRequest.status lr = PENDING)
                && Js.optEqb (LeaveRequest.createdByUserId lr) (Requester.userId requester)))
    <$> View.ownActive db storeId (Requester.userId requester) date.
Proof.
  intros Hud Hpre. unfold Quota.myLeaveByDate.
  erewrite foldl_ext'; first last.
  { intros acc lr.
    instantiate (1 := fun acc lr =>
      if String.eqb (LeaveRequest.userId lr) (Requester.userId requester)
         && Quota.isOffStatus (LeaveRequest.status lr)
      then <[ LeaveRequest.date lr :=
               (Quota.offStatus lr,
                bool_decide (Quota.offStatus lr = PENDING)
                && Js.optEqb (LeaveRequest.createdByUserId lr) (Requester.userId requester)) ]> acc
      else acc).
    simpl. by destruct (String.eqb _ _), (Quota.isOffStatus _). }
  rewrite (foldl_insert_lookup
             (fun lr => String.eqb (LeaveRequest.userId lr) (Requester.userId requester)
                        && Quota.isOffStatus (LeaveRequest.status lr))
             LeaveRequest.date).
  rewrite lookup_empty.
  unfold Quota.leaveRequests, findMany. rewrite filter_filter_and.
  unfold View.ownActive, findFirst.
  rewrite (filter_at_most_one Spec.userDate); [| done |]; first last.
  { intros x y _ _ Hx Hy. unfold Spec.userDate.
    rewrite !andb_true_iff, !String.eqb_eq in Hx, Hy. destruct_and!. congruence. }
  rewrite last_of_find.
  erewrite find_ext'; first last.
  { intros lr. instantiate (1 := fun lr => String.eqb (LeaveRequest.storeId lr) storeId
              && String.eqb (LeaveRequest.userId lr) (Requester.userId requester)
              && String.eqb (LeaveRequest.date lr) date
              && bool_decide (LeaveRequest.status lr ∈ [PENDING; APPROVED])).
    simpl. rewrite isOffStatus_elem.
    destruct (String.eqb_spec (LeaveRequest.date lr) date) as [-> | Hne];
      rewrite ?Hpre, ?andb_false_r, ?andb_true_r; simpl; [|done].
    destruct (String.eqb _ storeId), (String.eqb _ (Requester.userId requester)),
      (Quota.isOffStatus _); done. }
  destruct (find _ _) as [lr|] eqn:Hfind; simpl; [|done].
  apply find_some in Hfind as [_ Hfind]. apply andb_prop in Hfind as [_ Hst].
  rewrite isOffStatus_elem in Hst. unfold Quota.offStatus.
  destruct (LeaveRequest.status lr); simpl in *; done.
Qed.

Lemma days_dates pf db params r :
  Quota.getMonthAvailability pf db params = Some r ->
  map AvailabilityDay.date (MonthAvailability.days r)
  = map (DateLib.dateFromMonthDay (Params.month params))
      (Quota.loopDays (DateLib.daysInMonth pf (Params.month params))).
Proof.
  unfold Quota.getMonthAvailability, Quota.getMonthAvailability'.
  destruct (DateLib.dayOfMonthInTimeZone pf _) as [t|]; simpl; [|done].
  destruct (mapM _ _) as [days|] eqn:Hdays; simpl; [|done].
  intros [= <-]. simpl.
  apply mapM_Some_1 in Hdays. induction Hdays as [|d day ds days Hd _ IH]; simpl; [done |].
  destruct (day_fields _ _ _ _ _ _ _ _ _ Hd) as (_ & _ & -> & _). by rewrite IH.
Qed.

Lemma pad2_number d :
  (d < 100)%nat -> Js.Number (DateLib.pad2 d) = Some (Z.of_nat d).
Proof.
  intros Hd.
  assert (forallb (fun d => bool_decide (Js.Number (DateLib.pad2 d) = Some (Z.of_nat d)))
            (seq 0 100) = true) as Hall by (vm_compute; reflexivity).
  rewrite forallb_forall in Hall.
  specialize (Hall d). rewrite bool_decide_eq_true in Hall. apply Hall.
  apply in_seq. lia.
Qed.

Lemma append_inv_head (a b c : string) : a +:+ b = a +:+ c -> b = c.
Proof.
  induction a as [|x a IH]; [by rewrite !append_nil_l |].
  rewrite !append_cons. intros [= H]. auto.
Qed.

Lemma dateFromMonthDay_inj month d1 d2 :
  (d1 < 100)%nat -> (d2 < 100)%nat ->
  DateLib.dateFromMonthDay month d1 = DateLib.dateFromMonthDay month d2 -> d1 = d2.
Proof.
  intros H1 H2 Heq. unfold DateLib.dateFromMonthDay in Heq.
  apply append_inv_head in Heq. apply (append_inv_head "-") in Heq.
  pose proof (pad2_number d1 H1) as N1. pose proof (pad2_number d2 H2) as N2.
  rewrite Heq in N1. rewrite N1 in N2. injection N2. lia.
Qed.

Lemma days_NoDup pf db params r :
  Spec.calendarBounded pf ->
  Quota.getMonthAvailability pf db params = Some r ->
  NoDup (map AvailabilityDay.date (MonthAvailability.days r)).
Proof.
  intros Hcal Hr. rewrite (days_dates _ _ _ _ Hr).
  apply (NoDup_fmap_2_strong (DateLib.dateFromMonthDay (Params.month params))).
  - intros d1 d2 H1 H2. apply dateFromMonthDay_inj; by eapply loopDays_bound.
  - unfold Quota.loopDays. destruct (DateLib.daysInMonth _ _); [apply NoDup_seq | constructor].
Qed.

(** The entry the request route finds for a date is the calendar's entry
    for that date. *)

Lemma find_day pf db params r i day :
  Spec.calendarBounded pf ->
  Quota.getMonthAvailability pf db params = Some r ->
  MonthAvailability.days r !! i = Some day ->
  List.find (fun d => String.eqb (AvailabilityDay.date d) (AvailabilityDay.date day))
    (MonthAvailability.days r) = Some day.
Proof.
  intros Hcal Hr Hi.
  apply (find_unique AvailabilityDay.date).
  - by eapply days_NoDup.
  - apply list_elem_of_In. by eapply list_elem_of_lookup_2.
  - apply String.eqb_refl.
  - intros x _ Hx. by apply String.eqb_eq in Hx.
Qed.

Lemma day_date_prefix pf db params r i day :
  Quota.getMonthAvailability pf db params = Some r ->
  MonthAvailability.days r !! i = Some day ->
  Js.startsWith (AvailabilityDay.date day) (Params.month params +:+ "-") = true.
Proof.
  intros Hr Hi. destruct (day_of_month _ _ _ _ _ _ Hr Hi) as (t & d & _ & _ & Hday).
  destruct (day_fields _ _ _ _ _ _ _ _ _ Hday) as (_ & _ & -> & _).
  apply dateFromMonthDay_startsWith.
Qed.

Lemma day_mine pf db params r i day :
  Quota.getMonthAvailability pf db params = Some r ->
  MonthAvailability.days r !! i = Some day ->
  let mine := Quota.myLeaveByDate db (Params.storeId params) (Params.month params)
                (Params.requester params) !! AvailabilityDay.date day in
  AvailabilityDay.myLeaveStatus day = fst <$> mine
  /\ AvailabilityDay.myLeaveCancelable day = default false (snd <$> mine)
  /\ AvailabilityDay.offUsers day
     = default [] (Quota.offUsersByDate db (Params.storeId params) (Params.month params)
                     !! AvailabilityDay.date day).
Proof.
  intros Hr Hi. destruct (day_of_month _ _ _ _ _ _ Hr Hi) as (t & d & _ & _ & Hday).
  unfold Quota.day in Hday.
  destruct (DateLib.weekdayInTimeZone _ _ _); simpl in Hday; [|done].
  injection Hday as <-. simpl. done.
Qed.

(** X: own leave fields *)

(** X5. With one row per user and date, [myLeaveStatus] of a day is the
    status of the requester's PENDING or APPROVED request of the store for
    that date (none when there is no such row), and [myLeaveCancelable]
    holds exactly when that request is PENDING and the requester created it. *)
Theorem own_leave_fields pf db params r i day :
  Spec.userDateUnique db ->
  Quota.getMonthAvailability pf db params = Some r ->
  MonthAvailability.days r !! i = Some day ->
  let me := Requester.userId (Params.requester params) in
  let own := View.ownActive db (Params.storeId params) me (AvailabilityDay.date day) in
  AvailabilityDay.myLeaveStatus day = LeaveRequest.status <$> own
  /\ (AvailabilityDay.myLeaveCancelable day = true
      <-> exists lr, own = Some lr /\ LeaveRequest.status lr = PENDING
                     /\ LeaveRequest.createdByUserId lr = Some me).
Proof.
  intros Hud Hr Hi me own.
  destruct (day_mine _ _ _ _ _ _ Hr Hi) as (Hst & Hc & _).
  rewrite (mine_lookup _ _ _ _ _ Hud (day_date_prefix _ _ _ _ _ _ Hr Hi)) in Hst, Hc.
  fold me own in Hst, Hc. rewrite Hst, Hc. clear Hst Hc.
  destruct own as [lr|]; simpl.
  - split; [done |]. rewrite andb_true_iff, bool_decide_eq_true. unfold Js.optEqb.
    split.
    + intros [Hp Hcb]. exists lr. split_and!; [done | done |].
      destruct (LeaveRequest.createdByUserId lr) as [c|]; [|done].
      by apply String.eqb_eq in Hcb as ->.
    + intros (lr' & [= <-] & Hp & ->). split; [done |]. apply String.eqb_refl.
  - split; [done |]. split; [done |]. by intros (? & ? & _).
Qed.

Lemma june_userDateUnique : Spec.userDateUnique Scenario.june.
Proof. apply NoDup_singleton. Qed.

(** Song sees the approved day off on 2024-06-04. *)
Lemma own_leave_fields_witness :
  exists r day,
    Quota.getMonthAvailability (Reference.platform 3) Scenario.june
      (Scenario.paramsFor Scenario.song "2024-06") = Some r
    /\ MonthAvailability.days r !! 3%nat = Some day
    /\ AvailabilityDay.myLeaveStatus day
       = LeaveRequest.status
         <$> View.ownActive Scenario.june Scenario.storeId "u_song" (AvailabilityDay.date day)
    /\ AvailabilityDay.myLeaveStatus day = Some APPROVED.
Proof.
  eexists _, _. split; [vm_compute; reflexivity |]. split; [vm_compute; reflexivity |].
  split; [| reflexivity].
  refine (proj1
    (own_leave_fields (Reference.platform 3) Scenario.june
       (Scenario.paramsFor Scenario.song "2024-06") _ 3%nat _ june_userDateUnique _ _));
    vm_compute; reflexivity.
Defined.

Lemma update_some id data db r :
  In r (Db.leaveRequest db) -> LeaveRequest.id r = id ->
  exists r' db1, Prisma.leaveRequest_update id data db = Some (r', db1).
Proof.
  intros Hin Hid. unfold Prisma.leaveRequest_update, findFirst.
  destruct (find _ _) as [x|] eqn:Hf; [eauto |].
  exfalso. eapply find_none in Hf; [|done]. simpl in Hf.
  by rewrite Hid, String.eqb_refl in Hf.
Qed.

Lemma GET_ok pf db req month r :
  AvailabilityRoute.GET pf db req (Some month) = AvailabilityRoute.Ok r ->
  exists user store,
    Auth.getCurrentUser db req = Some user
    /\ DateLib.isIsoMonth month = true
    /\ findFirst (fun st => String.eqb (Store.id st) (User.storeId user)) (Db.store db)
       = Some store
    /\ Store.id store = User.storeId user
    /\ Quota.getMonthAvailability pf db
         {| Params.storeId := User.storeId user;
            Params.storeTimeZone := Store.timezone store;
            Params.month := month;
            Params.requester := {| Requester.userId := User.id user;
                                   Requester.role := User.role user |} |} = Some r.
Proof.
  unfold AvailabilityRoute.GET.
  destruct (Auth.getCurrentUser db req) as [user|]; [|done].
  destruct (String.eqb month ""); simpl; [done |].
  destruct (DateLib.isIsoMonth month) eqn:Hm; simpl; [|done].
  destruct (findFirst _ (Db.store db)) as [store|] eqn:Hst; [|done].
  destruct (Quota.getMonthAvailability _ _ _) as [res|] eqn:Hr; [|done].
  intros [= <-]. exists user, store.
  pose proof Hst as Hid. apply find_some in Hid as [_ Hid%String.eqb_eq].
  split_and!; try done. by rewrite <- Hid.
Qed.

(** X6. The calendar and the cancel handler agree: for the signed-in
    user and an ISO date, DELETE answers ok exactly when the calendar entry
    of that date says [myLeaveCancelable]; it answers 404 NOT_FOUND exactly
    when the entry shows no own leave; and where the entry is not
    cancelable DELETE changes nothing. *)
Theorem cancelable_flag_predicts_cancel pf db req date r i day :
  Spec.userDateUnique db ->
  LeaveRoute.BodySchema (Auth.body req) = Some date ->
  DateLib.isIsoDate date = true ->
  AvailabilityRoute.GET pf db req (Some (Js.slice0 7 date)) = AvailabilityRoute.Ok r ->
  MonthAvailability.days r !! i = Some day ->
  AvailabilityDay.date day = date ->
  (AvailabilityDay.myLeaveCancelable day = true <-> (LeaveRoute.DELETE db req).1 = RespOk)
  /\ (AvailabilityDay.myLeaveStatus day = None
      <-> (LeaveRoute.DELETE db req).1 = RespError "NOT_FOUND" 404)
  /\ (AvailabilityDay.myLeaveCancelable day = false -> (LeaveRoute.DELETE db req).2 = db).
Proof.
  intros Hud Hbody Hiso Hget Hi Hdate.
  destruct (GET_ok _ _ _ _ _ Hget) as (user & store & Hu & _ & _ & _ & Hr).
  destruct (own_leave_fields _ _ _ _ _ _ Hud Hr Hi) as [Hst Hc]. simpl in Hst, Hc.
  rewrite Hdate in Hst, Hc.
  unfold LeaveRoute.DELETE. rewrite Hu, Hbody, Hiso. simpl.
  unfold View.ownActive in Hst, Hc.
  destruct (findFirst _ (Db.leaveRequest db)) as [existing|] eqn:Hex.
  - simpl in Hst.
    assert (AvailabilityDay.myLeaveCancelable day = true
            <-> LeaveRequest.status existing = PENDING
                /\ LeaveRequest.createdByUserId existing = Some (User.id user)) as Hc'.
    { rewrite Hc. split.
      - by intros (lr & [= <-] & ? & ?).
      - intros [? ?]. by exists existing. }
    clear Hc.
    destruct (Js.optEqb (LeaveRequest.createdByUserId existing) (User.id user)) eqn:Hcb; simpl.
    + assert (LeaveRequest.createdByUserId existing = Some (User.id user)) as Hcb'.
      { unfold Js.optEqb in Hcb. destruct (LeaveRequest.createdByUserId existing); [|done].
        by apply String.eqb_eq in Hcb as ->. }
      destruct (bool_decide (LeaveRequest.status existing = PENDING)) eqn:Hp; simpl.
      * apply bool_decide_eq_true in Hp.
        assert (AvailabilityDay.myLeaveCancelable day = true) as Hyes by (by apply Hc').
        apply find_some in Hex as [Hin _].
        destruct (update_some (LeaveRequest.id existing) (Prisma.setStatus CANCELED) db existing)
          as (r1 & db1 & Hupd); [done | done |].
        unfold Prisma.transaction. rewrite (cancelTx_spec _ _ _ _ _ Hupd). simpl.
        rewrite Hst, Hyes. split_and!; [done | split; done | done].
      * apply bool_decide_eq_false in Hp.
        assert (AvailabilityDay.myLeaveCancelable day <> true) as Hno by (rewrite Hc'; tauto).
        rewrite Hst. split_and!; [split; done | split; done | done].
    + assert (AvailabilityDay.myLeaveCancelable day <> true) as Hno.
      { rewrite Hc'. intros [_ Hcb']. rewrite Hcb' in Hcb. simpl in Hcb.
        by rewrite String.eqb_refl in Hcb. }
      rewrite Hst. split_and!; [split; done | split; done | done].
  - simpl in Hst.
    assert (AvailabilityDay.myLeaveCancelable day <> true) as Hno.
    { rewrite Hc. by intros (? & ? & _). }
    rewrite Hst. split_and!; [split; done | split; done | done].
Qed.

Lemma busyDay_userDateUnique : Spec.userDateUnique Scenario.busyDay.
Proof.
  unfold Spec.userDateUnique. simpl.
  repeat (apply NoDup_cons; split; [set_solver |]). constructor.
Qed.

(** Ray's pending request for 2024-06-10 shows as cancelable, and the cancel goes through. *)
Lemma cancelable_flag_predicts_cancel_witness :
  exists r day,
    AvailabilityRoute.GET (Reference.platform 3) Scenario.busyDay
      (Scenario.requestOf Scenario.ray "2024-06-10") (Some "2024-06") = AvailabilityRoute.Ok r
    /\ MonthAvailability.days r !! 9%nat = Some day
    /\ (AvailabilityDay.myLeaveCancelable day = true
        <-> (LeaveRoute.DELETE Scenario.busyDay
               (Scenario.requestOf Scenario.ray "2024-06-10")).1 = RespOk)
    /\ AvailabilityDay.myLeaveCancelable day = true.
Proof.
  eexists _, _. split; [vm_compute; reflexivity |]. split; [vm_compute; reflexivity |].
  split; [| reflexivity].
  refine (proj1
    (cancelable_flag_predicts_cancel (Reference.platform 3) Scenario.busyDay
       (Scenario.requestOf Scenario.ray "2024-06-10") "2024-06-10" _ 9%nat _
       busyDay_userDateUnique eq_refl eq_refl _ _ _));
    vm_compute; reflexivity.
Defined.

Lemma sameButLeaves_refl db : View.sameButLeaves db db.
Proof. by repeat split. Qed.

Lemma sameButLeaves_trans db1 db2 db3 :
  View.sameButLeaves db1 db2 -> View.sameButLeaves db2 db3 -> View.sameButLeaves db1 db3.
Proof. unfold View.sameButLeaves. intros ? ?. destruct_and!. split_and!; congruence. Qed.

Lemma update_tables id data db r db1 :
  Prisma.leaveRequest_update id data db = Some (r, db1) -> View.sameButLeaves db db1.
Proof. intros H. apply update_spec in H as (? & _ & _ & _ & ->). by repeat split. Qed.

Lemma create_tables pf storeId userId date status source createdBy linkedTo db row db1 :
  Prisma.leaveRequest_create pf storeId userId date status source createdBy linkedTo db
  = Some (row, db1) -> View.sameButLeaves db db1.
Proof. intros H. apply create_spec in H as (_ & -> & _). by repeat split. Qed.

Lemma writeOwn_tables pf store user date db lr db1 :
  LeaveRoute.writeOwn pf store user date db = Some (lr, db1) -> View.sameButLeaves db db1.
Proof.
  unfold LeaveRoute.writeOwn. intros H.
  repeat case_match; eauto using update_tables, create_tables.
Qed.

Lemma mirrorOne_tables pf store user date lr b db db' :
  LeaveRoute.mirrorOne pf store user date lr b db = Some db' -> View.sameButLeaves db db'.
Proof.
  unfold LeaveRoute.mirrorOne. intros H.
  repeat case_match; simplify_eq; try apply sameButLeaves_refl;
    match goal with
    | H : snd <$> ?x = Some _ |- _ => destruct x as [[? ?]|] eqn:E; simpl in H; simplify_eq
    end; eauto using update_tables, create_tables.
Qed.

Lemma mirrorLoop_tables pf store user date lr bs db :
  View.sameButLeaves db (LeaveRoute.mirrorLoop pf store user date lr bs db).2.
Proof.
  revert db. induction bs as [|b bs IH]; intros db; simpl; [apply sameButLeaves_refl |].
  destruct (LeaveRoute.mirrorOne _ _ _ _ _ _ _) as [db1|] eqn:Hm; [|apply sameButLeaves_refl].
  eapply sameButLeaves_trans; [by eapply mirrorOne_tables | apply IH].
Qed.

Lemma mirrorAll_tables pf store user date lr db :
  View.sameButLeaves db (LeaveRoute.mirrorAll pf store user date lr db).2.
Proof.
  unfold LeaveRoute.mirrorAll. case_match; [apply mirrorLoop_tables | apply sameButLeaves_refl].
Qed.

Lemma POST_tables pf db req : View.sameButLeaves db (LeaveRoute.POST pf db req).2.
Proof.
  unfold LeaveRoute.POST.
  destruct (LeaveRoute.guards pf db req) as [resp | [[user date] store]];
    [apply sameButLeaves_refl |].
  destruct (LeaveRoute.writeOwn _ _ _ _ _) as [[lr db1]|] eqn:Hw; [|apply sameButLeaves_refl].
  pose proof (mirrorAll_tables pf store user date lr db1) as Hm.
  destruct (LeaveRoute.mirrorAll _ _ _ _ _ _) as [[] db2]; simpl in *;
    eapply sameButLeaves_trans; eauto using writeOwn_tables.
Qed.

(** Writes go through when the id generator gives new ids. *)

Lemma create_some pf storeId userId date status source createdBy linkedTo db :
  View.cuidFresh pf ->
  find (fun r => String.eqb (LeaveRequest.userId r) userId
                 && String.eqb (LeaveRequest.date r) date) (Db.leaveRequest db) = None ->
  exists row db1,
    Prisma.leaveRequest_create pf storeId userId date status source createdBy linkedTo db
    = Some (row, db1).
Proof.
  intros Hfresh Hnone. unfold Prisma.leaveRequest_create.
  assert (existsb (fun x => String.eqb (LeaveRequest.id x)
                              (cuid pf (map LeaveRequest.id (Db.leaveRequest db))))
            (Db.leaveRequest db) = false) as ->.
  { apply not_true_is_false. intros (x & Hin & Hx%String.eqb_eq)%existsb_exists.
    apply (Hfresh (map LeaveRequest.id (Db.leaveRequest db))). rewrite <- Hx. by apply in_map. }
  assert (existsb (fun x => String.eqb (LeaveRequest.userId x) userId
                            && String.eqb (LeaveRequest.date x) date)
            (Db.leaveRequest db) = false) as ->.
  { apply not_true_is_false. intros (x & Hin & Hx)%existsb_exists.
    eapply find_none in Hnone; [|done]. simpl in Hnone. congruence. }
  simpl. eauto.
Qed.

Lemma status_cases st :
  LeaveRoute.isActiveStatus st = false -> LeaveRoute.isReusableStatus st = true.
Proof. by destruct st. Qed.

Lemma writeOwn_some pf store user date db :
  View.cuidFresh pf ->
  (forall ex, LeaveRoute.existingAny db user date = Some ex ->
              LeaveRoute.isActiveStatus (LeaveRequest.status ex) = false) ->
  exists lr db1, LeaveRoute.writeOwn pf store user date db = Some (lr, db1).
Proof.
  intros Hfresh Hact. unfold LeaveRoute.writeOwn.
  destruct (LeaveRoute.existingAny db user date) as [ex|] eqn:Hex.
  - rewrite (status_cases _ (Hact ex eq_refl)).
    apply find_some in Hex as [Hin _]. by eapply update_some.
  - by apply create_some.
Qed.

Lemma mirrorOne_some pf store user date lr b db :
  View.cuidFresh pf -> is_Some (LeaveRoute.mirrorOne pf store user date lr b db).
Proof.
  intros Hfresh. unfold LeaveRoute.mirrorOne.
  destruct (findFirst _ _) as [ex|] eqn:Hex.
  - destruct (LeaveRoute.isActiveStatus _) eqn:Hact; [done |].
    rewrite (status_cases _ Hact).
    apply find_some in Hex as [Hin _].
    destruct (update_some (LeaveRequest.id ex) (LeaveRoute.mirrorData user lr) db ex Hin eq_refl)
      as (? & ? & ->). done.
  - edestruct (create_some pf) as (? & ? & ->); [done | exact Hex |]. done.
Qed.

Lemma mirrorLoop_ok pf store user date lr bs db :
  View.cuidFresh pf -> (LeaveRoute.mirrorLoop pf store user date lr bs db).1 = true.
Proof.
  intros Hfresh. revert db. induction bs as [|b bs IH]; intros db; simpl; [done |].
  destruct (mirrorOne_some pf store user date lr b db Hfresh) as [db1 ->]. apply IH.
Qed.

Lemma POST_answers pf db req user date store :
  View.cuidFresh pf ->
  LeaveRoute.guards pf db req = inr (user, date, store) ->
  exists lr db', LeaveRoute.POST pf db req = (RespLeaveRequest lr, db').
Proof.
  intros Hfresh Hg. unfold LeaveRoute.POST. rewrite Hg.
  destruct (guards_inr _ _ _ _ _ _ Hg) as (_ & _ & _ & _ & Hact).
  destruct (writeOwn_some pf store user date db Hfresh Hact) as (lr & db1 & ->).
  assert ((LeaveRoute.mirrorAll pf store user date lr db1).1 = true) as Hok.
  { unfold LeaveRoute.mirrorAll. case_match; [by apply mirrorLoop_ok | done]. }
  destruct (LeaveRoute.mirrorAll _ _ _ _ _ _) as [ok db2]. simpl in Hok. subst ok. eauto.
Qed.

Lemma existingAny_active db user date ex :
  LeaveRoute.existingAny db user date = Some ex ->
  LeaveRoute.isActiveStatus (LeaveRequest.status ex) = true ->
  Spec.hasActiveRequest db (User.id user) date = true.
Proof.
  intros Hex Hact. apply find_some in Hex as [Hin Hex].
  apply existsb_exists. exists ex. split; [done |]. by rewrite Hex, Hact.
Qed.

(** X7. The calendar and the request handler agree: for a user without
    a PENDING or APPROVED request on the date, POST refuses a day the
    calendar shows as not selectable with 403 NOT_ALLOWED and the calendar's
    reasons, changing nothing, and accepts a day the calendar shows as
    selectable (the id generator giving new ids). *)
Theorem selectable_predicts_request pf db req user date r i day :
  Spec.calendarBounded pf ->
  Auth.getCurrentUser db req = Some user ->
  LeaveRoute.BodySchema (Auth.body req) = Some date ->
  DateLib.isIsoDate date = true ->
  Spec.hasActiveRequest db (User.id user) date = false ->
  AvailabilityRoute.GET pf db req (Some (Js.slice0 7 date)) = AvailabilityRoute.Ok r ->
  MonthAvailability.days r !! i = Some day ->
  AvailabilityDay.date day = date ->
  (AvailabilityDay.selectable day = false ->
   LeaveRoute.POST pf db req = (RespNotAllowed (AvailabilityDay.reasons day), db))
  /\ (AvailabilityDay.selectable day = true -> View.cuidFresh pf ->
      exists lr db', LeaveRoute.POST pf db req = (RespLeaveRequest lr, db')).
Proof.
  intros Hcal Hu Hbody Hiso Hfree Hget Hi Hdate.
  destruct (GET_ok _ _ _ _ _ Hget) as (user' & store & Hu' & _ & Hstore & Hsid & Hr).
  rewrite Hu in Hu'. injection Hu' as <-.
  pose proof (find_day _ _ _ _ _ _ Hcal Hr Hi) as Hfind. rewrite Hdate in Hfind.
  assert (match LeaveRoute.existingAny db user date with
          | Some ex => if LeaveRoute.isActiveStatus (LeaveRequest.status ex)
                       then Some (LeaveRequest.status ex) else None
          | None => None
          end = None) as Hnone.
  { destruct (LeaveRoute.existingAny db user date) as [ex|] eqn:Hex; [|done].
    destruct (LeaveRoute.isActiveStatus _) eqn:Hact; [|done].
    by rewrite (existingAny_active _ _ _ _ Hex Hact) in Hfree. }
  assert (forall b,
            AvailabilityDay.selectable day = b ->
            LeaveRoute.guards pf db req
            = if negb b then inl (RespNotAllowed (AvailabilityDay.reasons day))
              else inr (user, date, store)) as Hguards.
  { intros b Hb. unfold LeaveRoute.guards.
    rewrite Hu, Hbody, Hiso. simpl. rewrite Hnone, Hstore, Hsid, Hr, Hfind, Hb. done. }
  split.
  - intros Hsel. unfold LeaveRoute.POST. by rewrite (Hguards false Hsel).
  - intros Hsel Hfresh. eapply POST_answers; [done |]. by rewrite (Hguards true Hsel).
Qed.

(** The row a request writes for the requester. *)

Lemma repeatChar_length c n : String.length (Reference.repeatChar c n) = n.
Proof. induction n as [|n IH]; simpl; [done |]. by rewrite IH. Qed.

Lemma longestId_bound ids id : In id ids -> (String.length id <= Reference.longestId ids)%nat.
Proof.
  induction ids as [|x ids IH]; [done |].
  unfold Reference.longestId in *. simpl.
  intros [-> | Hin]; [lia |]. specialize (IH Hin). lia.
Qed.

Lemma reference_cuidFresh today : View.cuidFresh (Reference.platform today).
Proof.
  intros ids Hin. simpl in Hin. apply longestId_bound in Hin.
  unfold Reference.freshId in Hin. rewrite repeatChar_length in Hin. lia.
Qed.

(** On the 3rd ray sees 2024-06-10 as selectable, and the request is accepted. *)
Lemma selectable_predicts_request_witness :
  exists lr db',
    LeaveRoute.POST (Reference.platform 3) Scenario.seed
      (Scenario.requestOf Scenario.ray "2024-06-10") = (RespLeaveRequest lr, db').
Proof.
  refine (proj2
    (selectable_predicts_request (Reference.platform 3) Scenario.seed
       (Scenario.requestOf Scenario.ray "2024-06-10") Scenario.ray "2024-06-10" _ 9%nat _
       (reference_calendarBounded 3) eq_refl eq_refl eq_refl eq_refl _ _ _) _
    (reference_cuidFresh 3));
    vm_compute; reflexivity.
Defined.

Lemma writeOwn_row pf store user date db lr db1 :
  Spec.idsUnique db ->
  LeaveRoute.writeOwn pf store user date db = Some (lr, db1) ->
  In lr (Db.leaveRequest db1)
  /\ LeaveRequest.userId lr = User.id user
  /\ LeaveRequest.date lr = date
  /\ LeaveRequest.status lr = PENDING
  /\ LeaveRequest.source lr = LeaveRequestSource.SELF
  /\ LeaveRequest.createdByUserId lr = Some (User.id user)
  /\ (LeaveRequest.storeId lr = Store.id store
      \/ exists ex, LeaveRoute.existingAny db user date = Some ex
                    /\ LeaveRequest.storeId lr = LeaveRequest.storeId ex).
Proof.
  intros Hids. unfold LeaveRoute.writeOwn.
  assert (forall row db2,
            Prisma.leaveRequest_create pf (Store.id store) (User.id user) date PENDING
              LeaveRequestSource.SELF (Some (User.id user)) None db = Some (row, db2) ->
            In row (Db.leaveRequest db2)
            /\ LeaveRequest.userId row = User.id user /\ LeaveRequest.date row = date
            /\ LeaveRequest.status row = PENDING
            /\ LeaveRequest.source row = LeaveRequestSource.SELF
            /\ LeaveRequest.createdByUserId row = Some (User.id user)
            /\ LeaveRequest.storeId row = Store.id store) as Hcreate.
  { intros row db2 Hc. apply create_spec in Hc as (-> & -> & _). simpl.
    split_and!; try done. apply in_or_app. right. by left. }
  destruct (LeaveRoute.existingAny db user date) as [ex|] eqn:Hex.
  - destruct (LeaveRoute.isReusableStatus _).
    + intros Hupd. apply find_some in Hex as [Hin Hex].
      rewrite andb_true_iff, !String.eqb_eq in Hex. destruct Hex as [Huid Hd].
      rewrite (update_in_place _ _ _ Hids Hin) in Hupd. injection Hupd as <- <-. simpl.
      split_and!; try done; [by apply inPlace_in_ex | eauto].
    + intros Hc. destruct (Hcreate _ _ Hc) as (? & ? & ? & ? & ? & ? & ?). split_and!; auto.
  - intros Hc. destruct (Hcreate _ _ Hc) as (? & ? & ? & ? & ? & ? & ?). split_and!; auto.
Qed.

Lemma stepwise_keeps_pending db db' lr :
  Spec.stepwise Spec.revived db db' ->
  In lr (Db.leaveRequest db) -> LeaveRequest.status lr = PENDING ->
  In lr (Db.leaveRequest db').
Proof.
  intros Hstep Hin Hp. apply list_elem_of_In, list_elem_of_lookup in Hin as [i Hi].
  destruct (Hstep i lr Hi) as (y & Hy & [-> | (_ & Hre & _)]).
  - apply list_elem_of_In. by eapply list_elem_of_lookup_2.
  - by rewrite Hp in Hre.
Qed.

Lemma mirrorAll_revives pf store user date lr db :
  Spec.keysUnique db ->
  Spec.stepwise Spec.revived db (LeaveRoute.mirrorAll pf store user date lr db).2.
Proof.
  intros Hk. unfold LeaveRoute.mirrorAll.
  case_match; [by apply mirrorLoop_revives | by apply stepwise_refl; [apply revived_refl |]].
Qed.

Lemma getCurrentUser_tables db db' req :
  Db.user db' = Db.user db -> Auth.getCurrentUser db' req = Auth.getCurrentUser db req.
Proof. unfold Auth.getCurrentUser. by intros ->. Qed.

Lemma ownActive_unique db storeId lr :
  Spec.userDateUnique db ->
  In lr (Db.leaveRequest db) ->
  LeaveRequest.storeId lr = storeId ->
  Quota.isOffStatus (LeaveRequest.status lr) = true ->
  View.ownActive db storeId (LeaveRequest.userId lr) (LeaveRequest.date lr) = Some lr.
Proof.
  intros Hud Hin Hs Hact. unfold View.ownActive, findFirst.
  apply (find_unique Spec.userDate); [done | done | |].
  - rewrite Hs, !String.eqb_refl, isOffStatus_elem, Hact. done.
  - intros x _ Hx. rewrite !andb_true_iff, !String.eqb_eq in Hx. destruct_and!.
    unfold Spec.userDate. congruence.
Qed.

(** X8. After an accepted request the calendar shows the date as the
    user's own PENDING leave, cancelable by the user (what the page shows
    before it reloads the month); a reused row must belong to the user's
    store. *)
Theorem accepted_request_shows_pending pf db req user lr db' r i day :
  Spec.keysUnique db ->
  Auth.getCurrentUser db req = Some user ->
  (forall ex, LeaveRoute.existingAny db user (LeaveRequest.date lr) = Some ex ->
              LeaveRequest.storeId ex = User.storeId user) ->
  LeaveRoute.POST pf db req = (RespLeaveRequest lr, db') ->
  AvailabilityRoute.GET pf db' req (Some (Js.slice0 7 (LeaveRequest.date lr)))
  = AvailabilityRoute.Ok r ->
  MonthAvailability.days r !! i = Some day ->
  AvailabilityDay.date day = LeaveRequest.date lr ->
  AvailabilityDay.myLeaveStatus day = Some PENDING
  /\ AvailabilityDay.myLeaveCancelable day = true.
Proof.
  intros Hk Hu Hown Hpost Hget Hi Hdate.
  destruct (POST_accepted _ _ _ _ _ Hpost) as (user0 & date & store & db1 & Hg & Hw & Hm).
  destruct (guards_inr _ _ _ _ _ _ Hg) as (Hu0 & _ & _ & Hsid & _).
  rewrite Hu in Hu0. injection Hu0 as <-.
  destruct (writeOwn_row _ _ _ _ _ _ _ (proj1 Hk) Hw)
    as (Hin1 & Huid & Hd & Hp & _ & Hcb & Hstore).
  assert (LeaveRequest.storeId lr = User.storeId user) as Hs.
  { destruct Hstore as [-> | (ex & Hex & ->)]; [done |]. apply Hown. by rewrite Hd. }
  assert (Spec.keysUnique db1) as Hk1 by (by eapply writeOwn_keys).
  assert (In lr (Db.leaveRequest db')) as Hin'.
  { pose proof (mirrorAll_revives pf store user date lr db1 Hk1) as Hst.
    rewrite Hm in Hst. simpl in Hst. by eapply stepwise_keeps_pending. }
  assert (Spec.userDateUnique db') as Hud'.
  { pose proof (POST_keys pf db req Hk) as Hk'. rewrite Hpost in Hk'. apply Hk'. }
  destruct (GET_ok _ _ _ _ _ Hget) as (user' & store' & Hu' & _ & _ & _ & Hr).
  assert (Db.user db' = Db.user db) as Husers.
  { pose proof (POST_tables pf db req) as Ht. rewrite Hpost in Ht. apply Ht. }
  rewrite (getCurrentUser_tables _ _ _ Husers), Hu in Hu'. injection Hu' as <-.
  destruct (own_leave_fields _ _ _ _ _ _ Hud' Hr Hi) as [Hst Hc]. simpl in Hst, Hc.
  rewrite Hdate, <- Huid in Hst, Hc.
  rewrite (ownActive_unique db' (User.storeId user) lr) in Hst, Hc; try done;
    [| by rewrite Hp | by rewrite Hp].
  simpl in Hst. rewrite Hp in Hst. split; [done |].
  apply Hc. exists lr. split_and!; [done | done |]. by rewrite Huid.
Qed.

Lemma seed_keysUnique : Spec.keysUnique Scenario.seed.
Proof. split; constructor. Qed.

(** Ray's accepted request for 2024-06-10 shows as pending and cancelable. *)
Lemma accepted_request_shows_pending_witness :
  exists lr db' r day,
    LeaveRoute.POST (Reference.platform 3) Scenario.seed
      (Scenario.requestOf Scenario.ray "2024-06-10") = (RespLeaveRequest lr, db')
    /\ AvailabilityRoute.GET (Reference.platform 3) db'
         (Scenario.requestOf Scenario.ray "2024-06-10") (Some "2024-06")
       = AvailabilityRoute.Ok r
    /\ MonthAvailability.days r !! 9%nat = Some day
    /\ AvailabilityDay.myLeaveStatus day = Some PENDING
    /\ AvailabilityDay.myLeaveCancelable day = true.
Proof.
  eexists _, _, _, _. split; [vm_compute; reflexivity |].
  split; [vm_compute; reflexivity |]. split; [vm_compute; reflexivity |].
  refine (accepted_request_shows_pending (Reference.platform 3) Scenario.seed
            (Scenario.requestOf Scenario.ray "2024-06-10") Scenario.ray _ _ _ 9%nat _
            seed_keysUnique eq_refl _ _ _ _ _).
  - intros ex Hex. vm_compute in Hex. discriminate Hex.
  - vm_compute; reflexivity.
  - vm_compute; reflexivity.
  - vm_compute; reflexivity.
  - vm_compute; reflexivity.
Defined.

Lemma DELETE_ok db req db' :
  LeaveRoute.DELETE db req = (RespOk, db') ->
  exists user date existing,
    Auth.getCurrentUser db req = Some user
    /\ LeaveRoute.BodySchema (Auth.body req) = Some date
    /\ DateLib.isIsoDate date = true
    /\ View.ownActive db (User.storeId user) (User.id user) date = Some existing
    /\ LeaveRequest.status existing = PENDING
    /\ LeaveRequest.createdByUserId existing = Some (User.id user)
    /\ db' = Prisma.withLeaveRequest db
               (map (Spec.cancelRow user existing) (Db.leaveRequest db)).
Proof.
  unfold LeaveRoute.DELETE.
  destruct (Auth.getCurrentUser db req) as [user|]; [|done].
  destruct (LeaveRoute.BodySchema _) as [date|]; [|done].
  destruct (DateLib.isIsoDate date) eqn:Hiso; simpl; [|done].
  destruct (findFirst _ (Db.leaveRequest db)) as [existing|] eqn:Hex; [|done].
  destruct (Js.optEqb _ _) eqn:Hcb; simpl; [|done].
  destruct (bool_decide (LeaveRequest.status existing = PENDING)) eqn:Hp; simpl; [|done].
  apply bool_decide_eq_true in Hp.
  pose proof Hex as Hin. apply find_some in Hin as [Hin _].
  destruct (update_some (LeaveRequest.id existing) (Prisma.setStatus CANCELED) db existing)
    as (r1 & db1 & Hupd); [done | done |].
  unfold Prisma.transaction. rewrite (cancelTx_spec _ _ _ _ _ Hupd).
  intros [= <-]. exists user, date, existing. split_and!; try done.
  unfold Js.optEqb in Hcb. destruct (LeaveRequest.createdByUserId existing); [|done].
  by apply String.eqb_eq in Hcb as ->.
Qed.

Lemma cancelRow_keeps user existing x :
  LeaveRequest.id (Spec.cancelRow user existing x) = LeaveRequest.id x
  /\ LeaveRequest.storeId (Spec.cancelRow user existing x) = LeaveRequest.storeId x
  /\ LeaveRequest.userId (Spec.cancelRow user existing x) = LeaveRequest.userId x
  /\ LeaveRequest.date (Spec.cancelRow user existing x) = LeaveRequest.date x.
Proof. unfold Spec.cancelRow. by repeat case_match. Qed.

(** X9. After a successful cancel the calendar shows no own leave for
    the date, not cancelable, and the user has no PENDING or APPROVED
    request on the date any more. *)
Theorem canceled_request_disappears pf db req db' date r i day :
  Spec.userDateUnique db ->
  LeaveRoute.BodySchema (Auth.body req) = Some date ->
  LeaveRoute.DELETE db req = (RespOk, db') ->
  AvailabilityRoute.GET pf db' req (Some (Js.slice0 7 date)) = AvailabilityRoute.Ok r ->
  MonthAvailability.days r !! i = Some day ->
  AvailabilityDay.date day = date ->
  AvailabilityDay.myLeaveStatus day = None
  /\ AvailabilityDay.myLeaveCancelable day = false
  /\ (forall user, Auth.getCurrentUser db req = Some user ->
                   Spec.hasActiveRequest db' (User.id user) date = false).
Proof.
  intros Hud Hbody Hdel Hget Hi Hdate.
  destruct (DELETE_ok _ _ _ Hdel) as (user & date' & existing & Hu & Hb & _ & Hex & Hp & _ & ->).
  rewrite Hbody in Hb. injection Hb as <-.
  pose proof Hex as Hin. apply find_some in Hin as [Hin Hpred].
  rewrite !andb_true_iff, !String.eqb_eq in Hpred. destruct Hpred as [[[Hs Huid] Hd] _].
  (* every row of the user and the date is the cancelled one *)
  assert (forall x, In x (Db.leaveRequest db) ->
                    LeaveRequest.userId x = User.id user -> LeaveRequest.date x = date ->
                    LeaveRequest.status (Spec.cancelRow user existing x) = CANCELED) as Hgone.
  { intros x Hx Hxu Hxd.
    assert (x = existing) as ->.
    { apply (NoDup_map_inj Spec.userDate (Db.leaveRequest db)); try done.
      unfold Spec.userDate. congruence. }
    unfold Spec.cancelRow. by rewrite String.eqb_refl. }
  assert (Spec.userDateUnique
            (Prisma.withLeaveRequest db (map (Spec.cancelRow user existing) (Db.leaveRequest db))))
    as Hud'.
  { unfold Spec.userDateUnique. simpl. rewrite map_map.
    erewrite map_ext; [exact Hud |]. intros x. unfold Spec.userDate.
    destruct (cancelRow_keeps user existing x) as (_ & _ & -> & ->). done. }
  destruct (GET_ok _ _ _ _ _ Hget) as (user' & store' & Hu' & _ & _ & _ & Hr).
  rewrite (getCurrentUser_tables db) in Hu' by done.
  rewrite Hu in Hu'. injection Hu' as <-.
  destruct (own_leave_fields _ _ _ _ _ _ Hud' Hr Hi) as [Hst Hc]. simpl in Hst, Hc.
  rewrite Hdate in Hst, Hc.
  assert (View.ownActive
            (Prisma.withLeaveRequest db (map (Spec.cancelRow user existing) (Db.leaveRequest db)))
            (User.storeId user) (User.id user) date = None) as Hnone.
  { unfold View.ownActive, findFirst. simpl.
    destruct (find _ _) as [y|] eqn:Hy; [exfalso | done].
    apply find_some in Hy as [Hyin Hy]. apply in_map_iff in Hyin as (x & <- & Hx).
    rewrite !andb_true_iff, !String.eqb_eq, bool_decide_eq_true in Hy.
    destruct Hy as [[[_ Hyu] Hyd] Hya].
    destruct (cancelRow_keeps user existing x) as (_ & _ & Hku & Hkd).
    rewrite Hku in Hyu. rewrite Hkd in Hyd.
    rewrite (Hgone x Hx Hyu Hyd) in Hya. set_solver. }
  rewrite Hnone in Hst, Hc. simpl in Hst. split_and!; [done | |].
  - apply not_true_is_false. rewrite Hc. by intros (? & ? & _).
  - intros user' Hu'. rewrite Hu in Hu'. injection Hu' as <-.
    apply not_true_is_false. intros (y & Hyin & Hy)%existsb_exists. simpl in Hyin.
    apply in_map_iff in Hyin as (x & <- & Hx).
    rewrite !andb_true_iff, !String.eqb_eq in Hy. destruct Hy as [[Hyu Hyd] Hya].
    destruct (cancelRow_keeps user existing x) as (_ & _ & Hku & Hkd).
    rewrite Hku in Hyu. rewrite Hkd in Hyd.
    by rewrite (Hgone x Hx Hyu Hyd) in Hya.
Qed.

(** Ray cancels the request for 2024-06-10; the calendar shows no leave there. *)
Lemma canceled_request_disappears_witness :
  exists db' r day,
    LeaveRoute.DELETE Scenario.busyDay (Scenario.requestOf Scenario.ray "2024-06-10")
    = (RespOk, db')
    /\ AvailabilityRoute.GET (Reference.platform 3) db'
         (Scenario.requestOf Scenario.ray "2024-06-10") (Some "2024-06")
       = AvailabilityRoute.Ok r
    /\ MonthAvailability.days r !! 9%nat = Some day
    /\ AvailabilityDay.myLeaveStatus day = None
    /\ AvailabilityDay.myLeaveCancelable day = false.
Proof.
  eexists _, _, _. split; [vm_compute; reflexivity |].
  split; [vm_compute; reflexivity |]. split; [vm_compute; reflexivity |].
  destruct (canceled_request_disappears (Reference.platform 3) Scenario.busyDay
              (Scenario.requestOf Scenario.ray "2024-06-10") _ "2024-06-10" _ 9%nat _
              busyDay_userDateUnique eq_refl eq_refl eq_refl eq_refl eq_refl)
    as (H1 & H2 & _).
  exact (conj H1 H2).
Defined.

Lemma guards_day pf db req user date store :
  LeaveRoute.guards pf db req = inr (user, date, store) ->
  exists av day,
    Quota.getMonthAvailability pf db
      {| Params.storeId := Store.id store;
         Params.storeTimeZone := Store.timezone store;
         Params.month := Js.slice0 7 date;
         Params.requester := {| Requester.userId := User.id user;
                                Requester.role := User.role user |} |} = Some av
    /\ List.find (fun d => String.eqb (AvailabilityDay.date d) date)
         (MonthAvailability.days av) = Some day
    /\ AvailabilityDay.selectable day = true.
Proof.
  unfold LeaveRoute.guards.
  destruct (Auth.getCurrentUser db req) as [u|]; [|done].
  destruct (LeaveRoute.BodySchema _) as [d|]; [|done].
  destruct (DateLib.isIsoDate d) eqn:Hiso; simpl; [|done].
  destruct (match LeaveRoute.existingAny db u d with Some _ => _ | None => _ end); [done |].
  destruct (findFirst _ (Db.store db)) as [st|] eqn:Hst; [|done].
  destruct (Quota.getMonthAvailability _ _ _) as [av|] eqn:Hav; [|done].
  destruct (find _ _) as [dy|] eqn:Hdy; [|done].
  destruct (AvailabilityDay.selectable dy) eqn:Hsel; simpl; [|done].
  intros [= <- <- <-]. eauto.
Qed.

(** X10. The day of an accepted request is within what [daysInMonth]
    counts: the stored date is ISO shaped and is [dateFromMonthDay month d]
    for its first seven characters [month] and some [d] from 1 to
    [daysInMonth month], so a day 30 of a February is refused. The month
    number itself is not checked; [daysInMonth] goes through [Date.UTC],
    which carries a month above 12 into the next year. *)
Theorem accepted_day_is_within_days_in_month pf db req lr db' :
  Spec.idsUnique db ->
  LeaveRoute.POST pf db req = (RespLeaveRequest lr, db') ->
  let month := Js.slice0 7 (LeaveRequest.date lr) in
  DateLib.isIsoDate (LeaveRequest.date lr) = true
  /\ exists n d,
       DateLib.daysInMonth pf month = Some n
       /\ (1 <= d <= n)%nat
       /\ LeaveRequest.date lr = DateLib.dateFromMonthDay month d.
Proof.
  intros Hids Hpost month.
  destruct (POST_accepted _ _ _ _ _ Hpost) as (user & date & store & db1 & Hg & Hw & _).
  destruct (writeOwn_row _ _ _ _ _ _ _ Hids Hw) as (_ & _ & Hd & _).
  subst month. rewrite Hd.
  destruct (guards_inr _ _ _ _ _ _ Hg) as (_ & _ & Hiso & _). split; [done |].
  destruct (guards_day _ _ _ _ _ _ Hg) as (av & day & Hav & Hf & _).
  apply find_some in Hf as [Hin Hdt%String.eqb_eq]. apply list_elem_of_In in Hin.
  destruct (month_days _ _ _ _ _ Hav Hin) as (t & d & _ & Hdin & Hday).
  destruct (day_fields _ _ _ _ _ _ _ _ _ Hday) as (_ & _ & Hdd & _). simpl in *.
  unfold Quota.loopDays in Hdin.
  destruct (DateLib.daysInMonth pf (Js.slice0 7 date)) as [n|] eqn:Hn;
    [| by apply elem_of_nil in Hdin].
  apply elem_of_seq in Hdin. exists n, d. split_and!; [done | lia | lia | congruence].
Qed.

Lemma seed_idsUnique : Spec.idsUnique Scenario.seed.
Proof. constructor. Qed.

(** Ray's accepted request is for a day of June 2024. *)
Lemma accepted_day_is_within_days_in_month_witness :
  exists lr db',
    LeaveRoute.POST (Reference.platform 3) Scenario.seed
      (Scenario.requestOf Scenario.ray "2024-06-10") = (RespLeaveRequest lr, db')
    /\ exists n d,
         DateLib.daysInMonth (Reference.platform 3) (Js.slice0 7 (LeaveRequest.date lr)) = Some n
         /\ (1 <= d <= n)%nat
         /\ LeaveRequest.date lr
            = DateLib.dateFromMonthDay (Js.slice0 7 (LeaveRequest.date lr)) d.
Proof.
  eexists _, _. split; [vm_compute; reflexivity |].
  refine (proj2
    (accepted_day_is_within_days_in_month (Reference.platform 3) Scenario.seed
       (Scenario.requestOf Scenario.ray "2024-06-10") _ _ seed_idsUnique _)).
  vm_compute; reflexivity.
Defined.

(** Month 13 of 2024 is taken for January 2025, which has 31 days: the
    request for 2024-13-01 is accepted, the one for 2024-02-30 is not. *)
Example month_13_is_accepted :
  (exists lr db',
     LeaveRoute.POST (Reference.platform 3) Scenario.seed
       (Scenario.requestOf Scenario.ray "2024-13-01") = (RespLeaveRequest lr, db')
     /\ LeaveRequest.date lr = "2024-13-01")
  /\ DateLib.daysInMonth (Reference.platform 3) "2024-13" = Some 31%nat
  /\ (LeaveRoute.POST (Reference.platform 3) Scenario.seed
        (Scenario.requestOf Scenario.ray "2024-02-30")).2 = Scenario.seed.
Proof. split; [eexists _, _; vm_compute; split; reflexivity | split; reflexivity]. Qed.

Lemma offStatus_active lr :
  Quota.isOffStatus (LeaveRequest.status lr) = true ->
  Quota.offStatus lr = LeaveRequest.status lr.
Proof. unfold Quota.offStatus. by destruct (LeaveRequest.status lr). Qed.

Lemma existsb_userId (l : list OffUser.t) uid :
  existsb (fun x => String.eqb (OffUser.userId x) uid) l = true
  <-> In uid (map OffUser.userId l).
Proof.
  rewrite existsb_exists, in_map_iff. split.
  - intros (x & Hin & Hx%String.eqb_eq). eauto.
  - intros (x & <- & Hin). exists x. by rewrite String.eqb_refl.
Qed.

(** What the list of a date holds after the rows [l] went through the
    loop that builds [offUsersByDate]. *)

Lemma offUsers_fold db storeId month date :
  let L := default [] (Quota.offUsersByDate db storeId month !! date) in
  let rows := Quota.leaveRequests db storeId month in
  NoDup (map OffUser.userId L)
  /\ (forall e, In e L ->
        exists lr u,
          In lr rows /\ LeaveRequest.date lr = date
          /\ Quota.isOffStatus (LeaveRequest.status lr) = true
          /\ Quota.userOf db lr = Some u
          /\ e = {| OffUser.userId := LeaveRequest.userId lr;
                    OffUser.displayName := User.displayName u;
                    OffUser.role := User.role u;
                    OffUser.status := LeaveRequest.status lr |})
  /\ (forall lr, In lr rows -> LeaveRequest.date lr = date ->
        Quota.isOffStatus (LeaveRequest.status lr) = true ->
        is_Some (Quota.userOf db lr) ->
        In (LeaveRequest.userId lr) (map OffUser.userId L)).
Proof.
  unfold Quota.offUsersByDate. simpl.
  generalize (Quota.leaveRequests db storeId month). intros l.
  induction l as [|x l IH] using rev_ind.
  { simpl. rewrite lookup_empty. simpl. split_and!; [constructor | done | done]. }
  rewrite foldl_app. simpl.
  set (acc := foldl _ ∅ l) in *.
  destruct IH as (Hnd & Hfrom & Hall).
  (* the rows seen so far stay seen *)
  assert (forall e, In e (default [] (acc !! date)) ->
            exists lr u,
              In lr (l ++ [x]) /\ LeaveRequest.date lr = date
              /\ Quota.isOffStatus (LeaveRequest.status lr) = true
              /\ Quota.userOf db lr = Some u
              /\ e = {| OffUser.userId := LeaveRequest.userId lr;
                        OffUser.displayName := User.displayName u;
                        OffUser.role := User.role u;
                        OffUser.status := LeaveRequest.status lr |}) as Hfrom'.
  { intros e He. destruct (Hfrom e He) as (lr & u & Hin & ?). exists lr, u.
    split; [apply in_or_app; by left | done]. }
  destruct (Quota.isOffStatus (LeaveRequest.status x)) eqn:Hoff; simpl.
  2:{ split_and!; [done | done |].
      intros lr [Hin | [<- | []]]%in_app_or Hd Hact Hu; [by apply Hall | congruence]. }
  destruct (existsb _ (default [] (acc !! LeaveRequest.date x))) eqn:Hex.
  { split_and!; [done | done |].
    intros lr [Hin | [<- | []]]%in_app_or Hd Hact Hu; [by apply Hall |].
    rewrite Hd in Hex. by apply existsb_userId in Hex. }
  destruct (Quota.userOf db x) as [u|] eqn:Hu.
  2:{ split_and!; [done | done |].
      intros lr [Hin | [<- | []]]%in_app_or Hd Hact Hsome; [by apply Hall |].
      rewrite Hu in Hsome. by destruct Hsome. }
  destruct (String.eqb_spec (LeaveRequest.date x) date) as [Hdx | Hdx].
  - rewrite Hdx in *. rewrite lookup_insert_eq. simpl.
    rewrite (offStatus_active _ Hoff).
    split_and!.
    + rewrite map_app. simpl. apply NoDup_app. split_and!; [done | | apply NoDup_singleton].
      intros uid Hin ->%list_elem_of_singleton.
      apply list_elem_of_In, existsb_userId in Hin. congruence.
    + intros e [He | [<- | []]]%in_app_or; [by apply Hfrom' |].
      exists x, u. split_and!; try done. apply in_or_app. right. by left.
    + intros lr Hin Hd Hact Hsome. rewrite map_app. apply in_or_app.
      apply in_app_or in Hin as [Hin | [<- | []]]; [left; by apply Hall | right; by left].
  - rewrite lookup_insert_ne by done.
    split_and!; [done | done |].
    intros lr [Hin | [<- | []]]%in_app_or Hd Hact Hsome; [by apply Hall | congruence].
Qed.

Lemma leaveRequests_In db storeId month lr :
  In lr (Quota.leaveRequests db storeId month)
  <-> In lr (Db.leaveRequest db)
      /\ LeaveRequest.storeId lr = storeId
      /\ Js.startsWith (LeaveRequest.date lr) (month +:+ "-") = true
      /\ Quota.isOffStatus (LeaveRequest.status lr) = true.
Proof.
  unfold Quota.leaveRequests, findMany. rewrite filter_In, !andb_true_iff, String.eqb_eq.
  rewrite isOffStatus_elem. tauto.
Qed.

(** X11. [offUsers] of a day lists each user at most once; every entry
    stands for a PENDING or APPROVED request of the store on that date and
    carries that request's status and the display name and role of the
    user row; and every known user with such a request is listed. *)
Theorem off_users_listed_once pf db params r i day :
  Quota.getMonthAvailability pf db params = Some r ->
  MonthAvailability.days r !! i = Some day ->
  let storeId := Params.storeId params in
  let date := AvailabilityDay.date day in
  let offUsers := AvailabilityDay.offUsers day in
  NoDup (map OffUser.userId offUsers)
  /\ (forall e, In e offUsers ->
        exists lr u,
          In lr (Db.leaveRequest db)
          /\ LeaveRequest.storeId lr = storeId
          /\ LeaveRequest.userId lr = OffUser.userId e
          /\ LeaveRequest.date lr = date
          /\ LeaveRequest.status lr = OffUser.status e
          /\ (OffUser.status e = PENDING \/ OffUser.status e = APPROVED)
          /\ In u (Db.user db)
          /\ User.id u = OffUser.userId e
          /\ OffUser.displayName e = User.displayName u
          /\ OffUser.role e = User.role u)
  /\ (forall uid u,
        Spec.hasActiveLeave db storeId uid date = true ->
        In u (Db.user db) -> User.id u = uid ->
        In uid (map OffUser.userId offUsers)).
Proof.
  intros Hr Hi storeId date offUsers.
  destruct (day_mine _ _ _ _ _ _ Hr Hi) as (_ & _ & Hoff).
  pose proof (day_date_prefix _ _ _ _ _ _ Hr Hi) as Hpre.
  destruct (offUsers_fold db storeId (Params.month params) date) as (Hnd & Hfrom & Hall).
  subst offUsers. rewrite Hoff. fold storeId date. split_and!; [done | |].
  - intros e He. destruct (Hfrom e He) as (lr & u & Hin & Hd & Hact & Hu & ->). simpl.
    apply leaveRequests_In in Hin as (Hin & Hs & _ & _).
    apply find_some in Hu as [Hu Hid%String.eqb_eq].
    exists lr, u. split_and!; try done.
    destruct (LeaveRequest.status lr); simpl in Hact; auto; done.
  - intros uid u (lr & Hin & Hlr)%existsb_exists Hu Hid.
    rewrite !andb_true_iff, !String.eqb_eq in Hlr. destruct Hlr as [[[Hs Huid] Hd] Hact].
    rewrite <- Huid. apply Hall; try done.
    + apply leaveRequests_In. split_and!; try done. fold date in Hpre. by rewrite Hd.
    + unfold Quota.userOf, findFirst.
      destruct (find _ _) as [u'|] eqn:Hf; [done |]. exfalso.
      eapply find_none in Hf; [|exact Hu]. simpl in Hf.
      by rewrite Hid, <- Huid, String.eqb_refl in Hf.
Qed.

(** The loop body with the weekday it read. *)

(** Ray sees song, once, among the users off on 2024-06-04. *)
Lemma off_users_listed_once_witness :
  exists r day,
    Quota.getMonthAvailability (Reference.platform 3) Scenario.june
      (Scenario.paramsFor Scenario.ray "2024-06") = Some r
    /\ MonthAvailability.days r !! 3%nat = Some day
    /\ NoDup (map OffUser.userId (AvailabilityDay.offUsers day))
    /\ map OffUser.userId (AvailabilityDay.offUsers day) = ["u_song"].
Proof.
  eexists _, _. split; [vm_compute; reflexivity |]. split; [vm_compute; reflexivity |].
  split; [| reflexivity].
  refine (proj1
    (off_users_listed_once (Reference.platform 3) Scenario.june
       (Scenario.paramsFor Scenario.ray "2024-06") _ 3%nat _ _ _));
    vm_compute; reflexivity.
Defined.

Lemma day_parts pf db storeId tz month requester t d day :
  Quota.day pf db storeId tz month requester t d = Some day ->
  let date := DateLib.dateFromMonthDay month d in
  exists weekdayName,
    DateLib.weekdayInTimeZone pf tz date = Some weekdayName
    /\ AvailabilityDay.date day = date
    /\ (AvailabilityDay.selectable day, AvailabilityDay.reasons day)
       = Quota.verdict db storeId month requester t date weekdayName
           (bool_decide (date ∈ Quota.closedDates db storeId)
            || bool_decide (Js.toUpperCase (Js.slice0 3 weekdayName)
                            ∈ Quota.closedWeekdays db storeId))
           (AvailabilityDay.remainingQuota day).
Proof.
  intros Hday date. unfold Quota.day in Hday. fold date in Hday.
  destruct (DateLib.weekdayInTimeZone pf tz _) as [w|] eqn:Hw; simpl in Hday; [|done].
  injection Hday as <-. exists w. simpl. split_and!; [done | done |].
  symmetry. apply surjective_pairing.
Qed.

Lemma closedDates_elem db storeId (d : string) :
  d ∈ Quota.closedDates db storeId
  <-> DateLib.isIsoDate d = true
      /\ exists item,
           In item (Js.split "," (ConfigLib.getStringConfig db storeId "closed_dates" ""))
           /\ Js.trim item = d.
Proof.
  unfold Quota.closedDates, Quota.closedDatesRaw.
  rewrite elem_of_list_to_set, list_elem_of_In, filter_In, in_map_iff. naive_solver.
Qed.

Lemma closedWeekdays_elem db storeId (c : string) :
  c ∈ Quota.closedWeekdays db storeId
  <-> In c Quota.weekdayCodes
      /\ exists item,
           In item (Js.split "," (ConfigLib.getStringConfig db storeId "closed_weekdays" ""))
           /\ Js.toUpperCase (Js.trim item) = c.
Proof.
  unfold Quota.closedWeekdays, Quota.closedWeekdaysRaw.
  rewrite elem_of_list_to_set, list_elem_of_In, filter_In, in_map_iff.
  unfold Js.includes. rewrite existsb_exists.
  split.
  - intros [(item & <- & Hin) (x & Hx & Heq%String.eqb_eq)]. rewrite Heq. split; eauto.
  - intros [Hc (item & Hin & <-)]. split; [eauto |].
    eexists. split; [exact Hc | apply String.eqb_refl].
Qed.

(** X12. STORE_CLOSED is listed exactly when the date, being ISO shaped,
    is a trimmed item of [closed_dates], or the upper-cased three-letter
    weekday of the date is one of the seven codes and is a trimmed,
    upper-cased item of [closed_weekdays]; a closed day is never selectable. *)
Theorem store_closed_exactly pf db params r i day :
  Quota.getMonthAvailability pf db params = Some r ->
  MonthAvailability.days r !! i = Some day ->
  let storeId := Params.storeId params in
  let date := AvailabilityDay.date day in
  let reasons := AvailabilityDay.reasons day in
  exists weekdayName,
    DateLib.weekdayInTimeZone pf (Params.storeTimeZone params) date = Some weekdayName
    /\ ("STORE_CLOSED" ∈ reasons
        <-> (DateLib.isIsoDate date = true
             /\ exists item,
                  In item (Js.split "," (ConfigLib.getStringConfig db storeId "closed_dates" ""))
                  /\ Js.trim item = date)
            \/ (In (Js.toUpperCase (Js.slice0 3 weekdayName)) Quota.weekdayCodes
                /\ exists item,
                     In item (Js.split ","
                                (ConfigLib.getStringConfig db storeId "closed_weekdays" ""))
                     /\ Js.toUpperCase (Js.trim item)
                        = Js.toUpperCase (Js.slice0 3 weekdayName)))
    /\ ("STORE_CLOSED" ∈ reasons -> AvailabilityDay.selectable day = false).
Proof.
  intros Hr Hi storeId date reasons.
  destruct (day_of_month _ _ _ _ _ _ Hr Hi) as (t & d & _ & Hd & Hday).
  destruct (day_parts _ _ _ _ _ _ _ _ _ Hday) as (w & Hw & Hdate & Hv).
  exists w. subst date reasons. rewrite Hdate. split; [done |].
  pose proof (f_equal snd Hv) as Hre. pose proof (f_equal fst Hv) as Hsel. simpl in Hre, Hsel.
  rewrite verdict_selectable in Hsel.
  set (closed := bool_decide _ || bool_decide _) in *.
  assert ("STORE_CLOSED" ∈ AvailabilityDay.reasons day <-> closed = true) as Hiff.
  { rewrite Hre. apply store_closed_listed. }
  split.
  - rewrite Hiff. unfold closed.
    rewrite orb_true_iff, !bool_decide_eq_true.
    split; (intros [H | H]; [left | right]); revert H;
      first [apply closedDates_elem | apply closedWeekdays_elem].
  - intros Hc%Hiff. rewrite Hsel, Hc. simpl. by rewrite !andb_false_r.
Qed.

(** 2024-06-19 is configured closed, the item typed with an ideographic
    space before it; 2024-06-16 is a Sunday, closed by the item typed with
    a long s. *)
Lemma store_closed_exactly_witness :
  exists r day sunday,
    Quota.getMonthAvailability (Reference.platform 3) Cases.wideJune
      (Scenario.paramsFor Scenario.ray "2024-06") = Some r
    /\ MonthAvailability.days r !! 18%nat = Some day
    /\ MonthAvailability.days r !! 15%nat = Some sunday
    /\ "STORE_CLOSED" ∈ AvailabilityDay.reasons day
    /\ AvailabilityDay.selectable day = false
    /\ "STORE_CLOSED" ∈ AvailabilityDay.reasons sunday.
Proof.
  eexists _, _, _. split; [vm_compute; reflexivity |]. split; [vm_compute; reflexivity |].
  split; [vm_compute; reflexivity |].
  destruct (store_closed_exactly (Reference.platform 3) Cases.wideJune
              (Scenario.paramsFor Scenario.ray "2024-06") _ 18%nat _ eq_refl eq_refl)
    as (w & Hw & Hiff & Hsel).
  destruct (store_closed_exactly (Reference.platform 3) Cases.wideJune
              (Scenario.paramsFor Scenario.ray "2024-06") _ 15%nat _ eq_refl eq_refl)
    as (w' & Hw' & Hiff' & _).
  assert ("STORE_CLOSED" ∈ ["STORE_CLOSED"]) as Hin.
  { apply Hiff. left. split; [reflexivity |]. exists "　2024-06-19".
    split; [right; left; reflexivity | reflexivity]. }
  split; [exact Hin |]. split; [exact (Hsel Hin) |].
  apply Hiff'. right. vm_compute in Hw'. injection Hw' as <-.
  split; [left; reflexivity |]. exists "ſun". split; [left; reflexivity | reflexivity].
Defined.

Lemma saturday_listed db storeId month requester t date weekdayName closed q :
  "SATURDAY_BLOCK" ∈ (Quota.verdict db storeId month requester t date weekdayName closed q).2
  <-> Quota.saturdayBlocked db storeId requester weekdayName = true.
Proof. rewrite verdict_reasons. intuition congruence. Qed.

(** X13. SATURDAY_BLOCK is listed exactly when the requester is an
    ASSISTANT, [assistant_block_saturday] is not switched off and the
    weekday of the date starts with "sat" in any letter case; such a day is
    not selectable. *)
Theorem saturday_block_exactly pf db params r i day :
  Quota.getMonthAvailability pf db params = Some r ->
  MonthAvailability.days r !! i = Some day ->
  let reasons := AvailabilityDay.reasons day in
  exists weekdayName,
    DateLib.weekdayInTimeZone pf (Params.storeTimeZone params) (AvailabilityDay.date day)
    = Some weekdayName
    /\ ("SATURDAY_BLOCK" ∈ reasons
        <-> Requester.role (Params.requester params) = ASSISTANT
            /\ ConfigLib.getBooleanConfig db (Params.storeId params)
                 "assistant_block_saturday" true = true
            /\ Js.startsWith (Js.toLowerCase weekdayName) "sat" = true)
    /\ ("SATURDAY_BLOCK" ∈ reasons -> AvailabilityDay.selectable day = false).
Proof.
  intros Hr Hi reasons.
  destruct (day_of_month _ _ _ _ _ _ Hr Hi) as (t & d & _ & Hd & Hday).
  destruct (day_parts _ _ _ _ _ _ _ _ _ Hday) as (w & Hw & Hdate & Hv).
  exists w. subst reasons. rewrite Hdate. split; [done |].
  pose proof (f_equal snd Hv) as Hre. pose proof (f_equal fst Hv) as Hsel. simpl in Hre, Hsel.
  rewrite verdict_selectable in Hsel.
  assert ("SATURDAY_BLOCK" ∈ AvailabilityDay.reasons day
          <-> Quota.saturdayBlocked db (Params.storeId params) (Params.requester params) w = true)
    as Hiff.
  { rewrite Hre. apply saturday_listed. }
  split.
  - rewrite Hiff. unfold Quota.saturdayBlocked, Quota.assistantBlockSaturday.
    rewrite !andb_true_iff, bool_decide_eq_true. tauto.
  - intros Hc%Hiff. rewrite Hsel, Hc. simpl. by rewrite !andb_false_r.
Qed.

(** 2024-06-01 is a Saturday: song cannot select it. *)
Lemma saturday_block_exactly_witness :
  exists r day weekdayName,
    Quota.getMonthAvailability (Reference.platform 10) Scenario.june
      (Scenario.paramsFor Scenario.song "2024-06") = Some r
    /\ MonthAvailability.days r !! 0%nat = Some day
    /\ DateLib.weekdayInTimeZone (Reference.platform 10) "Asia/Taipei"
         (AvailabilityDay.date day) = Some weekdayName
    /\ ("SATURDAY_BLOCK" ∈ AvailabilityDay.reasons day
        -> AvailabilityDay.selectable day = false)
    /\ In "SATURDAY_BLOCK" (AvailabilityDay.reasons day).
Proof.
  destruct (saturday_block_exactly (Reference.platform 10) Scenario.june
              (Scenario.paramsFor Scenario.song "2024-06") _ 0%nat _ eq_refl eq_refl)
    as (w & Hw & _ & Hsel).
  eexists _, _, w. split; [vm_compute; reflexivity |]. split; [vm_compute; reflexivity |].
  split; [exact Hw |]. split; [exact Hsel |]. vm_compute. auto.
Defined.

(** X14. A day is selectable exactly when every listed reason is an
    advisory QUOTA_FULL shown to a DESIGNER. The reasons are among five
    codes, and a MANAGER requester only ever sees STORE_CLOSED and
    QUOTA_FULL. *)
Theorem selectable_iff_no_blocking_reason pf db params r i day :
  Quota.getMonthAvailability pf db params = Some r ->
  MonthAvailability.days r !! i = Some day ->
  let role := Requester.role (Params.requester params) in
  let reasons := AvailabilityDay.reasons day in
  (AvailabilityDay.selectable day = true
   <-> forall x : string, x ∈ reasons -> x = "QUOTA_FULL" /\ role = DESIGNER)
  /\ (forall x : string,
        x ∈ reasons ->
        In x ["PHASE_LOCK"; "STORE_CLOSED"; "QUOTA_FULL"; "SATURDAY_BLOCK";
              "MASTER_WORKING_BLOCK"])
  /\ (role = MANAGER ->
      forall x : string, x ∈ reasons -> x = "STORE_CLOSED" \/ x = "QUOTA_FULL").
Proof.
  intros Hr Hi role reasons.
  destruct (day_of_month _ _ _ _ _ _ Hr Hi) as (t & d & _ & Hd & Hday).
  destruct (day_parts _ _ _ _ _ _ _ _ _ Hday) as (w & Hw & Hdate & Hv).
  pose proof (f_equal snd Hv) as Hre. pose proof (f_equal fst Hv) as Hsel. simpl in Hre, Hsel.
  rewrite verdict_selectable in Hsel.
  set (closed := bool_decide _ || bool_decide _) in *.
  subst reasons. rewrite Hre, Hsel. clear Hre Hsel Hv.
  set (dl := Quota.designerLocked _ _ _ _).
  set (al := Quota.assistantLocked _ _ _ _).
  set (sat := Quota.saturdayBlocked _ _ _ _).
  set (mw := Quota.masterWorkingBlocked _ _ _ _ _).
  set (q := PrimFloat.ltb _ 0).
  fold role.
  assert (forall x : string,
            x ∈ (Quota.verdict db (Params.storeId params) (Params.month params)
                   (Params.requester params) t
                   (DateLib.dateFromMonthDay (Params.month params) d) w closed
                   (AvailabilityDay.remainingQuota day)).2
            <-> (dl = true /\ x = "PHASE_LOCK") \/ (al = true /\ x = "PHASE_LOCK")
                \/ (closed = true /\ x = "STORE_CLOSED") \/ (q = true /\ x = "QUOTA_FULL")
                \/ (sat = true /\ x = "SATURDAY_BLOCK")
                \/ (mw = true /\ x = "MASTER_WORKING_BLOCK")) as Hin.
  { intros x. apply verdict_reasons. }
  split_and!.
  - split.
    + intros Hs x Hx%Hin.
      rewrite !andb_true_iff, !negb_true_iff in Hs.
      destruct Hs as [[[[[Hdl Hal] Hcl] Hq] Hsat] Hmw].
      rewrite Hdl, Hal, Hcl, Hsat, Hmw in Hx.
      destruct Hx as [[? _] | [[? _] | [[? _] | [[Hq' ->] | [[? _] | [? _]]]]]]; try done.
      split; [done |]. rewrite Hq' in Hq. simpl in Hq.
      apply negb_false_iff in Hq. by apply bool_decide_eq_true in Hq.
    + intros Hall.
      assert (dl = false) as ->.
      { destruct dl; [|done]. destruct (Hall "PHASE_LOCK") as [? _]; [apply Hin; auto | done]. }
      assert (al = false) as ->.
      { destruct al; [|done]. destruct (Hall "PHASE_LOCK") as [? _]; [apply Hin; auto | done]. }
      assert (closed = false) as ->.
      { destruct closed; [|done].
        destruct (Hall "STORE_CLOSED") as [? _]; [apply Hin; auto | done]. }
      assert (sat = false) as ->.
      { destruct sat; [|done].
        destruct (Hall "SATURDAY_BLOCK") as [? _]; [apply Hin; auto 10 | done]. }
      assert (mw = false) as ->.
      { destruct mw; [|done].
        destruct (Hall "MASTER_WORKING_BLOCK") as [? _]; [apply Hin; auto 10 | done]. }
      simpl. destruct q eqn:Hq; [|done]. simpl.
      destruct (Hall "QUOTA_FULL") as [_ Hrole]; [apply Hin; auto 10 |].
      by rewrite bool_decide_true.
  - intros x Hx%Hin. simpl. intuition (subst; auto 10).
  - intros Hm x Hx%Hin.
    assert (dl = false) as Hdl.
    { unfold dl, Quota.designerLocked. fold role. rewrite Hm. done. }
    assert (al = false) as Hal.
    { unfold al, Quota.assistantLocked. fold role. rewrite Hm. done. }
    assert (sat = false) as Hsat.
    { unfold sat, Quota.saturdayBlocked. fold role. rewrite Hm. done. }
    assert (mw = false) as Hmw.
    { unfold mw, Quota.masterWorkingBlocked. fold role. rewrite Hm. done. }
    rewrite Hdl, Hal, Hsat, Hmw in Hx. intuition congruence.
Qed.

(** ** A decision is final *)

(** The designer ray sees QUOTA_FULL on a selectable day. *)
Lemma selectable_iff_no_blocking_reason_witness :
  exists r day,
    Quota.getMonthAvailability (Reference.platform 3) Scenario.tight
      (Scenario.paramsFor Scenario.ray "2024-06") = Some r
    /\ MonthAvailability.days r !! 2%nat = Some day
    /\ (AvailabilityDay.selectable day = true
        <-> forall x : string,
              x ∈ AvailabilityDay.reasons day -> x = "QUOTA_FULL" /\ User.role Scenario.ray = DESIGNER)
    /\ AvailabilityDay.reasons day = ["QUOTA_FULL"]
    /\ AvailabilityDay.selectable day = true.
Proof.
  eexists _, _. split; [vm_compute; reflexivity |]. split; [vm_compute; reflexivity |].
  split; [| split; reflexivity].
  refine (proj1
    (selectable_iff_no_blocking_reason (Reference.platform 3) Scenario.tight
       (Scenario.paramsFor Scenario.ray "2024-06") _ 2%nat _ _ _));
    vm_compute; reflexivity.
Defined.

Lemma decideRow_id id result x :
  LeaveRequest.id (Spec.decideRow id result x) = LeaveRequest.id x.
Proof. unfold Spec.decideRow. by repeat case_match. Qed.

Lemma decided_status id result rows y :
  In y (map (Spec.decideRow id result) rows) -> LeaveRequest.id y = id ->
  LeaveRequest.status y = result.
Proof.
  intros (x & <- & _)%in_map_iff Hid. rewrite decideRow_id in Hid.
  unfold Spec.decideRow. rewrite Hid, String.eqb_refl. done.
Qed.



Lemma DELETE_cases db req :
  (exists db', LeaveRoute.DELETE db req = (RespOk, db'))
  \/ (exists e st, LeaveRoute.DELETE db req = (RespError e st, db)).
Proof.
  unfold LeaveRoute.DELETE.
  destruct (Auth.getCurrentUser db req) as [user|]; [|eauto].
  destruct (LeaveRoute.BodySchema _) as [date|]; [|eauto].
  destruct (negb (DateLib.isIsoDate date)); [eauto |].
  destruct (findFirst _ (Db.leaveRequest db)) as [existing|] eqn:Hex; [|eauto].
  destruct (negb (Js.optEqb _ _)); [eauto |].
  destruct (negb (bool_decide (LeaveRequest.status existing = PENDING))); [eauto |].
  apply find_some in Hex as [Hin _].
  destruct (update_some (LeaveRequest.id existing) (Prisma.setStatus CANCELED) db existing)
    as (r1 & db1 & Hupd); [done | done |].
  unfold Prisma.transaction. rewrite (cancelTx_spec _ _ _ _ _ Hupd). eauto.
Qed.




Lemma approval_create_some pf storeId lrId managerId action reason db :
  View.cuidFresh pf ->
  exists db1,
    Prisma.approval_create pf storeId lrId managerId action reason db = Some db1
    /\ Db.leaveRequest db1 = Db.leaveRequest db
    /\ Db.user db1 = Db.user db.
Proof.
  intros Hfresh. rewrite approval_create_fresh; [eauto |].
  unfold Spec.approvalIdFresh. apply Hfresh.
Qed.

(** The row a manager-created leave leaves for the employee. *)

Lemma createManagerLeave_row pf db req me userId date target :
  Spec.keysUnique db ->
  View.cuidFresh pf ->
  Auth.getCurrentUser db req = Some me ->
  User.role me = MANAGER ->
  userId <> "" ->
  DateLib.isIsoDate date = true ->
  findFirst (fun u => String.eqb (User.id u) userId
                      && String.eqb (User.storeId u) (User.storeId me)
                      && User.active u) (Db.user db) = Some target ->
  (forall lr, In lr (Db.leaveRequest db) ->
              LeaveRequest.userId lr = User.id target -> LeaveRequest.date lr = date ->
              LeaveRequest.storeId lr = User.storeId me) ->
  let db' := AdminPage.createManagerLeave pf db req userId date in
  Db.user db' = Db.user db
  /\ exists row,
       In row (Db.leaveRequest db')
       /\ LeaveRequest.storeId row = User.storeId me
       /\ LeaveRequest.userId row = User.id target
       /\ LeaveRequest.date row = date
       /\ LeaveRequest.status row = APPROVED
       /\ LeaveRequest.source row = LeaveRequestSource.MANAGER
       /\ LeaveRequest.createdByUserId row = Some (User.id me).
Proof.
  intros Hk Hfresh Hme Hrole Huid Hiso Htarget Hstore db'. subst db'.
  unfold AdminPage.createManagerLeave.
  rewrite Hme, Hrole, Hiso, Htarget. simpl.
  apply String.eqb_neq in Huid. rewrite Huid. simpl.
  unfold Prisma.transaction, AdminPage.createManagerLeaveTx.
  destruct (findFirst _ (Db.leaveRequest db)) as [ex|] eqn:Hex.
  - apply find_some in Hex as [Hin Hex].
    rewrite !andb_true_iff, !String.eqb_eq in Hex. destruct Hex as [[Hs Hu] Hd].
    rewrite (update_in_place _ _ _ (proj1 Hk) Hin). simpl.
    edestruct (approval_create_some pf) as (db2 & -> & Hrows & Husers); [done |]. simpl.
    split; [by rewrite Husers |].
    exists (Prisma.applyData (AdminPage.managerData me) ex). rewrite Hrows. simpl.
    split_and!; try done. by apply inPlace_in_ex.
  - edestruct (create_some pf (User.storeId me) (User.id target) date APPROVED
                 LeaveRequestSource.MANAGER (Some (User.id me)) None db)
      as (row & db1 & Hc); [done | |].
    { destruct (find _ (Db.leaveRequest db)) as [x|] eqn:Hx; [exfalso | done].
      apply find_some in Hx as [Hxin Hx].
      rewrite !andb_true_iff, !String.eqb_eq in Hx. destruct Hx as [Hxu Hxd].
      eapply find_none in Hex; [|exact Hxin]. simpl in Hex.
      by rewrite (Hstore x Hxin Hxu Hxd), Hxu, Hxd, !String.eqb_refl in Hex. }
    rewrite Hc. simpl.
    edestruct (approval_create_some pf) as (db2 & -> & Hrows & Husers); [done |]. simpl.
    apply create_spec in Hc as (-> & -> & _).
    split; [by rewrite Husers |].
    eexists. rewrite Hrows. simpl. split; [apply in_or_app; right; by left |]. done.
Qed.

(** X16. A leave entered by the manager takes effect at once and is out
    of the employee's hands: the employee is off on the date, the
    employee's cancel is refused with 403 FORBIDDEN and a request for the
    date with 409 ALREADY_REQUESTED (APPROVED). *)
Theorem manager_leave_binds_the_employee pf db req me userId date target req' :
  Spec.keysUnique db ->
  View.cuidFresh pf ->
  Auth.getCurrentUser db req = Some me ->
  User.role me = MANAGER ->
  DateLib.isIsoDate date = true ->
  findFirst (fun u => String.eqb (User.id u) userId
                      && String.eqb (User.storeId u) (User.storeId me)
                      && User.active u) (Db.user db) = Some target ->
  User.id target <> User.id me ->
  (forall lr, In lr (Db.leaveRequest db) ->
              LeaveRequest.userId lr = User.id target -> LeaveRequest.date lr = date ->
              LeaveRequest.storeId lr = User.storeId me) ->
  Auth.getCurrentUser db req' = Some target ->
  LeaveRoute.BodySchema (Auth.body req') = Some date ->
  let db' := AdminPage.createManagerLeave pf db req userId date in
  Spec.hasActiveLeave db' (User.storeId me) (User.id target) date = true
  /\ LeaveRoute.DELETE db' req' = (RespError "FORBIDDEN" 403, db')
  /\ (forall pf', LeaveRoute.POST pf' db' req' = (RespAlreadyRequested APPROVED, db')).
Proof.
  intros Hk Hfresh Hme Hrole Hiso Htarget Hne Hstore Hreq' Hbody db'.
  assert (userId <> "") as Huid.
  { intros ->. unfold Auth.getCurrentUser in Hreq'.
    destruct (Auth.mockUserId req') as [uid|]; [|done].
    destruct (String.eqb uid "") eqn:Hnz; [done |]. apply String.eqb_neq in Hnz.
    apply find_some in Hreq' as [_ Hreq'].
    apply andb_prop in Hreq' as [Hid%String.eqb_eq _].
    apply find_some in Htarget as [_ Htarget].
    rewrite !andb_true_iff, !String.eqb_eq in Htarget. destruct Htarget as [[Ht _] _].
    congruence. }
  destruct (createManagerLeave_row pf db req me userId date target) as (Husers & row & Hrow);
    try done.
  fold db' in Husers, Hrow.
  destruct Hrow as (Hin & Hs & Hu & Hd & Hst & _ & Hcb).
  assert (Spec.userDateUnique db') as Hud'.
  { apply (createManagerLeave_keys pf db req userId date Hk). }
  assert (Auth.getCurrentUser db' req' = Some target) as Hreq''.
  { by rewrite (getCurrentUser_tables db db' req' Husers). }
  assert (User.storeId target = User.storeId me) as Hts.
  { apply find_some in Htarget as [_ Htarget].
    rewrite !andb_true_iff, !String.eqb_eq in Htarget. by destruct Htarget as [[_ ?] _]. }
  split_and!.
  - apply existsb_exists. exists row. split; [done |].
    by rewrite Hs, Hu, Hd, Hst, !String.eqb_refl.
  - unfold LeaveRoute.DELETE. rewrite Hreq'', Hbody, Hiso. simpl.
    pose proof (ownActive_unique db' (User.storeId me) row Hud' Hin Hs) as Hown.
    rewrite Hst, Hu, Hd in Hown. specialize (Hown eq_refl).
    unfold View.ownActive in Hown. rewrite Hts, Hown, Hcb. simpl.
    apply String.eqb_neq in Hne. rewrite String.eqb_sym, Hne. done.
  - intros pf'. unfold LeaveRoute.POST, LeaveRoute.guards.
    rewrite Hreq'', Hbody, Hiso. simpl.
    assert (LeaveRoute.existingAny db' target date = Some row) as ->.
    { unfold LeaveRoute.existingAny, findFirst.
      apply (find_unique Spec.userDate); [done | done | |].
      - by rewrite Hu, Hd, !String.eqb_refl.
      - intros x _ Hx. rewrite !andb_true_iff, !String.eqb_eq in Hx.
        unfold Spec.userDate. destruct Hx. congruence. }
    rewrite Hst. done.
Qed.

(** The manager enters 2024-06-12 for song; song cannot cancel it. *)
Lemma manager_leave_binds_the_employee_witness :
  let db' := AdminPage.createManagerLeave (Reference.platform 20) Scenario.seed
               Cases.managerForm "u_song" "2024-06-12" in
  Spec.hasActiveLeave db' Scenario.storeId "u_song" "2024-06-12" = true
  /\ LeaveRoute.DELETE db' (Scenario.requestOf Scenario.song "2024-06-12")
     = (RespError "FORBIDDEN" 403, db').
Proof.
  destruct (manager_leave_binds_the_employee (Reference.platform 20) Scenario.seed
              Cases.managerForm Scenario.manager "u_song" "2024-06-12" Scenario.song
              (Scenario.requestOf Scenario.song "2024-06-12")
              seed_keysUnique (reference_cuidFresh 20) eq_refl eq_refl eq_refl eq_refl)
    as (H1 & H2 & _).
  - vm_compute. discriminate.
  - intros lr [].
  - reflexivity.
  - reflexivity.
  - exact (conj H1 H2).
Defined.

Lemma filter_map_length {A} (p : A -> bool) (f : A -> A) (l : list A) :
  (forall x, p (f x) = p x) ->
  length (List.filter p (map f l)) = length (List.filter p l).
Proof.
  intros H. induction l as [|x l IH]; simpl; [done |].
  rewrite H. destruct (p x); simpl; by rewrite IH.
Qed.

(** X17. [clearAllLeaves] removes every leave request and every approval
    of the manager's store, so that nobody of the store is off any more;
    the requests of other stores stay, each with its id, user, date, status,
    source and creator, and users, bindings, configuration and bookings are
    not touched. *)
Theorem clear_all_leaves_empties_store db req me :
  Auth.getCurrentUser db req = Some me ->
  User.role me = MANAGER ->
  let db' := AdminPage.clearAllLeaves db req in
  let here (storeId : string) := storeId = User.storeId me in
  (forall lr, In lr (Db.leaveRequest db') -> ~ here (LeaveRequest.storeId lr))
  /\ (forall a, In a (Db.approval db') -> ~ here (Approval.storeId a))
  /\ (forall userId date, Spec.hasActiveLeave db' (User.storeId me) userId date = false)
  /\ (forall lr,
        In lr (Db.leaveRequest db) -> ~ here (LeaveRequest.storeId lr) ->
        exists lr',
          In lr' (Db.leaveRequest db')
          /\ Spec.sameRecord lr lr'
          /\ LeaveRequest.storeId lr' = LeaveRequest.storeId lr
          /\ LeaveRequest.status lr' = LeaveRequest.status lr
          /\ LeaveRequest.source lr' = LeaveRequest.source lr
          /\ LeaveRequest.createdByUserId lr' = LeaveRequest.createdByUserId lr)
  /\ length (Db.leaveRequest db')
     = length (List.filter
                 (fun lr => negb (String.eqb (LeaveRequest.storeId lr) (User.storeId me)))
                 (Db.leaveRequest db))
  /\ Db.user db' = Db.user db /\ Db.binding db' = Db.binding db
  /\ Db.config db' = Db.config db /\ Db.rookieBooking db' = Db.rookieBooking db.
Proof.
  intros Hme Hrole db' here. subst db'. unfold AdminPage.clearAllLeaves.
  rewrite Hme, Hrole. simpl. unfold here.
  set (inStore := fun r : LeaveRequest.t =>
                    String.eqb (LeaveRequest.storeId r) (User.storeId me)).
  set (unlinked := fun x : LeaveRequest.t =>
                     if inStore x
                     then Prisma.applyData
                            {| Prisma.Data.status := None; Prisma.Data.source := None;
                               Prisma.Data.createdByUserId := None;
                               Prisma.Data.linkedToId := Some None |} x
                     else x).
  assert (forall x, inStore (unlinked x) = inStore x) as Hkeep.
  { intros x. unfold unlinked, inStore.
    destruct (String.eqb (LeaveRequest.storeId x) (User.storeId me)) eqn:E; simpl; by rewrite ?E. }
  assert (forall y, In y (Db.leaveRequest
                           (Prisma.leaveRequest_deleteMany inStore
                              (Prisma.leaveRequest_updateMany inStore
                                 {| Prisma.Data.status := None; Prisma.Data.source := None;
                                    Prisma.Data.createdByUserId := None;
                                    Prisma.Data.linkedToId := Some None |}
                                 (Prisma.approval_deleteMany
                                    (fun a => String.eqb (Approval.storeId a) (User.storeId me))
                                    db)))) ->
                    inStore y = false) as Hout.
  { intros y Hy. simpl in Hy. apply in_map_iff in Hy as (x & <- & Hx).
    apply filter_In in Hx as [_ Hx]. apply negb_true_iff in Hx.
    by repeat case_match. }
  split_and!.
  - intros lr Hlr Hs. apply Hout in Hlr. unfold inStore in Hlr.
    rewrite Hs, String.eqb_refl in Hlr. done.
  - intros a Ha Hs. simpl in Ha. apply filter_In in Ha as [Ha _].
    apply filter_In in Ha as [_ Ha]. by rewrite Hs, String.eqb_refl in Ha.
  - intros userId date. apply not_true_is_false. intros (y & Hy & Hp)%existsb_exists.
    apply Hout in Hy. unfold inStore in Hy.
    rewrite !andb_true_iff in Hp. destruct Hp as [[[Hs _] _] _]. congruence.
  - intros lr Hlr Hs.
    assert (inStore lr = false) as Hf.
    { unfold inStore. by apply String.eqb_neq. }
    assert (In lr (List.filter (fun x => negb (inStore x))
                     (map unlinked (Db.leaveRequest db)))) as Hf2.
    { apply filter_In. split; [|by rewrite Hf].
      apply in_map_iff. exists lr. split; [|done]. unfold unlinked. by rewrite Hf. }
    simpl. eexists. split; [apply in_map; exact Hf2 |].
    unfold Spec.sameRecord. by repeat case_match.
  - simpl. rewrite length_map.
    apply (filter_map_length (fun x => negb (inStore x)) unlinked).
    intros x. by rewrite Hkeep.
  - done.
  - done.
  - done.
  - done.
Qed.

(** The four requests of the busy day are gone. *)
Lemma clear_all_leaves_empties_store_witness :
  Db.leaveRequest (AdminPage.clearAllLeaves Scenario.busyDay Cases.managerForm) = []
  /\ forall userId date,
       Spec.hasActiveLeave (AdminPage.clearAllLeaves Scenario.busyDay Cases.managerForm)
         Scenario.storeId userId date = false.
Proof.
  split; [reflexivity |].
  exact (proj1 (proj2 (proj2
    (clear_all_leaves_empties_store Scenario.busyDay Cases.managerForm Scenario.manager
       eq_refl eq_refl)))).
Defined.

Lemma pad2_shape d : (d < 100)%nat -> Js.matchShape [true; true] (DateLib.pad2 d) = true.
Proof.
  intros Hd.
  assert (forallb (fun d => Js.matchShape [true; true] (DateLib.pad2 d)) (seq 0 100) = true)
    as Hall by (vm_compute; reflexivity).
  rewrite forallb_forall in Hall. apply Hall. apply in_seq. lia.
Qed.

Lemma matchShape_app sh1 sh2 (a b : string) :
  Js.matchShape sh1 a = true -> Js.matchShape sh2 b = true ->
  Js.matchShape (sh1 ++ sh2) (a +:+ b) = true.
Proof.
  revert a. induction sh1 as [|isD sh1 IH]; intros a Ha Hb.
  - destruct a; [|done]. by rewrite append_nil_l.
  - destruct a as [|c a]; [done |]. rewrite append_cons. simpl in *.
    apply andb_prop in Ha as [-> Ha]. simpl. by apply IH.
Qed.

Lemma substring_app (a b : string) : String.substring 0 (String.length a) (a +:+ b) = a.
Proof.
  induction a as [|c a IH].
  - rewrite append_nil_l. simpl. by destruct b.
  - rewrite append_cons. simpl. by rewrite IH.
Qed.

(** X18. [dateFromMonthDay] and the parsers agree: for an ISO month and a
    day below 100 the date is ISO shaped, its first seven characters are the
    month again, and splitting it at the dashes reads back the year, the
    month and the day. *)
Theorem month_day_round_trip month d :
  DateLib.isIsoMonth month = true ->
  (d < 100)%nat ->
  let date := DateLib.dateFromMonthDay month d in
  DateLib.isIsoDate date = true
  /\ Js.slice0 7 date = month
  /\ exists y m,
       map Js.Number (Js.split "-" month) = [Some y; Some m]
       /\ map Js.Number (Js.split "-" date) = [Some y; Some m; Some (Z.of_nat d)].
Proof.
  intros Hm Hd date. subst date. unfold DateLib.dateFromMonthDay. split_and!.
  - unfold DateLib.isIsoDate.
    change DateLib.isoDateShape with (DateLib.isoMonthShape ++ [false] ++ [true; true])%list.
    apply matchShape_app; [done |]. by apply (matchShape_app [false] _ "-"), pad2_shape.
  - unfold Js.slice0. rewrite <- (isIsoMonth_length _ Hm). apply substring_app.
  - destruct (isoMonth_parts _ Hm) as (y & m & Hparts). exists y, m. split; [done |].
    change (month +:+ "-" +:+ DateLib.pad2 d)
      with (month +:+ String "-" (DateLib.pad2 d)).
    rewrite split_join, map_app, Hparts.
    destruct (pad2_parts d Hd) as [-> _]. simpl. by rewrite pad2_number.
Qed.

(** Day 7 of "2024-06". *)
Lemma month_day_round_trip_witness :
  DateLib.isIsoDate (DateLib.dateFromMonthDay "2024-06" 7) = true
  /\ Js.slice0 7 (DateLib.dateFromMonthDay "2024-06" 7) = "2024-06".
Proof.
  destruct (month_day_round_trip "2024-06" 7 eq_refl) as (H1 & H2 & _); [lia |].
  exact (conj H1 H2).
Defined.

(** ** Bookings *)

Lemma minutes_range v n : BookingsRoute.minutes v = Some n -> (0 <= n <= 1440)%Z.
Proof.
  unfold BookingsRoute.minutes. destruct v as [[]|]; try done.
  destruct (JsNumber.toInteger x) as [k|]; [|done].
  destruct ((0 <=? k) && (k <=? 24 * 60))%Z eqn:Hk; [|done].
  intros [= <-]. apply andb_prop in Hk as [H1 H2]. lia.
Qed.

Lemma PostSchema_range body parsed :
  BookingsRoute.PostSchema body = Some parsed ->
  (0 <= BookingsRoute.startMin parsed <= 1440)%Z
  /\ (0 <= BookingsRoute.endMin parsed <= 1440)%Z.
Proof.
  unfold BookingsRoute.PostSchema. destruct body as [[]|]; try done.
  destruct (jsonField "date" fields) as [[]|]; try done.
  destruct (BookingsRoute.minutes (jsonField "startMin" fields)) as [s0|] eqn:Hs; [|done].
  destruct (BookingsRoute.minutes (jsonField "endMin" fields)) as [e0|] eqn:He; [|done].
  destruct (1 <=? _)%nat; [|done]. intros [= <-]. simpl.
  split; by eapply minutes_range.
Qed.

Lemma booking_POST_inv pf db req booking db' :
  BookingsRoute.POST pf db req = (BookingsRoute.Booking booking, db') ->
  (exists user,
     Auth.getCurrentUser db req = Some user
     /\ User.role user = ROOKIE
     /\ RookieBooking.rookieId booking = User.id user
     /\ RookieBooking.storeId booking = User.storeId user)
  /\ DateLib.isIsoDate (RookieBooking.date booking) = true
  /\ (0 <= RookieBooking.startMin booking < RookieBooking.endMin booking)%Z
  /\ (RookieBooking.endMin booking <= 1440)%Z
  /\ ~ In (RookieBooking.id booking) (map RookieBooking.id (Db.rookieBooking db))
  /\ db' = PrismaTables.withRookieBooking db (Db.rookieBooking db ++ [booking]).
Proof.
  unfold BookingsRoute.POST.
  destruct (Auth.getCurrentUser db req) as [user|]; [|done].
  destruct (bool_decide (User.role user = ROOKIE)) eqn:Hrole; simpl; [|done].
  apply bool_decide_eq_true in Hrole.
  destruct (BookingsRoute.PostSchema _) as [parsed|] eqn:Hp; [|done].
  destruct (DateLib.isIsoDate _) eqn:Hiso; simpl; [|done].
  destruct (BookingsRoute.endMin parsed <=? BookingsRoute.startMin parsed)%Z eqn:Hle; [done |].
  apply Z.leb_gt in Hle. destruct (PostSchema_range _ _ Hp) as [Hs He].
  unfold PrismaTables.rookieBooking_create.
  destruct (existsb _ _) eqn:Hex; [done |]. intros [= <- <-]. simpl.
  split_and!; try done; try lia; [eauto |].
  intros (b & Hb & Hin)%in_map_iff.
  apply not_true_iff_false in Hex. apply Hex. apply existsb_exists.
  exists b. split; [done |]. by apply String.eqb_eq.
Qed.

Lemma digit_cases c :
  Js.isDigit c = true ->
  In c ["0"; "1"; "2"; "3"; "4"; "5"; "6"; "7"; "8"; "9"]%char.
Proof.
  destruct c as [[] [] [] [] [] [] [] []]; vm_compute; intros H; try discriminate H; tauto.
Qed.

Lemma two_digits_pad2 a b :
  Js.isDigit a = true -> Js.isDigit b = true ->
  exists d, (d < 100)%nat /\ DateLib.pad2 d = String a (String b EmptyString).
Proof.
  intros Ha%digit_cases Hb%digit_cases.
  exists (10 * (nat_of_ascii a - 48) + (nat_of_ascii b - 48))%nat.
  simpl in Ha, Hb.
  repeat (destruct Ha as [<- | Ha]; [| ]); try done;
    repeat (destruct Hb as [<- | Hb]; [| ]); try done;
    (split; [vm_compute; lia | reflexivity]).
Qed.

(** An ISO shaped date is day [d] of the month its first seven characters
    name. *)
Lemma isoDate_parts date :
  DateLib.isIsoDate date = true ->
  DateLib.isIsoMonth (Js.slice0 7 date) = true
  /\ exists d, (d < 100)%nat /\ date = DateLib.dateFromMonthDay (Js.slice0 7 date) d.
Proof.
  unfold DateLib.isIsoDate, DateLib.isoDateShape.
  destruct date as [|c1 [|c2 [|c3 [|c4 [|c5 [|c6 [|c7 [|c8 [|c9 [|c10 [|c11 rest]]]]]]]]]]];
    simpl; try done; rewrite ?andb_false_r; try done.
  rewrite !andb_true_iff. intros (H1 & H2 & H3 & H4 & H5 & H6 & H7 & H8 & H9 & H10 & _).
  apply Ascii.eqb_eq in H5, H8. subst c5 c8.
  split.
  - unfold DateLib.isIsoMonth. simpl. by rewrite H1, H2, H3, H4, H6, H7.
  - destruct (two_digits_pad2 c9 c10 H9 H10) as (d & Hd & Hpad). exists d. split; [done |].
    unfold DateLib.dateFromMonthDay. rewrite Hpad. reflexivity.
Qed.

(** ** Stored dates stay ISO shaped *)


Lemma keepsDates_refl db : View.keepsDates db db.
Proof. split; [done |]. intros lr Hlr. left. eauto. Qed.

Lemma keepsDates_trans db1 db2 db3 :
  View.keepsDates db1 db2 -> View.keepsDates db2 db3 -> View.keepsDates db1 db3.
Proof.
  intros [Hb1 H1] [Hb2 H2]. split; [congruence |].
  intros lr3 Hlr3. destruct (H2 lr3 Hlr3) as [(lr2 & Hlr2 & ->) | Hiso]; [|by right].
  apply H1, Hlr2.
Qed.

Lemma keepsDates_wellFormed db db' :
  View.keepsDates db db' -> Spec.datesWellFormed db -> Spec.datesWellFormed db'.
Proof.
  intros [Hb Hk] [Hl Hbk]. split; [| by rewrite Hb].
  apply Forall_forall. intros lr' Hlr'%list_elem_of_In.
  destruct (Hk lr' Hlr') as [(lr & Hlr & ->) | Hiso]; [|done].
  rewrite Forall_forall in Hl. by apply Hl, list_elem_of_In.
Qed.

Lemma keepsDates_map db (f : LeaveRequest.t -> LeaveRequest.t) :
  (forall x, LeaveRequest.date (f x) = LeaveRequest.date x) ->
  View.keepsDates db (Prisma.withLeaveRequest db (map f (Db.leaveRequest db))).
Proof.
  intros Hf. split; [done |]. intros lr' (x & <- & Hx)%in_map_iff. left. eauto.
Qed.

Lemma update_keepsDates id data db r db1 :
  Prisma.leaveRequest_update id data db = Some (r, db1) -> View.keepsDates db db1.
Proof.
  intros (r0 & _ & _ & _ & ->)%update_spec. apply keepsDates_map. intros x. by case_match.
Qed.

Lemma updateMany_keepsDates where_ data db :
  View.keepsDates db (Prisma.leaveRequest_updateMany where_ data db).
Proof. apply keepsDates_map. intros x. by case_match. Qed.

Lemma create_keepsDates pf storeId userId date status source createdBy linkedTo db row db1 :
  DateLib.isIsoDate date = true ->
  Prisma.leaveRequest_create pf storeId userId date status source createdBy linkedTo db
  = Some (row, db1) -> View.keepsDates db db1.
Proof.
  intros Hiso (-> & -> & _)%create_spec. split; [done |].
  intros lr' [Hin | [<- | []]]%in_app_or; [left; eauto | by right].
Qed.

Lemma approval_create_keepsDates pf storeId lrId managerId action reason db db1 :
  Prisma.approval_create pf storeId lrId managerId action reason db = Some db1 ->
  View.keepsDates db db1.
Proof.
  unfold Prisma.approval_create. case_match; [done |]. intros [= <-].
  split; [done |]. intros lr Hlr. left. eauto.
Qed.

Lemma approval_deleteMany_keepsDates where_ db :
  View.keepsDates db (Prisma.approval_deleteMany where_ db).
Proof. split; [done |]. intros lr Hlr. left. eauto. Qed.

Lemma deleteMany_keepsDates where_ db :
  View.keepsDates db (Prisma.leaveRequest_deleteMany where_ db).
Proof.
  split; [done |]. intros lr' Hlr'. simpl in Hlr'.
  apply in_map_iff in Hlr' as (x & <- & Hx). apply filter_In in Hx as [Hx _].
  left. exists x. split; [done |]. by repeat case_match.
Qed.

Lemma transaction_keepsDates {A} (body : Db.t -> option (A * Db.t)) db :
  (forall a db', body db = Some (a, db') -> View.keepsDates db db') ->
  View.keepsDates db (Prisma.transaction body db).2.
Proof.
  intros H. unfold Prisma.transaction.
  destruct (body db) as [[a db']|] eqn:E; simpl; [by eapply H | apply keepsDates_refl].
Qed.

Lemma mirrorOne_keepsDates pf store user date lr b db db' :
  DateLib.isIsoDate date = true ->
  LeaveRoute.mirrorOne pf store user date lr b db = Some db' -> View.keepsDates db db'.
Proof.
  intros Hiso. unfold LeaveRoute.mirrorOne. intros H.
  repeat case_match; simplify_eq; try apply keepsDates_refl;
    match goal with
    | H : snd <$> ?x = Some _ |- _ => destruct x as [[? ?]|] eqn:E; simpl in H; simplify_eq
    end; eauto using update_keepsDates, create_keepsDates.
Qed.

Lemma mirrorLoop_keepsDates pf store user date lr bs db :
  DateLib.isIsoDate date = true ->
  View.keepsDates db (LeaveRoute.mirrorLoop pf store user date lr bs db).2.
Proof.
  intros Hiso. revert db. induction bs as [|b bs IH]; intros db; simpl; [apply keepsDates_refl |].
  destruct (LeaveRoute.mirrorOne _ _ _ _ _ _ _) as [db1|] eqn:Hm; [|apply keepsDates_refl].
  eapply keepsDates_trans; [by eapply mirrorOne_keepsDates | apply IH].
Qed.

Lemma POST_keepsDates pf db req : View.keepsDates db (LeaveRoute.POST pf db req).2.
Proof.
  unfold LeaveRoute.POST.
  destruct (LeaveRoute.guards pf db req) as [resp | [[user date] store]] eqn:Hg;
    [apply keepsDates_refl |].
  destruct (guards_inr _ _ _ _ _ _ Hg) as (_ & _ & Hiso & _).
  destruct (LeaveRoute.writeOwn _ _ _ _ _) as [[lr db1]|] eqn:Hw; [|apply keepsDates_refl].
  assert (View.keepsDates db db1) as H1.
  { unfold LeaveRoute.writeOwn in Hw.
    repeat case_match; eauto using update_keepsDates, create_keepsDates. }
  assert (View.keepsDates db1 (LeaveRoute.mirrorAll pf store user date lr db1).2) as H2.
  { unfold LeaveRoute.mirrorAll. case_match; [by apply mirrorLoop_keepsDates | apply keepsDates_refl]. }
  destruct (LeaveRoute.mirrorAll _ _ _ _ _ _) as [[] db2]; simpl in *;
    by eapply keepsDates_trans.
Qed.

Lemma DELETE_keepsDates db req : View.keepsDates db (LeaveRoute.DELETE db req).2.
Proof.
  destruct (DELETE_cases db req) as [[db' Hok] | (e & st & ->)]; [|apply keepsDates_refl].
  rewrite Hok. destruct (DELETE_ok _ _ _ Hok) as (user & date & ex & _ & _ & _ & _ & _ & _ & ->).
  simpl. apply keepsDates_map. intros x. by destruct (cancelRow_keeps user ex x) as (_ & _ & _ & ?).
Qed.

Lemma decideTx_keepsDates pf user id parsed result db a db' :
  ApproveRoute.decideTx pf user id parsed result db = Some (a, db') -> View.keepsDates db db'.
Proof.
  unfold ApproveRoute.decideTx.
  destruct (Prisma.leaveRequest_update _ _ _) as [[upd tx1]|] eqn:Hu; simpl; [|done].
  destruct (Prisma.approval_create _ _ _ _ _ _ _) as [tx2|] eqn:Ha; simpl; [|done].
  intros [= <- <-].
  eapply keepsDates_trans; [by eapply update_keepsDates |].
  eapply keepsDates_trans; [by eapply approval_create_keepsDates |].
  case_match; [apply updateMany_keepsDates | apply keepsDates_refl].
Qed.

Lemma approve_keepsDates pf db req id : View.keepsDates db (ApproveRoute.POST pf db req id).2.
Proof.
  unfold ApproveRoute.POST.
  destruct (Auth.getCurrentUser db req) as [user|]; [|apply keepsDates_refl].
  destruct (negb (Auth.requireRole user [MANAGER])); [apply keepsDates_refl |].
  destruct (ApproveRoute.BodySchema _) as [parsed|]; [|apply keepsDates_refl].
  destruct (findFirst _ _) as [lr|]; [|apply keepsDates_refl].
  destruct (negb (bool_decide _)); [apply keepsDates_refl |].
  pose proof (transaction_keepsDates
                (ApproveRoute.decideTx pf user id parsed
                   (ApproveRoute.nextStatusOf (ApproveRoute.action parsed))) db) as Ht.
  destruct (Prisma.transaction _ db) as [[upd|] db']; simpl in *;
    apply Ht; intros; by eapply decideTx_keepsDates.
Qed.

Lemma setLeaveStatus_keepsDates pf db req id action :
  View.keepsDates db (AdminPage.setLeaveStatus pf db req id action).
Proof.
  unfold AdminPage.setLeaveStatus.
  destruct (Auth.getCurrentUser db req) as [user|]; [|apply keepsDates_refl].
  destruct (negb (bool_decide _)); [apply keepsDates_refl |].
  destruct (String.eqb id ""); [apply keepsDates_refl |].
  destruct (findFirst _ _) as [lr|]; [|apply keepsDates_refl].
  destruct (negb (bool_decide _)); [apply keepsDates_refl |].
  destruct (ApproveRoute.parseAction action) as [act|]; [|apply keepsDates_refl].
  apply transaction_keepsDates. intros a db' Htx.
  rewrite setLeaveStatusTx_decideTx in Htx.
  destruct (ApproveRoute.decideTx _ _ _ _ _ _) as [[upd db1]|] eqn:Hd; simpl in Htx; [|done].
  injection Htx as _ <-. by eapply decideTx_keepsDates.
Qed.

Lemma createManagerLeave_keepsDates pf db req userId date :
  View.keepsDates db (AdminPage.createManagerLeave pf db req userId date).
Proof.
  unfold AdminPage.createManagerLeave.
  destruct (Auth.getCurrentUser db req) as [me|]; [|apply keepsDates_refl].
  destruct (negb (bool_decide _)); [apply keepsDates_refl |].
  destruct (String.eqb userId ""); simpl; [apply keepsDates_refl |].
  destruct (DateLib.isIsoDate date) eqn:Hiso; simpl; [|apply keepsDates_refl].
  destruct (findFirst _ (Db.user db)) as [target|]; [|apply keepsDates_refl].
  apply transaction_keepsDates. intros a db' Htx.
  unfold AdminPage.createManagerLeaveTx in Htx.
  destruct (findFirst _ (Db.leaveRequest db)) as [ex|].
  - destruct (Prisma.leaveRequest_update _ _ _) as [[upd tx1]|] eqn:Hu; simpl in Htx; [|done].
    destruct (Prisma.approval_create _ _ _ _ _ _ _) as [tx2|] eqn:Ha; simpl in Htx; [|done].
    injection Htx as _ <-.
    eapply keepsDates_trans; [by eapply update_keepsDates | by eapply approval_create_keepsDates].
  - destruct (Prisma.leaveRequest_create _ _ _ _ _ _ _ _ _) as [[row tx1]|] eqn:Hc;
      simpl in Htx; [|done].
    destruct (Prisma.approval_create _ _ _ _ _ _ _) as [tx2|] eqn:Ha; simpl in Htx; [|done].
    injection Htx as _ <-.
    eapply keepsDates_trans; [by eapply create_keepsDates | by eapply approval_create_keepsDates].
Qed.

Lemma clearAllLeaves_keepsDates db req : View.keepsDates db (AdminPage.clearAllLeaves db req).
Proof.
  unfold AdminPage.clearAllLeaves.
  destruct (Auth.getCurrentUser db req) as [me|]; [|apply keepsDates_refl].
  destruct (negb (bool_decide _)); [apply keepsDates_refl |].
  apply transaction_keepsDates. intros a db' [= _ <-].
  eapply keepsDates_trans; [apply approval_deleteMany_keepsDates |].
  eapply keepsDates_trans; [apply updateMany_keepsDates | apply deleteMany_keepsDates].
Qed.

Lemma booking_POST_wellFormed pf db req :
  Spec.datesWellFormed db -> Spec.datesWellFormed (BookingsRoute.POST pf db req).2.
Proof.
  intros Hwf. destruct (BookingsRoute.POST pf db req) as [resp db'] eqn:Hpost.
  destruct resp as [booking| | |]; simpl.
  - destruct (booking_POST_inv _ _ _ _ _ Hpost) as (_ & Hiso & _ & _ & _ & ->).
    destruct Hwf as [Hl Hb]. split; [done |]. simpl. apply Forall_app. split; [done |].
    by constructor.
  - revert Hpost. unfold BookingsRoute.POST. repeat case_match; intros; simplify_eq.
  - revert Hpost. unfold BookingsRoute.POST. repeat case_match; intros; by simplify_eq.
  - revert Hpost. unfold BookingsRoute.POST. repeat case_match; intros; by simplify_eq.
Qed.

Lemma booking_DELETE_wellFormed db req id :
  Spec.datesWellFormed db -> Spec.datesWellFormed (BookingsRoute.DELETE db req id).2.
Proof.
  intros [Hl Hb]. unfold BookingsRoute.DELETE. repeat case_match; try done.
  split; [done |]. simpl. rewrite Forall_forall in *.
  intros b Hin%list_elem_of_In. apply filter_In in Hin as [Hin _].
  by apply Hb, list_elem_of_In.
Qed.

(** X19. Every write of the application keeps the stored dates ISO shaped:
    when all leave requests and bookings of a store state carry ISO shaped
    dates, they still do after POST and DELETE /api/leave, after the
    approve route, after the manager's setLeaveStatus, createManagerLeave
    and clearAllLeaves, and after POST and DELETE /api/rookie/bookings,
    whatever the request. *)
Theorem stored_dates_stay_iso db :
  Spec.datesWellFormed db ->
  (forall pf req, Spec.datesWellFormed (LeaveRoute.POST pf db req).2)
  /\ (forall req, Spec.datesWellFormed (LeaveRoute.DELETE db req).2)
  /\ (forall pf req id, Spec.datesWellFormed (ApproveRoute.POST pf db req id).2)
  /\ (forall pf req id action,
        Spec.datesWellFormed (AdminPage.setLeaveStatus pf db req id action))
  /\ (forall pf req userId date,
        Spec.datesWellFormed (AdminPage.createManagerLeave pf db req userId date))
  /\ (forall req, Spec.datesWellFormed (AdminPage.clearAllLeaves db req))
  /\ (forall pf req, Spec.datesWellFormed (BookingsRoute.POST pf db req).2)
  /\ (forall req id, Spec.datesWellFormed (BookingsRoute.DELETE db req id).2).
Proof.
  intros Hwf. split_and!; intros.
  - eapply keepsDates_wellFormed; [apply POST_keepsDates | done].
  - eapply keepsDates_wellFormed; [apply DELETE_keepsDates | done].
  - eapply keepsDates_wellFormed; [apply approve_keepsDates | done].
  - eapply keepsDates_wellFormed; [apply setLeaveStatus_keepsDates | done].
  - eapply keepsDates_wellFormed; [apply createManagerLeave_keepsDates | done].
  - eapply keepsDates_wellFormed; [apply clearAllLeaves_keepsDates | done].
  - by apply booking_POST_wellFormed.
  - by apply booking_DELETE_wellFormed.
Qed.

Lemma getNumberConfig_config db db1 storeId key fallback :
  Db.config db1 = Db.config db ->
  ConfigLib.getNumberConfig db1 storeId key fallback
  = ConfigLib.getNumberConfig db storeId key fallback.
Proof. unfold ConfigLib.getNumberConfig, ConfigLib.getConfigValue. by intros ->. Qed.

Lemma getBooleanConfig_config db db1 storeId key fallback :
  Db.config db1 = Db.config db ->
  ConfigLib.getBooleanConfig db1 storeId key fallback
  = ConfigLib.getBooleanConfig db storeId key fallback.
Proof. unfold ConfigLib.getBooleanConfig, ConfigLib.getConfigValue. by intros ->. Qed.

(** X20. Once POST /api/rookie/bookings has stored a booking, and the
    store's [rookie_any_booking_supply_zero] flag is on (the default), the
    rookie counts on that date with the store's [rookie_guest_supply]
    (default 0) instead of the support supply, in the month of the date. *)
Theorem booking_switches_rookie_to_guest_supply pf db req booking db' u :
  Spec.datesWellFormed db ->
  BookingsRoute.POST pf db req = (BookingsRoute.Booking booking, db') ->
  User.id u = RookieBooking.rookieId booking ->
  let storeId := RookieBooking.storeId booking in
  let date := RookieBooking.date booking in
  ConfigLib.getBooleanConfig db storeId "rookie_any_booking_supply_zero" true = true ->
  Spec.hasBooking db' storeId (User.id u) date = true
  /\ Quota.rookieWeight db' storeId (Js.slice0 7 date) date u
     = ConfigLib.getNumberConfig db storeId "rookie_guest_supply" 0.
Proof.
  intros Hwf Hpost Hu storeId date Hflag.
  pose proof (booking_POST_wellFormed pf db req Hwf) as Hwf'. rewrite Hpost in Hwf'.
  simpl in Hwf'.
  destruct (booking_POST_inv _ _ _ _ _ Hpost) as (_ & Hiso & _ & _ & _ & Hdb).
  fold date in Hiso.
  assert (Spec.hasBooking db' storeId (User.id u) date = true) as Hhas.
  { rewrite Hdb. unfold Spec.hasBooking. simpl. rewrite existsb_app. simpl.
    subst storeId date. by rewrite Hu, !String.eqb_refl, orb_true_r. }
  split; [done |].
  destruct (isoDate_parts date Hiso) as (Hm & d & Hd & Hdate).
  rewrite Hdate at 2. rewrite (rookieWeight_spec db' storeId _ d u Hwf' Hm Hd), <- Hdate.
  unfold Spec.rookieContribution. rewrite Hhas.
  assert (Db.config db' = Db.config db) as Hcfg by (by rewrite Hdb).
  rewrite (getBooleanConfig_config _ _ _ _ _ Hcfg), Hflag. simpl.
  by apply getNumberConfig_config.
Qed.

(** X21. DELETE /api/rookie/bookings with an id, answered ok, removes
    exactly the bookings with that id that belong to the signed-in ROOKIE
    and their store: a booking of someone else or of another store stays,
    and the answer is ok also when nothing matched. Repeating the request
    changes nothing more, and leave requests and users are not touched. *)
Theorem booking_delete_is_own_and_idempotent db req id db' :
  BookingsRoute.DELETE db req (Some id) = (BookingsRoute.Done, db') ->
  exists user,
    Auth.getCurrentUser db req = Some user
    /\ User.role user = ROOKIE
    /\ (forall b,
          In b (Db.rookieBooking db')
          <-> In b (Db.rookieBooking db)
              /\ ~ (RookieBooking.id b = id
                    /\ RookieBooking.storeId b = User.storeId user
                    /\ RookieBooking.rookieId b = User.id user))
    /\ BookingsRoute.DELETE db' req (Some id) = (BookingsRoute.Done, db')
    /\ Db.leaveRequest db' = Db.leaveRequest db
    /\ Db.user db' = Db.user db.
Proof.
  unfold BookingsRoute.DELETE at 1.
  destruct (Auth.getCurrentUser db req) as [user|] eqn:Hu; [|done].
  destruct (bool_decide (User.role user = ROOKIE)) eqn:Hrole; simpl; [|done].
  apply bool_decide_eq_true in Hrole.
  destruct (String.eqb id "") eqn:Hid; [done |].
  intros [= <-]. exists user. split_and!; try done.
  - intros b. simpl. rewrite filter_In, negb_true_iff, <- not_true_iff_false.
    rewrite !andb_true_iff, !String.eqb_eq. tauto.
  - unfold BookingsRoute.DELETE. simpl. unfold Auth.getCurrentUser in *. simpl.
    rewrite Hu. rewrite bool_decide_true by done. simpl. rewrite Hid. f_equal.
    unfold PrismaTables.rookieBooking_deleteMany. simpl. f_equal.
    rewrite filter_filter_and. apply filter_ext. intros b. by destruct (negb _).
Qed.

Lemma staff_spec db storeId id u :
  BindingsRoute.staff db storeId id = Some u ->
  In u (Db.user db) /\ User.id u = id /\ User.storeId u = storeId /\ User.active u = true.
Proof.
  intros [Hin H]%find_some. rewrite !andb_true_iff, !String.eqb_eq in H. tauto.
Qed.

Lemma binding_create_spec pf storeId a d active db row db' :
  PrismaTables.binding_create pf storeId a d active db = Some (row, db') ->
  row = {| Binding.id := cuid pf (map Binding.id (Db.binding db));
           Binding.storeId := storeId; Binding.assistantId := a;
           Binding.designerId := d; Binding.active := active |}
  /\ db' = PrismaTables.withBinding db (Db.binding db ++ [row]).
Proof.
  unfold PrismaTables.binding_create. case_match; [done |]. by intros [= <- <-].
Qed.

(** X22. A binding created by POST /api/admin/bindings is made by a
    MANAGER, is active, belongs to the manager's store and joins an active
    ASSISTANT and an active DESIGNER of that store. The admin page's
    createBinding either changes nothing or appends such a binding, where
    the first user may be an ASSISTANT or a ROOKIE. *)
Theorem binding_joins_store_staff pf db req :
  (forall b db',
     BindingsRoute.POST pf db req = (BindingsRoute.Created b, db') ->
     View.joins db [ASSISTANT] b
     /\ Binding.active b = true
     /\ (exists manager, Auth.getCurrentUser db req = Some manager
                         /\ User.role manager = MANAGER
                         /\ Binding.storeId b = User.storeId manager)
     /\ db' = PrismaTables.withBinding db (Db.binding db ++ [b]))
  /\ (forall assistantId designerId,
        let db' := AdminBindings.createBinding pf db req assistantId designerId in
        db' = db
        \/ exists b,
             View.joins db [ASSISTANT; ROOKIE] b
             /\ Binding.assistantId b = assistantId
             /\ Binding.designerId b = designerId
             /\ Binding.active b = true
             /\ (exists manager, Auth.getCurrentUser db req = Some manager
                                 /\ User.role manager = MANAGER
                                 /\ Binding.storeId b = User.storeId manager)
             /\ db' = PrismaTables.withBinding db (Db.binding db ++ [b])).
Proof.
  split.
  - intros b db'. unfold BindingsRoute.POST.
    destruct (Auth.getCurrentUser db req) as [user|]; [|done].
    destruct (Auth.requireRole user [MANAGER]) eqn:Hrole; simpl; [|done].
    destruct (BindingsRoute.PostSchema _) as [parsed|]; [|done].
    destruct (BindingsRoute.staff db _ (BindingsRoute.assistantId parsed)) as [a|] eqn:Ha;
      [|done].
    destruct (bool_decide (User.role a = ASSISTANT)) eqn:Hra; simpl; [|done].
    destruct (BindingsRoute.staff db _ (BindingsRoute.designerId parsed)) as [d|] eqn:Hd;
      [|done].
    destruct (bool_decide (User.role d = DESIGNER)) eqn:Hrd; simpl; [|done].
    destruct (PrismaTables.binding_create _ _ _ _ _ _) as [[row db1]|] eqn:Hc; [|done].
    intros [= <- <-]. apply binding_create_spec in Hc as [-> ->].
    apply bool_decide_eq_true in Hra, Hrd.
    apply staff_spec in Ha as (? & ? & ? & ?), Hd as (? & ? & ? & ?).
    unfold Auth.requireRole in Hrole. apply bool_decide_eq_true in Hrole.
    split_and!; try done.
    + exists a, d. simpl. split_and!; try done. rewrite Hra. by left.
    + exists user. split_and!; try done. set_solver.
  - intros assistantId designerId db'. subst db'. unfold AdminBindings.createBinding.
    destruct (Auth.getCurrentUser db req) as [user|]; [|by left].
    destruct (bool_decide (User.role user = MANAGER)) eqn:Hrole; simpl; [|by left].
    destruct (String.eqb assistantId "" || String.eqb designerId ""); [by left |].
    destruct (BindingsRoute.staff db _ assistantId) as [a|] eqn:Ha; [|by left].
    destruct (BindingsRoute.staff db _ designerId) as [d|] eqn:Hd; [|by left].
    destruct (negb (bool_decide (User.role a = ASSISTANT))
              && negb (bool_decide (User.role a = ROOKIE))) eqn:Hra; [by left |].
    destruct (bool_decide (User.role d = DESIGNER)) eqn:Hrd; simpl; [|by left].
    destruct (PrismaTables.binding_create _ _ _ _ _ _) as [[row db1]|] eqn:Hc; [|by left].
    right. apply binding_create_spec in Hc as [-> ->].
    apply bool_decide_eq_true in Hrole, Hrd.
    apply staff_spec in Ha as (? & ? & ? & ?), Hd as (? & ? & ? & ?).
    eexists. split_and!; try reflexivity; simpl; try done.
    + exists a, d. simpl. split_and!; try done.
      apply andb_false_iff in Hra as [Hra | Hra]; apply negb_false_iff, bool_decide_eq_true in Hra;
        rewrite Hra; [by left | right; by left].
    + eauto.
Qed.

Lemma filter_map_changed {A} (p q : A -> bool) (f : A -> A) (l : list A) :
  (forall x, p (f x) = q x) -> (forall x, q x = true -> f x = x) ->
  List.filter p (map f l) = List.filter q l.
Proof.
  intros Hp Hq. induction l as [|x l IH]; simpl; [done |].
  rewrite Hp. destruct (q x) eqn:E; [|done]. by rewrite (Hq x E), IH.
Qed.

(** X23. deleteBinding by a MANAGER switches the binding off instead of
    removing it: the table keeps the same ids, the active bindings of the
    manager's store are the former ones without that id, bindings of other
    ids or stores are untouched, and an assistant's master counts as
    working afterwards exactly when another active binding of the store
    ties the assistant to a designer without leave that day. *)
Theorem deleted_binding_no_longer_counts db req manager bindingId :
  Auth.getCurrentUser db req = Some manager ->
  User.role manager = MANAGER ->
  bindingId <> "" ->
  let db' := AdminBindings.deleteBinding db req bindingId in
  let storeId := User.storeId manager in
  map Binding.id (Db.binding db') = map Binding.id (Db.binding db)
  /\ List.filter (fun b => String.eqb (Binding.storeId b) storeId && Binding.active b)
       (Db.binding db')
     = List.filter (fun b => String.eqb (Binding.storeId b) storeId && Binding.active b
                             && negb (String.eqb (Binding.id b) bindingId))
         (Db.binding db)
  /\ (forall b, In b (Db.binding db) ->
                Binding.id b <> bindingId \/ Binding.storeId b <> storeId ->
                In b (Db.binding db'))
  /\ (forall assistantId date,
        Spec.masterWorks db' storeId assistantId date
        <-> exists b,
              In b (Db.binding db)
              /\ Binding.id b <> bindingId
              /\ Binding.storeId b = storeId
              /\ Binding.assistantId b = assistantId
              /\ Binding.active b = true
              /\ Spec.hasActiveLeave db storeId (Binding.designerId b) date = false)
  /\ Db.leaveRequest db' = Db.leaveRequest db
  /\ Db.user db' = Db.user db.
Proof.
  intros Hu Hrole Hid db' storeId. subst db'. unfold AdminBindings.deleteBinding.
  rewrite Hu, Hrole. simpl. apply String.eqb_neq in Hid. rewrite Hid. simpl.
  unfold PrismaTables.binding_updateMany. simpl. fold storeId.
  set (hit := fun b : Binding.t =>
                String.eqb (Binding.id b) bindingId
                && String.eqb (Binding.storeId b) storeId && Binding.active b).
  set (off := fun b : Binding.t =>
                if hit b
                then {| Binding.id := Binding.id b; Binding.storeId := Binding.storeId b;
                        Binding.assistantId := Binding.assistantId b;
                        Binding.designerId := Binding.designerId b; Binding.active := false |}
                else b).
  assert (forall b, In b (map off (Db.binding db)) -> Binding.active b = true ->
                    In b (Db.binding db) /\ hit b = false) as Hact.
  { intros b (x & <- & Hx)%in_map_iff. unfold off. destruct (hit x) eqn:Hh; [done |].
    intros _. by rewrite Hh. }
  assert (forall b, In b (Db.binding db) -> hit b = false -> In b (map off (Db.binding db)))
    as Hkeep.
  { intros b Hb Hh. apply in_map_iff. exists b. split; [|done]. unfold off. by rewrite Hh. }
  split_and!; try done.
  - rewrite map_map. apply map_ext. intros b. by case_match.
  - apply filter_map_changed.
    + intros b.
      destruct (String.eqb (Binding.id b) bindingId), (String.eqb (Binding.storeId b) storeId) eqn:Hs,
        (Binding.active b) eqn:Ha; simpl; by rewrite ?Hs, ?Ha.
    + intros b Hq.
      destruct (String.eqb (Binding.id b) bindingId); [|done].
      by rewrite andb_false_r in Hq.
  - intros b Hb Hne. apply Hkeep; [done |]. unfold hit.
    destruct Hne as [Hne | Hne]; apply String.eqb_neq in Hne;
      rewrite Hne, ?andb_false_r; by simpl.
  - intros a date. unfold Spec.masterWorks, Spec.hasActiveLeave. simpl. split.
    + intros (b & Hb & Hs & Ha & Hactive & Hleave).
      destruct (Hact b Hb Hactive) as [Hin Hh]. exists b. split_and!; try done.
      intros Heq. unfold hit in Hh. by rewrite Heq, Hs, Hactive, !String.eqb_refl in Hh.
    + intros (b & Hb & Hne & Hs & Ha & Hactive & Hleave). exists b. split_and!; try done.
      apply Hkeep; [done |]. unfold hit. apply String.eqb_neq in Hne. by rewrite Hne.
Qed.

(** X24. A booking that POST /api/rookie/bookings stores belongs to the
    signed-in ROOKIE and to their store, has an ISO shaped date and whole
    minutes with 0 <= startMin < endMin <= 1440, gets an id no booking of
    the table had, and is appended to the booking table, every other table
    staying as it was. *)
Theorem booking_is_validated pf db req booking db' :
  BookingsRoute.POST pf db req = (BookingsRoute.Booking booking, db') ->
  (exists user,
     Auth.getCurrentUser db req = Some user
     /\ User.role user = ROOKIE
     /\ RookieBooking.rookieId booking = User.id user
     /\ RookieBooking.storeId booking = User.storeId user)
  /\ DateLib.isIsoDate (RookieBooking.date booking) = true
  /\ (0 <= RookieBooking.startMin booking < RookieBooking.endMin booking)%Z
  /\ (RookieBooking.endMin booking <= 1440)%Z
  /\ ~ In (RookieBooking.id booking) (map RookieBooking.id (Db.rookieBooking db))
  /\ db' = PrismaTables.withRookieBooking db (Db.rookieBooking db ++ [booking]).
Proof. apply booking_POST_inv. Qed.

Lemma seed_datesWellFormed : Spec.datesWellFormed Scenario.seed.
Proof. split; repeat constructor. Qed.

(** rj books a client while song's approved day off is stored. *)
Lemma stored_dates_stay_iso_witness :
  Spec.datesWellFormed (BookingsRoute.POST (Reference.platform 3) Scenario.june Cases.rjBooks).2.
Proof.
  exact (proj1 (proj2 (proj2 (proj2 (proj2 (proj2 (proj2
    (stored_dates_stay_iso Scenario.june june_datesWellFormed)))))))
    (Reference.platform 3) Cases.rjBooks).
Defined.

Lemma booking_is_validated_witness :
  exists booking db',
    BookingsRoute.POST (Reference.platform 3) Scenario.june Cases.rjBooks
    = (BookingsRoute.Booking booking, db')
    /\ (0 <= RookieBooking.startMin booking < RookieBooking.endMin booking)%Z
    /\ DateLib.isIsoDate (RookieBooking.date booking) = true.
Proof.
  eexists _, _. split; [vm_compute; reflexivity |].
  destruct (booking_is_validated (Reference.platform 3) Scenario.june Cases.rjBooks _ _ eq_refl)
    as (_ & Hiso & Hmin & _). split; [exact Hmin | exact Hiso].
Defined.

(** After the booking rj counts with the guest supply 0 on 2024-06-12. *)
Lemma booking_switches_rookie_to_guest_supply_witness :
  exists booking db',
    BookingsRoute.POST (Reference.platform 3) Scenario.seed Cases.rjBooks
    = (BookingsRoute.Booking booking, db')
    /\ Quota.rookieWeight db' Scenario.storeId "2024-06" "2024-06-12" Scenario.rj = 0%float.
Proof.
  eexists _, _. split; [vm_compute; reflexivity |].
  refine (proj2 (booking_switches_rookie_to_guest_supply (Reference.platform 3) Scenario.seed
            Cases.rjBooks _ _ Scenario.rj seed_datesWellFormed eq_refl eq_refl _)).
  vm_compute; reflexivity.
Defined.

(** rj removes the booking bk1 of the store [june]. *)
Lemma booking_delete_is_own_and_idempotent_witness :
  exists db',
    BookingsRoute.DELETE Scenario.june Cases.rjAsks (Some "bk1") = (BookingsRoute.Done, db')
    /\ BookingsRoute.DELETE db' Cases.rjAsks (Some "bk1") = (BookingsRoute.Done, db').
Proof.
  eexists. split; [vm_compute; reflexivity |].
  destruct (booking_delete_is_own_and_idempotent Scenario.june Cases.rjAsks "bk1" _ eq_refl)
    as (user & _ & _ & _ & Hagain & _). exact Hagain.
Defined.

(** The manager ties song to joel. *)
Lemma binding_joins_store_staff_witness :
  exists b db',
    BindingsRoute.POST (Reference.platform 3) Scenario.seed Cases.managerBinds
    = (BindingsRoute.Created b, db')
    /\ View.joins Scenario.seed [ASSISTANT] b.
Proof.
  eexists _, _. split; [vm_compute; reflexivity |].
  refine (proj1 (proj1 (binding_joins_store_staff (Reference.platform 3) Scenario.seed
                          Cases.managerBinds) _ _ eq_refl)).
Defined.

(** The manager deletes the binding of song and ray: song's master no
    longer counts as working. *)
Lemma deleted_binding_no_longer_counts_witness :
  List.filter (fun b => String.eqb (Binding.storeId b) Scenario.storeId && Binding.active b)
    (Db.binding (AdminBindings.deleteBinding Scenario.seed Cases.managerForm "b_song_ray"))
  = [].
Proof.
  refine (proj1 (proj2 (deleted_binding_no_longer_counts Scenario.seed Cases.managerForm
                          Scenario.manager "b_song_ray" eq_refl eq_refl _))).
  discriminate.
Defined.

(** ** Demand overrides *)

Lemma foldl_insert_all_lookup {A V} (k : A -> string) (v : A -> V) (l : list A)
    (m : gmap string V) (key : string) :
  foldl (fun acc x => <[ k x := v x ]> acc) m l !! key
  = match last (List.filter (fun x => String.eqb (k x) key) l) with
    | Some x => Some (v x)
    | None => m !! key
    end.
Proof. exact (foldl_insert_lookup (fun _ => true) k v l m key). Qed.

(** X25. A designer's weight in designerDemand on a date of the month is
    the demand of the store's override row for that designer and date (the
    last one in table order, should several exist), whatever the
    designer's baseDemand; without such a row it is baseDemand, and
    without a baseDemand the store's designer_default_demand (default
    1.0). Dates are ISO shaped. *)
Theorem override_beats_base_demand db storeId month date u :
  DateLib.isIsoDate date = true ->
  Js.startsWith date (month +:+ "-") = true ->
  Forall (fun o => DateLib.isIsoDate (DesignerDemandOverride.date o) = true)
    (Db.designerDemandOverride db) ->
  Quota.designerWeight db storeId month date u
  = match last (List.filter
                  (fun o => String.eqb (DesignerDemandOverride.storeId o) storeId
                            && String.eqb (DesignerDemandOverride.designerId o) (User.id u)
                            && String.eqb (DesignerDemandOverride.date o) date)
                  (Db.designerDemandOverride db)) with
    | Some o => DesignerDemandOverride.demand o
    | None =>
        match User.baseDemand u with
        | Some x => x
        | None => ConfigLib.getNumberConfig db storeId "designer_default_demand" 1.0
        end
    end.
Proof.
  intros Hiso Hpre Hwf. unfold Quota.designerWeight, Quota.demandOverrideByDesignerDate.
  rewrite (foldl_insert_all_lookup
             (fun o => Quota.key (DesignerDemandOverride.designerId o)
                         (DesignerDemandOverride.date o))
             DesignerDemandOverride.demand).
  rewrite lookup_empty. unfold Quota.demandOverrides, findMany.
  rewrite filter_filter_and.
  match goal with
  | |- default _ (match last (List.filter ?p ?l) with _ => _ end) = match last (List.filter ?q ?l) with _ => _ end =>
      assert (forall o, In o l -> p o = q o) as Hpq
  end.
  { intros o Hin. simpl.
    rewrite Forall_forall in Hwf. specialize (Hwf o (proj2 (list_elem_of_In _ _) Hin)).
    destruct (String.eqb (DesignerDemandOverride.storeId o) storeId); simpl; [|by rewrite ?andb_false_r].
    destruct (String.eqb (Quota.key _ _) _) eqn:Hk.
    - apply String.eqb_eq in Hk. apply key_inj in Hk as [-> ->].
      + by rewrite Hpre, !String.eqb_refl.
      + by rewrite (isIsoDate_length _ Hwf), (isIsoDate_length _ Hiso).
    - rewrite andb_false_r. symmetry. apply not_true_iff_false. intros H.
      rewrite !andb_true_iff, !String.eqb_eq in H. destruct H as [Hd Hdt].
      rewrite Hd, Hdt, String.eqb_refl in Hk. done. }
  rewrite (filter_ext_in _ _ _ Hpq).
  destruct (last _); simpl; [done |]. unfold Js.numberOr, Quota.designerDefaultDemand.
  by destruct (User.baseDemand u).
Qed.


(** Ray counts with 2.5 on 2024-06-05 instead of the store's 0.3. *)
Lemma override_beats_base_demand_witness :
  Quota.designerWeight Cases.juneOverride Scenario.storeId "2024-06" "2024-06-05" Scenario.ray
  = 2.5%float.
Proof.
  refine (override_beats_base_demand Cases.juneOverride Scenario.storeId "2024-06"
            "2024-06-05" Scenario.ray eq_refl eq_refl _).
  repeat constructor.
Defined.

(** ** Writing the configuration *)

Lemma findFirstId_Some where_ table i :
  PrismaTables.findFirstId where_ table = Some i ->
  exists row, table !! i = Some row /\ where_ row = true
              /\ List.find where_ table = Some row
              /\ List.filter where_ (take i table) = [].
Proof.
  revert i. induction table as [|x l IH]; intros i; simpl; [done |].
  destruct (where_ x) eqn:E.
  - intros [= <-]. exists x. by rewrite E.
  - destruct (PrismaTables.findFirstId where_ l) as [j|] eqn:Hj; [|done].
    intros [= <-]. destruct (IH j eq_refl) as (row & Hl & Hp & Hf & Ht).
    exists row. simpl. by rewrite E.
Qed.

Lemma findFirstId_None where_ table :
  PrismaTables.findFirstId where_ table = None -> List.filter where_ table = [].
Proof.
  induction table as [|x l IH]; simpl; [done |].
  destruct (where_ x); [done |].
  destruct (PrismaTables.findFirstId where_ l); [done |]. auto.
Qed.

Lemma find_filter_hd {A} (p : A -> bool) (l : list A) :
  List.find p l = head (List.filter p l).
Proof. induction l as [|x l IH]; simpl; [done |]. by destruct (p x). Qed.

Lemma filter_insert {A} (q : A -> bool) (l : list A) (i : nat) (x x' : A) :
  l !! i = Some x ->
  List.filter q (<[ i := x' ]> l)
  = (List.filter q (take i l) ++ (if q x' then [x'] else [])
     ++ List.filter q (drop (S i) l))%list.
Proof.
  intros Hl. rewrite insert_take_drop by (by eapply lookup_lt_Some).
  rewrite List.filter_app. simpl. by destruct (q x').
Qed.

Lemma filter_at {A} (q : A -> bool) (l : list A) (i : nat) (x : A) :
  l !! i = Some x ->
  List.filter q l
  = (List.filter q (take i l) ++ (if q x then [x] else [])
     ++ List.filter q (drop (S i) l))%list.
Proof.
  intros Hl. rewrite <- (list_insert_id l i x Hl) at 1. by eapply filter_insert.
Qed.

Lemma current_eq s k s2 k2 c :
  ConfigRoute.current s k c = true -> ConfigRoute.current s2 k2 c = true ->
  s2 = s /\ k2 = k.
Proof.
  unfold ConfigRoute.current. rewrite !andb_true_iff, !String.eqb_eq.
  intros [[<- <-] _] [[<- <-] _]. done.
Qed.

Lemma getConfigValue_find db s k :
  ConfigLib.getConfigValue db s k
  = match List.find (ConfigRoute.current s k) (Db.config db) with
    | Some row =>
        match Config.valueJson row with
        | Some parsed => if ConfigLib.hasValue parsed then Some parsed else None
        | None => None
        end
    | None => None
    end.
Proof. reflexivity. Qed.


(** The two branches of both writers: the row of the key is overwritten
    in place, or a row is appended when the key has none. *)
Lemma upsert_effect s k v db db' :
  match PrismaTables.findFirstId (ConfigRoute.current s k) (Db.config db) with
  | Some id => snd <$> PrismaTables.config_update id v db
  | None => Some (PrismaTables.config_create s k v db).2
  end = Some db' ->
  (exists row,
     List.find (ConfigRoute.current s k) (Db.config db') = Some row
     /\ Config.valueJson row = Some v)
  /\ (forall s2 k2, ~ (s2 = s /\ k2 = k) ->
        List.filter (ConfigRoute.current s2 k2) (Db.config db')
        = List.filter (ConfigRoute.current s2 k2) (Db.config db))
  /\ length (List.filter (ConfigRoute.current s k) (Db.config db'))
     = Nat.max 1 (length (List.filter (ConfigRoute.current s k) (Db.config db)))
  /\ View.sameButConfig db db'.
Proof.
  destruct (PrismaTables.findFirstId _ _) as [i|] eqn:Hi.
  - apply findFirstId_Some in Hi as (row & Hl & Hp & Hf & Ht).
    unfold PrismaTables.config_update. rewrite Hl. simpl. intros [= <-]. simpl.
    set (row' := {| Config.storeId := Config.storeId row; Config.key := Config.key row;
                    Config.valueJson := Some v;
                    Config.effectiveFrom := Config.effectiveFrom row |}).
    assert (forall s2 k2, ConfigRoute.current s2 k2 row' = ConfigRoute.current s2 k2 row)
      as Hsame by done.
    split_and!.
    + exists row'. split; [|done].
      rewrite find_filter_hd, (filter_insert _ _ _ _ _ Hl), Ht, Hsame, Hp. done.
    + intros s2 k2 Hne.
      rewrite (filter_insert _ _ _ _ row' Hl), (filter_at _ _ _ _ Hl), Hsame.
      destruct (ConfigRoute.current s2 k2 row) eqn:E; [|done].
      destruct Hne. by eapply current_eq.
    + rewrite (filter_insert _ _ _ _ row' Hl), (filter_at _ _ _ _ Hl), Hsame, Hp, Ht.
      simpl. lia.
    + by repeat split.
  - apply findFirstId_None in Hi. intros [= <-]. simpl. split_and!.
    + eexists. rewrite find_filter_hd, List.filter_app, Hi. simpl.
      unfold ConfigRoute.current at 1. simpl. rewrite !String.eqb_refl. simpl. done.
    + intros s2 k2 Hne. rewrite List.filter_app. simpl.
      destruct (ConfigRoute.current s2 k2 _) eqn:E; [| by rewrite app_nil_r].
      destruct Hne. unfold ConfigRoute.current in E. simpl in E.
      rewrite !andb_true_iff, !String.eqb_eq in E. by destruct E as [[-> ->] _].
    + rewrite List.filter_app, Hi. simpl.
      unfold ConfigRoute.current at 1. simpl. by rewrite !String.eqb_refl.
    + by repeat split.
Qed.

Lemma upsert_total s k v db :
  exists db',
    match PrismaTables.findFirstId (ConfigRoute.current s k) (Db.config db) with
    | Some id => snd <$> PrismaTables.config_update id v db
    | None => Some (PrismaTables.config_create s k v db).2
    end = Some db'.
Proof.
  destruct (PrismaTables.findFirstId _ _) as [i|] eqn:Hi; [|eauto].
  apply findFirstId_Some in Hi as (row & Hl & _).
  unfold PrismaTables.config_update. rewrite Hl. simpl. eauto.
Qed.

Lemma upsert_unique s k v db db' :
  match PrismaTables.findFirstId (ConfigRoute.current s k) (Db.config db) with
  | Some id => snd <$> PrismaTables.config_update id v db
  | None => Some (PrismaTables.config_create s k v db).2
  end = Some db' ->
  View.configKeysUnique db -> View.configKeysUnique db'.
Proof.
  intros (_ & Hother & Hlen & _)%upsert_effect Hu s2 k2.
  destruct (decide (s2 = s /\ k2 = k)) as [[-> ->] | Hne].
  - rewrite Hlen. specialize (Hu s k). lia.
  - rewrite (Hother _ _ Hne). apply Hu.
Qed.

Lemma upsert_other s k v db db' s2 k2 :
  match PrismaTables.findFirstId (ConfigRoute.current s k) (Db.config db) with
  | Some id => snd <$> PrismaTables.config_update id v db
  | None => Some (PrismaTables.config_create s k v db).2
  end = Some db' ->
  ~ (s2 = s /\ k2 = k) ->
  ConfigLib.getConfigValue db' s2 k2 = ConfigLib.getConfigValue db s2 k2.
Proof.
  intros (_ & Hother & _)%upsert_effect Hne.
  by rewrite !getConfigValue_find, !find_filter_hd, (Hother _ _ Hne).
Qed.

Lemma hasValue_wrapped v : ConfigLib.hasValue (Json.wrapped (Some v)) = true.
Proof. reflexivity. Qed.

Lemma upsert_value s k v db db' :
  match PrismaTables.findFirstId (ConfigRoute.current s k) (Db.config db) with
  | Some id => snd <$> PrismaTables.config_update id (Json.wrapped v) db
  | None => Some (PrismaTables.config_create s k (Json.wrapped v) db).2
  end = Some db' ->
  ConfigLib.getConfigValue db' s k
  = match v with Some x => Some (JObj [("value", Json.reparsed x)]) | None => None end.
Proof.
  intros ((row & Hf & Hv) & _)%upsert_effect.
  rewrite getConfigValue_find, Hf, Hv. destruct v as [x|]; [|done].
  by rewrite hasValue_wrapped.
Qed.

Lemma updateConfig_upsert db req user key raw :
  Auth.getCurrentUser db req = Some user ->
  User.role user = MANAGER ->
  key <> "" ->
  match PrismaTables.findFirstId (ConfigRoute.current (User.storeId user) key) (Db.config db) with
  | Some id =>
      snd <$> PrismaTables.config_update id
                (Json.wrapped (Some (AdminConfig.parseInputValue raw))) db
  | None =>
      Some (PrismaTables.config_create (User.storeId user) key
              (Json.wrapped (Some (AdminConfig.parseInputValue raw))) db).2
  end = Some (AdminConfig.updateConfig db req key raw).
Proof.
  intros Hu Hrole Hkey%String.eqb_neq. unfold AdminConfig.updateConfig.
  rewrite Hu, Hrole, Hkey. simpl.
  destruct (upsert_total (User.storeId user) key
              (Json.wrapped (Some (AdminConfig.parseInputValue raw))) db) as [db' Hdb'].
  destruct (PrismaTables.findFirstId _ _) as [i|]; [|done].
  destruct (PrismaTables.config_update _ _ _) as [[r d]|]; [done | discriminate Hdb'].
Qed.

Lemma updateConfig_noop db req key raw :
  (forall user, Auth.getCurrentUser db req = Some user -> User.role user <> MANAGER)
  \/ key = "" ->
  AdminConfig.updateConfig db req key raw = db.
Proof.
  unfold AdminConfig.updateConfig. intros H.
  destruct (Auth.getCurrentUser db req) as [user|]; [|done].
  destruct (bool_decide (User.role user = MANAGER)) eqn:Hrole; simpl; [|done].
  apply bool_decide_eq_true in Hrole.
  destruct H as [H | ->]; [by destruct (H user eq_refl) | done].
Qed.

Lemma PUT_upsert db req id row db' :
  ConfigRoute.PUT db req = (ConfigRoute.Saved id row, db') ->
  exists user parsed,
    Auth.getCurrentUser db req = Some user
    /\ User.role user = MANAGER
    /\ ConfigRoute.PutSchema (Auth.body req) = Some parsed
    /\ ConfigRoute.key parsed <> ""
    /\ Db.config db' !! id = Some row
    /\ ConfigRoute.current (User.storeId user) (ConfigRoute.key parsed) row = true
    /\ match PrismaTables.findFirstId
               (ConfigRoute.current (User.storeId user) (ConfigRoute.key parsed))
               (Db.config db) with
       | Some id =>
           snd <$> PrismaTables.config_update id (Json.wrapped (ConfigRoute.value parsed)) db
       | None =>
           Some (PrismaTables.config_create (User.storeId user) (ConfigRoute.key parsed)
                   (Json.wrapped (ConfigRoute.value parsed)) db).2
       end = Some db'.
Proof.
  unfold ConfigRoute.PUT.
  destruct (Auth.getCurrentUser db req) as [user|]; [|done].
  destruct (Auth.requireRole user [MANAGER]) eqn:Hrole; simpl; [|done].
  destruct (ConfigRoute.PutSchema _) as [parsed|] eqn:Hp; [|done].
  assert (ConfigRoute.key parsed <> "") as Hkey.
  { unfold ConfigRoute.PutSchema in Hp. destruct (Auth.body req) as [[]|]; try done.
    destruct (jsonField "key" fields) as [[]|]; try done.
    destruct (1 <=? String.length s)%nat eqn:Hlen; [|done].
    injection Hp as <-. simpl. intros ->. done. }
  unfold Auth.requireRole in Hrole. apply bool_decide_eq_true in Hrole.
  assert (User.role user = MANAGER) as Hm by set_solver.
  intros H. exists user, parsed. split_and!; try done;
    destruct (PrismaTables.findFirstId _ _) as [i|] eqn:Hi.
  - apply findFirstId_Some in Hi as (r & Hl & Hc & _).
    unfold PrismaTables.config_update in H. rewrite Hl in H. injection H as <- <- <-.
    simpl. apply list_lookup_insert_eq. by eapply lookup_lt_Some.
  - simpl in H. injection H as <- <- <-. simpl.
    by rewrite lookup_app_r, Nat.sub_diag by done.
  - apply findFirstId_Some in Hi as (r & Hl & Hc & _).
    unfold PrismaTables.config_update in H. rewrite Hl in H. injection H as <- <- <-.
    done.
  - simpl in H. injection H as <- <- <-. unfold ConfigRoute.current. simpl.
    by rewrite !String.eqb_refl.
  - destruct (PrismaTables.config_update _ _ _) as [[r d]|]; [|done].
    by injection H as <- <- <-.
  - simpl in H. by injection H as <- <- <-.
Qed.

Lemma PUT_cases db req :
  (ConfigRoute.PUT db req).2 = db
  \/ exists id row, ConfigRoute.PUT db req = (ConfigRoute.Saved id row, (ConfigRoute.PUT db req).2).
Proof.
  unfold ConfigRoute.PUT.
  destruct (Auth.getCurrentUser db req) as [user|]; [|by left].
  destruct (Auth.requireRole user [MANAGER]); simpl; [|by left].
  destruct (ConfigRoute.PutSchema _) as [parsed|]; [|by left].
  destruct (PrismaTables.findFirstId _ _) as [i|].
  - destruct (PrismaTables.config_update _ _ _) as [[r d]|]; [|by left]. right. eauto.
  - right. simpl. eauto.
Qed.

Lemma sameButConfig_refl db : View.sameButConfig db db.
Proof. by repeat split. Qed.

(** Reading back a written value with the three getters. *)
Lemma getters_wrapped db s k v :
  ConfigLib.getConfigValue db s k
  = match v with Some x => Some (JObj [("value", Json.reparsed x)]) | None => None end ->
  (forall fb, ConfigLib.getBooleanConfig db s k fb
              = match v with Some (JBool b) => b | _ => fb end)
  /\ (forall fb, ConfigLib.getStringConfig db s k fb
                 = match v with Some (JStr t) => t | _ => fb end)
  /\ (forall fb, ConfigLib.getNumberConfig db s k fb
                 = match v with
                   | Some (JNum x) =>
                       if PrimFloat.is_finite x
                       then (if PrimFloat.is_zero x then 0%float else x)
                       else fb
                   | _ => fb
                   end).
Proof.
  intros H.
  unfold ConfigLib.getBooleanConfig, ConfigLib.getStringConfig, ConfigLib.getNumberConfig.
  rewrite H. destruct v as [[]|]; simpl; try done.
  unfold Json.number. split_and!; intros fb; by destruct (PrimFloat.is_finite x).
Qed.

(** X26. After PUT /api/admin/config has saved a key, the getters of
    the manager's store read the value back: getBooleanConfig a boolean,
    getStringConfig a string, getNumberConfig a finite number (-0 read as
    0); a value of another type, a null, a number that is not finite
    (written as null) or a body without a value gives each getter its
    fallback. The saved row is the row of that store and key. *)
Theorem config_put_reads_back db req id row db' :
  ConfigRoute.PUT db req = (ConfigRoute.Saved id row, db') ->
  exists user parsed,
    Auth.getCurrentUser db req = Some user
    /\ User.role user = MANAGER
    /\ ConfigRoute.PutSchema (Auth.body req) = Some parsed
    /\ Db.config db' !! id = Some row
    /\ Config.storeId row = User.storeId user
    /\ Config.key row = ConfigRoute.key parsed
    /\ (forall fb,
          ConfigLib.getBooleanConfig db' (User.storeId user) (ConfigRoute.key parsed) fb
          = match ConfigRoute.value parsed with Some (JBool b) => b | _ => fb end)
    /\ (forall fb,
          ConfigLib.getStringConfig db' (User.storeId user) (ConfigRoute.key parsed) fb
          = match ConfigRoute.value parsed with Some (JStr t) => t | _ => fb end)
    /\ (forall fb,
          ConfigLib.getNumberConfig db' (User.storeId user) (ConfigRoute.key parsed) fb
          = match ConfigRoute.value parsed with
            | Some (JNum x) =>
                if PrimFloat.is_finite x
                then (if PrimFloat.is_zero x then 0%float else x)
                else fb
            | _ => fb
            end).
Proof.
  intros (user & parsed & Hu & Hrole & Hp & Hkey & Hrow & Hcur & Hup)%PUT_upsert.
  exists user, parsed.
  unfold ConfigRoute.current in Hcur. rewrite !andb_true_iff, !String.eqb_eq in Hcur.
  destruct Hcur as [[Hs Hk] _].
  destruct (getters_wrapped _ _ _ _ (upsert_value _ _ _ _ _ Hup)) as (Hb & Hstr & Hn).
  split_and!; done.
Qed.

(** X27. After the manager's updateConfig with a non-empty key, the
    text [true] or [false] is read back as that boolean; a text that is
    blank or that Number turns into NaN is stored as a string, so
    getStringConfig returns it and the number and boolean getters return
    their fallbacks (a blank field does not become 0); any other text is
    read back by getNumberConfig as Number(text), an infinite one as the
    fallback. *)
Theorem config_form_reads_back db req user key raw :
  Auth.getCurrentUser db req = Some user ->
  User.role user = MANAGER ->
  key <> "" ->
  let db' := AdminConfig.updateConfig db req key raw in
  let s := User.storeId user in
  let x := JsNumber.ofString raw in
  (raw = "true" -> forall fb, ConfigLib.getBooleanConfig db' s key fb = true)
  /\ (raw = "false" -> forall fb, ConfigLib.getBooleanConfig db' s key fb = false)
  /\ (raw <> "true" -> raw <> "false" ->
      if PrimFloat.is_nan x || String.eqb (Js.trim raw) ""
      then (forall fb, ConfigLib.getStringConfig db' s key fb = raw)
           /\ (forall fb, ConfigLib.getNumberConfig db' s key fb = fb)
           /\ (forall fb, ConfigLib.getBooleanConfig db' s key fb = fb)
      else forall fb,
             ConfigLib.getNumberConfig db' s key fb
             = if PrimFloat.is_infinity x then fb
               else if PrimFloat.is_zero x then 0%float else x).
Proof.
  intros Hu Hrole Hkey db' s x.
  pose proof (updateConfig_upsert db req user key raw Hu Hrole Hkey) as Hup.
  destruct (getters_wrapped _ _ _ (Some (AdminConfig.parseInputValue raw))
              (upsert_value _ _ _ _ _ Hup)) as (Hb & Hs & Hn).
  fold db' s in Hb, Hs, Hn. split_and!.
  - intros -> fb. by rewrite Hb.
  - intros -> fb. by rewrite Hb.
  - intros Ht%String.eqb_neq Hf%String.eqb_neq.
    unfold AdminConfig.parseInputValue in Hb, Hs, Hn. rewrite Ht, Hf in Hb, Hs, Hn.
    fold x in Hb, Hs, Hn.
    destruct (PrimFloat.is_nan x) eqn:Hnan; simpl in *.
    + done.
    + destruct (String.eqb (Js.trim raw) ""); simpl in *.
      * done.
      * intros fb. rewrite Hn. unfold PrimFloat.is_finite. rewrite Hnan. simpl.
        by destruct (PrimFloat.is_infinity x).
Qed.

(** X28. A configuration write (updateConfig or PUT /api/admin/config)
    changes the config table only, keeps one row per store and key when
    the table had at most one, and leaves what getConfigValue returns for
    every other key and every other store as it was; a caller who is not
    signed in or not a MANAGER changes nothing. *)
Theorem config_write_touches_one_key db req :
  (forall key raw,
     let db' := AdminConfig.updateConfig db req key raw in
     View.sameButConfig db db'
     /\ (View.configKeysUnique db -> View.configKeysUnique db')
     /\ (forall s2 k2,
           k2 <> key
           \/ (forall user, Auth.getCurrentUser db req = Some user -> s2 <> User.storeId user) ->
           ConfigLib.getConfigValue db' s2 k2 = ConfigLib.getConfigValue db s2 k2)
     /\ ((forall user, Auth.getCurrentUser db req = Some user -> User.role user <> MANAGER)
         \/ key = "" -> db' = db))
  /\ (let db' := (ConfigRoute.PUT db req).2 in
      View.sameButConfig db db'
      /\ (View.configKeysUnique db -> View.configKeysUnique db')
      /\ (forall s2 k2,
            (forall parsed, ConfigRoute.PutSchema (Auth.body req) = Some parsed ->
                            k2 <> ConfigRoute.key parsed)
            \/ (forall user, Auth.getCurrentUser db req = Some user ->
                             s2 <> User.storeId user) ->
            ConfigLib.getConfigValue db' s2 k2 = ConfigLib.getConfigValue db s2 k2)
      /\ ((forall user, Auth.getCurrentUser db req = Some user -> User.role user <> MANAGER)
          -> db' = db)).
Proof.
  split.
  - intros key raw db'.
    destruct (Auth.getCurrentUser db req) as [user|] eqn:Hu.
    2:{ assert (db' = db) as ->.
        { apply updateConfig_noop. left. by rewrite Hu. }
        split_and!; try done; apply sameButConfig_refl. }
    destruct (decide (User.role user = MANAGER)) as [Hrole | Hrole].
    2:{ assert (db' = db) as ->.
        { apply updateConfig_noop. left. rewrite Hu. by intros ? [= <-]. }
        split_and!; try done; apply sameButConfig_refl. }
    destruct (decide (key = "")) as [-> | Hkey].
    { assert (db' = db) as ->.
      { apply updateConfig_noop. by right. }
      split_and!; try done; apply sameButConfig_refl. }
    pose proof (updateConfig_upsert db req user key raw Hu Hrole Hkey) as Hup.
    fold db' in Hup. split_and!.
    + by apply upsert_effect in Hup as (_ & _ & _ & ?).
    + by eapply upsert_unique.
    + intros s2 k2 Hne. eapply upsert_other; [done |]. intros [-> ->].
      destruct Hne as [Hne | Hne]; [done | by apply (Hne user)].
    + intros [H | H]; [by destruct (H user eq_refl) | done].
  - intros db'. destruct (PUT_cases db req) as [Heq | (id & row & Hput)].
    { fold db' in Heq. rewrite Heq. split_and!; try done; apply sameButConfig_refl. }
    fold db' in Hput.
    apply PUT_upsert in Hput as (user & parsed & Hu & Hrole & Hp & Hkey & _ & _ & Hup).
    split_and!.
    + by apply upsert_effect in Hup as (_ & _ & _ & ?).
    + by eapply upsert_unique.
    + intros s2 k2 Hne. eapply upsert_other; [done |]. intros [-> ->].
      destruct Hne as [Hne | Hne]; [by apply (Hne parsed) | by apply (Hne user)].
    + intros H. by destruct (H user Hu).
Qed.


(** The manager sets the safety factor to 1.25 over the seeded 1.1. *)
Lemma config_put_reads_back_witness :
  exists id row db',
    ConfigRoute.PUT Scenario.seed Cases.managerPuts = (ConfigRoute.Saved id row, db')
    /\ ConfigLib.getNumberConfig db' Scenario.storeId "safety_factor" 1.1 = 1.25%float.
Proof.
  eexists _, _, _. split; [vm_compute; reflexivity |].
  destruct (config_put_reads_back Scenario.seed Cases.managerPuts _ _ _ eq_refl)
    as (user & parsed & Hu & _ & Hp & _ & _ & _ & _ & _ & Hn).
  injection Hu as <-. injection Hp as <-. exact (Hn 1.1%float).
Defined.

(** The manager types 10 into the field of phase1_end_day. *)
Lemma config_form_reads_back_witness :
  ConfigLib.getNumberConfig
    (AdminConfig.updateConfig Scenario.seed Cases.managerForm "phase1_end_day" "10")
    Scenario.storeId "phase1_end_day" 5 = 10%float.
Proof.
  refine (proj2 (proj2 (config_form_reads_back Scenario.seed Cases.managerForm
                          Scenario.manager "phase1_end_day" "10" eq_refl eq_refl _))
            _ _ 5%float); discriminate.
Defined.

(** An ideographic space before the digits is white space for [Number]
    and for [trim]: the text is a number. White space alone is a string. *)
Example wide_space_before_number :
  AdminConfig.parseInputValue "　12" = JNum 12
  /\ AdminConfig.parseInputValue "　" = JStr "　"
  /\ AdminConfig.parseInputValue "" = JStr "".
Proof. repeat split. Qed.

(** Setting the safety factor leaves the assistant supply as it was. *)
Lemma config_write_touches_one_key_witness :
  ConfigLib.getConfigValue
    (AdminConfig.updateConfig Scenario.seed Cases.managerForm "safety_factor" "1.5")
    Scenario.storeId "assistant_supply"
  = ConfigLib.getConfigValue Scenario.seed Scenario.storeId "assistant_supply".
Proof.
  refine (proj1 (proj2 (proj2
    (proj1 (config_write_touches_one_key Scenario.seed Cases.managerForm)
       "safety_factor" "1.5"))) Scenario.storeId "assistant_supply" _).
  left. discriminate.
Defined.

(** ** The grid of the calendar page *)

#[local] Arguments Nat.mul : simpl never.

Lemma weeksFrom_lookup {A} (fuel i j : nat) (items : list A) :
  (length items <= i + 7 * fuel)%nat ->
  LeavePage.weeksFrom fuel i items !! j
  = if (i + 7 * j <? length items)%nat then Some (LeavePage.slice7 (i + 7 * j) items) else None.
Proof.
  revert i j. induction fuel as [|fuel IH]; intros i j Hlen; simpl.
  - destruct (Nat.ltb_spec (i + 7 * j) (length items)); [lia | apply lookup_nil].
  - destruct (Nat.ltb_spec i (length items)) as [Hi | Hi].
    + destruct j as [|j]; simpl.
      * rewrite Nat.add_0_r. by destruct (Nat.ltb_spec i (length items)); [|lia].
      * rewrite IH by lia. by replace (i + 7 + 7 * j)%nat with (i + 7 * S j)%nat by lia.
    + destruct (Nat.ltb_spec (i + 7 * j) (length items)); [lia | apply lookup_nil].
Qed.

Lemma slice7_lookup {A} (q r : nat) (items : list A) :
  (r < 7)%nat -> LeavePage.slice7 (7 * q) items !! r = items !! (7 * q + r)%nat.
Proof.
  intros Hr. unfold LeavePage.slice7. rewrite lookup_take_lt by done. by rewrite lookup_drop.
Qed.

Lemma weeks_cell {A} (items : list A) (k : nat) :
  (LeavePage.weeksFrom (length items) 0 items !! (k / 7)%nat) ≫= (fun w => w !! (k mod 7)%nat)
  = items !! k.
Proof.
  pose proof (Nat.div_mod_eq k 7) as Hk.
  pose proof (Nat.mod_upper_bound k 7 ltac:(done)) as Hr.
  generalize dependent (k / 7)%nat. generalize dependent (k mod 7)%nat. intros r Hr q Hk.
  rewrite weeksFrom_lookup by lia. simpl.
  destruct (Nat.ltb_spec (7 * q) (length items)) as [Hq | Hq]; simpl.
  - rewrite slice7_lookup by done. by rewrite <- Hk.
  - symmetry. apply lookup_ge_None. lia.
Qed.

Lemma weeks_count {A} (items : list A) (j : nat) :
  (j < length (LeavePage.weeksFrom (length items) 0 items))%nat
  <-> (7 * j < length items)%nat.
Proof.
  rewrite <- lookup_lt_is_Some, weeksFrom_lookup by lia. simpl.
  destruct (Nat.ltb_spec (7 * j) (length items)); split; try done; try lia.
Qed.

Lemma weeks_size {A} (items : list A) (w : list A) :
  In w (LeavePage.weeksFrom (length items) 0 items) -> (1 <= length w <= 7)%nat.
Proof.
  intros [j Hj]%list_elem_of_In%list_elem_of_lookup.
  rewrite weeksFrom_lookup in Hj by lia. simpl in Hj.
  destruct (Nat.ltb_spec (7 * j) (length items)) as [Hlt|]; [|done].
  injection Hj as <-. unfold LeavePage.slice7.
  rewrite length_take, length_drop. lia.
Qed.

Lemma filter_none {A} (p : A -> bool) (l : list A) :
  (forall y, In y l -> p y = false) -> List.filter p l = [].
Proof.
  induction l as [|x l IH]; simpl; [done |]. intros H.
  rewrite (H x) by auto. apply IH. auto.
Qed.

Lemma filter_date_single (days : list AvailabilityDay.t) (d : AvailabilityDay.t) :
  NoDup (map AvailabilityDay.date days) -> In d days ->
  List.filter (fun x => String.eqb (AvailabilityDay.date x) (AvailabilityDay.date d)) days = [d].
Proof.
  induction days as [|x l IH]; simpl; [done |].
  intros [Hx Hnd]%NoDup_cons [<- | Hin].
  - rewrite String.eqb_refl. f_equal.
    apply filter_none. intros y Hy. apply String.eqb_neq. intros Heq.
    apply Hx. rewrite <- Heq. apply list_elem_of_fmap. exists y. split; [done |].
    by apply list_elem_of_In.
  - destruct (String.eqb_spec (AvailabilityDay.date x) (AvailabilityDay.date d)) as [Heq|].
    + destruct Hx. rewrite Heq. apply list_elem_of_fmap. exists d. split; [done |].
      by apply list_elem_of_In.
    + by apply IH.
Qed.

Lemma byDate_lookup (days : list AvailabilityDay.t) (d : AvailabilityDay.t) :
  NoDup (map AvailabilityDay.date days) -> In d days ->
  LeavePage.byDate days !! AvailabilityDay.date d = Some d.
Proof.
  intros Hnd Hin. unfold LeavePage.byDate.
  rewrite (foldl_insert_all_lookup AvailabilityDay.date (fun d => d)).
  by rewrite (filter_date_single _ _ Hnd Hin).
Qed.

Lemma cells_unique getUTCDay (days : list AvailabilityDay.t) first :
  NoDup (map AvailabilityDay.date days) ->
  LeavePage.cells getUTCDay days first
  = (replicate (default 0%nat (LeavePage.startDow getUTCDay first)) None
     ++ map Some days)%list.
Proof.
  intros Hnd. unfold LeavePage.cells. f_equal.
  apply map_ext_in. intros d Hd. by apply byDate_lookup.
Qed.

Lemma dateFromMonthDay_nonempty month d : DateLib.dateFromMonthDay month d <> "".
Proof.
  unfold DateLib.dateFromMonthDay. destruct month; [by rewrite append_nil_l |].
  by rewrite append_cons.
Qed.

(** X29. The calendar page lays out the days of a month answered by the
    server in reading order in rows of seven: cell k (row k / 7, column
    k mod 7) is empty for the startDow cells before the first day and then
    holds the days in order, each once; the rows are as many as needed for
    startDow + days cells, and no row is empty or longer than seven. *)
Theorem grid_places_every_day getUTCDay pf db params r :
  Spec.calendarBounded pf ->
  Quota.getMonthAvailability pf db params = Some r ->
  let days := MonthAvailability.days r in
  let weeks := LeavePage.monthDaysGrid getUTCDay days in
  let blanks :=
    match days with
    | d0 :: _ => default 0%nat (LeavePage.startDow getUTCDay (AvailabilityDay.date d0))
    | [] => 0%nat
    end in
  (forall k,
     (weeks !! (k / 7)%nat) ≫= (fun week => week !! (k mod 7)%nat)
     = (replicate blanks None ++ map Some days)%list !! k)
  /\ (forall j, (j < length weeks)%nat <-> (7 * j < blanks + length days)%nat)
  /\ (forall week, In week weeks -> (1 <= length week <= 7)%nat).
Proof.
  intros Hcal Hr days weeks blanks.
  pose proof (days_NoDup _ _ _ _ Hcal Hr) as Hnd. fold days in Hnd.
  pose proof (days_dates _ _ _ _ Hr) as Hdates. fold days in Hdates.
  subst weeks blanks. destruct days as [|d0 rest] eqn:Hdays.
  { simpl. split_and!; [intros k; by rewrite lookup_nil | intros j; lia | done]. }
  assert (AvailabilityDay.date d0 <> "") as Hne.
  { destruct (Quota.loopDays _) as [|n ns]; [done |]. simpl in Hdates.
    injection Hdates as -> _. apply dateFromMonthDay_nonempty. }
  unfold LeavePage.monthDaysGrid. apply String.eqb_neq in Hne. rewrite Hne.
  cbv zeta. rewrite (cells_unique _ _ _ Hnd).
  set (items := (replicate _ None ++ map Some (d0 :: rest))%list).
  split_and!.
  - intros k. apply weeks_cell.
  - intros j. rewrite weeks_count. subst items.
    by rewrite length_app, length_replicate, length_map.
  - apply weeks_size.
Qed.


(** June 2024 starts on a Saturday: the first day is the seventh cell of
    the first week. *)
Lemma grid_places_every_day_witness :
  exists r,
    Quota.getMonthAvailability (Reference.platform 3) Scenario.june
      (Scenario.paramsFor Scenario.ray "2024-06") = Some r
    /\ (LeavePage.monthDaysGrid Cases.firstWeekday (MonthAvailability.days r) !! 0%nat)
         ≫= (fun week => week !! 6%nat)
       = Some (MonthAvailability.days r !! 0%nat).
Proof.
  eexists. split; [vm_compute; reflexivity |].
  exact (proj1 (grid_places_every_day Cases.firstWeekday (Reference.platform 3) Scenario.june
                  (Scenario.paramsFor Scenario.ray "2024-06") _
                  (reference_calendarBounded 3) eq_refl) 6%nat).
Defined.

